(** * eBay monitor backend: acquisition, scheduling and change detection

    A shallow embedding of the monitoring core of the backend
    (retry executor, marketplace adapter, headless-page extraction,
    change detection, per-user scheduler) together with the properties
    its specification states about it.

    Conventions of the embedding.
    - A JavaScript [Number] that holds a price or a percentage is a
      binary64 float ([PrimFloat.float]); its comparisons are the IEEE
      ones, so [NaN] compares false with everything, as in JavaScript.
    - A [Number] that only ever holds a loop counter, a page number or a
      delay in milliseconds is a [nat] or a [Z].
    - A JavaScript string is a [string] of ASCII characters, so that
      [length] counts what [.length] counts.
    - An awaited call either resolves with a value or rejects; functions
      that talk to the outside world take what the world answered as an
      argument and return what they did to it (alerts created, history
      rows appended, waits requested). *)

From Stdlib Require Import List ZArith Lia Bool Ascii String DecimalString Floats.
Import ListNotations.

Set Implicit Arguments.

(** ** Awaited results *)

(** What awaiting a promise gives: the value it resolved with, or a
    rejection carrying the thrown error. *)
Inductive Awaited (E A : Type) : Type :=
| Resolved (a : A)
| Rejected (e : E).
Arguments Resolved {E A} a.
Arguments Rejected {E A} e.

(** An [Error] object, identified by its message. *)
Definition Error := string.

(** [`${n}`] for an integer [n]: its decimal digits, with a leading
    minus sign when negative. *)
Definition Number_toString (n : Z) : string :=
  NilZero.string_of_int (Z.to_int n).

(** ** adapters/ebayAdapter.js: [retryWithBackoff] *)

Module Retry.

Section RetryWithBackoff.
(** [W] is whatever the operation can observe and change between two
    invocations (the network, a call counter, ...). *)
Variables (W E A : Type).

(** One invocation of [fn()]: it resolves or rejects, and leaves the
    world in a new state. *)
Definition Operation := W -> Awaited E A * W.

(** How the [async] function itself settles.  Falling out of the
    [for] loop resolves with [undefined]. *)
Inductive Settled : Type :=
| Fulfilled (a : A)
| Thrown (e : E)
| FulfilledUndefined.

(** The observable run: how it settled, how many times [fn] was
    invoked, the delays handed to [setTimeout] in order, and the
    world it left. *)
Record Run : Type := mkRun
  { settled : Settled;
    calls : nat;
    waits : list Z;
    world : W }.

Variable fn : Operation.
Variable maxRetries : nat.
Variable baseDelay : Z.

(** The body of [for (let attempt = 0; attempt < maxRetries; attempt++)];
    [remaining] is [maxRetries - attempt], the number of iterations
    the loop condition still allows. *)
Fixpoint attempts (remaining attempt : nat) (w : W) : Run :=
  match remaining with
  | O => mkRun FulfilledUndefined 0 [] w
  | S remaining' =>
      match fn w with
      | (Resolved a, w') => mkRun (Fulfilled a) 1 [] w'
      | (Rejected e, w') =>
          if (Z.of_nat attempt =? Z.of_nat maxRetries - 1)%Z
          then mkRun (Thrown e) 1 [] w'
          else
            let delay := (baseDelay * 2 ^ Z.of_nat attempt)%Z in
            let r := attempts remaining' (S attempt) w' in
            mkRun (settled r) (S (calls r)) (delay :: waits r) (world r)
      end
  end.

Definition retryWithBackoff (w : W) : Run := attempts maxRetries 0 w.

(** The world after [n] invocations of [fn], and what invocation
    number [i] (counted from 0) answers when [fn] is simply called
    again and again. *)
Fixpoint worldAfter (n : nat) (w : W) : W :=
  match n with
  | O => w
  | S n' => worldAfter n' (snd (fn w))
  end.

Definition outcome (i : nat) (w : W) : Awaited E A :=
  fst (fn (worldAfter i w)).

Definition failed (i : nat) (w : W) : Prop :=
  exists e, outcome i w = Rejected e.

(** The delays of a run that made [n] invocations:
    [baseDelay * 2^attempt] after each attempt but the last,
    starting from attempt number [from]. *)
Definition backoff (from n : nat) : list Z :=
  map (fun i => (baseDelay * 2 ^ Z.of_nat i)%Z) (seq from (n - 1)).

End RetryWithBackoff.

Arguments Fulfilled {E A} a.
Arguments Thrown {E A} e.
Arguments FulfilledUndefined {E A}.

(** The sum of the delays a run waited for. *)
Definition totalWait (W E A : Type) (r : Run W E A) : Z :=
  fold_right Z.add 0%Z (waits r).

(** An operation that rejects on its first two invocations and
    resolves on the third; its world is the number of invocations made
    so far. *)
Definition failsTwiceThenSucceeds : Operation nat Error string :=
  fun n => (if n <? 2 then Rejected "not yet"%string else Resolved "done"%string, S n).

End Retry.

(** ** services/cronService.js: [frequencyToCron] *)

Module CronService.

(** [frequencyToCron(frequencyMinutes)], for an integer number of
    minutes.  [Math.floor(minutes / 60)] on a non-negative integer is
    the integer quotient. *)
Definition frequencyToCron (frequencyMinutes : Z) : string :=
  let minutes := Z.max 15 frequencyMinutes in
  if (minutes <? 60)%Z then
    ("*/" ++ Number_toString minutes ++ " * * * *")%string
  else
    let hours := (minutes / 60)%Z in
    if (hours <? 24)%Z then
      ("0 */" ++ Number_toString hours ++ " * * *")%string
    else
      "0 0 * * *"%string.

(** The three shapes of schedule the function produces. *)
Definition everyMinutes (n : Z) : string :=
  ("*/" ++ Number_toString n ++ " * * * *")%string.

Definition everyHours (h : Z) : string :=
  ("0 */" ++ Number_toString h ++ " * * *")%string.

Definition dailyAtMidnight : string := "0 0 * * *"%string.

End CronService.

(** ** JavaScript values used across the services *)

(** The [stockStatus] enum of the Product and PriceHistory schemas. *)
Inductive StockStatus : Type := in_stock | out_of_stock | low_stock | unknown.

Definition StockStatus_eqb (a b : StockStatus) : bool :=
  match a, b with
  | in_stock, in_stock | out_of_stock, out_of_stock
  | low_stock, low_stock | unknown, unknown => true
  | _, _ => false
  end.

(** Truthiness of a [Number]: everything but [0], [-0] and [NaN]. *)
Definition Number_truthy (x : float) : bool :=
  (negb (x =? 0) && (x =? x))%float.

(** Truthiness of a string: everything but the empty string. *)
Definition String_truthy (s : string) : bool :=
  match s with EmptyString => false | _ => true end.

(** [a || b] on strings. *)
Definition String_or (a b : string) : string :=
  if String_truthy a then a else b.

(** A variation select of a listing: its name and its
    [{ value, text }] options. *)
Record Variation : Type := mkVariation
  { variationName : string;
    variationOptions : list (string * string) }.

(** ** String matching, as the regular expressions of the source do it *)

Module JsString.

(** [\d] *)
Definition isDigit (c : ascii) : bool :=
  let n := nat_of_ascii c in (48 <=? n) && (n <=? 57).

(** The longest run of characters of a class at the start of [s]:
    what a greedy [([...]+)] captures there. *)
Fixpoint takeWhile (cls : ascii -> bool) (s : string) : string :=
  match s with
  | String c rest => if cls c then String c (takeWhile cls rest) else EmptyString
  | EmptyString => EmptyString
  end.

(** [s] without its prefix [p], when [p] is a prefix of [s]. *)
Fixpoint dropPrefix (p s : string) : option string :=
  match p, s with
  | EmptyString, _ => Some s
  | String a p', String b s' => if Ascii.eqb a b then dropPrefix p' s' else None
  | String _ _, EmptyString => None
  end.

Definition startsWith (s p : string) : bool :=
  match dropPrefix p s with Some _ => true | None => false end.

(** [s.includes(p)] *)
Fixpoint includes (s p : string) : bool :=
  startsWith s p ||
  match s with
  | EmptyString => false
  | String _ rest => includes rest p
  end.

(** A literal prefix followed by [([...]+)], tried at the start of
    [s]. *)
Definition runAfterAt (cls : ascii -> bool) (p s : string) : option string :=
  match dropPrefix p s with
  | Some rest =>
      match takeWhile cls rest with
      | EmptyString => None
      | run => Some run
      end
  | None => None
  end.

Fixpoint firstSome (A : Type) (l : list (option A)) : option A :=
  match l with
  | [] => None
  | Some a :: _ => Some a
  | None :: l' => firstSome l'
  end.

(** [s.match(/P([...]+)/)[1]] where [P] is one of the literal prefixes
    [ps] (a character class or an alternation followed by literal
    text is the list of its alternatives, none a prefix of another):
    the leftmost place where a prefix is followed by at least one
    character of the class wins, and the capture is the whole run of
    such characters there. *)
Fixpoint matchRunAfter (cls : ascii -> bool) (ps : list string) (s : string)
    : option string :=
  match firstSome (map (fun p => runAfterAt cls p s) ps) with
  | Some run => Some run
  | None =>
      match s with
      | EmptyString => None
      | String _ rest => matchRunAfter cls ps rest
      end
  end.

(** [s.match(/P(\d+)/)[1]] *)
Definition matchDigitsAfter (ps : list string) (s : string) : option string :=
  matchRunAfter isDigit ps s.

(** [s.split(sep)[0]] for a one-character separator. *)
Fixpoint beforeChar (sep : ascii) (s : string) : string :=
  match s with
  | EmptyString => EmptyString
  | String c rest => if Ascii.eqb c sep then EmptyString else String c (beforeChar sep rest)
  end.

(** [\s], restricted to the ASCII white space. *)
Definition isSpace (c : ascii) : bool :=
  let n := nat_of_ascii c in
  (n =? 32) || ((9 <=? n) && (n <=? 13)).

Fixpoint trimStart (s : string) : string :=
  match s with
  | String c rest => if isSpace c then trimStart rest else s
  | EmptyString => EmptyString
  end.

(** [trimEnd], written so that it recurses on the string itself: a
    character is kept when it is not white space or when something
    that is kept follows it. *)
Fixpoint trimEnd (s : string) : string :=
  match s with
  | EmptyString => EmptyString
  | String c rest =>
      match trimEnd rest with
      | EmptyString => if isSpace c then EmptyString else String c EmptyString
      | kept => String c kept
      end
  end.

Definition trim (s : string) : string := trimEnd (trimStart s).

(** [s.replace(/[...]/g, '')]: drop every character of a class. *)
Fixpoint removeAll (drop : ascii -> bool) (s : string) : string :=
  match s with
  | EmptyString => EmptyString
  | String c rest => if drop c then removeAll drop rest else String c (removeAll drop rest)
  end.

End JsString.

(** ** adapters/ebayAdapter.js *)

Module EbayAdapter.

(** [extractItemId(url)]: the three accepted shapes, in order. *)
Definition extractItemId (url : string) : option string :=
  match JsString.matchDigitsAfter ["/itm/"%string] url with
  | Some id => Some id
  | None =>
      match JsString.matchDigitsAfter ["?item="%string; "&item="%string] url with
      | Some id => Some id
      | None => JsString.matchDigitsAfter ["/p/"%string] url
      end
  end.

(** What [puppeteerScraper.scrapeProductDetails] resolves with.  The
    fields the adapter guards with [||] may be missing. *)
Record ScrapedProduct : Type := mkScraped
  { scrapedTitle : string;
    scrapedPrice : float;
    scrapedImages : option (list string);
    scrapedStock : option StockStatus;
    scrapedItemId : string;
    scrapedDescription : string;
    scrapedVariations : option (list Variation) }.

(** One entry of [searchResult[0].item] in a Finding API answer; each
    field is the first element of the array the API wraps it in, when
    there is one. *)
Record ApiItem : Type := mkApiItem
  { apiTitle : option string;
    apiCurrentPrice : option string;
    apiGalleryURL : option string;
    apiItemId : option string }.

(** The body of a Finding API answer, reduced to the item list that
    [response.data?.findItemsAdvancedResponse?.[0]?.searchResult?.[0]?.item]
    reads ([None] when any link of that chain is missing). *)
Definition ApiResponse := option (list ApiItem).

(** The object both fetch paths build and [fetchEbayItem] returns. *)
Record Item : Type := mkItem
  { title : string;
    images : list string;
    price : float;
    itemId : string;
    variations : list Variation;
    stock : StockStatus;
    description : string }.

(** The requests the adapter sends: a page load in the headless
    browser, or a call of the item-search API for an item id. *)
Inductive Request : Type :=
| ScrapePage (url : string)
| SearchApi (itemId : string).

Section Fetch.
(** The host's [parseFloat] on a string. *)
Variable parseFloat : string -> float.
(** [process.env.EBAY_APP_ID] *)
Variable EBAY_APP_ID : option string.
(** What the item-search API answers to the request number [n]
    (counted from 0) of this fetch: a body, or a network error. *)
Variable api : nat -> Awaited Error ApiResponse.

(** [parseFloat(value || 0)] *)
Definition parsePrice (value : option string) : float :=
  match value with
  | Some s => if String_truthy s then parseFloat s else 0%float
  | None => 0%float
  end.

(** [item.title?.[0] || 'Unknown Product'] *)
Definition apiTitleOrDefault (t : option string) : string :=
  match t with
  | Some s => String_or s "Unknown Product"
  | None => "Unknown Product"%string
  end.

(** The function handed to [retryWithBackoff] inside [fetchWithAPI];
    its world is the number of requests sent so far. *)
Definition apiAttempt (itemId : string) : Retry.Operation nat Error (option Item) :=
  fun n =>
    (match api n with
     | Rejected e => Rejected e
     | Resolved (Some (item :: _)) =>
         let title := apiTitleOrDefault (apiTitle item) in
         let price := parsePrice (apiCurrentPrice item) in
         if negb (String_truthy title) || (price =? 0)%float
         then Rejected "Invalid data from eBay API"%string
         else Resolved (Some
           {| title := title;
              price := price;
              stock := in_stock;
              images := match apiGalleryURL item with
                        | Some u => if String_truthy u then [u] else []
                        | None => []
                        end;
              itemId := match apiItemId item with
                        | Some i => String_or i itemId
                        | None => itemId
                        end;
              description := EmptyString;
              variations := [] |})
     | Resolved _ => Resolved None
     end, S n).

(** [fetchWithAPI(itemId)]: the data or [null], with the number of API
    requests it sent. *)
Definition fetchWithAPI (itemId : string) : option Item * nat :=
  match EBAY_APP_ID with
  | None => (None, 0)
  | Some appId =>
      if negb (String_truthy appId) || String.eqb appId "your_ebay_app_id"
      then (None, 0)
      else
        let r := Retry.retryWithBackoff (apiAttempt itemId) 3 1000 0 in
        match Retry.settled r with
        | Retry.Fulfilled data => (data, Retry.calls r)
        | Retry.Thrown _ => (None, Retry.calls r)
        | Retry.FulfilledUndefined => (None, Retry.calls r)
        end
  end.

(** [fetchWithScraping(url)], given what [scrapeProductDetails(url)]
    settled with. *)
Definition fetchWithScraping (url : string)
    (scraped : Awaited Error ScrapedProduct) : Awaited Error Item :=
  match scraped with
  | Rejected e => Rejected e
  | Resolved d =>
      if String_truthy (scrapedTitle d) && (0 <? scrapedPrice d)%float then
        Resolved
          {| title := scrapedTitle d;
             price := scrapedPrice d;
             stock := match scrapedStock d with Some s => s | None => in_stock end;
             images := match scrapedImages d with
                       | Some (i :: l) => i :: l
                       | _ => []
                       end;
             itemId := String_or (scrapedItemId d)
                         (match extractItemId url with
                          | Some i => i
                          | None => "unknown"%string
                          end);
             description := scrapedDescription d;
             variations := match scrapedVariations d with Some v => v | None => [] end |}
      else Rejected "Could not extract valid product data with Puppeteer"%string
  end.

(** What a call of [fetchEbayItem] did: the requests it sent, in
    order, and how it settled. *)
Record Fetched : Type := mkFetched
  { requests : list Request;
    answer : Awaited Error Item }.

(** [fetchEbayItem(url)] *)
Definition fetchEbayItem (url : string)
    (scraped : Awaited Error ScrapedProduct) : Fetched :=
  let parsedId := extractItemId url in
  let (data, apiRequests) :=
    match fetchWithScraping url scraped with
    | Resolved d => (Some d, [])
    | Rejected _ =>
        match parsedId with
        | Some id =>
            let (d, n) := fetchWithAPI id in (d, repeat (SearchApi id) n)
        | None => (None, [])
        end
    end in
  mkFetched (ScrapePage url :: apiRequests)
    match data with
    | Some d =>
        if negb (String_truthy (title d)) || (price d =? 0)%float then
          Rejected "Failed to fetch eBay product data: Could not fetch eBay product data from Puppeteer or API"%string
        else
          Resolved
            {| title := title d;
               images := images d;
               price := price d;
               itemId := String_or (itemId d)
                           (match parsedId with
                            | Some i => i
                            | None => "unknown"%string
                            end);
               variations := variations d;
               stock := stock d;
               description := description d |}
    | None =>
        Rejected "Failed to fetch eBay product data: Could not fetch eBay product data from Puppeteer or API"%string
    end.

End Fetch.

End EbayAdapter.

(** ** services/monitoringService.js *)

Module MonitoringService.

(** The [source] enum of the PriceHistory schema. *)
Inductive Source : Type := ebay | supplier | competitor.

(** The [type] enum of the Alert schema. *)
Inductive AlertType : Type :=
| price_increase
| price_decrease
| alert_out_of_stock
| back_in_stock
| supplier_unavailable
| supplier_available
| alert_low_stock
| competitor_price.

(** The [severity] enum of the Alert schema. *)
Inductive Severity : Type := low | medium | high | critical.

(** [oldValue] and [newValue] of an alert are of mixed type: a price,
    a stock state, or one of the literal strings the service passes
    (['ebay'], ['supplier'], ['available'], ['unavailable']). *)
Inductive Mixed : Type :=
| MNumber (x : float)
| MStock (s : StockStatus)
| MString (s : string).

(** The alert messages.  Each constructor stands for one template
    literal of the source and carries the values interpolated into it
    (the rendering with [toFixed] is not spelled out). *)
Inductive Message : Type :=
| EbayPriceChanged (oldPrice newPrice percentChange : float)
| SupplierPriceChanged (oldPrice newPrice percentChange : float)
| NowOutOfStockOnEbay
| BackInStockOnEbay
| NowOutOfStockAtSupplier
| BackInStockAtSupplier
| UnableToFetchFromSupplier
| CompetitorIsCheaper (sellerName : string) (percentDifference difference : float).

(** An Alert document (the product id, the [read] and [emailSent]
    flags and the creation date are left out). *)
Record Alert : Type := mkAlert
  { alertType : AlertType;
    oldValue : Mixed;
    newValue : Mixed;
    message : Message;
    severity : Severity }.

(** A PriceHistory document (product id and date left out). *)
Record PriceHistoryEntry : Type := mkEntry
  { entrySource : Source;
    entryPrice : float;
    entryStock : StockStatus }.

(** [settings.alertTypes]: a flag may be missing, and only an explicit
    [false] disables a type. *)
Record AlertTypes : Type := mkAlertTypes
  { priceIncrease : option bool;
    priceDecrease : option bool;
    outOfStock : option bool;
    supplierUnavailable : option bool;
    lowStock : option bool;
    competitorPrice : option bool }.

(** The part of a Settings document the service reads. *)
Record Settings : Type := mkSettings
  { priceChangeThreshold : option float;
    alertTypes : option AlertTypes }.

(** The two environment variables the service reads, as the numbers
    their text converts to ([None]: unset or empty). *)
Record Env : Type := mkEnv
  { PRICE_CHANGE_THRESHOLD : option float;
    COMPETITOR_PRICE_ALERT_PERCENT : option float }.

(** One competitor listing and the summary of the cheapest one, as
    [fetchCompetitorInsights] builds them.  The fields kept are the
    seller, the id and every field the Product schema declares as a
    Number: of a listing the price, the shipping cost and the feedback
    score, of the summary the lowest price and the difference to our
    price, which may be missing.  A value that is not a number is
    NaN. *)
Record Listing : Type := mkListing
  { listingSeller : string;
    listingPrice : float;
    listingId : string;
    listingShipping : float;
    listingFeedback : float }.

Record Summary : Type := mkSummary
  { lowestPrice : float;
    summarySeller : string;
    totalSellers : nat;
    differenceToOurPrice : option float }.

Record Insights : Type := mkInsights
  { listings : list Listing;
    summary : option Summary }.

(** What a supplier adapter resolves with. *)
Record SupplierData : Type := mkSupplierData
  { supplierTitle : string;
    supplierDataPrice : float;
    supplierDataStock : StockStatus;
    supplierImages : list string }.

(** A Product document, reduced to the fields the service touches. *)
Record Product : Type := mkProduct
  { title : string;
    ebayUrl : string;
    ebayPrice : float;
    supplierUrl : option string;
    supplierPrice : float;
    stockStatus : StockStatus;
    supplierStockStatus : StockStatus;
    lastCheckedAt : Z;
    images : list string;
    profit : float;
    profitMargin : float;
    competitorListings : list Listing;
    competitorStats : option Summary }.

(** What the three sources answered during one check. *)
Record Upstream : Type := mkUpstream
  { ebayAnswer : Awaited Error (option EbayAdapter.Item);
    supplierAnswer : Awaited Error (option SupplierData);
    competitorAnswer : Awaited Error (option Insights) }.

(** The state threaded through [checkProduct]: the product object
    being mutated, the [hasChanges] flag, the alerts and history rows
    created so far (oldest first), and whether a value that the schema
    of Product cannot cast has been assigned to the object.  Such an
    assignment leaves the field as it was and is remembered by the
    object, which then refuses to be saved.  The database is taken to
    be reachable: a document is refused by its schema only (a Number
    that is NaN, a required string that is empty), and the only
    exceptions modelled besides are those of the three fetches. *)
Record State : Type := mkState
  { product : Product;
    hasChanges : bool;
    alerts : list Alert;
    history : list PriceHistoryEntry;
    castFailed : bool }.

(** Whether the Number fields of a listing, and of a summary, cast. *)
Definition castsListing (l : Listing) : bool :=
  negb (is_nan (listingPrice l) || is_nan (listingShipping l) || is_nan (listingFeedback l)).

Definition castsSummary (c : Summary) : bool :=
  negb (is_nan (lowestPrice c))
  && match differenceToOurPrice c with
     | Some d => negb (is_nan d)
     | None => true
     end.

(** [settings?.priceChangeThreshold || process.env.PRICE_CHANGE_THRESHOLD || 5] *)
Definition effectiveThreshold (env : Env) (settings : Settings) : float :=
  let fromEnv := match PRICE_CHANGE_THRESHOLD env with
                 | Some t => t
                 | None => 5%float
                 end in
  match priceChangeThreshold settings with
  | Some t => if Number_truthy t then t else fromEnv
  | None => fromEnv
  end.

(** [Number(process.env.COMPETITOR_PRICE_ALERT_PERCENT || 3)] *)
Definition competitorAlertPercent (env : Env) : float :=
  match COMPETITOR_PRICE_ALERT_PERCENT env with
  | Some t => t
  | None => 3%float
  end.

(** [!settings || !settings.alertTypes || settings.alertTypes[flag] !== false],
    for settings that have been loaded. *)
Definition shouldAlert (flag : AlertTypes -> option bool) (settings : Settings) : bool :=
  match alertTypes settings with
  | None => true
  | Some types =>
      match flag types with
      | Some false => false
      | _ => true
      end
  end.

(** [((newPrice - oldPrice) / oldPrice) * 100] *)
Definition percentChangeOf (oldPrice newPrice : float) : float :=
  (((newPrice - oldPrice) / oldPrice) * 100)%float.

(** [createAlert(product, type, oldValue, newValue, message, severity)]:
    the Alert document the call creates, the database accepting it
    (the e-mail and the webhook it may trigger are not part of the
    model).  The checks below return the documents they create, in
    order. *)
Definition createAlert (type : AlertType) (old new : Mixed) (msg : Message)
    (sev : Severity) : list Alert :=
  [mkAlert type old new msg sev].

(** The price check of one source (lines 92-114 for the marketplace,
    173-195 for the supplier: the same code up to the message). *)
Definition checkPrice (msg : float -> float -> float -> Message)
    (threshold : float) (settings : Settings)
    (oldPrice newPrice : float) : list Alert :=
  if (negb (newPrice =? oldPrice) && (0 <? oldPrice))%float then
    let percentChange := percentChangeOf oldPrice newPrice in
    if (threshold <=? abs percentChange)%float then
      let flag := if (oldPrice <? newPrice)%float then priceIncrease else priceDecrease in
      if shouldAlert flag settings then
        let type := if (oldPrice <? newPrice)%float then price_increase else price_decrease in
        let sev := if (10 <? abs percentChange)%float then high else medium in
        createAlert type (MNumber oldPrice) (MNumber newPrice)
                    (msg oldPrice newPrice percentChange) sev
      else []
    else []
  else [].

(** The stock check of one source (lines 117-142 and 197-222). *)
Definition checkStock (name : string) (outMsg backMsg : Message) (outSeverity : Severity)
    (settings : Settings) (oldStock newStock : StockStatus) : list Alert :=
  if negb (StockStatus_eqb newStock oldStock) then
    if shouldAlert outOfStock settings then
      if StockStatus_eqb newStock out_of_stock then
        createAlert alert_out_of_stock (MString name) (MStock oldStock) outMsg outSeverity
      else if StockStatus_eqb oldStock out_of_stock then
        createAlert back_in_stock (MStock oldStock) (MString name) backMsg medium
      else []
    else []
  else [].

(** Whether the profit [calculateProfit] assigns to a product is a
    number, as the schema wants it.  The two prices are numbers other
    than zero when it is computed, so it fails to be one only when
    both are infinite. *)
Definition profitCasts (p : Product) : bool :=
  negb (Number_truthy (ebayPrice p) && Number_truthy (supplierPrice p)
        && is_nan (ebayPrice p - supplierPrice p)).

Section CheckProduct.
(** [s.trim()] of the host, which the schema applies to the title. *)
Variable trim : string -> string.
(** [Number(x.toFixed(2))] of the host. *)
Variable toFixed2 : float -> float.
Variable env : Env.
Variable settings : Settings.
(** [Date.now()] when the check finishes. *)
Variable now : Z.

(** [product.calculateProfit()] of the Product model.  A difference
    that is NaN does not cast: the object then keeps its profit (and
    remembers the failure, see [profitCasts]). *)
Definition calculateProfit (p : Product) : Product :=
  if Number_truthy (ebayPrice p) && Number_truthy (supplierPrice p) then
    let difference := (ebayPrice p - supplierPrice p)%float in
    let profit' := if is_nan difference then profit p else difference in
    let margin := ((profit' / ebayPrice p) * 100)%float in
    mkProduct (title p) (ebayUrl p) (ebayPrice p) (supplierUrl p) (supplierPrice p)
      (stockStatus p) (supplierStockStatus p) (lastCheckedAt p) (images p)
      profit' (if is_finite margin then toFixed2 margin else 0%float)
      (competitorListings p) (competitorStats p)
  else p.

(** The marketplace step (lines 86-164).  [old] is the product as it
    was when [checkProduct] was entered.  The alerts are created
    first.  The title is stored trimmed.  A price that is NaN does not
    cast: the object keeps its price and remembers the failure, and
    [PriceHistory.create] rejects, which ends the step in its [catch]
    before [hasChanges] is set. *)
Definition ebayStep (old : Product)
    (fetched : Awaited Error (option EbayAdapter.Item)) (st : State) : State :=
  match fetched with
  | Rejected _ => st
  | Resolved None => st
  | Resolved (Some ebayData) =>
      let priceAlerts :=
        checkPrice EbayPriceChanged (effectiveThreshold env settings) settings
          (ebayPrice old) (EbayAdapter.price ebayData) in
      let stockAlerts :=
        checkStock "ebay" NowOutOfStockOnEbay BackInStockOnEbay high settings
          (stockStatus old) (EbayAdapter.stock ebayData) in
      let p := product st in
      let updated (price : float) :=
        mkProduct (trim (EbayAdapter.title ebayData)) (ebayUrl p) price
          (supplierUrl p) (supplierPrice p)
          (EbayAdapter.stock ebayData) (supplierStockStatus p) (lastCheckedAt p)
          (match EbayAdapter.images ebayData with
           | [] => images p
           | imgs => imgs
           end)
          (profit p) (profitMargin p) (competitorListings p) (competitorStats p) in
      if is_nan (EbayAdapter.price ebayData) then
        mkState (updated (ebayPrice p)) (hasChanges st)
          (alerts st ++ priceAlerts ++ stockAlerts) (history st) true
      else
        mkState (updated (EbayAdapter.price ebayData)) true
          (alerts st ++ priceAlerts ++ stockAlerts)
          (history st
           ++ [mkEntry ebay (EbayAdapter.price ebayData) (EbayAdapter.stock ebayData)])
          (castFailed st)
  end.

(** The [catch] of the supplier step (lines 238-256), entered with
    the alerts the [try] has created and with whether it left a failed
    cast behind. *)
Definition supplierCaught (old : Product) (st : State) (created : list Alert)
    (failed : bool) : State :=
  let p := product st in
  let unavailable :=
    if shouldAlert supplierUnavailable settings
       && negb (StockStatus_eqb (supplierStockStatus old) unknown)
    then createAlert supplier_unavailable (MString "available")
           (MString "unavailable") UnableToFetchFromSupplier high
    else [] in
  mkState
    (mkProduct (title p) (ebayUrl p) (ebayPrice p)
       (supplierUrl p) (supplierPrice p)
       (stockStatus p) unknown (lastCheckedAt p)
       (images p) (profit p) (profitMargin p)
       (competitorListings p) (competitorStats p))
    true
    (alerts st ++ created ++ unavailable)
    (history st)
    (castFailed st || failed).

(** The supplier step (lines 166-257).  A price that is NaN does not
    cast and [PriceHistory.create] rejects inside the [try], so the
    step ends in its [catch] as if the fetch had thrown, after the
    price and stock alerts have been created. *)
Definition supplierStep (old : Product)
    (fetched : Awaited Error (option SupplierData)) (st : State) : State :=
  let p := product st in
  match supplierUrl p with
  | None => st
  | Some url =>
      if String_truthy url then
        match fetched with
        | Resolved None => st
        | Resolved (Some supplierData) =>
            let priceAlerts :=
              checkPrice SupplierPriceChanged (effectiveThreshold env settings) settings
                (supplierPrice old) (supplierDataPrice supplierData) in
            let stockAlerts :=
              checkStock "supplier" NowOutOfStockAtSupplier BackInStockAtSupplier
                critical settings
                (supplierStockStatus old) (supplierDataStock supplierData) in
            if is_nan (supplierDataPrice supplierData) then
              supplierCaught old st (priceAlerts ++ stockAlerts) true
            else
              mkState
                (mkProduct (title p) (ebayUrl p) (ebayPrice p)
                   (supplierUrl p) (supplierDataPrice supplierData)
                   (stockStatus p) (supplierDataStock supplierData) (lastCheckedAt p)
                   (images p) (profit p) (profitMargin p)
                   (competitorListings p) (competitorStats p))
                true
                (alerts st ++ priceAlerts ++ stockAlerts)
                (history st ++ [mkEntry supplier (supplierDataPrice supplierData)
                                  (supplierDataStock supplierData)])
                (castFailed st)
        | Rejected _ => supplierCaught old st [] false
        end
      else st
  end.

(** The competitor step (lines 259-300).  The listings and the
    summary are assigned as they come; a Number among them that is NaN
    is a failed cast (what the object then holds in that field is not
    read again, and is taken to be the value given). *)
Definition competitorStep
    (fetched : Awaited Error (option Insights)) (st : State) : State :=
  match fetched with
  | Rejected _ => st
  | Resolved None => st
  | Resolved (Some insights) =>
      let p := product st in
      let (listed, changed) :=
        match listings insights with
        | [] => (competitorListings p, hasChanges st)
        | ls => (ls, true)
        end in
      let failed := castFailed st || negb (forallb castsListing (listings insights)) in
      match summary insights with
      | None =>
          mkState
            (mkProduct (title p) (ebayUrl p) (ebayPrice p)
               (supplierUrl p) (supplierPrice p)
               (stockStatus p) (supplierStockStatus p) (lastCheckedAt p)
               (images p) (profit p) (profitMargin p)
               listed (competitorStats p))
            changed (alerts st) (history st) failed
      | Some cheapest =>
          let failed := failed || negb (castsSummary cheapest) in
          let p' :=
            mkProduct (title p) (ebayUrl p) (ebayPrice p)
              (supplierUrl p) (supplierPrice p)
              (stockStatus p) (supplierStockStatus p) (lastCheckedAt p)
              (images p) (profit p) (profitMargin p)
              listed (Some cheapest) in
          if Number_truthy (lowestPrice cheapest) && Number_truthy (ebayPrice p) then
            let difference := (ebayPrice p - lowestPrice cheapest)%float in
            let percentDifference := ((difference / ebayPrice p) * 100)%float in
            let cheaper :=
              if shouldAlert competitorPrice settings
                 && (0 <? difference)%float
                 && (competitorAlertPercent env <=? percentDifference)%float
              then
                let sev := if (10 <? percentDifference)%float then high else medium in
                createAlert competitor_price (MNumber (ebayPrice p))
                  (MNumber (lowestPrice cheapest))
                  (CompetitorIsCheaper (summarySeller cheapest) percentDifference difference)
                  sev
              else [] in
            mkState p' changed (alerts st ++ cheaper)
              (history st ++ [mkEntry competitor (lowestPrice cheapest) in_stock]) failed
          else mkState p' changed (alerts st) (history st) failed
      end
  end.

(** The end of [checkProduct] (lines 302-306): when something changed
    the product is stamped, its profit recomputed, which is one more
    cast that can fail, and [save()] is called on it. *)
Definition finish (st : State) : State :=
  if hasChanges st then
    let p := product st in
    mkState
      (calculateProfit
         (mkProduct (title p) (ebayUrl p) (ebayPrice p)
            (supplierUrl p) (supplierPrice p)
            (stockStatus p) (supplierStockStatus p) now
            (images p) (profit p) (profitMargin p)
            (competitorListings p) (competitorStats p)))
      true (alerts st) (history st) (castFailed st || negb (profitCasts p))
  else st.

(** [checkProduct(product, settings)] with the settings loaded, given
    what the three sources answer.  The result holds the product
    object after the call, whether [save()] was called on it
    ([hasChanges]), the alerts and history rows this call created,
    oldest first, and whether the object remembers a failed cast. *)
Definition checkProduct (p : Product) (up : Upstream) : State :=
  let st := mkState p false [] [] false in
  let st := ebayStep p (ebayAnswer up) st in
  let st := supplierStep p (supplierAnswer up) st in
  let st := competitorStep (competitorAnswer up) st in
  finish st.

End CheckProduct.

(** Whether [product.save()] rejects on the object a check leaves: it
    does when the object remembers a failed cast (of a price, of a
    number of the competitor data, or of the profit) or its title,
    which the schema requires, is empty. *)
Definition refused (st : State) : bool :=
  castFailed st || negb (String_truthy (title (product st))).

(** Whether the check wrote the product to the database, and the
    [success] field of what [checkProduct] returns: a rejected
    [save()] is caught by the outer [catch] (lines 309-312). *)
Definition saved (st : State) : bool := hasChanges st && negb (refused st).

Definition success (st : State) : bool := negb (hasChanges st && refused st).

(** The Product document in the database after a check: the object
    as saved, or the document as it was when nothing was written. *)
Definition stored (p : Product) (st : State) : Product :=
  if saved st then product st else p.

(** *** Reading the alerts and history rows of a check *)

(** The source an alert is about, read off its message. *)
Definition alertSource (a : Alert) : Source :=
  match message a with
  | EbayPriceChanged _ _ _ | NowOutOfStockOnEbay | BackInStockOnEbay => ebay
  | SupplierPriceChanged _ _ _ | NowOutOfStockAtSupplier | BackInStockAtSupplier
  | UnableToFetchFromSupplier => supplier
  | CompetitorIsCheaper _ _ _ => competitor
  end.

Definition Source_eqb (a b : Source) : bool :=
  match a, b with
  | ebay, ebay | supplier, supplier | competitor, competitor => true
  | _, _ => false
  end.

Definition isPriceAlert (a : Alert) : bool :=
  match alertType a with
  | price_increase | price_decrease => true
  | _ => false
  end.

Definition isStockAlert (a : Alert) : bool :=
  match alertType a with
  | alert_out_of_stock | back_in_stock => true
  | _ => false
  end.

Definition isSupplierUnavailable (a : Alert) : bool :=
  match alertType a with
  | supplier_unavailable => true
  | _ => false
  end.

Definition isCompetitorAlert (a : Alert) : bool :=
  match alertType a with
  | competitor_price => true
  | _ => false
  end.

(** The alerts of a given kind about a given source. *)
Definition alertsOf (kind : Alert -> bool) (src : Source) (l : list Alert) : list Alert :=
  filter (fun a => kind a && Source_eqb (alertSource a) src) l.

(** The history rows of a given source. *)
Definition entriesOf (src : Source) (l : list PriceHistoryEntry) : list PriceHistoryEntry :=
  filter (fun e => Source_eqb (entrySource e) src) l.

End MonitoringService.

(** ** services/puppeteerScraper.js *)

Module PuppeteerScraper.

(** *** Seller identity *)

(** A parsed [application/ld+json] block, reduced to the fields the
    extraction reads ([None]: the field, or an object on the way to
    it, is missing). *)
Record JsonLd : Type := mkJsonLd
  { mainEntitySellerName : option string;
    sellerName : option string;
    sellerUsername : option string;
    sellerIdentifier : option string;
    authorName : option string;
    brandName : option string }.

(** What the queries of the extraction find in the rendered document.
    - [jsonLdScripts]: the JSON-LD blocks in document order ([None]
      when [JSON.parse] throws on one);
    - [twitterCreator]: the [twitter:creator] meta element, if any, with
      its [content] attribute, if any;
    - the [textContent] of the first element matching each seller
      selector, if any;
    - [scriptCaptures]: for each script element in document order, the
      first capture group of each pattern of the calling function's
      list, in the order of that list ([None]: no match);
    - [sellerLinks]: the [href] of each anchor whose [href] contains
      [/usr/] or [/str/], in document order. *)
Record Page : Type := mkPage
  { jsonLdScripts : list (option JsonLd);
    twitterCreator : option (option string);
    mbgIdSpan : option string;
    mbgIdLink : option string;
    mbgNw : option string;
    sellerInfoName : option string;
    strSellerInfo : option string;
    scriptCaptures : list (list (option string));
    sellerLinks : list (option string) }.

(** [x && x.field]: the field when it is a non-empty string. *)
Definition truthyField (f : option string) : option string :=
  match f with
  | Some s => if String_truthy s then Some s else None
  | None => None
  end.

(** [x !== 'eBay UK' && x !== 'eBay'], negated. *)
Definition isPlatformBrand (s : string) : bool :=
  String.eqb s "eBay UK" || String.eqb s "eBay".

(** [x && x !== 'eBay UK' && x !== 'eBay' && x.length < 50]: the test
    the meta, DOM and link strategies apply to a candidate. *)
Definition plausible (s : string) : bool :=
  String_truthy s && negb (isPlatformBrand s) && (String.length s <? 50).

(** Method 1: the first JSON-LD block with one of the given fields
    set decides; blocks that fail to parse are skipped.  The value is
    returned as it is. *)
Fixpoint fromJsonLd (fields : list (JsonLd -> option string))
    (scripts : list (option JsonLd)) : option string :=
  match scripts with
  | [] => None
  | None :: rest => fromJsonLd fields rest
  | Some data :: rest =>
      match JsString.firstSome (map (fun f => truthyField (f data)) fields) with
      | Some c => Some c
      | None => fromJsonLd fields rest
      end
  end.

Definition storefrontFields : list (JsonLd -> option string) :=
  [mainEntitySellerName; sellerName; sellerUsername; authorName; brandName].

Definition productPageFields : list (JsonLd -> option string) :=
  [mainEntitySellerName; sellerName; sellerUsername; sellerIdentifier; authorName].

(** The double quote character (code 34). *)
Definition doubleQuote : ascii := "034"%char.

(** The class of the meta-tag pattern: any character but a double
    quote, a single quote, white space and a comma. *)
Definition tokenChar (c : ascii) : bool :=
  negb (Ascii.eqb c doubleQuote || Ascii.eqb c "'" || JsString.isSpace c || Ascii.eqb c ",").

(** Group 1 of [content.match(...)] for the pattern made of an
    optional [@] followed by a captured run of token characters: the
    match starts at the first token character; a leading [@] is left
    out of the capture when a token character follows it. *)
Fixpoint creatorToken (content : string) : option string :=
  match content with
  | EmptyString => None
  | String c rest =>
      if tokenChar c then
        if Ascii.eqb c "@" then
          match JsString.takeWhile tokenChar rest with
          | EmptyString => Some "@"%string
          | run => Some run
          end
        else Some (JsString.takeWhile tokenChar content)
      else creatorToken rest
  end.

(** The candidate of the meta tag, before it is tested. *)
Definition metaCandidate (p : Page) : option string :=
  match twitterCreator p with
  | Some (Some content) =>
      if String_truthy content then
        match creatorToken content with
        | Some m => Some (JsString.trim m)
        | None => None
        end
      else None
  | _ => None
  end.

(** Method 2: the [twitter:creator] meta tag. *)
Definition fromMeta (p : Page) : option string :=
  match metaCandidate p with
  | Some username => if plausible username then Some username else None
  | None => None
  end.

(** One DOM marker: the trimmed text of the element, when plausible. *)
Definition fromElement (text : option string) : option string :=
  match text with
  | Some t => let text := JsString.trim t in if plausible text then Some text else None
  | None => None
  end.

(** The DOM markers each function looks at, in order. *)
Definition storefrontMarkers (p : Page) : list (option string) :=
  [mbgIdSpan p; mbgIdLink p; mbgNw p; sellerInfoName p; strSellerInfo p].

Definition productPageMarkers (p : Page) : list (option string) :=
  [mbgIdSpan p; mbgIdLink p; sellerInfoName p].

Definition fromDom (markers : list (option string)) : option string :=
  JsString.firstSome (map fromElement markers).

(** The class the inline-script strategy strips: quotes, a closing
    brace and white space. *)
Definition quoteOrSpace (c : ascii) : bool :=
  Ascii.eqb c doubleQuote || Ascii.eqb c "'" || Ascii.eqb c "}" || JsString.isSpace c.

(** [match[1]] with every character of that class removed, then
    trimmed. *)
Definition cleanCapture (m : string) : string :=
  JsString.trim (JsString.removeAll quoteOrSpace m).

(** The test of the inline-script strategy. *)
Definition plausibleScriptValue (s : string) : bool :=
  plausible s && negb (JsString.includes s "http").

Definition fromCapture (capture : option string) : option string :=
  match capture with
  | Some m =>
      if String_truthy m then
        let sellerID := cleanCapture m in
        if plausibleScriptValue sellerID then Some sellerID else None
      else None
  | None => None
  end.

(** The inline-script strategy: scripts in order, patterns in order. *)
Definition fromScripts (p : Page) : option string :=
  JsString.firstSome
    (map (fun captures => JsString.firstSome (map fromCapture captures))
         (scriptCaptures p)).

(** [[^/?]] *)
Definition slugChar (c : ascii) : bool :=
  negb (Ascii.eqb c "/" || Ascii.eqb c "?").

(** [href.match(/\/(?:usr|str)\/([^/?]+)/)[1]] *)
Definition sellerSlug (href : string) : option string :=
  JsString.matchRunAfter slugChar ["/usr/"%string; "/str/"%string] href.

Section Extraction.
(** The host's [decodeURIComponent]; [None] when it throws. *)
Variable decodeURIComponent : string -> option string.

(** What one seller link contributes: nothing, a rejected or accepted
    candidate, or the exception of [decodeURIComponent]. *)
Definition fromLink (href : option string) : Awaited Error (option string) :=
  match href with
  | Some h =>
      if String_truthy h then
        match sellerSlug h with
        | Some m =>
            match decodeURIComponent m with
            | Some decoded =>
                let username := JsString.trim decoded in
                Resolved (if plausible username then Some username else None)
            | None => Rejected "URI malformed"%string
            end
        | None => Resolved None
        end
      else Resolved None
  | None => Resolved None
  end.

(** The seller links in order ([querySelectorAll], storefront). *)
Fixpoint fromLinks (hrefs : list (option string)) : Awaited Error (option string) :=
  match hrefs with
  | [] => Resolved None
  | h :: rest =>
      match fromLink h with
      | Resolved None => fromLinks rest
      | found => found
      end
  end.

(** The first seller link only ([querySelector], product page). *)
Definition fromFirstLink (hrefs : list (option string)) : Awaited Error (option string) :=
  match hrefs with
  | [] => Resolved None
  | h :: _ => fromLink h
  end.

(** The callback of [page.evaluate] in
    [extractSellerIdFromStorefront]. *)
Definition evaluateStorefront (p : Page) : Awaited Error (option string) :=
  match fromJsonLd storefrontFields (jsonLdScripts p) with
  | Some c => Resolved (Some c)
  | None =>
      match fromMeta p with
      | Some c => Resolved (Some c)
      | None =>
          match fromDom (storefrontMarkers p) with
          | Some c => Resolved (Some c)
          | None =>
              match fromScripts p with
              | Some c => Resolved (Some c)
              | None => fromLinks (sellerLinks p)
              end
          end
      end
  end.

(** The callback of [page.evaluate] in
    [extractSellerIdFromProductPage]. *)
Definition evaluateProductPage (p : Page) : Awaited Error (option string) :=
  match fromJsonLd productPageFields (jsonLdScripts p) with
  | Some c => Resolved (Some c)
  | None =>
      match fromMeta p with
      | Some c => Resolved (Some c)
      | None =>
          match fromScripts p with
          | Some c => Resolved (Some c)
          | None =>
              match fromDom (productPageMarkers p) with
              | Some c => Resolved (Some c)
              | None => fromFirstLink (sellerLinks p)
              end
          end
      end
  end.

(** The end of both functions: the id found, unless it is empty or the
    platform's own name; any exception gives [null]. *)
Definition checked (found : Awaited Error (option string)) : option string :=
  match found with
  | Resolved (Some sellerId) =>
      if String_truthy sellerId && negb (isPlatformBrand sellerId)
      then Some sellerId else None
  | _ => None
  end.

(** [extractSellerIdFromStorefront(storeUrl)], given the document the
    navigation ends on (or the exception of the browser). *)
Definition extractSellerIdFromStorefront (loaded : Awaited Error Page) : option string :=
  match loaded with
  | Resolved p => checked (evaluateStorefront p)
  | Rejected _ => None
  end.

(** [extractSellerIdFromProductPage(productUrl)] *)
Definition extractSellerIdFromProductPage (loaded : Awaited Error Page) : option string :=
  match loaded with
  | Resolved p => checked (evaluateProductPage p)
  | Rejected _ => None
  end.

End Extraction.

(** *** Store listings *)

(** The listing card around an item link: the text of its title
    element, the text of its price element, and the [src] and
    [data-src] attributes of its image, each when present. *)
Record Card : Type := mkCard
  { cardTitle : option string;
    cardPrice : option string;
    cardImage : option (option string * option string) }.

(** An anchor whose [href] contains [/itm/]: its [href] attribute,
    the closest listing card, and its own text. *)
Record Anchor : Type := mkAnchor
  { href : option string;
    card : option Card;
    linkText : string }.

(** One scraped listing. *)
Record Listing : Type := mkListing
  { itemId : string;
    url : string;
    title : string;
    price : float;
    images : list string }.

(** [[^0-9.]] *)
Definition notPriceChar (c : ascii) : bool :=
  negb (JsString.isDigit c || Ascii.eqb c ".").

Section Listings.
Variable parseFloat : string -> float.

(** [href.startsWith('http') ? href : `https://www.ebay.co.uk${href}`] *)
Definition fullUrlOf (h : string) : string :=
  if JsString.startsWith h "http" then h else ("https://www.ebay.co.uk" ++ h)%string.

(** The listing built for an anchor whose URL holds the id [id]. *)
Definition listingOf (a : Anchor) (fullUrl id : string) : Listing :=
  let title :=
    match card a with
    | Some c => match cardTitle c with Some t => JsString.trim t | None => EmptyString end
    | None => EmptyString
    end in
  let price :=
    match card a with
    | Some c =>
        match cardPrice c with
        | Some t =>
            let x := parseFloat (JsString.removeAll notPriceChar t) in
            if Number_truthy x then x else 0%float
        | None => 0%float
        end
    | None => 0%float
    end in
  let image :=
    match card a with
    | Some c =>
        match cardImage c with
        | Some (src, dataSrc) =>
            match truthyField src with
            | Some s => s
            | None => match truthyField dataSrc with Some s => s | None => EmptyString end
            end
        | None => EmptyString
        end
    | None => EmptyString
    end in
  let title :=
    if negb (String_truthy title) && String_truthy (linkText a)
    then JsString.trim (linkText a) else title in
  mkListing id (JsString.beforeChar "?" fullUrl)
    (String_or title ("Item " ++ id))
    price
    (if String_truthy image then [image] else []).

(** The callback of [page.evaluate] in [scrapeStoreListings]: the
    anchors in document order, each id taken once; [seen] is the
    [itemLinks] set. *)
Fixpoint collect (seen : list string) (anchors : list Anchor) : list Listing :=
  match anchors with
  | [] => []
  | a :: rest =>
      match truthyField (href a) with
      | Some h =>
          let fullUrl := fullUrlOf h in
          match JsString.matchDigitsAfter ["/itm/"%string] fullUrl with
          | Some id =>
              if existsb (String.eqb id) seen then collect seen rest
              else listingOf a fullUrl id :: collect (id :: seen) rest
          | None => collect seen rest
          end
      | None => collect seen rest
      end
  end.

Definition pageItems (anchors : list Anchor) : list Listing := collect [] anchors.

(** The URL of page [pageNum] of a store. *)
Definition pageUrl (storeUrl : string) (pageNum : nat) : string :=
  if pageNum =? 1 then storeUrl
  else (storeUrl ++ (if JsString.includes storeUrl "?" then "&" else "?")
          ++ "_pgn=" ++ Number_toString (Z.of_nat pageNum))%string.

(** A run of the page loop: the URLs navigated to and the listings
    collected, in order. *)
Record Crawl : Type := mkCrawl
  { visited : list string;
    allItems : list Listing }.

(** What navigating to a URL and running the callback gives: the
    anchors found, or the exception of the navigation. *)
Variable visit : string -> Awaited Error (list Anchor).
Variable storeUrl : string.
Variable maxPages : nat.

(** The loop [for (let pageNum = 1; pageNum <= maxPages; pageNum++)],
    with [remaining] iterations left. *)
Fixpoint pagesFrom (remaining pageNum : nat) (c : Crawl) : Crawl :=
  match remaining with
  | O => c
  | S remaining' =>
      let u := pageUrl storeUrl pageNum in
      let c' := mkCrawl (visited c ++ [u]) (allItems c) in
      match visit u with
      | Resolved anchors =>
          match pageItems anchors with
          | [] => c'
          | items =>
              pagesFrom remaining' (S pageNum)
                (mkCrawl (visited c') (allItems c' ++ items))
          end
      | Rejected _ =>
          if pageNum =? 1 then c' else pagesFrom remaining' (S pageNum) c'
      end
  end.

Definition crawl : Crawl := pagesFrom maxPages 1 (mkCrawl [] []).

(** [scrapeStoreListings(storeUrl, maxPages)], given whether a browser
    page could be opened: the listings, or [null] when there are
    none. *)
Definition scrapeStoreListings (opened : Awaited Error unit) : option (list Listing) :=
  match opened with
  | Resolved _ =>
      match allItems crawl with
      | [] => None
      | items => Some items
      end
  | Rejected _ => None
  end.

End Listings.

End PuppeteerScraper.

(** ** Sample tenants, products and answers *)

Module Fixtures.
Import MonitoringService.

(** Every alert type switched on, as the Settings schema defaults. *)
Definition allEnabled : AlertTypes :=
  mkAlertTypes (Some true) (Some true) (Some true) (Some true) (Some true) (Some true).

(** A tenant with the price-change threshold [t]. *)
Definition tenant (t : float) : Settings := mkSettings (Some t) (Some allEnabled).

(** No environment variable set. *)
Definition noEnv : Env := mkEnv None None.

(** A host on which [toFixed] does not round. *)
Definition noRounding (x : float) : float := x.

(** A product listed at [p] on the marketplace, without a supplier. *)
Definition listed (p : float) (s : StockStatus) : Product :=
  mkProduct "Widget" "https://www.ebay.co.uk/itm/123456789012" p None 0 s unknown 0
            [] 0 0 [] None.

(** The same product linked to a supplier page. *)
Definition supplied (p : float) (s : StockStatus) (sp : float) (ss : StockStatus) : Product :=
  mkProduct "Widget" "https://www.ebay.co.uk/itm/123456789012" p
            (Some "https://supplier.example/widget"%string) sp s ss 0 [] 0 0 [] None.

(** What the marketplace adapter returns for that listing at price
    [p] and stock [s]. *)
Definition listing (p : float) (s : StockStatus) : EbayAdapter.Item :=
  EbayAdapter.mkItem "Widget" [] p "123456789012" [] s EmptyString.

(** Only the marketplace answers with data. *)
Definition marketplaceOnly (i : EbayAdapter.Item) : Upstream :=
  mkUpstream (Resolved (Some i)) (Resolved None) (Resolved None).

(** The marketplace is down, the supplier answers. *)
Definition supplierOnly (d : SupplierData) : Upstream :=
  mkUpstream (Rejected "timeout"%string) (Resolved (Some d)) (Resolved None).


(** The marketplace answers and a competitor sells at [c]. *)
Definition undercut (i : EbayAdapter.Item) (c : float) : Upstream :=
  mkUpstream (Resolved (Some i)) (Resolved None)
    (Resolved (Some (mkInsights [mkListing "rival" c "999" 0 100]
                                (Some (mkSummary c "rival" 1
                                         (Some (EbayAdapter.price i - c)%float)))))).

End Fixtures.


(** ** services/puppeteerScraper.js: [navigateWithRetry] *)

Module Navigation.

(** The [waitUntil] conditions of [page.goto]. *)
Inductive WaitUntil : Type := DomContentLoaded | NetworkIdle2 | Load.

(** A run of [navigateWithRetry]: how it settled, the conditions of
    the [page.goto] calls it made, in order, and the number of
    one-second pauses it took. *)
Record Run : Type := mkRun
  { landed : Awaited Error unit;
    gotos : list WaitUntil;
    pauses : nat }.

Section NavigateWithRetry.
(** What [page.goto] call number [n] (counted from 0) of this
    navigation does when asked to wait for a condition. *)
Variable goto : nat -> WaitUntil -> Awaited Error unit.
Variable maxRetries : nat.

(** The loop [for (let attempt = 0; attempt < maxRetries; attempt++)];
    [n] is the number of [goto] calls made so far. *)
Fixpoint attempts (remaining attempt n : nat) : Run :=
  match remaining with
  | O => mkRun (Resolved tt) [] 0
  | S remaining' =>
      match goto n DomContentLoaded with
      | Resolved _ => mkRun (Resolved tt) [DomContentLoaded] 0
      | Rejected _ =>
          if (Z.of_nat attempt =? Z.of_nat maxRetries - 1)%Z then
            match goto (S n) NetworkIdle2 with
            | Resolved _ => mkRun (Resolved tt) [DomContentLoaded; NetworkIdle2] 0
            | Rejected _ =>
                mkRun (goto (S (S n)) Load) [DomContentLoaded; NetworkIdle2; Load] 0
            end
          else
            let r := attempts remaining' (S attempt) (S n) in
            mkRun (landed r) (DomContentLoaded :: gotos r) (S (pauses r))
      end
  end.

Definition navigateWithRetry : Run := attempts maxRetries 0 0.

(** The conditions in the order the function can ask for them. *)
Definition schedule : list WaitUntil :=
  repeat DomContentLoaded maxRetries ++ [NetworkIdle2; Load].

(** What call number [i] answers when the function gets that far. *)
Definition answer (i : nat) : Awaited Error unit :=
  goto i (nth i schedule Load).

End NavigateWithRetry.

End Navigation.

(** ** More string functions of the host *)

Module JsText.

(** [toLowerCase] on an ASCII character. *)
Definition lowerChar (c : ascii) : ascii :=
  let n := nat_of_ascii c in
  if (65 <=? n) && (n <=? 90) then ascii_of_nat (n + 32) else c.

(** [s.toLowerCase()] *)
Fixpoint toLowerCase (s : string) : string :=
  match s with
  | EmptyString => EmptyString
  | String c rest => String (lowerChar c) (toLowerCase rest)
  end.

(** [s] after its longest prefix of characters of a class. *)
Fixpoint dropWhile (cls : ascii -> bool) (s : string) : string :=
  match s with
  | String c rest => if cls c then dropWhile cls rest else s
  | EmptyString => EmptyString
  end.

(** The pattern made of a literal, a run of at least one digit and a
    second literal, tried at the start of [s].  The run is the longest
    one: the second literal must not start with a digit. *)
Definition digitsBetweenAt (before after s : string) : bool :=
  match JsString.dropPrefix before s with
  | Some rest =>
      match JsString.takeWhile JsString.isDigit rest with
      | EmptyString => false
      | _ => JsString.startsWith (dropWhile JsString.isDigit rest) after
      end
  | None => false
  end.

(** [/before\d+after/.test(s)] *)
Fixpoint digitsBetween (before after s : string) : bool :=
  digitsBetweenAt before after s ||
  match s with
  | EmptyString => false
  | String _ rest => digitsBetween before after rest
  end.

(** [list.includes(x)] for strings. *)
Definition listIncludes (l : list string) (x : string) : bool :=
  existsb (String.eqb x) l.

End JsText.

(** ** services/puppeteerScraper.js: [scrapeProductDetails] *)

Module ProductPage.

(** A variation select of the item page: its [name] and
    [data-testid] attributes, the text of the element before it, and
    the [value] attribute and text of each of its options. *)
Record Select : Type := mkSelect
  { nameAttribute : option string;
    testId : option string;
    previousText : option string;
    optionElements : list (option string * string) }.

(** What the queries of the callback find in the rendered item page:
    for each title, price and description selector (in the order of
    the source) the first matching element, if any; every gallery image
    with its [src] and [data-src]; every variation select; the text of
    the body; and the path of the page's location. *)
Record Dom : Type := mkDom
  { titleElements : list (option string);
    priceElements : list (option (string * option string));
    imageElements : list (option string * option string);
    descriptionElements : list (option (string * string));
    selects : list Select;
    bodyText : string;
    pathname : string }.

(** What [scrapeProductDetails] resolves with. *)
Record ProductData : Type := mkProductData
  { title : string;
    price : float;
    images : list string;
    stock : StockStatus;
    itemId : string;
    description : string;
    variations : list Variation }.

(** [a || b] on attributes that may be missing. *)
Definition attrOr (a : option string) (b : string) : string :=
  match a with
  | Some s => String_or s b
  | None => b
  end.

Section Scrape.
Variable parseFloat : string -> float.

(** The title loop: the first selector whose element has text. *)
Fixpoint titleOf (els : list (option string)) : string :=
  match els with
  | [] => EmptyString
  | Some text :: rest =>
      if String_truthy (JsString.trim text) then JsString.trim text else titleOf rest
  | None :: rest => titleOf rest
  end.

(** The price loop: the first selector whose element reads as a
    number above zero. *)
Fixpoint priceOf (els : list (option (string * option string))) : float :=
  match els with
  | [] => 0%float
  | Some (text, content) :: rest =>
      let priceText := String_or text (attrOr content EmptyString) in
      let priceNum := parseFloat (JsString.removeAll PuppeteerScraper.notPriceChar priceText) in
      if (0 <? priceNum)%float then priceNum else priceOf rest
  | None :: rest => priceOf rest
  end.

(** The gallery loop; [images] is the array being filled. *)
Fixpoint galleryFrom (images : list string)
    (els : list (option string * option string)) : list string :=
  match els with
  | [] => images
  | (src, dataSrc) :: rest =>
      let s := attrOr src (attrOr dataSrc EmptyString) in
      if String_truthy s
         && negb (JsString.includes s "s-l64")
         && negb (JsString.includes s "s-l140")
         && negb (JsText.listIncludes images s)
      then galleryFrom (images ++ [s]) rest
      else galleryFrom images rest
  end.

(** The description loop. *)
Fixpoint descriptionOf (els : list (option (string * string))) : string :=
  match els with
  | [] => EmptyString
  | Some (text, html) :: rest =>
      let d := String_or (JsString.trim text) (JsString.trim html) in
      if String_truthy d then d else descriptionOf rest
  | None :: rest => descriptionOf rest
  end.

(** The options of one select that count. *)
Definition optionsOf (s : Select) : list (string * string) :=
  flat_map (fun o =>
              match fst o with
              | Some value =>
                  let text := JsString.trim (snd o) in
                  if String_truthy value && String_truthy text
                     && negb (String.eqb value "0")
                  then [(value, text)] else []
              | None => []
              end) (optionElements s).

(** The variations loop; [index] is the position of the select. *)
Fixpoint variationsFrom (index : nat) (sels : list Select) : list Variation :=
  match sels with
  | [] => []
  | s :: rest =>
      let name :=
        attrOr (nameAttribute s)
          (attrOr (testId s)
             (attrOr (option_map JsString.trim (previousText s))
                ("Variation " ++ Number_toString (Z.of_nat (index + 1))))) in
      match optionsOf s with
      | [] => variationsFrom (S index) rest
      | options => mkVariation name options :: variationsFrom (S index) rest
      end
  end.

(** The stock state read off the text of the page. *)
Definition stockOf (body : string) : StockStatus :=
  let bodyText := JsText.toLowerCase body in
  if JsString.includes bodyText "out of stock" || JsString.includes bodyText "sold out"
  then out_of_stock
  else if JsString.includes bodyText "limited"
          || JsText.digitsBetween "only " " left" bodyText
  then low_stock
  else in_stock.

(** The callback of [page.evaluate]. *)
Definition evaluate (d : Dom) : ProductData :=
  mkProductData
    (titleOf (titleElements d))
    (priceOf (priceElements d))
    (firstn 10 (galleryFrom [] (imageElements d)))
    (stockOf (bodyText d))
    (match JsString.matchDigitsAfter ["/itm/"%string] (pathname d) with
     | Some id => id
     | None => EmptyString
     end)
    (descriptionOf (descriptionElements d))
    (variationsFrom 0 (selects d)).

(** [scrapeProductDetails(productUrl)], given the document the
    navigation ends on (or the exception of the browser). *)
Definition scrapeProductDetails (loaded : Awaited Error Dom) : Awaited Error ProductData :=
  match loaded with
  | Rejected e => Rejected e
  | Resolved d =>
      let productData := evaluate d in
      if negb (String_truthy (title productData)) || (price productData =? 0)%float
      then Rejected "Could not extract valid product data"%string
      else Resolved productData
  end.

End Scrape.

(** The scraped data as [fetchWithScraping] of the adapter reads it. *)
Definition asScraped (d : ProductData) : EbayAdapter.ScrapedProduct :=
  EbayAdapter.mkScraped (title d) (price d) (Some (images d)) (Some (stock d))
    (itemId d) (description d) (Some (variations d)).

End ProductPage.

(** ** adapters/supplierAdapter.js *)

Module SupplierText.

(** [/\d+\s*pieces available/], tried at the start of [s]: the match
    of [\d+] may start at any digit of a run, so one digit followed by
    white space and the literal is what a match needs. *)
Definition piecesAvailableAt (s : string) : bool :=
  match s with
  | String c rest =>
      JsString.isDigit c
      && JsString.startsWith (JsText.dropWhile JsString.isSpace rest) "pieces available"
  | EmptyString => false
  end.

(** [/\d+\s*pieces available/.test(s)] *)
Fixpoint piecesAvailable (s : string) : bool :=
  piecesAvailableAt s ||
  match s with
  | EmptyString => false
  | String _ rest => piecesAvailable rest
  end.

(** The line terminators [.] does not match, among ASCII. *)
Definition isLineEnd (c : ascii) : bool :=
  let n := nat_of_ascii c in (n =? 10) || (n =? 13).

Definition inLine (c : ascii) : bool := negb (isLineEnd c).

(** What follows the last occurrence of [p] in [s]. *)
Fixpoint afterLast (p s : string) : option string :=
  match
    match s with
    | String _ rest => afterLast p rest
    | EmptyString => None
    end
  with
  | Some r => Some r
  | None => JsString.dropPrefix p s
  end.

(** [/\._.*_\./] tried at the start of [s]: what replaces [s] when it
    matches there.  The greedy [.*] runs to the last [_.] of the
    line. *)
Definition sizeTagAt (s : string) : option string :=
  match JsString.dropPrefix "._" s with
  | Some rest =>
      match afterLast "_." (JsString.takeWhile inLine rest) with
      | Some tail => Some ("." ++ tail ++ JsText.dropWhile inLine rest)%string
      | None => None
      end
  | None => None
  end.

(** [s.replace(/\._.*_\./, '.')] *)
Fixpoint replaceSizeTag (s : string) : string :=
  match sizeTagAt s with
  | Some r => r
  | None =>
      match s with
      | String c rest => String c (replaceSizeTag rest)
      | EmptyString => EmptyString
      end
  end.

End SupplierText.

Module SupplierAdapter.

(** What [detectSupplier] returns, and the keys of [rateLimiters]. *)
Inductive Supplier : Type := aliexpress | amazon | alibaba | generic.

Definition Supplier_eqb (a b : Supplier) : bool :=
  match a, b with
  | aliexpress, aliexpress | amazon, amazon | alibaba, alibaba | generic, generic => true
  | _, _ => false
  end.

(** *** Rate limiting per supplier *)

Record Limiter : Type := mkLimiter
  { lastRequest : Z;
    minDelay : Z }.

(** The [rateLimiters] map. *)
Definition Limiters : Type := Supplier -> option Limiter.

Definition noLimiters : Limiters := fun _ => None.

Definition setLimiter (s : Supplier) (l : Limiter) (m : Limiters) : Limiters :=
  fun s' => if Supplier_eqb s s' then Some l else m s'.

(** The clock of the host, in milliseconds, and the module's map. *)
Record World : Type := mkWorld
  { clock : Z;
    limiters : Limiters }.

Section RateLimit.
Variable RATE_LIMIT_DELAY : Z.

Definition getRateLimiter (s : Supplier) (m : Limiters) : Limiter * Limiters :=
  match m s with
  | Some l => (l, m)
  | None =>
      let l := mkLimiter 0 RATE_LIMIT_DELAY in
      (l, setLimiter s l m)
  end.

(** [waitForRateLimit(supplier)]: the delay handed to [setTimeout], if
    any, and the world once the call has returned.  [lag] is the time
    that passes during the call on top of the delay asked for. *)
Definition waitForRateLimit (s : Supplier) (lag : Z) (w : World) : list Z * World :=
  let (limiter, m) := getRateLimiter s (limiters w) in
  let now := clock w in
  let timeSinceLastRequest := (now - lastRequest limiter)%Z in
  let slept :=
    if (timeSinceLastRequest <? minDelay limiter)%Z
    then [(minDelay limiter - timeSinceLastRequest)%Z]
    else [] in
  let after := (now + fold_right Z.add 0 slept + lag)%Z in
  (slept, mkWorld after (setLimiter s (mkLimiter after (minDelay limiter)) m)).

(** A call of [waitForRateLimit] made after the one before it has
    returned: its key, the time that passed since then, and the lag of
    the call itself. *)
Record Call : Type := mkCall
  { key : Supplier;
    idle : Z;
    lag : Z }.

(** The [lastRequest] stamps a sequence of calls writes, in order. *)
Fixpoint stamps (calls : list Call) (w : World) : list (Supplier * Z) :=
  match calls with
  | [] => []
  | c :: rest =>
      let w' := snd (waitForRateLimit (key c) (lag c)
                       (mkWorld (clock w + idle c) (limiters w))) in
      (key c, clock w') :: stamps rest w'
  end.

End RateLimit.

(** *** Supplier detection *)

Definition detectSupplier (url : string) : Supplier :=
  let urlLower := JsText.toLowerCase url in
  if JsString.includes urlLower "aliexpress" then aliexpress
  else if JsString.includes urlLower "amazon" then amazon
  else if JsString.includes urlLower "alibaba" then alibaba
  else generic.

(** *** The pages *)

(** The selectors the three scrapers query. *)
Inductive Selector : Type :=
| product_title_text        (* .product-title-text *)
| h1_product_name           (* h1.product-name *)
| h1                        (* h1 *)
| product_price_value       (* .product-price-value *)
| uniform_banner_box_price  (* .uniform-banner-box-price *)
| itemprop_price            (* [itemprop=price] *)
| product_quantity_tip      (* .product-quantity-tip *)
| product_reviewer          (* .product-reviewer *)
| img                       (* img *)
| productTitle              (* #productTitle *)
| a_price_a_offscreen       (* .a-price .a-offscreen *)
| priceblock_ourprice       (* #priceblock_ourprice *)
| priceblock_dealprice      (* #priceblock_dealprice *)
| availability              (* #availability *)
| altImages_img             (* #altImages img *)
| title_tag                 (* title *)
| itemprop_name             (* [itemprop=name] *)
| price_class               (* .price *)
| class_has_price           (* [class*=price] *)
| body.                     (* body *)

(** An element of the page: its text and the attributes the scrapers
    read. *)
Record Element : Type := mkElement
  { textContent : string;
    src : option string;
    dataSrc : option string;
    content : option string }.

(** A loaded page: the elements each selector matches, in document
    order. *)
Definition Document : Type := Selector -> list Element.

(** [$(sel).text()] *)
Definition text (doc : Document) (sel : Selector) : string :=
  String.concat EmptyString (map textContent (doc sel)).

(** [$(sel).first().text()] *)
Definition firstText (doc : Document) (sel : Selector) : string :=
  match doc sel with
  | e :: _ => textContent e
  | [] => EmptyString
  end.

(** [$(sel).attr('content')] *)
Definition attrContent (doc : Document) (sel : Selector) : option string :=
  match doc sel with
  | e :: _ => content e
  | [] => None
  end.

(** What a scraper returns. *)
Record Data : Type := mkData
  { title : string;
    price : float;
    stock : StockStatus;
    images : list string }.

(** [a || b] where [a] may be [undefined]. *)
Definition attrOr (a b : option string) : option string :=
  match a with
  | Some s => if String_truthy s then a else b
  | None => b
  end.

(** [!priceText], where [priceText] may be [undefined]. *)
Definition missing (t : option string) : bool :=
  match t with
  | Some s => negb (String_truthy s)
  | None => true
  end.

(** [src.startsWith('//') ? 'https:' + src : src] *)
Definition absolute (s : string) : string :=
  if JsString.startsWith s "//" then ("https:" ++ s)%string else s.

(** [images.length > 0 ? images.slice(0, 5) : []] *)
Definition firstFive (images : list string) : list string :=
  match images with
  | [] => []
  | _ => firstn 5 images
  end.

Section Scrapers.
Variable parseFloat : string -> float.

(** [parseFloat(priceText?.replace(/[^0-9.]/g, '') || 0)] *)
Definition priceOf (priceText : option string) : float :=
  match priceText with
  | Some t =>
      let cleaned := JsString.removeAll PuppeteerScraper.notPriceChar t in
      if String_truthy cleaned then parseFloat cleaned else 0%float
  | None => 0%float
  end.

(** [price || 0] *)
Definition priceOrZero (p : float) : float :=
  if Number_truthy p then p else 0%float.

(** The end of each callback: the title check and the object
    returned. *)
Definition checked (site fallback : string) (t : string) (p : float)
    (s : StockStatus) (imgs : list string) : Awaited Error Data :=
  if negb (String_truthy t) || (String.length t <? 3) then
    Rejected ("Could not extract valid product title from " ++ site ++ " page")%string
  else
    Resolved (mkData (String_or t fallback) (priceOrZero p) s (firstFive imgs)).

(** The callback of [fetchAliExpress], after the page is loaded. *)
Definition parseAliExpress (doc : Document) : Awaited Error Data :=
  let t1 := JsString.trim (text doc product_title_text) in
  let t2 := if String_truthy t1 then t1 else JsString.trim (text doc h1_product_name) in
  let t3 := if String_truthy t2 then t2 else JsString.trim (firstText doc h1) in
  let p1 := JsString.trim (text doc product_price_value) in
  let p2 := if String_truthy p1 then p1 else JsString.trim (text doc uniform_banner_box_price) in
  let priceText := if String_truthy p2 then Some p2 else attrContent doc itemprop_price in
  let stockText := JsText.toLowerCase (text doc product_quantity_tip) in
  let availText := JsText.toLowerCase (text doc product_reviewer) in
  let stk :=
    if JsString.includes stockText "sold out" || JsString.includes availText "unavailable"
    then out_of_stock
    else if JsString.includes stockText "only" || SupplierText.piecesAvailable stockText
    then low_stock
    else in_stock in
  let imgs :=
    flat_map (fun e =>
                match attrOr (src e) (dataSrc e) with
                | Some s =>
                    if String_truthy s
                       && (JsString.includes s "alicdn.com" || JsString.includes s "ae01")
                    then [absolute s] else []
                | None => []
                end) (doc img) in
  checked "AliExpress" "AliExpress Product" t3 (priceOf priceText) stk imgs.

(** The callback of [fetchAmazon]. *)
Definition parseAmazon (doc : Document) : Awaited Error Data :=
  let t := JsString.trim (text doc productTitle) in
  let p1 := JsString.trim (firstText doc a_price_a_offscreen) in
  let p2 := if String_truthy p1 then p1 else JsString.trim (text doc priceblock_ourprice) in
  let p3 := if String_truthy p2 then p2 else JsString.trim (text doc priceblock_dealprice) in
  let availText := JsText.toLowerCase (text doc availability) in
  let stk :=
    if JsString.includes availText "out of stock" || JsString.includes availText "unavailable"
    then out_of_stock
    else if JsString.includes availText "only" && JsString.includes availText "left"
    then low_stock
    else in_stock in
  let imgs :=
    flat_map (fun e =>
                match src e with
                | Some s => if String_truthy s then [SupplierText.replaceSizeTag s] else []
                | None => []
                end) (doc altImages_img) in
  checked "Amazon" "Amazon Product" t (priceOf (Some p3)) stk imgs.

(** The callback of [fetchGeneric]. *)
Definition parseGeneric (doc : Document) : Awaited Error Data :=
  let t1 := JsString.trim (firstText doc h1) in
  let t2 := if String_truthy t1 then t1 else JsString.trim (text doc title_tag) in
  let t3 := if String_truthy t2 then t2 else JsString.trim (text doc itemprop_name) in
  let p1 := attrContent doc itemprop_price in
  let p2 := if missing p1 then Some (JsString.trim (firstText doc price_class)) else p1 in
  let p3 := if missing p2 then Some (JsString.trim (firstText doc class_has_price)) else p2 in
  let bodyText := JsText.toLowerCase (text doc body) in
  let stk :=
    if JsString.includes bodyText "in stock" || JsString.includes bodyText "available"
    then in_stock
    else if JsString.includes bodyText "out of stock" || JsString.includes bodyText "sold out"
    then out_of_stock
    else if JsString.includes bodyText "low stock" || JsString.includes bodyText "limited"
    then low_stock
    else unknown in
  let imgs :=
    flat_map (fun e =>
                match src e with
                | Some s =>
                    if String_truthy s
                       && negb (JsString.includes s "data:image")
                       && (JsString.startsWith s "http" || JsString.startsWith s "//")
                    then [absolute s] else []
                | None => []
                end) (doc img) in
  checked "supplier" "Supplier Product" t3 (priceOf p3) stk imgs.

(** *** The fetchers *)

(** What a fetcher did: the keys it passed to [waitForRateLimit], the
    number of GET requests it sent, the delays between them, and how
    it settled ([None] is [undefined]). *)
Record Fetched : Type := mkFetched
  { limited : list Supplier;
    gets : nat;
    sleeps : list Z;
    answer : Awaited Error (option Data) }.

(** The answer of the network to the GET request number [k] of a
    call. *)
Variable get : nat -> Awaited Error Document.

(** One invocation of the callback handed to [retryWithBackoff]; the
    world is the number of requests sent so far. *)
Definition attempt (parse : Document -> Awaited Error Data)
  : Retry.Operation nat Error Data :=
  fun k =>
    (match get k with
     | Resolved doc => parse doc
     | Rejected e => Rejected e
     end, S k).

(** The common shape of the three fetchers: the rate limit, then
    [retryWithBackoff(..., 3, 1000)] inside a [try] whose [catch]
    wraps the message. *)
Definition fetchWith (limiterKey : Supplier) (parse : Document -> Awaited Error Data)
    (prefix : string) : Fetched :=
  let r := Retry.retryWithBackoff (attempt parse) 3 1000 0 in
  mkFetched [limiterKey] (Retry.calls r) (Retry.waits r)
    match Retry.settled r with
    | Retry.Fulfilled d => Resolved (Some d)
    | Retry.FulfilledUndefined => Resolved None
    | Retry.Thrown e => Rejected (prefix ++ e)%string
    end.

Definition fetchAliExpress : Fetched :=
  fetchWith aliexpress parseAliExpress "Failed to fetch AliExpress product data: ".

Definition fetchAmazon : Fetched :=
  fetchWith amazon parseAmazon "Failed to fetch Amazon product data: ".

Definition fetchGeneric : Fetched :=
  fetchWith generic parseGeneric "Failed to fetch supplier data: ".

(** [fetchSupplierData(url)] *)
Definition fetchSupplierData (url : string) : Fetched :=
  if negb (String_truthy url) then
    mkFetched [] 0 [] (Rejected "Supplier URL is required"%string)
  else
    let f :=
      match detectSupplier url with
      | aliexpress => fetchAliExpress
      | amazon => fetchAmazon
      | _ => fetchGeneric
      end in
    mkFetched (limited f) (gets f) (sleeps f)
      match answer f with
      | Resolved None => Rejected "Could not fetch supplier data"%string
      | other => other
      end.

End Scrapers.

(** The data as [checkProduct] of the monitoring service reads it. *)
Definition asSupplierData (d : Data) : MonitoringService.SupplierData :=
  MonitoringService.mkSupplierData (title d) (price d) (stock d) (images d).

(** What [await supplierAdapter.fetchSupplierData(...)] gives the
    service. *)
Definition awaited (f : Fetched) : Awaited Error (option MonitoringService.SupplierData) :=
  match answer f with
  | Resolved d => Resolved (option_map asSupplierData d)
  | Rejected e => Rejected e
  end.

End SupplierAdapter.

(** ** services/monitoringService.js: [checkProductsForUser] *)

Module Scheduler.

(** A Settings document: its monitoring frequency in minutes ([None]:
    the field is missing) and the fields [checkProduct] reads. *)
Record UserSettings : Type := mkUserSettings
  { monitoringFrequency : option Z;
    monitoring : MonitoringService.Settings }.


(** What one iteration of the product loop meets: the time that has
    passed when it reads the clock, what the three sources answer if
    the product is checked, the time the check takes until it stamps
    the product, and the time the two-second pause overruns. *)
Record Visit : Type := mkVisit
  { idle : Z;
    upstream : MonitoringService.Upstream;
    took : Z;
    lag : Z }.


(** What a run did: the two totals it returns, the number of checks
    that did not succeed (which it counts in neither), the Product
    documents it went through as they are stored afterwards, in order,
    and the clock when it returns. *)
Record Run : Type := mkRun
  { checked : nat;
    skipped : nat;
    failed : nat;
    products : list MonitoringService.Product;
    finished : Z }.

(** [userSettings.monitoringFrequency || 30] *)
Definition frequencyOf (s : UserSettings) : Z :=
  match monitoringFrequency s with
  | Some f => if (f =? 0)%Z then 30%Z else f
  | None => 30%Z
  end.

(** [timeSinceLastCheck >= frequencyMs || lastChecked === 0] *)
Definition due (frequencyMs now : Z) (p : MonitoringService.Product) : bool :=
  let lastChecked := MonitoringService.lastCheckedAt p in
  (frequencyMs <=? now - lastChecked)%Z || (lastChecked =? 0)%Z.

Section CheckProducts.
Variable trim : string -> string.
Variable toFixed2 : float -> float.
Variable env : MonitoringService.Env.

(** The loop over the products of one user (lines 367-384).  A check
    is counted when its result says [success]; the pause follows it
    either way. *)
Fixpoint checkEach (settings : MonitoringService.Settings) (frequencyMs : Z)
    (items : list (MonitoringService.Product * Visit)) (clock : Z) : Run :=
  match items with
  | [] => mkRun 0 0 0 [] clock
  | (p, v) :: rest =>
      let now := (clock + idle v)%Z in
      if due frequencyMs now p then
        let st := MonitoringService.checkProduct trim toFixed2 env settings (now + took v)
                    p (upstream v) in
        let r := checkEach settings frequencyMs rest (now + took v + 2000 + lag v) in
        if MonitoringService.success st then
          mkRun (S (checked r)) (skipped r) (failed r)
            (MonitoringService.stored p st :: products r) (finished r)
        else
          mkRun (checked r) (skipped r) (S (failed r))
            (MonitoringService.stored p st :: products r) (finished r)
      else
        let r := checkEach settings frequencyMs rest now in
        mkRun (checked r) (S (skipped r)) (failed r) (p :: products r) (finished r)
  end.




End CheckProducts.

End Scheduler.

(** ** services/cronService.js: the per-user jobs *)

Module CronJobs.

(** An ObjectId as the map meets it: the object it is ([objectRef])
    and the id it holds ([idValue]).  Every document read from the database
    brings an object of its own.  A JavaScript [Map] compares keys that
    are objects by identity, so two ObjectIds of one user are two
    keys. *)
Record ObjectId : Type := mkObjectId
  { objectRef : nat;
    idValue : nat }.

(** A task of node-cron: the [userId] its callback holds, its
    schedule, and whether it is started. *)
Record Task : Type := mkTask
  { owner : ObjectId;
    expression : string;
    running : bool }.

(** Every task created so far, in order of creation (a task is known
    by its position), and the [userCronJobs] map from ObjectIds to
    tasks, in insertion order. *)
Record World : Type := mkWorld
  { tasks : list Task;
    userCronJobs : list (ObjectId * nat) }.

(** The module as loaded. *)
Definition loaded : World := mkWorld [] [].

(** Whether two keys are the same object. *)
Definition same (k key : ObjectId) : bool := objectRef k =? objectRef key.

(** [map.get(key)]; [map.has(key)] is whether it finds something. *)
Fixpoint get (key : ObjectId) (m : list (ObjectId * nat)) : option nat :=
  match m with
  | [] => None
  | (k, v) :: rest => if same k key then Some v else get key rest
  end.

(** [map.delete(key)] *)
Definition delete (key : ObjectId) (m : list (ObjectId * nat)) : list (ObjectId * nat) :=
  filter (fun e => negb (same (fst e) key)) m.

(** [map.set(key, value)] *)
Fixpoint set (key : ObjectId) (job : nat) (m : list (ObjectId * nat))
  : list (ObjectId * nat) :=
  match m with
  | [] => [(key, job)]
  | (k, v) :: rest =>
      if same k key then (k, job) :: rest else (k, v) :: set key job rest
  end.

(** [cronJob.stop()] *)
Fixpoint stop (job : nat) (ts : list Task) : list Task :=
  match ts, job with
  | [], _ => []
  | t :: rest, O => mkTask (owner t) (expression t) false :: rest
  | t :: rest, S job' => t :: stop job' rest
  end.

(** [createUserCron(userId, settings)]; [ensured] is what
    [ensureUserSettings(userId)] settles with when it is called. *)
Definition createUserCron (userId : ObjectId) (settings : option Scheduler.UserSettings)
    (ensured : Awaited Error Scheduler.UserSettings) (w : World)
  : Awaited Error nat * World :=
  let w1 :=
    match get userId (userCronJobs w) with
    | Some job => mkWorld (stop job (tasks w)) (delete userId (userCronJobs w))
    | None => w
    end in
  match
    match settings with
    | Some s => Resolved s
    | None => ensured
    end
  with
  | Rejected e => (Rejected e, w1)
  | Resolved resolvedSettings =>
      let monitoringFrequency := Scheduler.frequencyOf resolvedSettings in
      let cronExpression := CronService.frequencyToCron monitoringFrequency in
      let cronJob := List.length (tasks w1) in
      (Resolved cronJob,
       mkWorld (tasks w1 ++ [mkTask userId cronExpression true])
         (set userId cronJob (userCronJobs w1)))
  end.

(** The loop of [initializeCronJobs]: an exception leaves it. *)
Fixpoint createAll (users : list (ObjectId * Awaited Error Scheduler.UserSettings))
    (w : World) : World :=
  match users with
  | [] => w
  | (userId, ensured) :: rest =>
      match createUserCron userId None ensured w with
      | (Resolved _, w') => createAll rest w'
      | (Rejected _, w') => w'
      end
  end.

(** [initializeCronJobs()]; [found] is what [User.find({})] settles
    with, the [_id] of each user with what [ensureUserSettings]
    answers for it. *)
Definition initializeCronJobs
    (found : Awaited Error (list (ObjectId * Awaited Error Scheduler.UserSettings)))
    (w : World) : World :=
  match found with
  | Resolved users => createAll users w
  | Rejected _ => w
  end.

(** [stopCron()] *)
Definition stopCron (w : World) : World :=
  mkWorld (fold_left (fun ts e => stop (snd e) ts) (userCronJobs w) (tasks w)) [].

(** [restartUserCron(userId)] *)
Definition restartUserCron (userId : ObjectId)
    (ensured : Awaited Error Scheduler.UserSettings) (w : World) : World :=
  snd (createUserCron userId None ensured w).

(** [restartCron()] *)
Definition restartCron
    (found : Awaited Error (list (ObjectId * Awaited Error Scheduler.UserSettings)))
    (w : World) : World :=
  initializeCronJobs found (stopCron w).

(** A call of one of the functions of the module, made after the call
    before it has returned. *)
Inductive Call : Type :=
| CreateUserCron (userId : ObjectId) (settings : option Scheduler.UserSettings)
    (ensured : Awaited Error Scheduler.UserSettings)
| InitializeCronJobs
    (found : Awaited Error (list (ObjectId * Awaited Error Scheduler.UserSettings)))
| StopCron
| RestartUserCron (userId : ObjectId) (ensured : Awaited Error Scheduler.UserSettings)
| RestartCron
    (found : Awaited Error (list (ObjectId * Awaited Error Scheduler.UserSettings))).

Definition call (c : Call) (w : World) : World :=
  match c with
  | CreateUserCron userId settings ensured => snd (createUserCron userId settings ensured w)
  | InitializeCronJobs found => initializeCronJobs found w
  | StopCron => stopCron w
  | RestartUserCron userId ensured => restartUserCron userId ensured w
  | RestartCron found => restartCron found w
  end.

(** The module after a sequence of calls. *)
Definition after (calls : list Call) : World :=
  fold_left (fun w c => call c w) calls loaded.

End CronJobs.

(** ** services/competitorService.js *)

Module CompetitorService.

(** *** The OAuth token and its cache *)

(** The body of the token response, reduced to the two fields read
    ([None]: the field is missing). *)
Record TokenResponse : Type := mkTokenResponse
  { access_token : option string;
    expires_in : option Z }.

(** The two module variables.  [tokenExpiry] is [None] when it is
    [null] or not a number. *)
Record Cache : Type := mkCache
  { cachedToken : option string;
    tokenExpiry : option Z }.

Definition noCache : Cache := mkCache None None.

(** The credentials in the environment. *)
Record Env : Type := mkEnv
  { EBAY_APP_ID : option string;
    EBAY_CERT_ID : option string }.

Definition truthy (s : option string) : bool :=
  match s with
  | Some x => String_truthy x
  | None => false
  end.

(** [cachedToken && tokenExpiry && Date.now() < tokenExpiry] *)
Definition cacheValid (now : Z) (c : Cache) : bool :=
  truthy (cachedToken c)
  && match tokenExpiry c with
     | Some expiry => negb (expiry =? 0)%Z && (now <? expiry)%Z
     | None => false
     end.

(** [!appId || !certId || appId === 'your_ebay_app_id'] *)
Definition notConfigured (env : Env) : bool :=
  negb (truthy (EBAY_APP_ID env)) || negb (truthy (EBAY_CERT_ID env))
  || match EBAY_APP_ID env with
     | Some appId => String.eqb appId "your_ebay_app_id"
     | None => false
     end.

(** What a call of [getEbayToken] did: how it settled, whether it sent
    the token request, and the cache it left. *)
Record TokenCall : Type := mkTokenCall
  { token : Awaited Error (option string);
    posted : bool;
    cache : Cache }.

(** [getEbayToken()] called at time [now]; [post] is what the token
    request settles with if it is sent, and [received] the time at
    which its answer is read. *)
Definition getEbayToken (env : Env) (now : Z) (post : Awaited Error TokenResponse)
    (received : Z) (c : Cache) : TokenCall :=
  if cacheValid now c then mkTokenCall (Resolved (cachedToken c)) false c
  else if notConfigured env then
    mkTokenCall (Rejected "eBay API credentials not configured"%string) false c
  else
    match post with
    | Rejected e => mkTokenCall (Rejected e) true c
    | Resolved response =>
        let c' :=
          mkCache (access_token response)
            (option_map (fun e => (received + e * 1000 - 60000)%Z) (expires_in response)) in
        mkTokenCall (Resolved (cachedToken c')) true c'
    end.

(** A call of [getEbayToken], made after the one before it has
    returned. *)
Record Call : Type := mkCall
  { now : Z;
    post : Awaited Error TokenResponse;
    received : Z }.

(** What a sequence of calls did, in order. *)
Fixpoint tokens (env : Env) (calls : list Call) (c : Cache) : list TokenCall :=
  match calls with
  | [] => []
  | k :: rest =>
      let r := getEbayToken env (now k) (post k) (received k) c in
      r :: tokens env rest (cache r)
  end.

(** *** The competitor search *)

(** [\w] *)
Definition isWordChar (c : ascii) : bool :=
  let n := nat_of_ascii c in
  ((48 <=? n) && (n <=? 57)) || ((65 <=? n) && (n <=? 90))
  || ((97 <=? n) && (n <=? 122)) || (n =? 95).

(** [s.replace(/[^\w\s]/gi, ' ')] *)
Fixpoint blankSpecial (s : string) : string :=
  match s with
  | EmptyString => EmptyString
  | String c rest =>
      String (if isWordChar c || JsString.isSpace c then c else " "%char)
        (blankSpecial rest)
  end.

(** [s.split(/\s+/)]: [cur] is the piece being read and [inGap] tells
    whether the last character was white space. *)
Fixpoint splitSpaces (inGap : bool) (cur : string) (s : string) : list string :=
  match s with
  | EmptyString => [cur]
  | String c rest =>
      if JsString.isSpace c then
        if inGap then splitSpaces true EmptyString rest
        else cur :: splitSpaces true EmptyString rest
      else splitSpaces false (cur ++ String c EmptyString) rest
  end.

(** The search query built from the title of the product. *)
Definition searchQuery (title : string) : string :=
  String.concat " "
    (firstn 5 (splitSpaces false EmptyString (JsString.trim (blankSpecial title)))).

(** An item summary of the Browse API, reduced to the fields read. *)
Record ItemSummary : Type := mkItemSummary
  { itemId : option string;
    sellerUsername : option string;
    priceValue : option string;
    shippingCostValue : option string;
    itemWebUrl : option string;
    sellerFeedbackPercentage : option string }.

(** A competitor listing as the service builds it, reduced to its
    seller, amounts, id, address and feedback score; the score is the
    text of the API, [None] standing for the 0 put in its place. *)
Record Listing : Type := mkListing
  { sellerName : string;
    price : float;
    shippingCost : float;
    listingId : option string;
    url : string;
    feedbackScore : option string }.

Record Summary : Type := mkSummary
  { lowestPrice : float;
    summarySeller : string;
    summaryListingId : option string;
    summaryUrl : string;
    totalSellers : nat;
    differenceToOurPrice : option float }.

Record Insights : Type := mkInsights
  { listings : list Listing;
    summary : Summary }.

(** The product, reduced to the fields the service reads. *)
Record Product : Type := mkProduct
  { title : string;
    ebayItemId : option string;
    ebayPrice : float }.

(** [a !== b] on ids that may be [undefined]. *)
Definition differs (a b : option string) : bool :=
  match a, b with
  | Some x, Some y => negb (String.eqb x y)
  | None, None => false
  | _, _ => true
  end.

Section Search.
Variable parseFloat : string -> float.
Variable toFixed2 : float -> float.
(** [listings.sort((a, b) => a.price - b.price)] *)
Variable sort : list Listing -> list Listing.

(** [value ? parseFloat(value) : 0] *)
Definition amount (value : option string) : float :=
  match value with
  | Some v => if String_truthy v then parseFloat v else 0%float
  | None => 0%float
  end.

(** The callback of [map]. *)
Definition listingOf (item : ItemSummary) : Listing :=
  mkListing
    (match sellerUsername item with
     | Some u => String_or u "Unknown"
     | None => "Unknown"%string
     end)
    (amount (priceValue item))
    (amount (shippingCostValue item))
    (itemId item)
    (match itemWebUrl item with
     | Some u =>
         String_or u
           ("https://www.ebay.co.uk/itm/"
            ++ match itemId item with Some i => i | None => "undefined" end)
     | None =>
         ("https://www.ebay.co.uk/itm/"
          ++ match itemId item with Some i => i | None => "undefined" end)%string
     end)
    (match sellerFeedbackPercentage item with
     | Some f => if String_truthy f then Some f else None
     | None => None
     end).

(** What a call of [fetchRealCompetitors] did: what it returned
    ([None] is [null]), the query of the search request if one was
    sent, whether the token request was sent, and the cache it
    left. *)
Record Search : Type := mkSearch
  { found : option Insights;
    searched : option string;
    tokenRequested : bool;
    cacheAfter : Cache }.

(** [fetchRealCompetitors(product)]; [get] is what the search request
    settles with if it is sent: the [itemSummaries] of its answer, if
    any. *)
Definition fetchRealCompetitors (env : Env) (product : Product)
    (now : Z) (post : Awaited Error TokenResponse) (received : Z)
    (get : Awaited Error (option (list ItemSummary))) (c : Cache) : Search :=
  let t := getEbayToken env now post received c in
  match token t with
  | Rejected _ => mkSearch None None (posted t) (cache t)
  | Resolved _ =>
      let q := searchQuery (title product) in
      mkSearch
        match get with
        | Rejected _ => None
        | Resolved None => None
        | Resolved (Some []) => None
        | Resolved (Some itemSummaries) =>
            let listings :=
              map listingOf
                (firstn 10
                   (filter (fun item => differs (itemId item) (ebayItemId product))
                      itemSummaries)) in
            match listings with
            | [] => None
            | _ =>
                let sorted := sort listings in
                match sorted with
                | [] => None
                | cheapest :: _ =>
                    Some (mkInsights sorted
                            (mkSummary (price cheapest) (sellerName cheapest)
                               (listingId cheapest) (url cheapest)
                               (List.length sorted)
                               (if Number_truthy (ebayPrice product)
                                then Some (toFixed2 (ebayPrice product - price cheapest))
                                else None)))
                end
            end
        end
        (Some q) (posted t) (cache t)
  end.

(** [fetchCompetitorInsights(product)] *)
Definition fetchCompetitorInsights (env : Env) (product : Product)
    (now : Z) (post : Awaited Error TokenResponse) (received : Z)
    (get : Awaited Error (option (list ItemSummary))) (c : Cache) : Search :=
  let realData := fetchRealCompetitors env product now post received get c in
  mkSearch
    match found realData with
    | Some d =>
        match listings d with
        | [] => None
        | _ => Some d
        end
    | None => None
    end
    (searched realData) (tokenRequested realData) (cacheAfter realData).

End Search.

(** The insights as [checkProduct] of the monitoring service reads
    them; [toNumber] is the conversion of a text to a Number that the
    schema applies to the feedback score. *)
Definition asInsights (toNumber : string -> float) (d : Insights)
  : MonitoringService.Insights :=
  MonitoringService.mkInsights
    (map (fun l =>
            MonitoringService.mkListing (sellerName l) (price l)
              (match listingId l with Some i => i | None => EmptyString end)
              (shippingCost l)
              (match feedbackScore l with
               | Some f => toNumber f
               | None => 0%float
               end))
       (listings d))
    (Some (MonitoringService.mkSummary (lowestPrice (summary d))
             (summarySeller (summary d)) (totalSellers (summary d))
             (differenceToOurPrice (summary d)))).

End CompetitorService.

(** ** services/importService.js *)

Module ImportService.

(** [[^/?]] and [[^&]] *)
Definition notSlashOrQuery (c : ascii) : bool :=
  negb (Ascii.eqb c "/" || Ascii.eqb c "?").

Definition notAmpersand (c : ascii) : bool := negb (Ascii.eqb c "&").

(** [extractStoreNameFromUrl(storeUrl)]: the three patterns, in
    order. *)
Definition extractStoreNameFromUrl (storeUrl : string) : option string :=
  match JsString.matchRunAfter notSlashOrQuery ["/str/"%string] storeUrl with
  | Some name => Some name
  | None =>
      match JsString.matchRunAfter notSlashOrQuery ["/usr/"%string] storeUrl with
      | Some name => Some name
      | None =>
          JsString.matchRunAfter notAmpersand ["?_ssn="%string; "&_ssn="%string] storeUrl
      end
  end.

(** The end of [getSellerIdFromScraping(storeName)]; [scraped] is
    what the browser part of the function comes to: the seller id read
    off the first product page ([None] is [null]), or an exception. *)
Definition getSellerIdFromScraping (storeName : string)
    (scraped : Awaited Error (option string)) : Awaited Error string :=
  match scraped with
  | Rejected e => Rejected e
  | Resolved sellerId =>
      match sellerId with
      | Some id =>
          if negb (String_truthy id) || String.eqb id storeName
             || String.eqb id "eBay UK" || String.eqb id "eBay"
          then Rejected "Could not extract valid sellerID from product page"%string
          else Resolved id
      | None => Rejected "Could not extract valid sellerID from product page"%string
      end
  end.

(** [`"${s}"`] *)
Definition quoted (s : string) : string :=
  String PuppeteerScraper.doubleQuote (s ++ String PuppeteerScraper.doubleQuote EmptyString).

(** The two messages of [importStoreListings] that name the store. *)
Definition noSellerId (storeName : string) : string :=
  ("Could not determine sellerID for store " ++ quoted storeName
   ++ ". The store may not exist or the page structure may have changed. Please verify the store URL is correct (e.g., https://www.ebay.co.uk/str/storename)")%string.

Definition noListings (sellerID storeName : string) : string :=
  ("No listings found for sellerID " ++ quoted sellerID ++ " (store: " ++ quoted storeName
   ++ "). The store may have no active listings or the sellerID may be incorrect.")%string.

(** A listing as the import loop reads it. *)
Record Item : Type := mkItem
  { itemId : string;
    title : string;
    url : string;
    price : float;
    images : list string;
    stock : StockStatus }.

(** The callback of [map] in [fetchStoreListingsScrape]: a scraped
    listing has no [stock] field. *)
Definition enhance (l : PuppeteerScraper.Listing) : Item :=
  mkItem (PuppeteerScraper.itemId l) (PuppeteerScraper.title l) (PuppeteerScraper.url l)
    (PuppeteerScraper.price l) (PuppeteerScraper.images l) in_stock.

(** [fetchStoreListingsScrape(storeName)] *)
Definition fetchStoreListingsScrape (parseFloat : string -> float)
    (visit : string -> Awaited Error (list PuppeteerScraper.Anchor))
    (opened : Awaited Error unit) (storeName : string) : option (list Item) :=
  let storeUrl := ("https://www.ebay.co.uk/str/" ++ storeName)%string in
  match PuppeteerScraper.scrapeStoreListings parseFloat visit storeUrl 5 opened with
  | None => None
  | Some [] => None
  | Some allItems => Some (map enhance allItems)
  end.

(** What [findSupplierData] returns for a title. *)
Record Match : Type := mkMatch
  { supplierUrl : string;
    supplierPrice : float;
    supplierStockStatus : StockStatus }.

(** What the database and the two services answer while one listing
    is processed: the query for the product, [existing.save()] or
    [Product.create()], the supplier search, the competitor search,
    the [product.save()] that follows it, and the clock. *)
Record Host : Type := mkHost
  { queried : Awaited Error unit;
    written : Awaited Error unit;
    supplier : option Match;
    competitor : option MonitoringService.Insights;
    competitorSaved : Awaited Error unit;
    clock : Z }.

Record Results : Type := mkResults
  { total : nat;
    imported : nat;
    updated : nat;
    skipped : nat;
    supplierMapped : nat;
    competitorSynced : nat;
    errors : list string }.

(** The Product documents of the user, by item id, in order of
    creation. *)
Definition Products : Type := list (string * MonitoringService.Product).

(** [Product.findOne({ userId, ebayItemId })] *)
Fixpoint findOne (id : string) (db : Products) : option MonitoringService.Product :=
  match db with
  | [] => None
  | (k, p) :: rest => if String.eqb k id then Some p else findOne id rest
  end.

(** [existing.save()] *)
Fixpoint replace (id : string) (p : MonitoringService.Product) (db : Products) : Products :=
  match db with
  | [] => []
  | (k, q) :: rest =>
      if String.eqb k id then (k, p) :: rest else (k, q) :: replace id p rest
  end.

(** The state of the loop: the counters, the collection, and the
    number of pauses taken. *)
Record State : Type := mkState
  { results : Results;
    products : Products;
    pauses : nat }.

Section StoreImport.
Variable toFixed2 : float -> float.

(** [results.skipped++], after [results.errors.push(...)] when the
    listing was given up on an exception. *)
Definition skip (failure : option string) (st : State) : State :=
  let r := results st in
  mkState
    (mkResults (total r) (imported r) (updated r) (S (skipped r)) (supplierMapped r)
       (competitorSynced r)
       (match failure with
        | Some line => errors r ++ [line]
        | None => errors r
        end))
    (products st) (pauses st).

(** The pause at the end of an iteration that imported or updated. *)
Definition pause (st : State) : State :=
  let r := results st in
  if (imported r + updated r) mod 10 =? 0
  then mkState r (products st) (S (pauses st))
  else st.

(** The body of the loop over the listings. *)
Definition process (item : Item) (h : Host) (st : State) : State :=
  let r := results st in
  if negb (String_truthy (itemId item)) || negb (String_truthy (title item)) then
    skip None st
  else
    match queried h with
    | Rejected e => skip (Some (title item ++ ": " ++ e)%string) st
    | Resolved _ =>
        match findOne (itemId item) (products st) with
        | Some existing =>
            match written h with
            | Rejected e => skip (Some (title item ++ ": " ++ e)%string) st
            | Resolved _ =>
                let saved :=
                  MonitoringService.calculateProfit toFixed2
                    (MonitoringService.mkProduct (title item)
                       (MonitoringService.ebayUrl existing) (price item)
                       (MonitoringService.supplierUrl existing)
                       (MonitoringService.supplierPrice existing)
                       (stock item)
                       (MonitoringService.supplierStockStatus existing)
                       (clock h) (images item)
                       (MonitoringService.profit existing)
                       (MonitoringService.profitMargin existing)
                       (MonitoringService.competitorListings existing)
                       (MonitoringService.competitorStats existing)) in
                pause
                  (mkState
                     (mkResults (total r) (imported r) (S (updated r)) (skipped r)
                        (supplierMapped r) (competitorSynced r) (errors r))
                     (replace (itemId item) saved (products st)) (pauses st))
            end
        | None =>
            let mapped :=
              match supplier h with
              | Some m => String_truthy (supplierUrl m)
              | None => false
              end in
            let r1 :=
              mkResults (total r) (imported r) (updated r) (skipped r)
                (if mapped then S (supplierMapped r) else supplierMapped r)
                (competitorSynced r) (errors r) in
            match written h with
            | Rejected e =>
                skip (Some (title item ++ ": " ++ e)%string)
                  (mkState r1 (products st) (pauses st))
            | Resolved _ =>
                let created :=
                  match supplier h with
                  | Some m =>
                      if String_truthy (supplierUrl m) then
                        MonitoringService.mkProduct (title item) (url item) (price item)
                          (Some (supplierUrl m))
                          (if Number_truthy (supplierPrice m) then supplierPrice m
                           else 0%float)
                          (stock item) (supplierStockStatus m) (clock h) (images item)
                          0 0 [] None
                      else
                        MonitoringService.mkProduct (title item) (url item) (price item)
                          (Some EmptyString) 0 (stock item) unknown (clock h)
                          (images item) 0 0 [] None
                  | None =>
                      MonitoringService.mkProduct (title item) (url item) (price item)
                        (Some EmptyString) 0 (stock item) unknown (clock h)
                        (images item) 0 0 [] None
                  end in
                let synced :=
                  match competitor h with
                  | Some d =>
                      match MonitoringService.listings d, competitorSaved h with
                      | _ :: _, Resolved _ => true
                      | _, _ => false
                      end
                  | None => false
                  end in
                let stored :=
                  match competitor h with
                  | Some d =>
                      if synced then
                        MonitoringService.mkProduct
                          (MonitoringService.title created)
                          (MonitoringService.ebayUrl created)
                          (MonitoringService.ebayPrice created)
                          (MonitoringService.supplierUrl created)
                          (MonitoringService.supplierPrice created)
                          (MonitoringService.stockStatus created)
                          (MonitoringService.supplierStockStatus created)
                          (MonitoringService.lastCheckedAt created)
                          (MonitoringService.images created)
                          (MonitoringService.profit created)
                          (MonitoringService.profitMargin created)
                          (MonitoringService.listings d)
                          (match MonitoringService.summary d with
                           | Some s => Some s
                           | None => MonitoringService.competitorStats created
                           end)
                      else created
                  | None => created
                  end in
                pause
                  (mkState
                     (mkResults (total r1) (S (imported r1)) (updated r1) (skipped r1)
                        (supplierMapped r1)
                        (if synced then S (competitorSynced r1) else competitorSynced r1)
                        (errors r1))
                     (products st ++ [(itemId item, stored)]) (pauses st))
            end
        end
    end.

(** The loop; [hosts] gives what listing number [n] meets. *)
Fixpoint processAll (listings : list Item) (hosts : nat -> Host) (n : nat)
    (st : State) : State :=
  match listings with
  | [] => st
  | item :: rest => processAll rest hosts (S n) (process item (hosts n) st)
  end.

(** What a call of [importStoreListings] did: how it settled, the
    collection it left, the sources of listings it asked, in order,
    and whether it fell back on [getSellerIdFromProductPage]. *)
Inductive ListingSource : Type := FindingApi | StoreScrape.

Record Import : Type := mkImport
  { settled : Awaited Error Results;
    stored : Products;
    asked : list ListingSource;
    paused : nat;
    productPageFallback : bool }.

(** [importStoreListings(storeUrl, userId)]; [scraped] is what the
    browser part of [getSellerIdFromScraping] comes to,
    [fromProductPage] what [getSellerIdFromProductPage] returns,
    [fromApi] what [fetchStoreListingsAPI] returns for a seller and
    [fromScrape] what [fetchStoreListingsScrape] returns for a store
    ([None] is [null]). *)
Definition importStoreListings (storeUrl : string)
    (scraped : Awaited Error (option string))
    (fromProductPage : string -> option string)
    (fromApi : string -> option (list Item))
    (fromScrape : string -> option (list Item))
    (hosts : nat -> Host) (db : Products) : Import :=
  match extractStoreNameFromUrl storeUrl with
  | None =>
      mkImport (Rejected "Could not extract store name from URL"%string) db [] 0 false
  | Some storeName =>
      match getSellerIdFromScraping storeName scraped with
      | Rejected e => mkImport (Rejected e) db [] 0 false
      | Resolved first =>
          let fallback := negb (String_truthy first) in
          let sellerID :=
            if fallback then fromProductPage storeName else Some first in
          match
            match sellerID with
            | Some s => if String_truthy s then Some s else None
            | None => None
            end
          with
          | None =>
              mkImport (Rejected (noSellerId storeName)) db [] 0 fallback
          | Some seller =>
              let fromFirst := fromApi seller in
              let useScrape :=
                match fromFirst with
                | Some (_ :: _) => false
                | _ => true
                end in
              let listings := if useScrape then fromScrape storeName else fromFirst in
              let asked := if useScrape then [FindingApi; StoreScrape] else [FindingApi] in
              match listings with
              | Some (item :: rest) =>
                  let st :=
                    processAll (item :: rest) hosts 0
                      (mkState (mkResults (List.length (item :: rest)) 0 0 0 0 0 [])
                         db 0) in
                  mkImport (Resolved (results st)) (products st) asked (pauses st)
                    fallback
              | _ =>
                  mkImport (Rejected (noListings seller storeName)) db asked 0 fallback
              end
          end
      end
  end.

End StoreImport.

End ImportService.

(** ** controllers/productController.js *)

Module ProductController.

(** What a handler did: the status of its response, the Product
    document it wrote (if it wrote one) and the PriceHistory rows it
    created, in order. *)
Record Reply : Type := mkReply
  { status : nat;
    saved : option MonitoringService.Product;
    rows : list MonitoringService.PriceHistoryEntry }.

(** [product.supplierUrl], as a condition. *)
Definition hasSupplier (p : MonitoringService.Product) : bool :=
  match MonitoringService.supplierUrl p with
  | Some u => String_truthy u
  | None => false
  end.

Section Sync.
(** [String.prototype.trim], which the schema applies to the title. *)
Variable trim : string -> string.
Variable toFixed2 : float -> float.

(** What [PriceHistory.create] rejects with when the price is NaN,
    and [product.save()] when the schema refuses the product. *)
Definition priceCastError : Error := "PriceHistory validation failed: price"%string.
Definition productValidationError : Error := "Product validation failed"%string.

(** The four assignments from the marketplace data; the title is
    stored trimmed. *)
Definition assignEbay (product : MonitoringService.Product) (d : EbayAdapter.Item)
  : MonitoringService.Product :=
  MonitoringService.mkProduct (trim (EbayAdapter.title d))
    (MonitoringService.ebayUrl product) (EbayAdapter.price d)
    (MonitoringService.supplierUrl product)
    (MonitoringService.supplierPrice product)
    (EbayAdapter.stock d)
    (MonitoringService.supplierStockStatus product)
    (MonitoringService.lastCheckedAt product)
    (EbayAdapter.images d)
    (MonitoringService.profit product)
    (MonitoringService.profitMargin product)
    (MonitoringService.competitorListings product)
    (MonitoringService.competitorStats product).

(** The two assignments from the supplier data. *)
Definition assignSupplier (p : MonitoringService.Product)
    (s : MonitoringService.SupplierData) : MonitoringService.Product :=
  MonitoringService.mkProduct (MonitoringService.title p)
    (MonitoringService.ebayUrl p) (MonitoringService.ebayPrice p)
    (MonitoringService.supplierUrl p)
    (MonitoringService.supplierDataPrice s)
    (MonitoringService.stockStatus p)
    (MonitoringService.supplierDataStock s)
    (MonitoringService.lastCheckedAt p)
    (MonitoringService.images p) (MonitoringService.profit p)
    (MonitoringService.profitMargin p)
    (MonitoringService.competitorListings p)
    (MonitoringService.competitorStats p).

(** The last three statements: the stamp, the profit, and [save()],
    which rejects when the title is empty or the profit just computed
    is not a number. *)
Definition stampAndSave (now : Z) (p : MonitoringService.Product)
    (written : list MonitoringService.PriceHistoryEntry)
  : Awaited Error MonitoringService.Product * list MonitoringService.PriceHistoryEntry :=
  let q :=
    MonitoringService.calculateProfit toFixed2
      (MonitoringService.mkProduct (MonitoringService.title p)
         (MonitoringService.ebayUrl p) (MonitoringService.ebayPrice p)
         (MonitoringService.supplierUrl p) (MonitoringService.supplierPrice p)
         (MonitoringService.stockStatus p) (MonitoringService.supplierStockStatus p)
         now (MonitoringService.images p) (MonitoringService.profit p)
         (MonitoringService.profitMargin p)
         (MonitoringService.competitorListings p)
         (MonitoringService.competitorStats p)) in
  if String_truthy (MonitoringService.title q) && MonitoringService.profitCasts p
  then (Resolved q, written)
  else (Rejected productValidationError, written).

(** The supplier part and what follows it, on the product [p1] the
    marketplace part leaves. *)
Definition refreshSupplier (now : Z) (p1 : MonitoringService.Product)
    (supplierAnswer : Awaited Error (option MonitoringService.SupplierData))
    (written : list MonitoringService.PriceHistoryEntry)
  : Awaited Error MonitoringService.Product * list MonitoringService.PriceHistoryEntry :=
  if hasSupplier p1 then
    match supplierAnswer with
    | Rejected e => (Rejected e, written)
    | Resolved None => stampAndSave now p1 written
    | Resolved (Some s) =>
        if is_nan (MonitoringService.supplierDataPrice s) then
          (Rejected priceCastError, written)
        else
          stampAndSave now (assignSupplier p1 s)
            (written ++ [MonitoringService.mkEntry MonitoringService.supplier
                           (MonitoringService.supplierDataPrice s)
                           (MonitoringService.supplierDataStock s)])
    end
  else stampAndSave now p1 written.

(** The refresh of one product, as [syncProduct] and the loop of
    [bulkSyncProducts] both do it: what is thrown or the document
    saved, and the history rows written on the way.  A fetch that
    rejects, a [PriceHistory.create] that rejects because the price is
    NaN, and a [save()] that rejects all end the refresh where they
    happen. *)
Definition refresh (now : Z) (product : MonitoringService.Product)
    (ebayAnswer : Awaited Error (option EbayAdapter.Item))
    (supplierAnswer : Awaited Error (option MonitoringService.SupplierData))
  : Awaited Error MonitoringService.Product * list MonitoringService.PriceHistoryEntry :=
  match ebayAnswer with
  | Rejected e => (Rejected e, [])
  | Resolved None => refreshSupplier now product supplierAnswer []
  | Resolved (Some d) =>
      if is_nan (EbayAdapter.price d) then (Rejected priceCastError, [])
      else
        refreshSupplier now (assignEbay product d) supplierAnswer
          [MonitoringService.mkEntry MonitoringService.ebay (EbayAdapter.price d)
             (EbayAdapter.stock d)]
  end.

(** [syncProduct]; [found] is the product of the request, if the user
    has it. *)
Definition syncProduct (now : Z) (found : option MonitoringService.Product)
    (ebayAnswer : Awaited Error (option EbayAdapter.Item))
    (supplierAnswer : Awaited Error (option MonitoringService.SupplierData)) : Reply :=
  match found with
  | None => mkReply 404 None []
  | Some product =>
      match refresh now product ebayAnswer supplierAnswer with
      | (Resolved p, written) => mkReply 200 (Some p) written
      | (Rejected _, written) => mkReply 500 None written
      end
  end.

(** What the loop of [bulkSyncProducts] meets for one product. *)
Record Visit : Type := mkVisit
  { ebayAnswer : Awaited Error (option EbayAdapter.Item);
    supplierAnswer : Awaited Error (option MonitoringService.SupplierData);
    now : Z }.




End Sync.

(** *** [bulkDeleteProducts] *)




End ProductController.

(** *** [addProduct] *)

Module AddProduct.

(** The body of the request. *)
Record Body : Type := mkBody
  { ebayUrl : option string;
    supplierUrl : option string }.

(** What the handler did: the status and message of its response,
    the collection of the user afterwards, the history rows created,
    and whether the two adapters were called. *)
Record Reply : Type := mkReply
  { status : nat;
    message : string;
    collection : ImportService.Products;
    rows : list MonitoringService.PriceHistoryEntry;
    ebayFetched : bool;
    supplierFetched : bool }.

(** Truthiness of a field of the body that may be missing. *)
Definition given (u : option string) : bool :=
  match u with
  | Some s => String_truthy s
  | None => false
  end.

Definition text (u : option string) : string :=
  match u with
  | Some s => s
  | None => EmptyString
  end.

(** The initial history rows (lines 270-284). *)
Definition initialRows (ebayData : EbayAdapter.Item)
    (supplierData : option MonitoringService.SupplierData) :
    list MonitoringService.PriceHistoryEntry :=
  MonitoringService.mkEntry MonitoringService.ebay (EbayAdapter.price ebayData)
    (EbayAdapter.stock ebayData)
  :: match supplierData with
     | Some s =>
         [MonitoringService.mkEntry MonitoringService.supplier
            (MonitoringService.supplierDataPrice s) (MonitoringService.supplierDataStock s)]
     | None => []
     end.

(** What [await ebayAdapter.fetchEbayItem(...)] gives the handler. *)
Definition awaitedItem (f : EbayAdapter.Fetched) : Awaited Error (option EbayAdapter.Item) :=
  match EbayAdapter.answer f with
  | Resolved item => Resolved (Some item)
  | Rejected e => Rejected e
  end.

Section Handler.
(** [String.prototype.trim], which the schema applies to its strings. *)
Variable trim : string -> string.
Variable toFixed2 : float -> float.
(** Whether [new URL(s)] returns. *)
Variable validUrl : string -> bool.
(** What Mongoose makes of the item id of a filter before the
    database compares it: the id itself, or the id after the setters
    of the schema. *)
Variable castFilter : string -> string.
(** The messages of the errors [Product.create] rejects with when the
    schema refuses the document and when the unique index does. *)
Variable validationError : MonitoringService.Product -> Error.
Variable duplicateKeyError : string -> Error.

(** The document [Product.create] makes of [productData] (lines
    247-261): the title and the two addresses are stored trimmed, the
    defaults of the schema are filled in, and [calculateProfit] is not
    yet applied. *)
Definition productData (url : string) (supplierUrl : option string)
    (ebayData : EbayAdapter.Item) (supplierData : option MonitoringService.SupplierData)
    (now : Z) : MonitoringService.Product :=
  match supplierData with
  | Some s =>
      MonitoringService.mkProduct (trim (EbayAdapter.title ebayData)) (trim url)
        (EbayAdapter.price ebayData) (option_map trim supplierUrl)
        (MonitoringService.supplierDataPrice s)
        (EbayAdapter.stock ebayData) (MonitoringService.supplierDataStock s) now
        (EbayAdapter.images ebayData) 0 0 [] None
  | None =>
      MonitoringService.mkProduct (trim (EbayAdapter.title ebayData)) (trim url)
        (EbayAdapter.price ebayData) None 0 (EbayAdapter.stock ebayData) unknown now
        (EbayAdapter.images ebayData) 0 0 [] None
  end.

(** Whether the schema accepts a document stored under the item id
    [id]: the three required strings are not empty and the two prices
    are numbers. *)
Definition valid (id : string) (doc : MonitoringService.Product) : bool :=
  String_truthy (MonitoringService.title doc)
  && String_truthy (MonitoringService.ebayUrl doc)
  && String_truthy id
  && negb (is_nan (MonitoringService.ebayPrice doc))
  && negb (is_nan (MonitoringService.supplierPrice doc)).

(** [Product.create]: the schema refuses a document that is not
    valid, the unique index on user and item id one whose id the user
    has already; [created] is what the write settles with
    otherwise. *)
Definition create (id : string) (doc : MonitoringService.Product)
    (created : Awaited Error unit) (db : ImportService.Products) : Awaited Error unit :=
  if negb (valid id doc) then Rejected (validationError doc)
  else if existsb (String.eqb id) (map fst db) then Rejected (duplicateKeyError id)
  else created.

(** Lines 246-289; the item id is stored trimmed.  [save()] after
    [calculateProfit] rejects when the profit is not a number, and the
    product then stays in the collection as [Product.create] wrote it;
    the writes of the history rows are taken to succeed. *)
Definition store (url : string) (supplierUrl : option string) (ebayData : EbayAdapter.Item)
    (supplierData : option MonitoringService.SupplierData) (created : Awaited Error unit)
    (now : Z) (db : ImportService.Products) (supplierCalled : bool) : Reply :=
  let id := trim (EbayAdapter.itemId ebayData) in
  let doc := productData url supplierUrl ebayData supplierData now in
  match create id doc created db with
  | Rejected e => mkReply 500 (String_or e "Error adding product") db [] true supplierCalled
  | Resolved _ =>
      if MonitoringService.profitCasts doc then
        mkReply 201 EmptyString
          (db ++ [(id, MonitoringService.calculateProfit toFixed2 doc)])
          (initialRows ebayData supplierData) true supplierCalled
      else
        mkReply 500
          (String_or (validationError (MonitoringService.calculateProfit toFixed2 doc))
             "Error adding product")
          (db ++ [(id, doc)]) [] true supplierCalled
  end.

(** [addProduct]; [ebayAnswer] and [supplierAnswer] are what the two
    adapters settle with when called, [created] what the write of
    [Product.create] settles with, [now] the time of creation and
    [db] the collection of the user, by item id. *)
Definition addProduct (body : Body)
    (ebayAnswer : Awaited Error (option EbayAdapter.Item))
    (supplierAnswer : Awaited Error (option MonitoringService.SupplierData))
    (created : Awaited Error unit) (now : Z) (db : ImportService.Products) : Reply :=
  let url := text (ebayUrl body) in
  if negb (given (ebayUrl body)) then
    mkReply 400 "eBay URL is required" db [] false false
  else if negb (validUrl url) then
    mkReply 400 "Invalid eBay URL format" db [] false false
  else if negb (JsString.includes url "ebay.com")
          && negb (JsString.includes url "ebay.co.uk")
          && negb (JsString.includes url "ebay.ca") then
    mkReply 400 "URL must be from eBay domain" db [] false false
  else if given (supplierUrl body) && negb (validUrl (text (supplierUrl body))) then
    mkReply 400 "Invalid supplier URL format" db [] false false
  else
    match ebayAnswer with
    | Rejected e => mkReply 400 ("Could not fetch eBay product data: " ++ e) db [] true false
    | Resolved None => mkReply 400 "Could not fetch eBay product data" db [] true false
    | Resolved (Some ebayData) =>
        match ImportService.findOne (castFilter (EbayAdapter.itemId ebayData)) db with
        | Some _ =>
            mkReply 400 "Product already exists in your monitoring list" db [] true false
        | None =>
            if given (supplierUrl body) then
              match supplierAnswer with
              | Rejected e =>
                  mkReply 500 (String_or e "Error adding product") db [] true true
              | Resolved supplierData =>
                  store url (supplierUrl body) ebayData supplierData created now db true
              end
            else store url (supplierUrl body) ebayData None created now db false
        end
    end.

End Handler.

End AddProduct.

(** ** controllers/settingsController.js: [updateSettings] *)

Module SettingsController.

(** The fields of the body the handler validates or that the
    services read later; each may be missing.  The frequency is a
    whole number of minutes, as everywhere in this development. *)
Record Body : Type := mkBody
  { monitoringFrequency : option Z;
    webhookUrl : option string;
    priceChangeThreshold : option float;
    alertTypes : option MonitoringService.AlertTypes }.

(** What the handler did: the status and message of its response,
    the Settings document of the user afterwards, the cron module
    afterwards, and whether [restartUserCron] was called. *)
Record Reply : Type := mkReply
  { status : nat;
    message : string;
    settings : option Scheduler.UserSettings;
    cron : CronJobs.World;
    restarted : bool }.

(** A field of the body over the stored one. *)
Definition over {A : Type} (new old : option A) : option A :=
  match new with
  | Some x => Some x
  | None => old
  end.

(** [{ ...settings.alertTypes, ...alertTypes }] *)
Definition spread (old : option MonitoringService.AlertTypes)
    (new : MonitoringService.AlertTypes) : MonitoringService.AlertTypes :=
  let o :=
    match old with
    | Some a => a
    | None => MonitoringService.mkAlertTypes None None None None None None
    end in
  MonitoringService.mkAlertTypes
    (over (MonitoringService.priceIncrease new) (MonitoringService.priceIncrease o))
    (over (MonitoringService.priceDecrease new) (MonitoringService.priceDecrease o))
    (over (MonitoringService.outOfStock new) (MonitoringService.outOfStock o))
    (over (MonitoringService.supplierUnavailable new)
       (MonitoringService.supplierUnavailable o))
    (over (MonitoringService.lowStock new) (MonitoringService.lowStock o))
    (over (MonitoringService.competitorPrice new) (MonitoringService.competitorPrice o)).

(** [Settings.create({ userId, ...req.body })]: the schema fills in
    30 minutes, 5 percent and every alert type switched on. *)
Definition created (body : Body) : Scheduler.UserSettings :=
  Scheduler.mkUserSettings
    (over (monitoringFrequency body) (Some 30%Z))
    (MonitoringService.mkSettings
       (over (priceChangeThreshold body) (Some 5%float))
       (Some (spread (Some (MonitoringService.mkAlertTypes (Some true) (Some true) (Some true)
                              (Some true) (Some true) (Some true)))
                match alertTypes body with
                | Some a => a
                | None => MonitoringService.mkAlertTypes None None None None None None
                end))).

(** Lines 85-99: the fields of the body written over the document
    found. *)
Definition updated (body : Body) (s : Scheduler.UserSettings) : Scheduler.UserSettings :=
  Scheduler.mkUserSettings
    (over (monitoringFrequency body) (Scheduler.monitoringFrequency s))
    (MonitoringService.mkSettings
       (over (priceChangeThreshold body)
          (MonitoringService.priceChangeThreshold (Scheduler.monitoring s)))
       match alertTypes body with
       | Some a =>
           Some (spread (MonitoringService.alertTypes (Scheduler.monitoring s)) a)
       | None => MonitoringService.alertTypes (Scheduler.monitoring s)
       end).

(** [settings && monitoringFrequency !== undefined &&
    settings.monitoringFrequency !== monitoringFrequency] *)
Definition frequencyChanged (body : Body) (stored : option Scheduler.UserSettings) : bool :=
  match stored, monitoringFrequency body with
  | Some s, Some f =>
      match Scheduler.monitoringFrequency s with
      | Some g => negb (g =? f)%Z
      | None => true
      end
  | _, _ => false
  end.



Section Handler.
(** Whether [new URL(s)] returns. *)
Variable validUrl : string -> bool.



End Handler.

End SettingsController.


(** * Properties *)

(** ** The retry executor *)

Module RetryFacts.
Import Retry.

Section Contract.
Variables (W E A : Type).
Variable fn : Operation W E A.
Variable maxRetries : nat.
Variable baseDelay : Z.

Lemma outcome_S (i : nat) (w : W) :
  outcome fn (S i) w = outcome fn i (snd (fn w)).
Proof. reflexivity. Qed.

Lemma failed_S (i : nat) (w : W) :
  failed fn (S i) w <-> failed fn i (snd (fn w)).
Proof. unfold failed. rewrite outcome_S. tauto. Qed.

(** The loop invariant: started at attempt number [attempt] with
    [remaining] iterations left, the loop stops at the first attempt
    that resolves, or at the last one. *)
Lemma attempts_spec (remaining : nat) :
  forall (attempt : nat) (w : W),
    attempt + remaining = maxRetries ->
    1 <= remaining ->
    let r := attempts fn maxRetries baseDelay remaining attempt w in
    1 <= calls r <= remaining /\
    waits r = map (fun i => (baseDelay * 2 ^ Z.of_nat i)%Z)
                  (seq attempt (calls r - 1)) /\
    (forall i, i < calls r - 1 -> failed fn i w) /\
    world r = worldAfter fn (calls r) w /\
    match settled r with
    | Fulfilled a => outcome fn (calls r - 1) w = Resolved a
    | Thrown e => calls r = remaining /\ outcome fn (remaining - 1) w = Rejected e
    | FulfilledUndefined => False
    end.
Proof.
  induction remaining as [|k IH]; intros attempt w Hsum Hpos; [lia|].
  cbn [attempts]. unfold outcome.
  destruct (fn w) as [[a|e] w'] eqn:Hfn.
  - cbn. rewrite Hfn. cbn. repeat split; try (intros; lia).
  - destruct (Z.eqb_spec (Z.of_nat attempt) (Z.of_nat maxRetries - 1)) as [Hlast|Hmore].
    + assert (k = 0) by lia. subst k.
      cbn. rewrite Hfn. cbn. repeat split; try (intros; lia).
    + assert (Hk : 1 <= k) by lia.
      specialize (IH (S attempt) w' ltac:(lia) Hk). cbv zeta in IH.
      set (r := attempts fn maxRetries baseDelay k (S attempt) w') in *.
      destruct IH as (Hc & Hw & Hf & Hwd & Hs).
      assert (Hw' : w' = snd (fn w)) by (rewrite Hfn; reflexivity).
      cbn [settled calls waits world].
      replace (S (calls r) - 1) with (S (calls r - 1)) by lia.
      repeat split; try lia.
      * cbn [seq map]. now rewrite Hw.
      * intros [|i] Hi.
        -- exists e. unfold outcome. cbn. now rewrite Hfn.
        -- apply failed_S. rewrite <- Hw'. apply Hf. lia.
      * cbn [worldAfter]. now rewrite <- Hw'.
      * destruct (settled r) as [a| e' |]; [| |contradiction].
        -- replace (S (calls r - 1)) with (S (calls r - 1)) by lia.
           change (outcome fn (S (calls r - 1)) w = Resolved a).
           rewrite outcome_S, <- Hw'. exact Hs.
        -- destruct Hs as [Hs1 Hs2]. split; [lia|].
           replace (S k - 1) with (S (k - 1)) by lia.
           change (outcome fn (S (k - 1)) w = Rejected e').
           rewrite outcome_S, <- Hw'. exact Hs2.
Qed.

End Contract.
End RetryFacts.

(** C2.  For every operation, every [m >= 1] and every base delay [d],
    [retryWithBackoff] invokes the operation at most [m] times; every
    invocation before the last one it makes rejected, and after
    rejected attempt [i] it waited exactly [d * 2^i] (so the waits of a
    run of [n] invocations are [d * 2^0], ..., [d * 2^(n-2)]).  If
    attempt [k < m] is the first to resolve, the run resolves with its
    value after [k + 1] invocations; if all [m] attempts reject, the
    run throws the error of the last one after [m] invocations.  With
    [m = 3], [d = 1000] and an operation that fails twice and then
    succeeds, the operation is invoked 3 times and the waits are 1000
    and 2000 ms. *)
Theorem retryWithBackoff_contract :
  (forall (W E A : Type) (fn : Retry.Operation W E A) (m : nat) (d : Z) (w : W),
      1 <= m ->
      let r := Retry.retryWithBackoff fn m d w in
      1 <= Retry.calls r <= m /\
      Retry.waits r = Retry.backoff d 0 (Retry.calls r) /\
      (forall i, i < Retry.calls r - 1 -> Retry.failed fn i w) /\
      (forall k a,
          k < m -> (forall i, i < k -> Retry.failed fn i w) ->
          Retry.outcome fn k w = Resolved a ->
          Retry.settled r = Retry.Fulfilled a /\ Retry.calls r = k + 1) /\
      ((forall i, i < m -> Retry.failed fn i w) ->
       exists e, Retry.outcome fn (m - 1) w = Rejected e /\
                 Retry.settled r = Retry.Thrown e /\ Retry.calls r = m)) /\
  (let r := Retry.retryWithBackoff Retry.failsTwiceThenSucceeds 3 1000 0 in
   Retry.settled r = Retry.Fulfilled "done"%string /\
   Retry.calls r = 3 /\
   Retry.waits r = [1000; 2000]%Z /\
   Retry.totalWait r = 3000%Z).
Proof.
  split.
  - intros W E A fn m d w Hm. cbv zeta.
    destruct (RetryFacts.attempts_spec fn d (remaining := m) 0 w eq_refl Hm)
      as (Hc & Hw & Hf & _ & Hs).
    change (0 + m) with m in *.
    fold (Retry.retryWithBackoff fn m d w) in Hc, Hw, Hf, Hs.
    set (r := Retry.retryWithBackoff fn m d w) in *. unfold Retry.backoff.
    split; [exact Hc|]. split; [exact Hw|]. split; [exact Hf|]. split.
    + intros k a Hk Hbefore Hres.
      assert (Hnot : forall i, Retry.failed fn i w ->
                               forall x, Retry.outcome fn i w <> Resolved x).
      { intros i [e He] x Hx. congruence. }
      destruct (Retry.settled r) as [a'|e|]; [| |contradiction].
      * destruct (Nat.lt_trichotomy (Retry.calls r - 1) k) as [Hlt|[Heq|Hgt]].
        -- exfalso. exact (Hnot _ (Hbefore _ Hlt) _ Hs).
        -- rewrite Heq in Hs. split; [congruence|lia].
        -- exfalso. exact (Hnot _ (Hf _ Hgt) _ Hres).
      * destruct Hs as [Hn He]. exfalso.
        destruct (Nat.eq_dec k (m - 1)) as [->|Hne]; [congruence|].
        apply (Hnot k (Hf k ltac:(lia)) a). exact Hres.
    + intros Hall.
      destruct (Retry.settled r) as [a|e|]; [| |contradiction].
      * exfalso. destruct (Hall (Retry.calls r - 1) ltac:(lia)) as [e He]. congruence.
      * destruct Hs as [Hn He]. exists e. auto.
  - cbv zeta. repeat split; reflexivity.
Qed.

(** The contract at the operation that fails twice: attempt 2 is the
    first to resolve, so the run resolves with its value after three
    invocations. *)
Lemma retryWithBackoff_contract_witness :
  let r := Retry.retryWithBackoff Retry.failsTwiceThenSucceeds 3 1000 0 in
  Retry.settled r = Retry.Fulfilled "done"%string /\ Retry.calls r = 2 + 1.
Proof.
  cbv zeta.
  destruct (proj1 retryWithBackoff_contract nat Error string
              Retry.failsTwiceThenSucceeds 3 1000%Z 0 ltac:(lia))
    as (_ & _ & _ & Hfirst & _).
  apply (Hfirst 2 "done"%string).
  - lia.
  - intros i Hi. exists "not yet"%string.
    destruct i as [|[|i]]; [reflexivity|reflexivity|lia].
  - reflexivity.
Defined.

(** ** The scheduler's cron expressions *)

(** C3.  For every integer [x], [frequencyToCron x] is
    [frequencyToCron 15] when [x < 15], the every-[x]-minutes
    expression when [15 <= x < 60], the every-[floor(x/60)]-hours
    expression when [60 <= x < 1440], and the daily-at-midnight
    expression when [x >= 1440]; 90 gives every 1 hour and 1500 gives
    daily at midnight. *)
Theorem frequencyToCron_cases :
  (forall x : Z,
      ((x < 15)%Z ->
       CronService.frequencyToCron x = CronService.frequencyToCron 15) /\
      ((15 <= x < 60)%Z ->
       CronService.frequencyToCron x = CronService.everyMinutes x) /\
      ((60 <= x < 1440)%Z ->
       CronService.frequencyToCron x = CronService.everyHours (x / 60)) /\
      ((1440 <= x)%Z ->
       CronService.frequencyToCron x = CronService.dailyAtMidnight)) /\
  CronService.frequencyToCron 90 = "0 */1 * * *"%string /\
  CronService.frequencyToCron 1500 = "0 0 * * *"%string /\
  CronService.frequencyToCron 15 = "*/15 * * * *"%string /\
  CronService.frequencyToCron (-5) = "*/15 * * * *"%string /\
  CronService.frequencyToCron 45 = "*/45 * * * *"%string /\
  CronService.frequencyToCron 60 = "0 */1 * * *"%string /\
  CronService.frequencyToCron 1439 = "0 */23 * * *"%string /\
  CronService.frequencyToCron 1440 = "0 0 * * *"%string.
Proof.
  split; [|repeat split; reflexivity].
  intros x. unfold CronService.frequencyToCron, CronService.everyMinutes,
    CronService.everyHours, CronService.dailyAtMidnight.
  repeat split; intros H.
  - rewrite Z.max_l by lia. reflexivity.
  - rewrite Z.max_r by lia.
    destruct (Z.ltb_spec x 60); [reflexivity|lia].
  - rewrite Z.max_r by lia.
    destruct (Z.ltb_spec x 60); [lia|].
    destruct (Z.ltb_spec (x / 60) 24) as [|Hh]; [reflexivity|].
    assert (x / 60 < 24)%Z by (apply Z.div_lt_upper_bound; lia). lia.
  - rewrite Z.max_r by lia.
    destruct (Z.ltb_spec x 60); [lia|].
    destruct (Z.ltb_spec (x / 60) 24) as [Hh|]; [|reflexivity].
    assert (24 <= x / 60)%Z by (apply Z.div_le_lower_bound; lia). lia.
Qed.

(** The cases at 10 minutes (below the minimum) and at 45 minutes. *)
Lemma frequencyToCron_cases_witness :
  CronService.frequencyToCron 10 = CronService.frequencyToCron 15 /\
  CronService.frequencyToCron 45 = CronService.everyMinutes 45.
Proof.
  split.
  - apply (proj1 (proj1 frequencyToCron_cases 10%Z)). lia.
  - apply (proj1 (proj2 (proj1 frequencyToCron_cases 45%Z))). lia.
Defined.

(** ** Change detection *)

Module MonitoringFacts.
Import MonitoringService.

(** *** Floats and stock states *)

Lemma SFeqb_refl (s : SpecFloat.spec_float) :
  s <> SpecFloat.S754_nan -> SpecFloat.SFeqb s s = true.
Proof.
  destruct s as [[]|[]| |[] m e]; intros H; try reflexivity; try congruence;
    unfold SpecFloat.SFeqb, SpecFloat.SFcompare;
    rewrite Z.compare_refl, ?Pos.compare_refl, ?Pos.compare_cont_refl; reflexivity.
Qed.

(** A price above zero is a number, hence equal to itself. *)
Lemma positive_eqb_refl (x : float) : (0 <? x)%float = true -> (x =? x)%float = true.
Proof.
  rewrite ltb_spec, eqb_spec. intros H. apply SFeqb_refl.
  intros E. rewrite E in H. discriminate.
Qed.

Lemma StockStatus_eqb_refl (s : StockStatus) : StockStatus_eqb s s = true.
Proof. destruct s; reflexivity. Qed.

Lemma StockStatus_eqb_neq (a b : StockStatus) : a <> b -> StockStatus_eqb a b = false.
Proof. destruct a, b; simpl; congruence. Qed.

(** *** The alerts of each check, by kind and source *)

Ltac split_tests :=
  repeat match goal with
         | |- context [if ?c then _ else _] => destruct c
         end.

Ltac by_tests := intros; split_tests; reflexivity.

Lemma alertsOf_app kind src (l1 l2 : list Alert) :
  alertsOf kind src (l1 ++ l2) = alertsOf kind src l1 ++ alertsOf kind src l2.
Proof. apply filter_app. Qed.

Lemma checkPrice_ebay_price thr s o n :
  alertsOf isPriceAlert ebay (checkPrice EbayPriceChanged thr s o n)
  = checkPrice EbayPriceChanged thr s o n.
Proof. unfold checkPrice, createAlert, alertsOf. by_tests. Qed.

Lemma checkPrice_supplier_price thr s o n :
  alertsOf isPriceAlert supplier (checkPrice SupplierPriceChanged thr s o n)
  = checkPrice SupplierPriceChanged thr s o n.
Proof. unfold checkPrice, createAlert, alertsOf. by_tests. Qed.

Lemma checkStock_ebay_stock s o n :
  alertsOf isStockAlert ebay
    (checkStock "ebay" NowOutOfStockOnEbay BackInStockOnEbay high s o n)
  = checkStock "ebay" NowOutOfStockOnEbay BackInStockOnEbay high s o n.
Proof. unfold checkStock, createAlert, alertsOf. by_tests. Qed.

Lemma checkStock_supplier_stock s o n :
  alertsOf isStockAlert supplier
    (checkStock "supplier" NowOutOfStockAtSupplier BackInStockAtSupplier critical s o n)
  = checkStock "supplier" NowOutOfStockAtSupplier BackInStockAtSupplier critical s o n.
Proof. unfold checkStock, createAlert, alertsOf. by_tests. Qed.

(** An alert list none of whose members is of kind [kind] about
    source [src]. *)
Definition noneOf (kind : Alert -> bool) (src : Source) (l : list Alert) : Prop :=
  alertsOf kind src l = [].

Lemma noneOf_app kind src l1 l2 :
  noneOf kind src l1 -> noneOf kind src l2 -> noneOf kind src (l1 ++ l2).
Proof. unfold noneOf. intros H1 H2. now rewrite alertsOf_app, H1, H2. Qed.

Lemma checkPrice_no_stock msg thr s o n src :
  noneOf isStockAlert src (checkPrice msg thr s o n).
Proof. unfold noneOf, checkPrice, createAlert, alertsOf. by_tests. Qed.

Lemma checkStock_no_price name om bm sev s o n src :
  noneOf isPriceAlert src (checkStock name om bm sev s o n).
Proof. unfold noneOf, checkStock, createAlert, alertsOf. by_tests. Qed.

Lemma checkPrice_no_unavailable msg thr s o n src :
  noneOf isSupplierUnavailable src (checkPrice msg thr s o n).
Proof. unfold noneOf, checkPrice, createAlert, alertsOf. by_tests. Qed.

Lemma checkStock_no_unavailable name om bm sev s o n src :
  noneOf isSupplierUnavailable src (checkStock name om bm sev s o n).
Proof. unfold noneOf, checkStock, createAlert, alertsOf. by_tests. Qed.

Lemma checkPrice_ebay_only kind thr s o n src :
  src <> ebay -> noneOf kind src (checkPrice EbayPriceChanged thr s o n).
Proof.
  unfold noneOf, checkPrice, createAlert, alertsOf. intros H.
  split_tests; try reflexivity; destruct src; try congruence; simpl;
    rewrite andb_false_r; reflexivity.
Qed.

Lemma checkPrice_supplier_only kind thr s o n src :
  src <> supplier -> noneOf kind src (checkPrice SupplierPriceChanged thr s o n).
Proof.
  unfold noneOf, checkPrice, createAlert, alertsOf. intros H.
  split_tests; try reflexivity; destruct src; try congruence; simpl;
    rewrite andb_false_r; reflexivity.
Qed.

Lemma checkStock_ebay_only kind s o n src :
  src <> ebay ->
  noneOf kind src (checkStock "ebay" NowOutOfStockOnEbay BackInStockOnEbay high s o n).
Proof.
  unfold noneOf, checkStock, createAlert, alertsOf. intros H.
  split_tests; try reflexivity; destruct src; try congruence; simpl;
    rewrite andb_false_r; reflexivity.
Qed.

Lemma checkStock_supplier_only kind s o n src :
  src <> supplier ->
  noneOf kind src
    (checkStock "supplier" NowOutOfStockAtSupplier BackInStockAtSupplier critical s o n).
Proof.
  unfold noneOf, checkStock, createAlert, alertsOf. intros H.
  split_tests; try reflexivity; destruct src; try congruence; simpl;
    rewrite andb_false_r; reflexivity.
Qed.

Section Steps.
Variable trim : string -> string.
Variable toFixed2 : float -> float.
Variable env : Env.
Variable settings : Settings.
Variable now : Z.

(** The alerts and history rows each step creates, taken from the
    step itself run on a state with empty lists. *)
Definition ebayAlerts (old : Product) ans : list Alert :=
  alerts (ebayStep trim env settings old ans (mkState old false [] [] false)).

Definition supplierAlerts (old cur : Product) ans : list Alert :=
  alerts (supplierStep env settings old ans (mkState cur false [] [] false)).

Definition competitorAlerts (cur : Product) ans : list Alert :=
  alerts (competitorStep env settings ans (mkState cur false [] [] false)).

Definition ebayRows (old : Product) ans : list PriceHistoryEntry :=
  history (ebayStep trim env settings old ans (mkState old false [] [] false)).

Definition supplierRows (old cur : Product) ans : list PriceHistoryEntry :=
  history (supplierStep env settings old ans (mkState cur false [] [] false)).

Definition competitorRows (cur : Product) ans : list PriceHistoryEntry :=
  history (competitorStep env settings ans (mkState cur false [] [] false)).

Lemma ebayStep_appends old ans (st : State) :
  alerts (ebayStep trim env settings old ans st) = alerts st ++ ebayAlerts old ans /\
  history (ebayStep trim env settings old ans st) = history st ++ ebayRows old ans.
Proof.
  unfold ebayAlerts, ebayRows, ebayStep.
  destruct ans as [[d|]|e]; simpl; rewrite ?app_nil_r; auto.
  destruct (is_nan (EbayAdapter.price d)); simpl; rewrite ?app_nil_r; auto.
Qed.

Lemma supplierStep_appends old ans (st : State) :
  alerts (supplierStep env settings old ans st)
    = alerts st ++ supplierAlerts old (product st) ans /\
  history (supplierStep env settings old ans st)
    = history st ++ supplierRows old (product st) ans.
Proof.
  unfold supplierAlerts, supplierRows, supplierStep, supplierCaught. simpl.
  destruct (supplierUrl (product st)) as [url|]; simpl; rewrite ?app_nil_r; auto.
  destruct (String_truthy url); simpl; rewrite ?app_nil_r; auto.
  destruct ans as [[d|]|e]; simpl; rewrite ?app_nil_r; auto.
  destruct (is_nan (supplierDataPrice d)); simpl; rewrite ?app_nil_r; auto.
Qed.

Lemma competitorStep_appends ans (st : State) :
  alerts (competitorStep env settings ans st)
    = alerts st ++ competitorAlerts (product st) ans /\
  history (competitorStep env settings ans st)
    = history st ++ competitorRows (product st) ans.
Proof.
  unfold competitorAlerts, competitorRows, competitorStep.
  destruct ans as [[i|]|e]; simpl; rewrite ?app_nil_r; auto.
  destruct (listings i); destruct (summary i) as [c|]; simpl; rewrite ?app_nil_r; auto;
    destruct (Number_truthy (lowestPrice c) && Number_truthy (ebayPrice (product st)));
    simpl; rewrite ?app_nil_r; auto.
Qed.

Lemma finish_keeps (st : State) :
  alerts (finish toFixed2 now st) = alerts st /\
  history (finish toFixed2 now st) = history st /\
  hasChanges (finish toFixed2 now st) = hasChanges st.
Proof. unfold finish. destruct (hasChanges st) eqn:H; simpl; auto. Qed.

Lemma finish_castFailed (st : State) :
  castFailed (finish toFixed2 now st)
  = castFailed st || (hasChanges st && negb (profitCasts (product st))).
Proof.
  unfold finish. destruct (hasChanges st); cbn [castFailed andb];
    [|now rewrite orb_false_r].
  destruct (product st); reflexivity.
Qed.

(** The product after the first two steps. *)
Definition afterEbay (p : Product) (up : Upstream) : State :=
  ebayStep trim env settings p (ebayAnswer up) (mkState p false [] [] false).

Definition afterSupplier (p : Product) (up : Upstream) : State :=
  supplierStep env settings p (supplierAnswer up) (afterEbay p up).

(** The alerts of a check are those of its three steps, in order, and
    so are its history rows. *)
Lemma checkProduct_alerts (p : Product) (up : Upstream) :
  alerts (checkProduct trim toFixed2 env settings now p up)
  = ebayAlerts p (ebayAnswer up)
    ++ supplierAlerts p (product (afterEbay p up)) (supplierAnswer up)
    ++ competitorAlerts (product (afterSupplier p up)) (competitorAnswer up).
Proof.
  unfold checkProduct. cbv zeta.
  rewrite (proj1 (finish_keeps _)).
  rewrite (proj1 (competitorStep_appends _ _)).
  fold (afterEbay p up). fold (afterSupplier p up).
  unfold afterSupplier at 1.
  rewrite (proj1 (supplierStep_appends _ _ _)).
  unfold afterEbay at 1.
  rewrite (proj1 (ebayStep_appends _ _ _)). simpl.
  now rewrite app_assoc.
Qed.

Lemma checkProduct_history (p : Product) (up : Upstream) :
  history (checkProduct trim toFixed2 env settings now p up)
  = ebayRows p (ebayAnswer up)
    ++ supplierRows p (product (afterEbay p up)) (supplierAnswer up)
    ++ competitorRows (product (afterSupplier p up)) (competitorAnswer up).
Proof.
  unfold checkProduct. cbv zeta.
  rewrite (proj1 (proj2 (finish_keeps _))).
  rewrite (proj2 (competitorStep_appends _ _)).
  fold (afterEbay p up). fold (afterSupplier p up).
  unfold afterSupplier at 1.
  rewrite (proj2 (supplierStep_appends _ _ _)).
  unfold afterEbay at 1.
  rewrite (proj2 (ebayStep_appends _ _ _)). simpl.
  now rewrite app_assoc.
Qed.

(** The alerts of the marketplace step and of the supplier step when
    the source answered with data, whatever the price is. *)
Lemma ebayAlerts_data old d :
  ebayAlerts old (Resolved (Some d))
  = checkPrice EbayPriceChanged (effectiveThreshold env settings) settings
      (ebayPrice old) (EbayAdapter.price d)
    ++ checkStock "ebay" NowOutOfStockOnEbay BackInStockOnEbay high settings
         (stockStatus old) (EbayAdapter.stock d).
Proof.
  unfold ebayAlerts, ebayStep. destruct (is_nan (EbayAdapter.price d)); reflexivity.
Qed.

(** The [supplier_unavailable] alert of the [catch] of the supplier
    step. *)
Definition unavailableAlerts (old : Product) : list Alert :=
  if shouldAlert supplierUnavailable settings
     && negb (StockStatus_eqb (supplierStockStatus old) unknown)
  then [mkAlert supplier_unavailable (MString "available") (MString "unavailable")
          UnableToFetchFromSupplier high]
  else [].

Lemma supplierAlerts_data old cur url d :
  supplierUrl cur = Some url -> String_truthy url = true ->
  supplierAlerts old cur (Resolved (Some d))
  = checkPrice SupplierPriceChanged (effectiveThreshold env settings) settings
      (supplierPrice old) (supplierDataPrice d)
    ++ checkStock "supplier" NowOutOfStockAtSupplier BackInStockAtSupplier critical
         settings (supplierStockStatus old) (supplierDataStock d)
    ++ if is_nan (supplierDataPrice d) then unavailableAlerts old else [].
Proof.
  intros Hu Ht. unfold supplierAlerts, supplierStep, supplierCaught, unavailableAlerts.
  cbn [product]. rewrite Hu, Ht.
  destruct (is_nan (supplierDataPrice d)); cbn [alerts app createAlert].
  - now rewrite <- app_assoc.
  - now rewrite app_nil_r.
Qed.

Lemma supplierAlerts_rejected old cur url e :
  supplierUrl cur = Some url -> String_truthy url = true ->
  supplierAlerts old cur (Rejected e) = unavailableAlerts old.
Proof.
  intros Hu Ht. unfold supplierAlerts, supplierStep, supplierCaught, unavailableAlerts.
  cbn [product]. rewrite Hu, Ht. reflexivity.
Qed.

Lemma unavailableAlerts_own kind src old :
  src <> supplier -> noneOf kind src (unavailableAlerts old).
Proof.
  intros H. unfold noneOf, alertsOf, unavailableAlerts. split_tests; try reflexivity.
  destruct src; try congruence; simpl; rewrite andb_false_r; reflexivity.
Qed.

Lemma unavailable_no_price old (x : float) :
  alertsOf isPriceAlert supplier (if is_nan x then unavailableAlerts old else []) = [].
Proof. unfold alertsOf, unavailableAlerts. split_tests; reflexivity. Qed.

Lemma unavailable_no_stock old (x : float) :
  alertsOf isStockAlert supplier (if is_nan x then unavailableAlerts old else []) = [].
Proof. unfold alertsOf, unavailableAlerts. split_tests; reflexivity. Qed.

(** Each step only creates alerts about its own source. *)
Lemma ebayAlerts_own kind src old ans :
  src <> ebay -> noneOf kind src (ebayAlerts old ans).
Proof.
  intros H. destruct ans as [[d|]|e]; try reflexivity.
  rewrite ebayAlerts_data.
  apply noneOf_app; [apply checkPrice_ebay_only | apply checkStock_ebay_only]; assumption.
Qed.

Lemma supplierAlerts_own kind src old cur ans :
  src <> supplier -> noneOf kind src (supplierAlerts old cur ans).
Proof.
  intros H.
  destruct (supplierUrl cur) as [url|] eqn:Hu;
    [|unfold supplierAlerts, supplierStep; cbn [product]; now rewrite Hu].
  destruct (String_truthy url) eqn:Ht;
    [|unfold supplierAlerts, supplierStep; cbn [product]; now rewrite Hu, Ht].
  destruct ans as [[d|]|e].
  - rewrite (@supplierAlerts_data old cur url d Hu Ht).
    apply noneOf_app; [now apply checkPrice_supplier_only|].
    apply noneOf_app; [now apply checkStock_supplier_only|].
    destruct (is_nan (supplierDataPrice d)); [now apply unavailableAlerts_own|reflexivity].
  - unfold supplierAlerts, supplierStep; cbn [product]; now rewrite Hu, Ht.
  - rewrite (@supplierAlerts_rejected old cur url e Hu Ht). now apply unavailableAlerts_own.
Qed.

Lemma competitorAlerts_own kind src cur ans :
  src <> competitor -> noneOf kind src (competitorAlerts cur ans).
Proof.
  intros H. unfold competitorAlerts, competitorStep.
  destruct ans as [[i|]|e]; try reflexivity.
  destruct (listings i); destruct (summary i) as [c|]; try reflexivity; simpl;
    destruct (Number_truthy (lowestPrice c) && Number_truthy (ebayPrice cur));
    try reflexivity; simpl;
    unfold noneOf, alertsOf, createAlert; split_tests; try reflexivity;
    destruct src; try congruence; simpl; rewrite andb_false_r; reflexivity.
Qed.

(** The alerts of a check about the marketplace are those of the
    marketplace step, and likewise for the supplier. *)
Lemma checkProduct_ebay_alerts kind (p : Product) (up : Upstream) :
  alertsOf kind ebay (alerts (checkProduct trim toFixed2 env settings now p up))
  = alertsOf kind ebay (ebayAlerts p (ebayAnswer up)).
Proof.
  rewrite checkProduct_alerts, !alertsOf_app.
  rewrite (supplierAlerts_own kind (src := ebay)) by discriminate.
  rewrite (competitorAlerts_own kind (src := ebay)) by discriminate.
  now rewrite !app_nil_r.
Qed.

Lemma checkProduct_supplier_alerts kind (p : Product) (up : Upstream) :
  alertsOf kind supplier (alerts (checkProduct trim toFixed2 env settings now p up))
  = alertsOf kind supplier
      (supplierAlerts p (product (afterEbay p up)) (supplierAnswer up)).
Proof.
  rewrite checkProduct_alerts, !alertsOf_app.
  rewrite (ebayAlerts_own kind (src := supplier)) by discriminate.
  rewrite (competitorAlerts_own kind (src := supplier)) by discriminate.
  now rewrite !app_nil_r.
Qed.

(** The marketplace step leaves the supplier fields of the product
    alone. *)
Lemma afterEbay_supplier_fields (p : Product) (up : Upstream) :
  supplierUrl (product (afterEbay p up)) = supplierUrl p /\
  supplierPrice (product (afterEbay p up)) = supplierPrice p /\
  supplierStockStatus (product (afterEbay p up)) = supplierStockStatus p.
Proof.
  unfold afterEbay, ebayStep. destruct (ebayAnswer up) as [[d|]|e]; simpl; auto.
  destruct (is_nan (EbayAdapter.price d)); simpl; auto.
Qed.

(** The fields of a product that the marketplace and supplier checks
    read and write. *)
Definition monitored (p : Product) :=
  (title p, ebayPrice p, stockStatus p, images p,
   supplierUrl p, supplierPrice p, supplierStockStatus p).

Lemma competitorStep_monitored ans (st : State) :
  monitored (product (competitorStep env settings ans st)) = monitored (product st).
Proof.
  unfold competitorStep. destruct ans as [[i|]|e]; try reflexivity.
  destruct (listings i); destruct (summary i) as [c|]; try reflexivity;
    destruct (Number_truthy (lowestPrice c) && Number_truthy (ebayPrice (product st)));
    reflexivity.
Qed.

Lemma finish_monitored (st : State) :
  monitored (product (finish toFixed2 now st)) = monitored (product st).
Proof.
  unfold finish, calculateProfit. destruct (hasChanges st); try reflexivity. simpl.
  match goal with |- context [if ?c then _ else _] => destruct c end; reflexivity.
Qed.

Lemma competitorStep_hasChanges ans (st : State) :
  hasChanges st = true -> hasChanges (competitorStep env settings ans st) = true.
Proof.
  intros H. unfold competitorStep. destruct ans as [[i|]|e]; try assumption.
  destruct (listings i); destruct (summary i) as [c|]; try assumption; try reflexivity;
    destruct (Number_truthy (lowestPrice c) && Number_truthy (ebayPrice (product st)));
    try assumption; reflexivity.
Qed.

(** What a check leaves in the monitored fields of the product object:
    those the supplier step left. *)
Lemma checkProduct_monitored (p : Product) (up : Upstream) :
  monitored (product (checkProduct trim toFixed2 env settings now p up))
  = monitored (product (afterSupplier p up)).
Proof.
  unfold checkProduct. cbv zeta.
  now rewrite finish_monitored, competitorStep_monitored.
Qed.

Lemma checkProduct_hasChanges (p : Product) (up : Upstream) :
  hasChanges (afterSupplier p up) = true ->
  hasChanges (checkProduct trim toFixed2 env settings now p up) = true.
Proof.
  intros H. unfold checkProduct. cbv zeta.
  rewrite (proj2 (proj2 (finish_keeps _))).
  now apply competitorStep_hasChanges.
Qed.

(** *** What the schema refuses *)

(** Whether the values a check assigns to the product cast: the
    marketplace price, the supplier price (read only when the product
    has a supplier URL), and the numbers of the competitor data. *)
Definition ebayCasts (up : Upstream) : bool :=
  match ebayAnswer up with
  | Resolved (Some d) => negb (is_nan (EbayAdapter.price d))
  | _ => true
  end.

Definition supplierCasts (p : Product) (up : Upstream) : bool :=
  match supplierUrl p with
  | Some url =>
      if String_truthy url then
        match supplierAnswer up with
        | Resolved (Some d) => negb (is_nan (supplierDataPrice d))
        | _ => true
        end
      else true
  | None => true
  end.

Definition competitorCasts (up : Upstream) : bool :=
  match competitorAnswer up with
  | Resolved (Some i) =>
      forallb castsListing (listings i)
      && match summary i with
         | Some c => castsSummary c
         | None => true
         end
  | _ => true
  end.

(** The title a check leaves in the product. *)
Definition titleAfter (p : Product) (up : Upstream) : string :=
  match ebayAnswer up with
  | Resolved (Some d) => trim (EbayAdapter.title d)
  | _ => title p
  end.

(** The two prices a check leaves in the product: the fetched ones
    when they are numbers, the stored ones otherwise. *)
Definition ebayPriceAfter (p : Product) (up : Upstream) : float :=
  match ebayAnswer up with
  | Resolved (Some d) =>
      if is_nan (EbayAdapter.price d) then ebayPrice p else EbayAdapter.price d
  | _ => ebayPrice p
  end.

Definition supplierPriceAfter (p : Product) (up : Upstream) : float :=
  match supplierUrl p with
  | Some url =>
      if String_truthy url then
        match supplierAnswer up with
        | Resolved (Some d) =>
            if is_nan (supplierDataPrice d) then supplierPrice p else supplierDataPrice d
        | _ => supplierPrice p
        end
      else supplierPrice p
  | None => supplierPrice p
  end.

(** Whether the profit of these two prices is a number. *)
Definition profitCastsAfter (p : Product) (up : Upstream) : bool :=
  negb (Number_truthy (ebayPriceAfter p up) && Number_truthy (supplierPriceAfter p up)
        && is_nan (ebayPriceAfter p up - supplierPriceAfter p up)).

(** Whether the schema accepts the product a check leaves. *)
Definition accepted (p : Product) (up : Upstream) : bool :=
  ebayCasts up && supplierCasts p up && competitorCasts up
  && String_truthy (titleAfter p up) && profitCastsAfter p up.

Lemma afterEbay_castFailed (p : Product) (up : Upstream) :
  castFailed (afterEbay p up) = negb (ebayCasts up) /\
  title (product (afterEbay p up)) = titleAfter p up.
Proof.
  unfold afterEbay, ebayStep, ebayCasts, titleAfter.
  destruct (ebayAnswer up) as [[d|]|e]; try (split; reflexivity).
  destruct (is_nan (EbayAdapter.price d)); split; reflexivity.
Qed.

Lemma afterSupplier_castFailed (p : Product) (up : Upstream) :
  castFailed (afterSupplier p up) = negb (ebayCasts up && supplierCasts p up) /\
  title (product (afterSupplier p up)) = titleAfter p up.
Proof.
  destruct (afterEbay_castFailed p up) as [Hc Ht].
  destruct (afterEbay_supplier_fields p up) as (Hu & _ & _).
  unfold afterSupplier, supplierStep, supplierCaught, supplierCasts. cbv zeta.
  rewrite Hu.
  destruct (supplierUrl p) as [url|]; [|rewrite Hc, Ht, andb_true_r; now split].
  destruct (String_truthy url); [|rewrite Hc, Ht, andb_true_r; now split].
  destruct (supplierAnswer up) as [[d|]|e];
    try destruct (is_nan (supplierDataPrice d));
    cbn [castFailed product title negb];
    rewrite ?Hc, ?Ht; split; try reflexivity;
    destruct (ebayCasts up); reflexivity.
Qed.

Lemma competitorStep_castFailed ans (st : State) :
  castFailed (competitorStep env settings ans st)
  = castFailed st
    || negb (competitorCasts (mkUpstream (Resolved None) (Resolved None) ans)).
Proof.
  unfold competitorStep, competitorCasts. cbn [competitorAnswer].
  destruct ans as [[i|]|e]; try now rewrite orb_false_r.
  destruct (summary i) as [c|];
    try destruct (Number_truthy (lowestPrice c) && Number_truthy (ebayPrice (product st)));
    destruct (listings i) as [|l ls]; cbn [castFailed];
    destruct (castFailed st); destruct (forallb castsListing _);
    try destruct (castsSummary c); reflexivity.
Qed.

Lemma afterSupplier_prices (p : Product) (up : Upstream) :
  ebayPrice (product (afterSupplier p up)) = ebayPriceAfter p up /\
  supplierPrice (product (afterSupplier p up)) = supplierPriceAfter p up.
Proof.
  destruct (afterEbay_supplier_fields p up) as (Hu & Hp & _).
  assert (He : ebayPrice (product (afterEbay p up)) = ebayPriceAfter p up).
  { unfold afterEbay, ebayStep, ebayPriceAfter.
    destruct (ebayAnswer up) as [[d|]|e]; try reflexivity.
    destruct (is_nan (EbayAdapter.price d)); reflexivity. }
  unfold afterSupplier, supplierStep, supplierCaught, supplierPriceAfter. cbv zeta.
  rewrite Hu.
  destruct (supplierUrl p) as [url|]; [|now split].
  destruct (String_truthy url); [|now split].
  destruct (supplierAnswer up) as [[d|]|e];
    try destruct (is_nan (supplierDataPrice d));
    cbn [product ebayPrice supplierPrice]; now split.
Qed.

Lemma profitCasts_prices (q q' : Product) :
  ebayPrice q = ebayPrice q' -> supplierPrice q = supplierPrice q' ->
  profitCasts q = profitCasts q'.
Proof. intros He Hs. unfold profitCasts. now rewrite He, Hs. Qed.

Lemma checkProduct_castFailed (p : Product) (up : Upstream) :
  castFailed (checkProduct trim toFixed2 env settings now p up)
  = negb (ebayCasts up && supplierCasts p up && competitorCasts up)
    || (hasChanges (checkProduct trim toFixed2 env settings now p up)
        && negb (profitCastsAfter p up)).
Proof.
  unfold checkProduct. cbv zeta.
  rewrite finish_castFailed, competitorStep_castFailed, (proj2 (proj2 (finish_keeps _))).
  fold (afterEbay p up). fold (afterSupplier p up).
  rewrite (proj1 (afterSupplier_castFailed p up)).
  pose proof (competitorStep_monitored (competitorAnswer up) (afterSupplier p up)) as Hm.
  unfold monitored in Hm. injection Hm as _ He _ _ _ Hs _.
  destruct (afterSupplier_prices p up) as [He' Hs'].
  assert (Hp : profitCasts
                 (product (competitorStep env settings (competitorAnswer up)
                             (afterSupplier p up)))
               = profitCastsAfter p up).
  { unfold profitCasts, profitCastsAfter. now rewrite He, Hs, He', Hs'. }
  rewrite Hp.
  unfold competitorCasts. cbn [competitorAnswer].
  now rewrite <- negb_andb.
Qed.

Lemma checkProduct_title (p : Product) (up : Upstream) :
  title (product (checkProduct trim toFixed2 env settings now p up)) = titleAfter p up.
Proof.
  pose proof (checkProduct_monitored p up) as Hm. unfold monitored in Hm.
  injection Hm as Ht _ _ _ _ _ _.
  now rewrite Ht, (proj2 (afterSupplier_castFailed p up)).
Qed.

(** The save at the end of a check is refused exactly when a value
    did not cast or the title is empty. *)
Lemma checkProduct_refused (p : Product) (up : Upstream) :
  hasChanges (checkProduct trim toFixed2 env settings now p up) = true ->
  refused (checkProduct trim toFixed2 env settings now p up) = negb (accepted p up).
Proof.
  intros Hc. unfold refused, accepted.
  rewrite checkProduct_castFailed, checkProduct_title, Hc.
  destruct (ebayCasts up), (supplierCasts p up), (competitorCasts up),
    (String_truthy (titleAfter p up)), (profitCastsAfter p up); reflexivity.
Qed.

Lemma checkProduct_saved (p : Product) (up : Upstream) :
  saved (checkProduct trim toFixed2 env settings now p up)
  = hasChanges (checkProduct trim toFixed2 env settings now p up) && accepted p up.
Proof.
  unfold saved.
  destruct (hasChanges (checkProduct trim toFixed2 env settings now p up)) eqn:Hc;
    [|reflexivity].
  now rewrite (checkProduct_refused p up Hc), negb_involutive.
Qed.

End Steps.
End MonitoringFacts.

Module ChangeDetection.
Import MonitoringService MonitoringFacts Fixtures.

Section Rules.
Variable trim : string -> string.
Variable toFixed2 : float -> float.
Variable env : Env.
Variable settings : Settings.
Variable now : Z.

(** The alert the price rule creates for a change from [o] to [n]. *)
Definition priceAlert (msg : float -> float -> float -> Message) (o n : float) : Alert :=
  let pc := percentChangeOf o n in
  mkAlert (if (o <? n)%float then price_increase else price_decrease)
          (MNumber o) (MNumber n) (msg o n pc)
          (if (10 <? abs pc)%float then high else medium).

(** Whether the price rule fires for a change from [o] to [n]: the
    change reaches the threshold in force and its alert type is on. *)
Definition priceRuleFires (o n : float) : bool :=
  (effectiveThreshold env settings <=? abs (percentChangeOf o n))%float
  && shouldAlert (if (o <? n)%float then priceIncrease else priceDecrease) settings.

Lemma checkPrice_rule msg (o n : float) :
  (0 <? o)%float = true -> (n =? o)%float = false ->
  checkPrice msg (effectiveThreshold env settings) settings o n
  = if priceRuleFires o n then [priceAlert msg o n] else [].
Proof.
  intros Ho Hn. unfold checkPrice, priceRuleFires, priceAlert, createAlert.
  rewrite Hn, Ho. simpl.
  destruct (effectiveThreshold env settings <=? abs (percentChangeOf o n))%float;
    simpl; [|reflexivity].
  destruct (shouldAlert _ settings); reflexivity.
Qed.

(** The price rule, for both sources: with a stored price above zero
    and a fetched price different from it, a check creates exactly the
    alert of [priceAlert] when the rule fires and no price alert
    otherwise.  The threshold is the one in force
    ([effectiveThreshold]). *)
Lemma price_alert_rule (p : Product) (up : Upstream) :
  let st := checkProduct trim toFixed2 env settings now p up in
  (forall d, ebayAnswer up = Resolved (Some d) ->
     (0 <? ebayPrice p)%float = true ->
     (EbayAdapter.price d =? ebayPrice p)%float = false ->
     alertsOf isPriceAlert ebay (alerts st)
     = if priceRuleFires (ebayPrice p) (EbayAdapter.price d)
       then [priceAlert EbayPriceChanged (ebayPrice p) (EbayAdapter.price d)] else []) /\
  (forall d url, supplierUrl p = Some url -> String_truthy url = true ->
     supplierAnswer up = Resolved (Some d) ->
     (0 <? supplierPrice p)%float = true ->
     (supplierDataPrice d =? supplierPrice p)%float = false ->
     alertsOf isPriceAlert supplier (alerts st)
     = if priceRuleFires (supplierPrice p) (supplierDataPrice d)
       then [priceAlert SupplierPriceChanged (supplierPrice p) (supplierDataPrice d)]
       else []).
Proof.
  cbv zeta. split.
  - intros d Hd Ho Hn. rewrite checkProduct_ebay_alerts.
    rewrite Hd, ebayAlerts_data.
    rewrite alertsOf_app, checkStock_no_price, app_nil_r, checkPrice_ebay_price.
    now apply checkPrice_rule.
  - intros d url Hurl Ht Hd Ho Hn. rewrite checkProduct_supplier_alerts.
    rewrite Hd, (@supplierAlerts_data env settings p _ url d) by
      (rewrite ?(proj1 (afterEbay_supplier_fields trim env settings p up)); assumption).
    rewrite !alertsOf_app, checkStock_no_price, checkPrice_supplier_price.
    rewrite (@unavailable_no_price settings p (supplierDataPrice d)), app_nil_r.
    now apply checkPrice_rule.
Qed.

End Rules.

(** With every alert type on, no environment variable and the
    threshold 5: from 100 to 104 no alert, to 106 one [price_increase]
    of severity medium, to 116 one [price_increase] of severity high. *)
Lemma price_alert_examples :
  let run n := alerts (checkProduct JsString.trim noRounding noEnv (tenant 5) 0
                         (listed 100 in_stock) (marketplaceOnly (listing n in_stock))) in
  run 104%float = [] /\
  run 106%float = [mkAlert price_increase (MNumber 100) (MNumber 106)
               (EbayPriceChanged 100 106 (percentChangeOf 100 106)) medium] /\
  run 116%float = [mkAlert price_increase (MNumber 100) (MNumber 116)
               (EbayPriceChanged 100 116 (percentChangeOf 100 116)) high].
Proof. cbv zeta. repeat split; vm_compute; reflexivity. Qed.


(** C1.  At a tenant whose price-change threshold is 0 (a value the
    Settings schema and the settings controller accept), a check that
    finds the marketplace price gone from 100 to 101 creates no alert,
    although the change of 1 percent is at least the tenant's
    threshold: the threshold in force is the default 5, because
    [settings.priceChangeThreshold || ... || 5] takes 0 for a missing
    value.  The same check at a tenant with threshold 1 creates the
    [price_increase] alert of severity medium. *)
Theorem checkProduct_ignores_zero_threshold :
  let p := listed 100 in_stock in
  let up := marketplaceOnly (listing 101 in_stock) in
  let run t := alerts (checkProduct JsString.trim noRounding noEnv (tenant t) 0 p up) in
  (0 <=? abs (percentChangeOf 100 101))%float = true /\
  effectiveThreshold noEnv (tenant 0) = 5%float /\
  run 0%float = [] /\
  run 1%float = [mkAlert price_increase (MNumber 100) (MNumber 101)
             (EbayPriceChanged 100 101 (percentChangeOf 100 101)) medium].
Proof. cbv zeta. repeat split; vm_compute; reflexivity. Qed.

(** C4.  With the [outOfStock] alert type on, a check that fetches a
    stock state different from the stored one creates, about that
    source: exactly one [out_of_stock] alert when the new state is
    [out_of_stock] (severity high for the marketplace, critical for
    the supplier); exactly one [back_in_stock] alert of severity medium
    when the old state was [out_of_stock]; and no stock alert for any
    other change. *)
Theorem stock_alert_rule :
  forall (trim : string -> string) (toFixed2 : float -> float) (env : Env)
         (settings : Settings) (now : Z)
         (p : Product) (up : Upstream),
    shouldAlert outOfStock settings = true ->
    let st := checkProduct trim toFixed2 env settings now p up in
    (forall d,
        ebayAnswer up = Resolved (Some d) ->
        EbayAdapter.stock d <> stockStatus p ->
        alertsOf isStockAlert ebay
          (alerts st)
        = if StockStatus_eqb (EbayAdapter.stock d) out_of_stock then
            [mkAlert alert_out_of_stock
               (MString "ebay")
               (MStock (stockStatus p))
               NowOutOfStockOnEbay high]
          else if StockStatus_eqb (stockStatus p) out_of_stock then
            [mkAlert back_in_stock
               (MStock (stockStatus p))
               (MString "ebay")
               BackInStockOnEbay medium]
          else []) /\
    (forall d url,
        supplierUrl p = Some url -> String_truthy url = true ->
        supplierAnswer up = Resolved (Some d) ->
        supplierDataStock d <> supplierStockStatus p ->
        alertsOf isStockAlert supplier
          (alerts st)
        = if StockStatus_eqb (supplierDataStock d) out_of_stock then
            [mkAlert alert_out_of_stock
               (MString "supplier")
               (MStock (supplierStockStatus p))
               NowOutOfStockAtSupplier critical]
          else if StockStatus_eqb (supplierStockStatus p) out_of_stock then
            [mkAlert back_in_stock
               (MStock (supplierStockStatus p))
               (MString "supplier")
               BackInStockAtSupplier medium]
          else []).
Proof.
  intros trim toFixed2 env settings now p up Hon. cbv zeta. split.
  - intros d Hd Hne. rewrite checkProduct_ebay_alerts.
    rewrite Hd, ebayAlerts_data.
    rewrite alertsOf_app, checkPrice_no_stock.
    rewrite checkStock_ebay_stock.
    unfold checkStock, createAlert.
    rewrite (StockStatus_eqb_neq Hne), Hon. reflexivity.
  - intros d url Hurl Ht Hd Hne. rewrite checkProduct_supplier_alerts.
    rewrite Hd, (@supplierAlerts_data env settings p _ url d) by
      (rewrite ?(proj1 (afterEbay_supplier_fields trim env settings p up)); assumption).
    rewrite !alertsOf_app, checkPrice_no_stock.
    rewrite (@unavailable_no_stock settings p (supplierDataPrice d)), app_nil_r.
    rewrite checkStock_supplier_stock.
    unfold checkStock, createAlert.
    rewrite (StockStatus_eqb_neq Hne), Hon. reflexivity.
Qed.

(** The stock rule at a product stored [in_stock] that the marketplace
    now reports [out_of_stock]: one [out_of_stock] alert, severity
    high. *)
Lemma stock_alert_rule_witness :
  alertsOf isStockAlert ebay
    (alerts
       (checkProduct JsString.trim noRounding noEnv
          (tenant 5) 0 (listed 100 in_stock)
          (marketplaceOnly (listing 100 out_of_stock))))
  = [mkAlert alert_out_of_stock
       (MString "ebay") (MStock in_stock)
       NowOutOfStockOnEbay high].
Proof.
  apply (proj1 (stock_alert_rule JsString.trim noRounding noEnv (tenant 5) 0
                  (listed 100 in_stock)
                  (marketplaceOnly (listing 100 out_of_stock))
                  eq_refl)
               (listing 100 out_of_stock)).
  - reflexivity.
  - simpl. discriminate.
Defined.

(** *** Supplier failures *)


Lemma competitorAlerts_only_competitor env settings cur ans :
  filter (fun a => negb (isCompetitorAlert a)) (competitorAlerts env settings cur ans) = [].
Proof.
  unfold competitorAlerts, competitorStep. destruct ans as [[i|]|e]; try reflexivity.
  destruct (listings i); destruct (summary i) as [c|]; try reflexivity; simpl;
    destruct (Number_truthy (lowestPrice c) && Number_truthy (ebayPrice cur));
    try reflexivity; simpl; unfold createAlert; split_tests; reflexivity.
Qed.




(** After such a failure the product object holds [unknown] as the
    supplier stock state, keeps its supplier URL, and [save()] is
    called on it. *)
Lemma unavailable_state trim toFixed2 env settings now p up url e :
  supplierUrl p = Some url -> String_truthy url = true ->
  supplierAnswer up = Rejected e ->
  let st := checkProduct trim toFixed2 env settings now p up in
  supplierStockStatus (product st) = unknown /\
  supplierUrl (product st) = Some url /\
  hasChanges st = true.
Proof.
  intros Hurl Ht He. cbv zeta.
  assert (Hs : supplierStockStatus (product (afterSupplier trim env settings p up)) = unknown
               /\ supplierUrl (product (afterSupplier trim env settings p up)) = Some url
               /\ hasChanges (afterSupplier trim env settings p up) = true).
  { unfold afterSupplier, supplierStep, supplierCaught. cbv zeta.
    rewrite (proj1 (afterEbay_supplier_fields trim env settings p up)), Hurl, Ht, He.
    cbn [product supplierUrl supplierStockStatus hasChanges].
    rewrite ?(proj1 (afterEbay_supplier_fields trim env settings p up)). auto. }
  destruct Hs as (H1 & H2 & H3).
  pose proof (checkProduct_monitored trim toFixed2 env settings now p up) as Hm.
  unfold monitored in Hm. injection Hm as _ _ _ _ Hu _ Hss.
  rewrite Hss, Hu. repeat split; auto.
  now apply checkProduct_hasChanges.
Qed.




(** *** A marketplace failure *)

(** C10.  When the marketplace fetch throws, the check leaves the
    product's marketplace price, stock state, title and images as they
    were, creates no alert about the marketplace and no history row of
    source [ebay], and is the supplier step followed by the competitor
    step and the final save, run from the untouched product. *)
Theorem marketplace_failure_frame :
  forall (trim : string -> string) (toFixed2 : float -> float) (env : Env)
         (settings : Settings) (now : Z)
         (p : Product) (up : Upstream) (e : Error),
    ebayAnswer up = Rejected e ->
    let st := checkProduct trim toFixed2 env settings now p up in
    ebayPrice (product st) = ebayPrice p /\
    stockStatus (product st) = stockStatus p /\
    title (product st) = title p /\
    images (product st) = images p /\
    alertsOf (fun _ => true) ebay (alerts st) = [] /\
    entriesOf ebay (history st) = [] /\
    st = finish toFixed2 now
           (competitorStep env settings (competitorAnswer up)
              (supplierStep env settings p (supplierAnswer up) (mkState p false [] [] false))).
Proof.
  intros trim toFixed2 env settings now p up e He. cbv zeta.
  assert (Hpipe : checkProduct trim toFixed2 env settings now p up
                  = finish toFixed2 now
                      (competitorStep env settings (competitorAnswer up)
                         (supplierStep env settings p (supplierAnswer up)
                            (mkState p false [] [] false)))).
  { unfold checkProduct. rewrite He. reflexivity. }
  assert (Hae : afterEbay trim env settings p up = mkState p false [] [] false).
  { unfold afterEbay. rewrite He. reflexivity. }
  pose proof (checkProduct_monitored trim toFixed2 env settings now p up) as Hm.
  assert (Hsup : forall st0,
             (title (product (supplierStep env settings p (supplierAnswer up) st0)),
              ebayPrice (product (supplierStep env settings p (supplierAnswer up) st0)),
              stockStatus (product (supplierStep env settings p (supplierAnswer up) st0)),
              images (product (supplierStep env settings p (supplierAnswer up) st0)))
             = (title (product st0), ebayPrice (product st0),
                stockStatus (product st0), images (product st0))).
  { intros st0. unfold supplierStep, supplierCaught. cbv zeta.
    destruct (supplierUrl (product st0)) as [url|]; try reflexivity.
    destruct (String_truthy url); try reflexivity.
    destruct (supplierAnswer up) as [[d|]|e']; try reflexivity.
    destruct (is_nan (supplierDataPrice d)); reflexivity. }
  unfold monitored, afterSupplier in Hm. rewrite Hae in Hm.
  injection Hm as Ht Hp Hs Hi _ _ _.
  specialize (Hsup (mkState p false [] [] false)). simpl in Hsup.
  injection Hsup as Ht' Hp' Hs' Hi'.
  repeat split; try congruence.
  - rewrite checkProduct_ebay_alerts. unfold ebayAlerts. rewrite He. reflexivity.
  - rewrite checkProduct_history. unfold entriesOf. rewrite !filter_app.
    unfold ebayRows. rewrite He. simpl.
    assert (Hs0 : forall old cur ans,
               filter (fun x => Source_eqb (entrySource x) ebay)
                      (supplierRows env settings old cur ans) = []).
    { intros old cur ans. unfold supplierRows, supplierStep, supplierCaught. simpl.
      destruct (supplierUrl cur) as [url|]; try reflexivity.
      destruct (String_truthy url); try reflexivity.
      destruct ans as [[d|]|e']; try reflexivity.
      destruct (is_nan (supplierDataPrice d)); reflexivity. }
    assert (Hc0 : forall cur ans,
               filter (fun x => Source_eqb (entrySource x) ebay)
                      (competitorRows env settings cur ans) = []).
    { intros cur ans. unfold competitorRows, competitorStep.
      destruct ans as [[i|]|e']; try reflexivity.
      destruct (listings i); destruct (summary i) as [c|]; try reflexivity; simpl;
        destruct (Number_truthy (lowestPrice c) && Number_truthy (ebayPrice cur));
        reflexivity. }
    now rewrite Hs0, Hc0.
Qed.

(** The marketplace times out while the supplier reports a new price:
    the marketplace fields stay, the supplier row is written. *)
Lemma marketplace_failure_frame_witness :
  let p := supplied 100 in_stock 60 in_stock in
  let up := supplierOnly (mkSupplierData "Widget" 66 in_stock []) in
  let st := checkProduct JsString.trim noRounding noEnv (tenant 5) 0 p up in
  ebayPrice (product st) = 100%float /\
  entriesOf ebay (history st) = [] /\
  history st = [mkEntry supplier 66 in_stock].
Proof.
  cbv zeta.
  destruct (marketplace_failure_frame JsString.trim noRounding noEnv (tenant 5) 0
              (supplied 100 in_stock 60 in_stock)
              (supplierOnly (mkSupplierData "Widget" 66 in_stock []))
              (e := "timeout"%string) eq_refl) as (H1 & _ & _ & _ & _ & H2 & H3).
  split; [exact H1 | split; [exact H2 | rewrite H3; reflexivity]].
Defined.

(** *** Checking again *)

Section Twice.
Variable trim : string -> string.
Variable toFixed2 : float -> float.
Variable env : Env.
Variable settings : Settings.

Lemma supplierStep_ebay_fields old ans (st : State) :
  let st' := supplierStep env settings old ans st in
  ebayPrice (product st') = ebayPrice (product st) /\
  stockStatus (product st') = stockStatus (product st) /\
  (hasChanges st = true -> hasChanges st' = true).
Proof.
  cbv zeta. unfold supplierStep, supplierCaught. cbv zeta.
  destruct (supplierUrl (product st)) as [url|]; auto.
  destruct (String_truthy url); auto.
  destruct ans as [[d|]|e]; auto.
  destruct (is_nan (supplierDataPrice d)); auto.
Qed.

(** A product agrees with the upstream answers when it holds the
    price and stock state of every source that answers with data, and
    [unknown] as the supplier stock state when the supplier fetch
    throws. *)
Definition agrees (up : Upstream) (q : Product) : Prop :=
  match ebayAnswer up with
  | Resolved (Some d) =>
      ebayPrice q = EbayAdapter.price d /\ stockStatus q = EbayAdapter.stock d
  | _ => True
  end /\
  match supplierUrl q with
  | Some url =>
      if String_truthy url then
        match supplierAnswer up with
        | Resolved (Some d) =>
            supplierPrice q = supplierDataPrice d /\
            supplierStockStatus q = supplierDataStock d
        | Resolved None => True
        | Rejected _ => supplierStockStatus q = unknown
        end
      else True
  | None => True
  end.

Lemma agrees_monitored (up : Upstream) (a b : Product) :
  monitored a = monitored b -> agrees up a -> agrees up b.
Proof.
  unfold monitored, agrees. intros H. injection H as _ Hp Hs _ Hu Hsp Hss.
  now rewrite Hp, Hs, Hu, Hsp, Hss.
Qed.

(** What the first two steps leave in the supplier fields. *)
Lemma afterSupplier_supplier_fields (p : Product) (up : Upstream) :
  let st := afterSupplier trim env settings p up in
  supplierUrl (product st) = supplierUrl p /\
  match supplierUrl p with
  | Some url =>
      if String_truthy url then
        match supplierAnswer up with
        | Resolved (Some d) =>
            if is_nan (supplierDataPrice d) then
              supplierPrice (product st) = supplierPrice p /\
              supplierStockStatus (product st) = unknown
            else
              supplierPrice (product st) = supplierDataPrice d /\
              supplierStockStatus (product st) = supplierDataStock d
        | Resolved None => True
        | Rejected _ => supplierStockStatus (product st) = unknown
        end
      else True
  | None => True
  end.
Proof.
  cbv zeta. unfold afterSupplier, supplierStep, supplierCaught. cbv zeta.
  destruct (afterEbay_supplier_fields trim env settings p up) as (Hu & Hp & _).
  rewrite Hu.
  destruct (supplierUrl p) as [url|] eqn:Hurl; [|auto].
  destruct (String_truthy url); [|auto].
  destruct (supplierAnswer up) as [[d|]|e];
    try destruct (is_nan (supplierDataPrice d));
    cbn [product hasChanges supplierUrl supplierPrice supplierStockStatus]; auto.
Qed.

(** What the first two steps leave agrees with the answers, when the
    prices cast. *)
Lemma afterSupplier_agrees (q : Product) (up : Upstream) :
  ebayCasts up = true -> supplierCasts q up = true ->
  agrees up (product (afterSupplier trim env settings q up)).
Proof.
  unfold ebayCasts, supplierCasts, agrees. intros He Hs.
  pose proof (supplierStep_ebay_fields q (supplierAnswer up) (afterEbay trim env settings q up))
    as (Hp & Hst & _).
  fold (afterSupplier trim env settings q up) in Hp, Hst.
  destruct (afterSupplier_supplier_fields q up) as (Hu & Hf).
  split.
  - rewrite Hp, Hst. unfold afterEbay, ebayStep.
    destruct (ebayAnswer up) as [[d|]|e]; auto.
    destruct (is_nan (EbayAdapter.price d)); [discriminate|]. now split.
  - rewrite Hu.
    destruct (supplierUrl q) as [url|]; [|exact I].
    destruct (String_truthy url); [|exact I].
    destruct (supplierAnswer up) as [[d|]|e]; auto.
    destruct (is_nan (supplierDataPrice d)); [discriminate|exact Hf].
Qed.

(** A price compared with itself raises no alert, and neither does a
    stock state. *)
Lemma checkPrice_same msg thr (x : float) : checkPrice msg thr settings x x = [].
Proof.
  unfold checkPrice. destruct (0 <? x)%float eqn:Hx.
  - now rewrite (positive_eqb_refl Hx).
  - now rewrite andb_false_r.
Qed.

Lemma checkStock_same name om bm sev (s : StockStatus) :
  checkStock name om bm sev settings s s = [].
Proof. unfold checkStock. now rewrite StockStatus_eqb_refl. Qed.

(** A check of a product that agrees with the answers raises no
    marketplace alert and no supplier alert. *)
Lemma agreeing_check_quiet (q : Product) (up : Upstream) :
  agrees up q -> supplierCasts q up = true ->
  ebayAlerts trim env settings q (ebayAnswer up) = [] /\
  supplierAlerts env settings q (product (afterEbay trim env settings q up))
    (supplierAnswer up) = [].
Proof.
  unfold agrees, supplierCasts. intros [Heb Hsup] Hc.
  split.
  - destruct (ebayAnswer up) as [[d|]|e]; try reflexivity.
    rewrite ebayAlerts_data. destruct Heb as (H1 & H2). rewrite H1, H2.
    now rewrite checkPrice_same, checkStock_same.
  - pose proof (proj1 (afterEbay_supplier_fields trim env settings q up)) as Hu.
    destruct (supplierUrl q) as [url|] eqn:Hq;
      [|unfold supplierAlerts, supplierStep; cbn [product]; now rewrite Hu].
    destruct (String_truthy url) eqn:Ht;
      [|unfold supplierAlerts, supplierStep; cbn [product]; now rewrite Hu, Ht].
    destruct (supplierAnswer up) as [[d|]|e].
    + rewrite (@supplierAlerts_data env settings q _ url d Hu Ht).
      destruct Hsup as (H1 & H2). rewrite H1, H2.
      rewrite checkPrice_same, checkStock_same.
      destruct (is_nan (supplierDataPrice d)); [discriminate|reflexivity].
    + unfold supplierAlerts, supplierStep; cbn [product]; now rewrite Hu, Ht.
    + rewrite (@supplierAlerts_rejected env settings q _ url e Hu Ht).
      unfold unavailableAlerts. rewrite Hsup. cbn. now rewrite andb_false_r.
Qed.

(** The marketplace price a check leaves in the product: the fetched
    one when the marketplace answered with a price that is a number,
    the stored one otherwise. *)
Definition currentPrice (p : Product) (up : Upstream) : float :=
  match ebayAnswer up with
  | Resolved (Some d) =>
      if is_nan (EbayAdapter.price d) then ebayPrice p else EbayAdapter.price d
  | _ => ebayPrice p
  end.

Lemma afterSupplier_ebayPrice (p : Product) (up : Upstream) :
  ebayPrice (product (afterSupplier trim env settings p up)) = currentPrice p up.
Proof.
  unfold afterSupplier.
  rewrite (proj1 (supplierStep_ebay_fields p (supplierAnswer up) _)).
  unfold afterEbay, ebayStep, currentPrice.
  destruct (ebayAnswer up) as [[d|]|e]; try reflexivity.
  destruct (is_nan (EbayAdapter.price d)); reflexivity.
Qed.

(** What the stored product keeps from one check to the next,
    whether the check was saved or not: the supplier URL, the
    marketplace price the next check will compare with, and the title
    it will leave. *)
Lemma stored_keeps (now : Z) (p : Product) (up : Upstream) :
  let q := stored p (checkProduct trim toFixed2 env settings now p up) in
  supplierUrl q = supplierUrl p /\
  currentPrice q up = currentPrice p up /\
  titleAfter trim q up = titleAfter trim p up.
Proof.
  cbv zeta.
  pose proof (checkProduct_monitored trim toFixed2 env settings now p up) as Hm.
  unfold monitored in Hm. injection Hm as _ Hp _ _ Hu _ _.
  rewrite afterSupplier_ebayPrice in Hp.
  rewrite (proj1 (afterSupplier_supplier_fields p up)) in Hu.
  pose proof (checkProduct_title trim toFixed2 env settings now p up) as Ht.
  unfold stored.
  destruct (saved (checkProduct trim toFixed2 env settings now p up));
    [|repeat split; reflexivity].
  split; [exact Hu|]. split.
  - unfold currentPrice in *. rewrite Hp.
    destruct (ebayAnswer up) as [[d|]|e]; try reflexivity.
    destruct (is_nan (EbayAdapter.price d)); reflexivity.
  - unfold titleAfter in *. rewrite Ht.
    destruct (ebayAnswer up) as [[d|]|e]; reflexivity.
Qed.

(** The stored product after a check that was saved agrees with the
    answers, and a product that agrees still does after a check. *)
Lemma stored_agrees (now : Z) (q : Product) (up : Upstream) :
  let st := checkProduct trim toFixed2 env settings now q up in
  saved st = true \/ agrees up q -> agrees up (stored q st).
Proof.
  cbv zeta. intros H. unfold stored.
  destruct (saved (checkProduct trim toFixed2 env settings now q up)) eqn:Hs.
  - rewrite checkProduct_saved in Hs. apply andb_true_iff in Hs. destruct Hs as [_ Ha].
    unfold accepted in Ha. rewrite !andb_true_iff in Ha.
    destruct Ha as ((((He & Hsc) & _) & _) & _).
    apply (@agrees_monitored up (product (afterSupplier trim env settings q up))).
    + symmetry. apply checkProduct_monitored.
    + now apply afterSupplier_agrees.
  - destruct H as [H|H]; [discriminate|exact H].
Qed.

(** The competitor alerts of a check depend on the product through
    its marketplace price only. *)
Lemma competitorAlerts_price (a b : Product) ans :
  ebayPrice a = ebayPrice b ->
  competitorAlerts env settings a ans = competitorAlerts env settings b ans.
Proof.
  intros H. unfold competitorAlerts, competitorStep. destruct ans as [[i|]|e]; try reflexivity.
  destruct (listings i); destruct (summary i) as [c|]; try reflexivity; cbn [product];
    rewrite H;
    destruct (Number_truthy (lowestPrice c) && Number_truthy (ebayPrice b)); reflexivity.
Qed.

Lemma filter_all (A : Type) (f : A -> bool) (l : list A) :
  filter (fun a => negb (f a)) l = [] -> filter f l = l.
Proof.
  induction l as [|a l IH]; [reflexivity|]. cbn.
  destruct (f a); cbn; [|discriminate]. intros H. now rewrite IH.
Qed.

Lemma filter_none (A : Type) (f g : A -> bool) (l : list A) :
  (forall a, g a = true -> f a = false) -> filter g l = l -> filter f l = [].
Proof.
  intros Hfg. induction l as [|a l IH]; [reflexivity|]. cbn.
  destruct (g a) eqn:Hg.
  - intros H. injection H as H. rewrite (Hfg a Hg). now apply IH.
  - intros H. exfalso.
    assert (Hl : List.length (filter g l) <= List.length l) by apply filter_length_le.
    rewrite H in Hl. cbn in Hl. lia.
Qed.

(** No step but the last creates a [competitor_price] alert. *)
Lemma ebayAlerts_no_competitor old ans :
  filter isCompetitorAlert (ebayAlerts trim env settings old ans) = [].
Proof.
  destruct ans as [[d|]|e]; try reflexivity. rewrite ebayAlerts_data.
  rewrite filter_app. unfold checkPrice, checkStock, createAlert.
  split_tests; reflexivity.
Qed.

Lemma supplierAlerts_no_competitor old cur ans :
  filter isCompetitorAlert (supplierAlerts env settings old cur ans) = [].
Proof.
  unfold supplierAlerts, supplierStep, supplierCaught. cbn [product].
  destruct (supplierUrl cur) as [url|]; try reflexivity.
  destruct (String_truthy url); try reflexivity.
  destruct ans as [[d|]|e]; try reflexivity;
    try destruct (is_nan (supplierDataPrice d)); cbn [alerts app];
    rewrite ?filter_app; unfold checkPrice, checkStock, createAlert;
    split_tests; reflexivity.
Qed.

(** The [competitor_price] alerts of a check are those of its last
    step. *)
Lemma competitor_alerts_of_check (now : Z) (p : Product) (up : Upstream) :
  filter isCompetitorAlert (alerts (checkProduct trim toFixed2 env settings now p up))
  = competitorAlerts env settings (product (afterSupplier trim env settings p up))
      (competitorAnswer up).
Proof.
  rewrite checkProduct_alerts, !filter_app.
  rewrite ebayAlerts_no_competitor, supplierAlerts_no_competitor. cbn [app].
  apply filter_all, competitorAlerts_only_competitor.
Qed.

(** The stored product after [n] checks in a row against the same
    answers, the check number [k] (from 0) ending at the time
    [times k]. *)
Fixpoint storedAfter (times : nat -> Z) (n : nat) (p : Product) (up : Upstream) : Product :=
  match n with
  | O => p
  | S k =>
      let q := storedAfter times k p up in
      stored q (checkProduct trim toFixed2 env settings (times k) q up)
  end.

Lemma storedAfter_keeps (times : nat -> Z) (n : nat) (p : Product) (up : Upstream) :
  let q := storedAfter times n p up in
  supplierUrl q = supplierUrl p /\
  currentPrice q up = currentPrice p up /\
  titleAfter trim q up = titleAfter trim p up.
Proof.
  cbv zeta. induction n as [|k IH]; [repeat split; reflexivity|].
  cbn [storedAfter].
  destruct (stored_keeps (times k) (storedAfter times k p up) up) as (H1 & H2 & H3).
  destruct IH as (I1 & I2 & I3).
  repeat split; congruence.
Qed.

Lemma storedAfter_agrees (times : nat -> Z) (n : nat) (p : Product) (up : Upstream) :
  saved (checkProduct trim toFixed2 env settings (times 0) p up) = true ->
  agrees up (storedAfter times (S n) p up).
Proof.
  intros Hs. induction n as [|k IH].
  - cbn [storedAfter]. apply stored_agrees. now left.
  - change (storedAfter times (S (S k)) p up)
      with (stored (storedAfter times (S k) p up)
              (checkProduct trim toFixed2 env settings (times (S k))
                 (storedAfter times (S k) p up) up)).
    apply stored_agrees. now right.
Qed.

End Twice.

(** The history rows a check is expected to write for the marketplace
    and for the supplier: one per source that answered with data whose
    price is a number. *)
Definition marketplaceRows (up : Upstream) : list PriceHistoryEntry :=
  match ebayAnswer up with
  | Resolved (Some d) =>
      if is_nan (EbayAdapter.price d) then []
      else [mkEntry ebay (EbayAdapter.price d) (EbayAdapter.stock d)]
  | _ => []
  end.

Definition supplierRowsOf (p : Product) (up : Upstream) : list PriceHistoryEntry :=
  match supplierUrl p with
  | Some url =>
      if String_truthy url then
        match supplierAnswer up with
        | Resolved (Some d) =>
            if is_nan (supplierDataPrice d) then []
            else [mkEntry supplier (supplierDataPrice d) (supplierDataStock d)]
        | _ => []
        end
      else []
  | None => []
  end.

(** The row of source [competitor]: written when the cheapest
    competitor has a price and the product has a marketplace price. *)
Definition competitorRowsOf (p : Product) (up : Upstream) : list PriceHistoryEntry :=
  match competitorAnswer up with
  | Resolved (Some i) =>
      match summary i with
      | Some cheapest =>
          if Number_truthy (lowestPrice cheapest) && Number_truthy (currentPrice p up)
          then [mkEntry competitor (lowestPrice cheapest) in_stock]
          else []
      | None => []
      end
  | _ => []
  end.

Lemma history_rows trim toFixed2 env settings now (p : Product) (up : Upstream) :
  let st := checkProduct trim toFixed2 env settings now p up in
  entriesOf ebay (history st) = marketplaceRows up /\
  entriesOf supplier (history st) = supplierRowsOf p up /\
  entriesOf competitor (history st) = competitorRowsOf p up.
Proof.
  cbv zeta. rewrite checkProduct_history. unfold entriesOf. rewrite !filter_app.
  assert (He : forall src, filter (fun x => Source_eqb (entrySource x) src)
                             (ebayRows trim env settings p (ebayAnswer up))
                           = if Source_eqb ebay src then marketplaceRows up else []).
  { intros src. unfold ebayRows, ebayStep, marketplaceRows.
    destruct (ebayAnswer up) as [[d|]|e]; try (destruct src; reflexivity).
    destruct (is_nan (EbayAdapter.price d)); destruct src; reflexivity. }
  assert (Hs : forall src, filter (fun x => Source_eqb (entrySource x) src)
                 (supplierRows env settings p (product (afterEbay trim env settings p up))
                    (supplierAnswer up))
               = if Source_eqb supplier src then supplierRowsOf p up else []).
  { intros src. unfold supplierRows, supplierStep, supplierCaught, supplierRowsOf.
    cbn [product].
    rewrite (proj1 (afterEbay_supplier_fields trim env settings p up)).
    destruct (supplierUrl p) as [url|]; [|destruct src; reflexivity].
    destruct (String_truthy url); [|destruct src; reflexivity].
    destruct (supplierAnswer up) as [[d|]|e]; try (destruct src; reflexivity).
    destruct (is_nan (supplierDataPrice d)); destruct src; reflexivity. }
  assert (Hc : forall src, filter (fun x => Source_eqb (entrySource x) src)
                 (competitorRows env settings
                    (product (afterSupplier trim env settings p up))
                    (competitorAnswer up))
               = if Source_eqb competitor src then competitorRowsOf p up else []).
  { intros src. unfold competitorRows, competitorStep, competitorRowsOf.
    cbn [product]. rewrite afterSupplier_ebayPrice.
    destruct (competitorAnswer up) as [[i|]|e]; try (destruct src; reflexivity).
    destruct (listings i); destruct (summary i) as [c|]; try (destruct src; reflexivity);
      destruct (Number_truthy (lowestPrice c) && Number_truthy (currentPrice p up));
      destruct src; reflexivity. }
  rewrite !He, !Hs, !Hc. simpl. now rewrite !app_nil_r.
Qed.

(** C6, as the code has it.  Take checks run in a row against the
    same answers, each on the product as the check before left it in
    the database.  Every one of them writes exactly one history row of
    source [ebay] when the marketplace answered with data whose price
    is a number, exactly one of source [supplier] when the product has
    a supplier URL and the supplier answered with data whose price is
    a number, and exactly one of source [competitor] when the cheapest
    competitor has a price and the product a marketplace price (no row
    of a source otherwise).  When the first check was saved, the
    alerts of every later check are exactly the [competitor_price]
    alerts the first check created: no other alert comes back, and
    these come back every time.  When the save of the first check was
    refused, the second check creates every alert of the first
    again. *)
Theorem second_check_only_competitor_alerts :
  forall (trim : string -> string) (toFixed2 : float -> float) (env : Env)
         (settings : Settings) (times : nat -> Z) (p : Product) (up : Upstream),
    let run n :=
      checkProduct trim toFixed2 env settings (times n)
        (storedAfter trim toFixed2 env settings times n p up) up in
    (forall n,
       entriesOf ebay (history (run n)) = marketplaceRows up /\
       entriesOf supplier (history (run n)) = supplierRowsOf p up /\
       entriesOf competitor (history (run n)) = competitorRowsOf p up) /\
    (saved (run 0) = true ->
     forall n, alerts (run (S n)) = filter isCompetitorAlert (alerts (run 0))) /\
    (saved (run 0) = false -> alerts (run 1) = alerts (run 0)).
Proof.
  intros trim toFixed2 env settings times p up. cbv zeta.
  split; [|split].
  - intros n.
    destruct (storedAfter_keeps trim toFixed2 env settings times n p up) as (Hu & Hp & _).
    pose proof (history_rows trim toFixed2 env settings (times n)
                  (storedAfter trim toFixed2 env settings times n p up) up) as H.
    cbv zeta in H.
    replace (supplierRowsOf (storedAfter trim toFixed2 env settings times n p up) up)
      with (supplierRowsOf p up) in H by (unfold supplierRowsOf; now rewrite Hu).
    replace (competitorRowsOf (storedAfter trim toFixed2 env settings times n p up) up)
      with (competitorRowsOf p up) in H by (unfold competitorRowsOf; now rewrite Hp).
    exact H.
  - intros Hs n.
    change (storedAfter trim toFixed2 env settings times 0 p up) with p in *.
    pose proof (storedAfter_agrees trim toFixed2 env settings times n p up Hs) as Ha.
    destruct (storedAfter_keeps trim toFixed2 env settings times (S n) p up)
      as (Hu & Hp & _).
    set (q := storedAfter trim toFixed2 env settings times (S n) p up) in *.
    assert (Hc : supplierCasts q up = true).
    { rewrite checkProduct_saved in Hs. apply andb_true_iff in Hs. destruct Hs as [_ Hs].
      unfold accepted in Hs. rewrite !andb_true_iff in Hs.
      destruct Hs as ((((_ & Hs) & _) & _) & _).
      unfold supplierCasts in *. now rewrite Hu. }
    rewrite checkProduct_alerts.
    destruct (@agreeing_check_quiet trim env settings q up Ha Hc) as (H1 & H2).
    rewrite H1, H2. cbn [app].
    rewrite competitor_alerts_of_check.
    apply competitorAlerts_price.
    now rewrite !afterSupplier_ebayPrice.
  - intros Hs. cbn [storedAfter] in *. unfold stored. rewrite Hs.
    now rewrite !checkProduct_alerts.
Qed.

(** C6 as stated fails: a listing at 100 that a competitor undercuts
    at 90.  The first check stores exactly what upstream shows; the
    second check, against the same answers, creates a
    [competitor_price] alert again. *)
Lemma unchanged_snapshot_alerts_again :
  let p := listed 100 in_stock in
  let up := undercut (listing 100 in_stock) 90 in
  let st1 := checkProduct JsString.trim noRounding noEnv (tenant 5) 0 p up in
  let st2 := checkProduct JsString.trim noRounding noEnv (tenant 5) 1 (stored p st1) up in
  ebayPrice (stored p st1) = 100%float /\
  stockStatus (stored p st1) = in_stock /\
  competitorStats (stored p st1) = Some (mkSummary 90 "rival" 1 (Some 10%float)) /\
  alerts st2 = [mkAlert competitor_price (MNumber 100) (MNumber 90)
                  (CompetitorIsCheaper "rival" 10 10) medium].
Proof. cbv zeta. repeat split; vm_compute; reflexivity. Qed.

End ChangeDetection.

(** ** The marketplace adapter *)

Module JsStringFacts.
Import JsString.

Lemma dropPrefix_app (p s rest : string) :
  dropPrefix p s = Some rest -> s = (p ++ rest)%string.
Proof.
  revert s. induction p as [|a p IH]; intros s H; simpl in *.
  - now inversion H.
  - destruct s as [|b s]; [discriminate|].
    destruct (Ascii.eqb_spec a b); [|discriminate].
    subst. f_equal. now apply IH.
Qed.

Lemma dropPrefix_of_app (p rest : string) : dropPrefix p (p ++ rest) = Some rest.
Proof.
  induction p as [|a p IH]; simpl; [reflexivity|].
  now rewrite Ascii.eqb_refl.
Qed.

Lemma startsWith_app (p rest : string) : startsWith (p ++ rest) p = true.
Proof. unfold startsWith. now rewrite dropPrefix_of_app. Qed.

Lemma takeWhile_prefix (cls : ascii -> bool) (s : string) :
  exists rest, s = (takeWhile cls s ++ rest)%string.
Proof.
  induction s as [|c s [rest IH]]; simpl.
  - now exists EmptyString.
  - destruct (cls c); simpl.
    + exists rest. now rewrite <- IH.
    + now exists (String c s).
Qed.

(** Every character of a string satisfies a test. *)
Fixpoint allChars (f : ascii -> bool) (s : string) : bool :=
  match s with
  | EmptyString => true
  | String c rest => f c && allChars f rest
  end.

Lemma takeWhile_all (cls : ascii -> bool) (s : string) :
  allChars cls (takeWhile cls s) = true.
Proof.
  induction s as [|c s IH]; simpl; [reflexivity|].
  destruct (cls c) eqn:Hc; simpl; [|reflexivity]. now rewrite Hc.
Qed.

Lemma includes_startsWith (s p : string) : startsWith s p = true -> includes s p = true.
Proof. intros H. destruct s; simpl; rewrite H; reflexivity. Qed.

Lemma includes_tail (c : ascii) (s p : string) :
  includes s p = true -> includes (String c s) p = true.
Proof. intros H. simpl. rewrite H. apply orb_true_r. Qed.

Lemma app_assoc_string (a b c : string) : ((a ++ b) ++ c = a ++ (b ++ c))%string.
Proof. induction a as [|x a IH]; simpl; [reflexivity|]. now rewrite IH. Qed.

Lemma runAfterAt_sound (cls : ascii -> bool) (p s run : string) :
  runAfterAt cls p s = Some run ->
  run <> EmptyString /\ allChars cls run = true /\ startsWith s (p ++ run) = true.
Proof.
  unfold runAfterAt. destruct (dropPrefix p s) as [rest|] eqn:Hp; [|discriminate].
  destruct (takeWhile cls rest) as [|c run'] eqn:Hd; [discriminate|].
  intros H. inversion H; subst run. clear H.
  split; [discriminate|]. split.
  - rewrite <- Hd. apply takeWhile_all.
  - apply dropPrefix_app in Hp. destruct (takeWhile_prefix cls rest) as [r Hr].
    rewrite Hd in Hr. rewrite Hp, Hr, <- app_assoc_string. apply startsWith_app.
Qed.

Lemma firstSome_In (A B : Type) (f : A -> option B) (l : list A) (b : B) :
  firstSome (map f l) = Some b -> exists a, In a l /\ f a = Some b.
Proof.
  induction l as [|a l IH]; simpl; intros H; [discriminate|].
  destruct (f a) as [b'|] eqn:Ha.
  - inversion H; subst. exists a. auto.
  - destruct (IH H) as (a' & Hin & Hf). exists a'. auto.
Qed.

(** What [matchRunAfter] captures is a non-empty run of characters of
    the class that follows one of the prefixes somewhere in the
    string. *)
Lemma matchRunAfter_sound (cls : ascii -> bool) (ps : list string) (s run : string) :
  matchRunAfter cls ps s = Some run ->
  run <> EmptyString /\ allChars cls run = true /\
  exists p, In p ps /\ includes s (p ++ run) = true.
Proof.
  induction s as [|c s IH]; cbn [matchRunAfter]; intros H.
  - destruct (firstSome _) as [d|] eqn:Hf; [|discriminate].
    inversion H; subst d. destruct (firstSome_In _ _ Hf) as (p & Hin & Hp).
    destruct (runAfterAt_sound _ _ _ Hp) as (H1 & H2 & H3).
    repeat split; auto. exists p. split; auto. now apply includes_startsWith.
  - destruct (firstSome _) as [d|] eqn:Hf.
    + inversion H; subst d. destruct (firstSome_In _ _ Hf) as (p & Hin & Hp).
      destruct (runAfterAt_sound _ _ _ Hp) as (H1 & H2 & H3).
      repeat split; auto. exists p. split; auto. now apply includes_startsWith.
    + destruct (IH H) as (H1 & H2 & p & Hin & Hp).
      repeat split; auto. exists p. split; auto. now apply includes_tail.
Qed.

End JsStringFacts.

Module EbayAdapterFacts.
Import EbayAdapter.

(** The three accepted shapes of an item URL. *)
Definition itemShapes : list string :=
  ["/itm/"%string; "?item="%string; "&item="%string; "/p/"%string].

(** An id parsed from a URL is a non-empty run of digits that follows
    [/itm/], [?item=], [&item=] or [/p/] in it. *)
Lemma extractItemId_sound (url id : string) :
  extractItemId url = Some id ->
  id <> EmptyString /\ JsStringFacts.allChars JsString.isDigit id = true /\
  exists shape, In shape itemShapes /\ JsString.includes url (shape ++ id) = true.
Proof.
  unfold extractItemId, itemShapes.
  destruct (JsString.matchDigitsAfter ["/itm/"%string] url) as [d|] eqn:H1.
  - intros H; inversion H; subst d.
    destruct (JsStringFacts.matchRunAfter_sound _ _ _ H1) as (Ha & Hb & p & Hin & Hp).
    repeat split; auto. exists p. split; auto. simpl in *. tauto.
  - destruct (JsString.matchDigitsAfter ["?item="%string; "&item="%string] url)
      as [d|] eqn:H2.
    + intros H; inversion H; subst d.
      destruct (JsStringFacts.matchRunAfter_sound _ _ _ H2) as (Ha & Hb & p & Hin & Hp).
      repeat split; auto. exists p. split; auto. simpl in *. tauto.
    + intros H3.
      destruct (JsStringFacts.matchRunAfter_sound _ _ _ H3) as (Ha & Hb & p & Hin & Hp).
      repeat split; auto. exists p. split; auto. simpl in *. tauto.
Qed.

Lemma extractItemId_examples :
  extractItemId "https://www.ebay.co.uk/itm/123456789012?hash=item1" = Some "123456789012"%string /\
  extractItemId "https://www.ebay.co.uk/itm/Blue-Widget/123456789012" = None /\
  extractItemId "https://cgi.ebay.co.uk/ws/eBayISAPI.dll?ViewItem&item=220011" = Some "220011"%string /\
  extractItemId "https://www.ebay.co.uk/p/4034210179" = Some "4034210179"%string /\
  extractItemId "https://www.ebay.co.uk/str/shop" = None.
Proof. repeat split; reflexivity. Qed.

Section Fetch.
Variable parseFloat : string -> float.
Variable EBAY_APP_ID : option string.
Variable api : nat -> Awaited Error ApiResponse.

(** The images the API path returns for an item: its gallery picture
    when it has one, nothing otherwise. *)
Definition galleryOf (a : ApiItem) : list string :=
  match apiGalleryURL a with
  | Some u => if String_truthy u then [u] else []
  | None => []
  end.

(** The images the scraping path returns: those the page had. *)
Definition scrapedImagesOf (d : ScrapedProduct) : list string :=
  match scrapedImages d with
  | Some l => l
  | None => []
  end.

Lemma apiAttempt_world (id : string) (n w : nat) :
  Retry.worldAfter (apiAttempt parseFloat api id) n w = n + w.
Proof.
  revert w. induction n as [|n IH]; intros w; simpl; [reflexivity|].
  rewrite IH. lia.
Qed.

(** The item id the API path returns for an item found under the id
    [id]: the one of the item when it has one, [id] otherwise. *)
Definition apiIdOf (a : ApiItem) (id : string) : string :=
  match apiItemId a with
  | Some i => String_or i id
  | None => id
  end.

(** The title the API supplies for an item, if any. *)
Definition suppliedTitle (a : ApiItem) : option string :=
  match apiTitle a with
  | Some t => if String_truthy t then Some t else None
  | None => None
  end.

Lemma apiTitleOrDefault_supplied (a : ApiItem) (t : string) :
  suppliedTitle a = Some t -> apiTitleOrDefault (apiTitle a) = t.
Proof.
  unfold suppliedTitle, apiTitleOrDefault, String_or.
  destruct (apiTitle a) as [s|]; [|discriminate].
  destruct (String_truthy s); [|discriminate]. now intros [= ->].
Qed.

(** An item that one API attempt resolves with comes from the first
    entry of that answer, which has a price that is not zero. *)
Lemma apiAttempt_item (id : string) (k : nat) (item : Item) :
  fst (apiAttempt parseFloat api id k) = Resolved (Some item) ->
  exists a rest,
    api k = Resolved (Some (a :: rest)) /\
    price item = parsePrice parseFloat (apiCurrentPrice a) /\
    images item = galleryOf a /\
    String_truthy (title item) = true /\
    (price item =? 0)%float = false /\
    stock item = in_stock /\ description item = EmptyString /\ variations item = [] /\
    itemId item = apiIdOf a id /\
    (forall t, suppliedTitle a = Some t -> title item = t).
Proof.
  unfold apiAttempt. simpl.
  destruct (api k) as [[[|a rest]|]|e]; try discriminate.
  destruct (negb (String_truthy (apiTitleOrDefault (apiTitle a)))
            || (parsePrice parseFloat (apiCurrentPrice a) =? 0)%float) eqn:Hv;
    [discriminate|].
  intros H. inversion H; subst item; clear H. simpl.
  apply orb_false_elim in Hv. destruct Hv as [Ht Hp].
  apply negb_false_iff in Ht.
  exists a, rest. repeat split; auto.
  intros t Hs. now apply apiTitleOrDefault_supplied.
Qed.

(** [fetchWithAPI] sends at most three requests, and what it returns
    was resolved by one of them. *)
Lemma fetchWithAPI_item (id : string) :
  let (data, n) := fetchWithAPI parseFloat EBAY_APP_ID api id in
  n <= 3 /\
  forall item, data = Some item ->
    1 <= n /\
    exists k a rest,
      k < 3 /\ api k = Resolved (Some (a :: rest)) /\
      price item = parsePrice parseFloat (apiCurrentPrice a) /\
      images item = galleryOf a /\
      String_truthy (title item) = true /\
      (price item =? 0)%float = false /\
      stock item = in_stock /\ description item = EmptyString /\ variations item = [] /\
      itemId item = apiIdOf a id /\
      (forall t, suppliedTitle a = Some t -> title item = t).
Proof.
  unfold fetchWithAPI.
  destruct EBAY_APP_ID as [appId|]; [|split; [lia|discriminate]].
  destruct (negb (String_truthy appId) || (appId =? "your_ebay_app_id")%string);
    [split; [lia|discriminate]|].
  pose proof (RetryFacts.attempts_spec (apiAttempt parseFloat api id) 1000
                (remaining := 3) 0 0 eq_refl ltac:(lia)) as H.
  cbv zeta in H. change (0 + 3) with 3 in H.
  fold (Retry.retryWithBackoff (apiAttempt parseFloat api id) 3 1000 0) in H.
  destruct H as (Hc & _ & _ & _ & Hs).
  destruct (Retry.settled (Retry.retryWithBackoff (apiAttempt parseFloat api id) 3 1000 0))
    as [data|e|]; (split; [lia|]); try discriminate.
  intros item Hd. subst data. split; [lia|].
  unfold Retry.outcome in Hs. rewrite apiAttempt_world in Hs.
  destruct (apiAttempt_item _ _ Hs) as (a & rest & H1 & H2).
  exists (Retry.calls (Retry.retryWithBackoff (apiAttempt parseFloat api id) 3 1000 0)
          - 1 + 0), a, rest.
  split; [lia|]. split; [exact H1|exact H2].
Qed.

(** The stock state and the variations the scraping path returns:
    those of the page, [in_stock] and none when it has none. *)
Definition scrapedStockOf (d : ScrapedProduct) : StockStatus :=
  match scrapedStock d with
  | Some s => s
  | None => in_stock
  end.

Definition scrapedVariationsOf (d : ScrapedProduct) : list Variation :=
  match scrapedVariations d with
  | Some v => v
  | None => []
  end.

(** The id parsed from the URL, or the literal the adapter puts in
    its place. *)
Definition urlIdOf (url : string) : string :=
  match extractItemId url with
  | Some i => i
  | None => "unknown"%string
  end.

Lemma urlIdOf_truthy (url : string) : urlIdOf url <> EmptyString.
Proof.
  unfold urlIdOf. destruct (extractItemId url) as [id|] eqn:He; [|discriminate].
  apply (extractItemId_sound url He).
Qed.

Lemma fetchWithScraping_item (url : string) (scraped : Awaited Error ScrapedProduct)
    (item : Item) :
  fetchWithScraping url scraped = Resolved item ->
  exists d, scraped = Resolved d /\
    title item = scrapedTitle d /\ price item = scrapedPrice d /\
    images item = scrapedImagesOf d /\
    stock item = scrapedStockOf d /\ description item = scrapedDescription d /\
    variations item = scrapedVariationsOf d /\
    itemId item = String_or (scrapedItemId d) (urlIdOf url).
Proof.
  unfold fetchWithScraping, scrapedImagesOf.
  destruct scraped as [d|e]; [|discriminate].
  destruct (String_truthy (scrapedTitle d) && (0 <? scrapedPrice d)%float); [|discriminate].
  intros H. inversion H; subst item; clear H. simpl.
  exists d. repeat split. destruct (scrapedImages d) as [[|i l]|]; reflexivity.
Qed.

Lemma String_or_idem (a b : string) : String_or (String_or a b) b = String_or a b.
Proof. unfold String_or. destruct a; [|reflexivity]. cbn. now destruct b. Qed.

Lemma String_or_left (a b : string) : a <> EmptyString -> String_or a b = a.
Proof. unfold String_or. destruct a; [congruence|reflexivity]. Qed.

Lemma String_or_truthy (a b : string) :
  b <> EmptyString -> String_or a b <> EmptyString.
Proof.
  unfold String_or. destruct a; simpl; [auto|discriminate].
Qed.

End Fetch.

End EbayAdapterFacts.

(** C7, as the code has it.  [fetchEbayItem] first loads the page in
    the headless browser; it calls the item-search API (one to three
    times, through the retry executor) only when page extraction
    failed and an item id was parsed from the URL, and an id parsed
    from a URL is a run of digits after [/itm/], [?item=], [&item=] or
    [/p/].  When it resolves, the title, the item id and the price are
    not empty and not zero; either the title, the price, the images,
    the description, the stock state and the variations are those of
    the page (no image becomes the empty list, no stock state
    [in_stock], no variation the empty list) and the item id is the
    one of the page or, without one, the id parsed from the URL or the
    literal [unknown]; or page extraction failed, the price and the
    images are those of the first item of an API answer (no image
    becomes the empty list), the title is the one of that item when it
    has one, the item id is the one of that item or, without one, the
    id parsed from the URL, the stock state is [in_stock], the
    description is empty and there are no variations. *)
Theorem fetchEbayItem_contract :
  forall (parseFloat : string -> float) (appId : option string)
         (api : nat -> Awaited Error EbayAdapter.ApiResponse)
         (url : string) (scraped : Awaited Error EbayAdapter.ScrapedProduct),
    let r := EbayAdapter.fetchEbayItem parseFloat appId api url scraped in
    (exists apiRequests,
        EbayAdapter.requests r = EbayAdapter.ScrapePage url :: apiRequests /\
        (apiRequests <> [] ->
         (exists e, EbayAdapter.fetchWithScraping url scraped = Rejected e) /\
         exists id n,
           EbayAdapter.extractItemId url = Some id /\ 1 <= n <= 3 /\
           apiRequests = repeat (EbayAdapter.SearchApi id) n)) /\
    (forall id, EbayAdapter.extractItemId url = Some id ->
        id <> EmptyString /\
        JsStringFacts.allChars JsString.isDigit id = true /\
        exists shape, In shape EbayAdapterFacts.itemShapes /\
                      JsString.includes url (shape ++ id) = true) /\
    (forall item,
        EbayAdapter.answer r = Resolved item ->
        EbayAdapter.title item <> EmptyString /\
        (EbayAdapter.price item =? 0)%float = false /\
        EbayAdapter.itemId item <> EmptyString /\
        ((exists d, scraped = Resolved d /\
                    EbayAdapter.title item = EbayAdapter.scrapedTitle d /\
                    EbayAdapter.price item = EbayAdapter.scrapedPrice d /\
                    EbayAdapter.images item = EbayAdapterFacts.scrapedImagesOf d /\
                    EbayAdapter.stock item = EbayAdapterFacts.scrapedStockOf d /\
                    EbayAdapter.description item = EbayAdapter.scrapedDescription d /\
                    EbayAdapter.variations item = EbayAdapterFacts.scrapedVariationsOf d /\
                    EbayAdapter.itemId item
                    = String_or (EbayAdapter.scrapedItemId d)
                        (EbayAdapterFacts.urlIdOf url)) \/
         ((exists e, EbayAdapter.fetchWithScraping url scraped = Rejected e) /\
          exists k a rest id,
            k < 3 /\ api k = Resolved (Some (a :: rest)) /\
            EbayAdapter.extractItemId url = Some id /\
            EbayAdapter.price item
            = EbayAdapter.parsePrice parseFloat (EbayAdapter.apiCurrentPrice a) /\
            EbayAdapter.images item = EbayAdapterFacts.galleryOf a /\
            (forall t, EbayAdapterFacts.suppliedTitle a = Some t ->
                       EbayAdapter.title item = t) /\
            EbayAdapter.itemId item = EbayAdapterFacts.apiIdOf a id /\
            EbayAdapter.stock item = in_stock /\
            EbayAdapter.description item = EmptyString /\
            EbayAdapter.variations item = []))).
Proof.
  intros parseFloat appId api url scraped. cbv zeta.
  pose proof (EbayAdapterFacts.urlIdOf_truthy url) as Hid.
  unfold EbayAdapterFacts.urlIdOf in Hid.
  split; [|split].
  - unfold EbayAdapter.fetchEbayItem.
    destruct (EbayAdapter.fetchWithScraping url scraped) as [d|e] eqn:Hs.
    + exists []. split; [reflexivity|]. intros H. now contradiction H.
    + destruct (EbayAdapter.extractItemId url) as [id|] eqn:He.
      * pose proof (EbayAdapterFacts.fetchWithAPI_item parseFloat appId api id) as Ha.
        destruct (EbayAdapter.fetchWithAPI parseFloat appId api id) as [d n].
        destruct Ha as [Hn _].
        exists (repeat (EbayAdapter.SearchApi id) n). split; [reflexivity|].
        intros Hne. split; [now exists e|].
        exists id, n. repeat split; auto.
        destruct n; [now contradiction Hne|lia].
      * exists []. split; [reflexivity|]. intros H. now contradiction H.
  - apply EbayAdapterFacts.extractItemId_sound.
  - intros item. unfold EbayAdapter.fetchEbayItem.
    destruct (EbayAdapter.fetchWithScraping url scraped) as [d|e] eqn:Hs.
    + cbn [EbayAdapter.answer].
      destruct (negb (String_truthy (EbayAdapter.title d))
                || (EbayAdapter.price d =? 0)%float) eqn:Hv; [discriminate|].
      intros H. inversion H; subst item; clear H. cbn.
      apply orb_false_elim in Hv. destruct Hv as [Ht Hp].
      apply negb_false_iff in Ht.
      split; [intros E; rewrite E in Ht; discriminate|]. split; [assumption|].
      split; [now apply EbayAdapterFacts.String_or_truthy|].
      left.
      destruct (EbayAdapterFacts.fetchWithScraping_item url scraped Hs)
        as (d0 & H0 & H1 & H2 & H3 & H4 & H5 & H6 & H7).
      exists d0. repeat (split; [assumption|]).
      rewrite H7. apply EbayAdapterFacts.String_or_idem.
    + destruct (EbayAdapter.extractItemId url) as [id|] eqn:He; [|discriminate].
      pose proof (EbayAdapterFacts.fetchWithAPI_item parseFloat appId api id) as Ha.
      destruct (EbayAdapter.fetchWithAPI parseFloat appId api id) as [[d|] n];
        [|discriminate].
      destruct Ha as [_ Ha]. destruct (Ha d eq_refl) as (_ & k & a & rest & Hk).
      destruct Hk as (Hk & Hapi & Hp & Hi & Ht & Hz & Hst & Hde & Hva & Hii & Hti).
      cbn [EbayAdapter.answer]. rewrite Ht, Hz. cbn.
      intros H. inversion H; subst item; clear H. cbn.
      split; [intros E; rewrite E in Ht; discriminate|]. split; [assumption|].
      split; [now apply EbayAdapterFacts.String_or_truthy|].
      right. split; [now exists e|]. exists k, a, rest, id.
      repeat (split; [assumption || reflexivity|]).
      split; [|auto].
      rewrite Hii. apply EbayAdapterFacts.String_or_left.
      unfold EbayAdapterFacts.apiIdOf.
      destruct (EbayAdapter.apiItemId a) as [i|];
        [apply EbayAdapterFacts.String_or_truthy|]; exact Hid.
Qed.

(** The contract at a page that scrapes well: the adapter resolves, so
    the title is not empty and the price is not zero. *)
Lemma fetchEbayItem_contract_witness :
  let item := EbayAdapter.mkItem "Blue Widget" [] 12.5 "123456789012" [] low_stock
                EmptyString in
  EbayAdapter.title item <> EmptyString /\
  (EbayAdapter.price item =? 0)%float = false.
Proof.
  cbv zeta.
  destruct (proj2 (proj2 (fetchEbayItem_contract (fun _ => 0%float) None
                            (fun _ => Rejected "offline"%string)
                            "https://www.ebay.co.uk/itm/123456789012"
                            (Resolved (EbayAdapter.mkScraped "Blue Widget" 12.5 None
                                         (Some low_stock) "123456789012"
                                         EmptyString None))))
              (EbayAdapter.mkItem "Blue Widget" [] 12.5 "123456789012" [] low_stock
                 EmptyString)
              eq_refl) as (H1 & H2 & _).
  split; [exact H1|exact H2].
Defined.

(** C7 as stated fails: a page that gives a title and a price but no
    item id and no stock state, under a URL from which no id can be
    parsed.  The adapter resolves with the item id [unknown] and the
    stock state [in_stock], which no source supplied. *)
Lemma fetchEbayItem_fills_in_defaults :
  let url := "https://www.ebay.co.uk/itm/Blue-Widget/123456789012"%string in
  let page := EbayAdapter.mkScraped "Blue Widget" 12.5 None None EmptyString EmptyString
                None in
  let r := EbayAdapter.fetchEbayItem (fun _ => 0%float) (Some "live-app-id"%string)
             (fun _ => Resolved None) url (Resolved page) in
  EbayAdapter.extractItemId url = None /\
  EbayAdapter.scrapedItemId page = EmptyString /\
  EbayAdapter.scrapedStock page = None /\
  EbayAdapter.requests r = [EbayAdapter.ScrapePage url] /\
  EbayAdapter.answer r
  = Resolved (EbayAdapter.mkItem "Blue Widget" [] 12.5 "unknown" [] in_stock EmptyString).
Proof. cbv zeta. repeat split; vm_compute; reflexivity. Qed.

(** The title on the API path when the item has none: the adapter
    puts a literal in its place, and the test of the title that
    follows can then never fail. *)
Lemma fetchEbayItem_returns_placeholder_title :
  let url := "https://www.ebay.co.uk/itm/123456789012"%string in
  let untitled := EbayAdapter.mkApiItem None (Some "9.50"%string) None None in
  let r := EbayAdapter.fetchEbayItem (fun _ => 9.5%float) (Some "live-app-id"%string)
             (fun _ => Resolved (Some [untitled])) url
             (Rejected "Navigation timeout"%string) in
  EbayAdapter.apiTitle untitled = None /\
  EbayAdapter.requests r
  = [EbayAdapter.ScrapePage url; EbayAdapter.SearchApi "123456789012"] /\
  EbayAdapter.answer r
  = Resolved (EbayAdapter.mkItem "Unknown Product" [] 9.5 "123456789012" [] in_stock EmptyString).
Proof. cbv zeta. repeat split; vm_compute; reflexivity. Qed.

(** ** Store listings *)

Module ListingFacts.
Import PuppeteerScraper.

Section Listings.
Variable parseFloat : string -> float.

Lemma existsb_eqb_In (id : string) (seen : list string) :
  existsb (String.eqb id) seen = false -> ~ In id seen.
Proof.
  intros H Hin. assert (existsb (String.eqb id) seen = true).
  { apply existsb_exists. exists id. split; [assumption|apply String.eqb_refl]. }
  congruence.
Qed.

(** The ids collected on one page are new and pairwise distinct. *)
Lemma collect_fresh (anchors : list Anchor) :
  forall seen,
    NoDup (map itemId (collect parseFloat seen anchors)) /\
    forall id, In id (map itemId (collect parseFloat seen anchors)) -> ~ In id seen.
Proof.
  induction anchors as [|a rest IH]; intros seen; simpl.
  - split; [constructor|]. intros id [].
  - destruct (truthyField (href a)) as [h|]; [|apply IH].
    destruct (JsString.matchDigitsAfter ["/itm/"%string] (fullUrlOf h)) as [id|];
      [|apply IH].
    destruct (existsb (String.eqb id) seen) eqn:Hseen; [apply IH|].
    destruct (IH (id :: seen)) as [Hnd Hnew]. simpl. split.
    + constructor; [|assumption]. intros Hin. apply (Hnew id Hin). now left.
    + intros id' [Heq|Hin].
      * subst id'. now apply existsb_eqb_In.
      * intros Hs. apply (Hnew id' Hin). now right.
Qed.

(** Every listing of a page comes from one of its anchors, whose URL
    holds the id after [/itm/]. *)
Lemma collect_from_anchor (anchors : list Anchor) :
  forall seen item,
    In item (collect parseFloat seen anchors) ->
    exists a h, In a anchors /\ truthyField (href a) = Some h /\
      JsString.matchDigitsAfter ["/itm/"%string] (fullUrlOf h) = Some (itemId item) /\
      item = listingOf parseFloat a (fullUrlOf h) (itemId item).
Proof.
  induction anchors as [|a rest IH]; intros seen item; simpl; [intros []|].
  destruct (truthyField (href a)) as [h|] eqn:Hh.
  - destruct (JsString.matchDigitsAfter ["/itm/"%string] (fullUrlOf h)) as [id|] eqn:Hid.
    + destruct (existsb (String.eqb id) seen).
      * intros Hin. destruct (IH _ _ Hin) as (a' & h' & Ha & Hr). exists a', h'. auto.
      * intros [Heq|Hin].
        -- subst item. exists a, h. simpl. auto.
        -- destruct (IH _ _ Hin) as (a' & h' & Ha & Hr). exists a', h'. auto.
    + intros Hin. destruct (IH _ _ Hin) as (a' & h' & Ha & Hr). exists a', h'. auto.
  - intros Hin. destruct (IH _ _ Hin) as (a' & h' & Ha & Hr). exists a', h'. auto.
Qed.

Variable visit : string -> Awaited Error (list Anchor).
Variable storeUrl : string.
Variable maxPages : nat.

(** The listings page [n] contributes: those of its anchors, or none
    when the navigation fails. *)
Definition itemsOn (n : nat) : list Listing :=
  match visit (pageUrl storeUrl n) with
  | Resolved anchors => pageItems parseFloat anchors
  | Rejected _ => []
  end.

(** Whether the loop stops after page [n]: the page has no item link,
    or it is page 1 and the navigation failed. *)
Definition stopsAfter (n : nat) : bool :=
  match visit (pageUrl storeUrl n) with
  | Resolved anchors =>
      match pageItems parseFloat anchors with [] => true | _ => false end
  | Rejected _ => n =? 1
  end.

Lemma pagesFrom_spec (remaining : nat) :
  forall (pageNum : nat) (c : Crawl),
    let r := pagesFrom parseFloat visit storeUrl remaining pageNum c in
    exists k,
      k <= remaining /\
      visited r = visited c ++ map (pageUrl storeUrl) (seq pageNum k) /\
      allItems r = allItems c ++ List.concat (map itemsOn (seq pageNum k)) /\
      (forall n, pageNum <= n < pageNum + k - 1 -> stopsAfter n = false) /\
      (k < remaining -> 1 <= k /\ stopsAfter (pageNum + k - 1) = true).
Proof.
  induction remaining as [|rem IH]; intros pageNum c; cbn [pagesFrom]; cbv zeta.
  - exists 0. simpl. rewrite !app_nil_r. repeat split; try lia.
  - unfold stopsAfter, itemsOn in *.
    destruct (visit (pageUrl storeUrl pageNum)) as [anchors|e] eqn:Hv.
    + destruct (pageItems parseFloat anchors) as [|i items] eqn:Hi.
      * exists 1. simpl. rewrite Hv, Hi, !app_nil_r.
        repeat split; try lia. replace (pageNum + 1 - 1) with pageNum by lia.
        now rewrite Hv, Hi.
      * destruct (IH (S pageNum)
                    (mkCrawl (visited c ++ [pageUrl storeUrl pageNum])
                             (allItems c ++ i :: items)))
          as (k & Hk & Hvis & Hall & Hcont & Hstop).
        exists (S k). cbn [visited allItems] in *.
        rewrite Hvis, Hall. cbn [seq map List.concat]. rewrite Hv, Hi.
        rewrite <- !app_assoc. repeat split; try lia; try reflexivity.
        -- intros n Hn. destruct (Nat.eq_dec n pageNum) as [->|Hne].
           ++ now rewrite Hv, Hi.
           ++ apply Hcont. lia.
        -- replace (pageNum + S k - 1) with (S pageNum + k - 1) by lia.
           apply Hstop. lia.
    + destruct (pageNum =? 1) eqn:H1.
      * exists 1. simpl. rewrite Hv, !app_nil_r.
        repeat split; try lia. replace (pageNum + 1 - 1) with pageNum by lia.
        now rewrite Hv.
      * destruct (IH (S pageNum)
                    (mkCrawl (visited c ++ [pageUrl storeUrl pageNum]) (allItems c)))
          as (k & Hk & Hvis & Hall & Hcont & Hstop).
        exists (S k). cbn [visited allItems] in *.
        rewrite Hvis, Hall. cbn [seq map List.concat]. rewrite Hv.
        rewrite <- !app_assoc. repeat split; try lia; try reflexivity.
        -- intros n Hn. destruct (Nat.eq_dec n pageNum) as [->|Hne].
           ++ now rewrite Hv.
           ++ apply Hcont. lia.
        -- replace (pageNum + S k - 1) with (S pageNum + k - 1) by lia.
           apply Hstop. lia.
Qed.

End Listings.
End ListingFacts.

Module StorePages.
Import PuppeteerScraper.

(** A store whose second page shows the listing of the first page
    again and whose third page is empty. *)
Definition store : string := "https://www.ebay.co.uk/str/gadgetshop".

Definition widgetLink : Anchor :=
  mkAnchor (Some "/itm/111222333444?hash=item1"%string)
           (Some (mkCard (Some "Blue Widget"%string) (Some "12.50"%string) None))
           "Blue Widget".

Definition repeating (u : string) : Awaited Error (list Anchor) :=
  if String.eqb u store then Resolved [widgetLink]
  else if String.eqb u (store ++ "?_pgn=2") then Resolved [widgetLink]
  else Resolved [].

Definition widget : Listing :=
  mkListing "111222333444" "https://www.ebay.co.uk/itm/111222333444" "Blue Widget" 12.5 [].

End StorePages.

(** C9, as the code has it.  [scrapeStoreListings] navigates to the
    pages 1, 2, ... of the store in order, at most [maxPages] of them;
    it goes on after a page exactly when that page had an item link
    (or, after page 1, when its navigation failed), so it stops early
    at the first page without any item link; what it returns is the
    listings of the visited pages one after the other ([null] when
    there are none).  On each single page every item id occurs at most
    once, and every listing comes from an anchor of that page whose URL
    holds the id after [/itm/], with the title, price and image found
    on the anchor's card. *)
Theorem scrapeStoreListings_pages :
  forall (parseFloat : string -> float)
         (visit : string -> Awaited Error (list PuppeteerScraper.Anchor))
         (storeUrl : string) (maxPages : nat),
    let c := PuppeteerScraper.crawl parseFloat visit storeUrl maxPages in
    (exists k,
        k <= maxPages /\
        PuppeteerScraper.visited c = map (PuppeteerScraper.pageUrl storeUrl) (seq 1 k) /\
        PuppeteerScraper.allItems c
        = List.concat (map (ListingFacts.itemsOn parseFloat visit storeUrl) (seq 1 k)) /\
        (forall n, 1 <= n < k ->
                   ListingFacts.stopsAfter parseFloat visit storeUrl n = false) /\
        (k < maxPages ->
         1 <= k /\ ListingFacts.stopsAfter parseFloat visit storeUrl k = true)) /\
    PuppeteerScraper.scrapeStoreListings parseFloat visit storeUrl maxPages (Resolved tt)
    = match PuppeteerScraper.allItems c with
      | [] => None
      | items => Some items
      end /\
    (forall anchors,
        NoDup (map PuppeteerScraper.itemId (PuppeteerScraper.pageItems parseFloat anchors))) /\
    (forall anchors item,
        In item (PuppeteerScraper.pageItems parseFloat anchors) ->
        exists a h,
          In a anchors /\
          PuppeteerScraper.truthyField (PuppeteerScraper.href a) = Some h /\
          JsString.matchDigitsAfter ["/itm/"%string] (PuppeteerScraper.fullUrlOf h)
          = Some (PuppeteerScraper.itemId item) /\
          item = PuppeteerScraper.listingOf parseFloat a (PuppeteerScraper.fullUrlOf h)
                   (PuppeteerScraper.itemId item)).
Proof.
  intros parseFloat visit storeUrl maxPages. cbv zeta.
  split; [|split; [|split]].
  - destruct (ListingFacts.pagesFrom_spec parseFloat visit storeUrl maxPages 1
                (PuppeteerScraper.mkCrawl [] []))
      as (k & Hk & Hv & Ha & Hc & Hs).
    exists k. unfold PuppeteerScraper.crawl. simpl in Hv, Ha.
    repeat split; auto.
    + intros n Hn. apply Hc. lia.
    + lia.
    + replace k with (1 + k - 1) at 1 by lia. now apply Hs.
  - reflexivity.
  - intros anchors. apply (ListingFacts.collect_fresh parseFloat anchors []).
  - intros anchors item Hin.
    destruct (ListingFacts.collect_from_anchor parseFloat anchors [] item Hin)
      as (a & h & H1 & H2 & H3 & H4).
    exists a, h. auto.
Qed.

(** The listing of a page with the same link twice, and where it
    comes from. *)
Lemma scrapeStoreListings_pages_witness :
  exists a h,
    In a [StorePages.widgetLink; StorePages.widgetLink] /\
    PuppeteerScraper.truthyField (PuppeteerScraper.href a) = Some h /\
    JsString.matchDigitsAfter ["/itm/"%string] (PuppeteerScraper.fullUrlOf h)
    = Some "111222333444"%string /\
    StorePages.widget
    = PuppeteerScraper.listingOf (fun _ => 12.5%float) a (PuppeteerScraper.fullUrlOf h)
        "111222333444".
Proof.
  apply (proj2 (proj2 (proj2 (scrapeStoreListings_pages (fun _ => 12.5%float)
                                StorePages.repeating StorePages.store 5)))
           [StorePages.widgetLink; StorePages.widgetLink] StorePages.widget).
  vm_compute. now left.
Defined.

(** C9 as stated fails: a store whose page 2 repeats the only listing
    of page 1.  Page 2 yields no new item, yet the loop goes on to page
    3, and the listing is returned twice. *)
Lemma scrapeStoreListings_repeats_listing :
  let parse := fun _ : string => 12.5%float in
  PuppeteerScraper.scrapeStoreListings parse StorePages.repeating StorePages.store 5
    (Resolved tt)
  = Some [StorePages.widget; StorePages.widget] /\
  PuppeteerScraper.visited
    (PuppeteerScraper.crawl parse StorePages.repeating StorePages.store 5)
  = [StorePages.store;
     (StorePages.store ++ "?_pgn=2")%string;
     (StorePages.store ++ "?_pgn=3")%string] /\
  ~ NoDup (map PuppeteerScraper.itemId [StorePages.widget; StorePages.widget]).
Proof.
  cbv zeta. split; [vm_compute; reflexivity|]. split; [vm_compute; reflexivity|].
  intros H. inversion H as [|x l Hnin _]; subst. apply Hnin. now left.
Qed.

(** ** Seller identity *)

Module SellerIdentity.
Import PuppeteerScraper.

(** The strategies that follow structured data. *)
Inductive Strategy : Type := MetaTag | DomMarker | InlineScript | SellerLink.

(** Following the specification: a candidate is rejected when it is
    (empty or) the platform's brand name or too long, and a candidate
    of the inline-script scan also when it contains [http]. *)
Definition accepts (s : Strategy) (c : string) : bool :=
  match s with
  | InlineScript => plausible c && negb (JsString.includes c "http")
  | _ => plausible c
  end.

(** Following the specification: candidates are tried in order and the
    first accepted one wins.  A candidate is a strategy with the value
    it proposes; [None] stands for a seller link whose decoding
    throws, which ends the extraction. *)
Fixpoint firstAccepted (l : list (Strategy * option string))
    : Awaited Error (option string) :=
  match l with
  | [] => Resolved None
  | (_, None) :: _ => Rejected "URI malformed"%string
  | (s, Some c) :: rest =>
      if accepts s c then Resolved (Some c) else firstAccepted rest
  end.

Section Candidates.
Variable decodeURIComponent : string -> option string.

Definition metaCandidates (p : Page) : list (Strategy * option string) :=
  match metaCandidate p with
  | Some c => [(MetaTag, Some c)]
  | None => []
  end.

Definition domCandidates (markers : list (option string)) : list (Strategy * option string) :=
  flat_map (fun m => match m with
                     | Some t => [(DomMarker, Some (JsString.trim t))]
                     | None => []
                     end) markers.

Definition captureCandidates (captures : list (option string))
    : list (Strategy * option string) :=
  flat_map (fun c => match truthyField c with
                     | Some m => [(InlineScript, Some (cleanCapture m))]
                     | None => []
                     end) captures.

Definition scriptCandidates (p : Page) : list (Strategy * option string) :=
  flat_map captureCandidates (scriptCaptures p).

Definition linkCandidates (hrefs : list (option string)) : list (Strategy * option string) :=
  flat_map (fun h => match truthyField h with
                     | Some h' =>
                         match sellerSlug h' with
                         | Some m =>
                             [(SellerLink, option_map JsString.trim (decodeURIComponent m))]
                         | None => []
                         end
                     | None => []
                     end) hrefs.

(** The candidates after structured data, in the order of each
    function. *)
Definition storefrontCandidates (p : Page) : list (Strategy * option string) :=
  metaCandidates p ++ domCandidates (storefrontMarkers p)
    ++ scriptCandidates p ++ linkCandidates (sellerLinks p).

Definition productPageCandidates (p : Page) : list (Strategy * option string) :=
  metaCandidates p ++ scriptCandidates p
    ++ domCandidates (productPageMarkers p) ++ linkCandidates (firstn 1 (sellerLinks p)).

(** Whether the first list settles the search. *)
Definition orElse (a b : Awaited Error (option string)) : Awaited Error (option string) :=
  match a with
  | Resolved None => b
  | _ => a
  end.

Lemma firstAccepted_app (l1 l2 : list (Strategy * option string)) :
  firstAccepted (l1 ++ l2) = orElse (firstAccepted l1) (firstAccepted l2).
Proof.
  induction l1 as [|[s [c|]] l1 IH]; simpl; try reflexivity.
  destruct (accepts s c); [reflexivity|apply IH].
Qed.

Lemma fromMeta_candidates (p : Page) :
  firstAccepted (metaCandidates p) = Resolved (fromMeta p).
Proof.
  unfold metaCandidates, fromMeta. destruct (metaCandidate p) as [c|]; simpl; [|reflexivity].
  destruct (plausible c); reflexivity.
Qed.

Lemma fromDom_candidates (markers : list (option string)) :
  firstAccepted (domCandidates markers) = Resolved (fromDom markers).
Proof.
  unfold fromDom. induction markers as [|[t|] ms IH]; simpl; try assumption; [reflexivity|].
  destruct (plausible (JsString.trim t)); [reflexivity|assumption].
Qed.

Lemma fromCaptures_candidates (captures : list (option string)) :
  firstAccepted (captureCandidates captures)
  = Resolved (JsString.firstSome (map fromCapture captures)).
Proof.
  induction captures as [|[m|] cs IH]; simpl; try assumption; [reflexivity|].
  unfold fromCapture at 1. simpl. destruct (String_truthy m); simpl; [|assumption].
  unfold plausibleScriptValue.
  destruct (plausible (cleanCapture m) && negb (JsString.includes (cleanCapture m) "http"));
    [reflexivity|assumption].
Qed.

Lemma fromScripts_candidates (p : Page) :
  firstAccepted (scriptCandidates p) = Resolved (fromScripts p).
Proof.
  unfold scriptCandidates, fromScripts.
  induction (scriptCaptures p) as [|cs rest IH]; simpl; [reflexivity|].
  rewrite firstAccepted_app, fromCaptures_candidates, IH.
  destruct (JsString.firstSome (map fromCapture cs)); reflexivity.
Qed.

Lemma fromLink_candidates (h : option string) :
  firstAccepted (linkCandidates [h]) = fromLink decodeURIComponent h.
Proof.
  unfold linkCandidates, fromLink. simpl. rewrite app_nil_r.
  destruct h as [h|]; simpl; [|reflexivity].
  destruct (String_truthy h); simpl; [|reflexivity].
  destruct (sellerSlug h) as [m|]; simpl; [|reflexivity].
  destruct (decodeURIComponent m) as [d|]; simpl; [|reflexivity].
  destruct (plausible (JsString.trim d)); reflexivity.
Qed.

Lemma fromLinks_candidates (hrefs : list (option string)) :
  firstAccepted (linkCandidates hrefs) = fromLinks decodeURIComponent hrefs.
Proof.
  induction hrefs as [|h rest IH]; [reflexivity|].
  replace (linkCandidates (h :: rest)) with (linkCandidates [h] ++ linkCandidates rest)
    by (unfold linkCandidates; simpl; now rewrite app_nil_r).
  rewrite firstAccepted_app, fromLink_candidates, IH. simpl.
  destruct (fromLink decodeURIComponent h) as [[c|]|e]; reflexivity.
Qed.

Lemma fromFirstLink_candidates (hrefs : list (option string)) :
  firstAccepted (linkCandidates (firstn 1 hrefs)) = fromFirstLink decodeURIComponent hrefs.
Proof.
  destruct hrefs as [|h rest]; [reflexivity|]. simpl firstn.
  apply fromLink_candidates.
Qed.

(** Without a structured-data candidate, each callback returns the
    first accepted candidate of its list. *)
Lemma evaluateStorefront_first (p : Page) :
  fromJsonLd storefrontFields (jsonLdScripts p) = None ->
  evaluateStorefront decodeURIComponent p = firstAccepted (storefrontCandidates p).
Proof.
  intros H. unfold evaluateStorefront, storefrontCandidates. rewrite H.
  rewrite !firstAccepted_app, fromMeta_candidates, fromDom_candidates,
    fromScripts_candidates, fromLinks_candidates.
  destruct (fromMeta p); [reflexivity|]. simpl.
  destruct (fromDom (storefrontMarkers p)); [reflexivity|]. simpl.
  destruct (fromScripts p); reflexivity.
Qed.

Lemma evaluateProductPage_first (p : Page) :
  fromJsonLd productPageFields (jsonLdScripts p) = None ->
  evaluateProductPage decodeURIComponent p = firstAccepted (productPageCandidates p).
Proof.
  intros H. unfold evaluateProductPage, productPageCandidates. rewrite H.
  rewrite !firstAccepted_app, fromMeta_candidates, fromDom_candidates,
    fromScripts_candidates, fromFirstLink_candidates.
  destruct (fromMeta p); [reflexivity|]. simpl.
  destruct (fromScripts p); [reflexivity|]. simpl.
  destruct (fromDom (productPageMarkers p)); reflexivity.
Qed.

End Candidates.

(** What the acceptance test guarantees. *)
Lemma plausible_sound (c : string) :
  plausible c = true ->
  c <> EmptyString /\ isPlatformBrand c = false /\ String.length c < 50.
Proof.
  unfold plausible. intros H.
  apply andb_true_iff in H. destruct H as [H Hlen].
  apply andb_true_iff in H. destruct H as [Ht Hb].
  apply negb_true_iff in Hb. apply Nat.ltb_lt in Hlen.
  repeat split; auto. intros E. subst c. discriminate.
Qed.

Lemma accepts_sound (s : Strategy) (c : string) :
  accepts s c = true ->
  c <> EmptyString /\ isPlatformBrand c = false /\ String.length c < 50 /\
  (s = InlineScript -> JsString.includes c "http" = false).
Proof.
  destruct s; simpl; intros H;
    try (destruct (plausible_sound _ H) as (H1 & H2 & H3);
         repeat split; auto; discriminate).
  apply andb_true_iff in H. destruct H as [H Hh]. apply negb_true_iff in Hh.
  destruct (plausible_sound _ H) as (H1 & H2 & H3). repeat split; auto.
Qed.

Lemma checked_sound (found : Awaited Error (option string)) (r : string) :
  checked found = Some r ->
  found = Resolved (Some r) /\ r <> EmptyString /\ isPlatformBrand r = false.
Proof.
  unfold checked. destruct found as [[c|]|e]; try discriminate.
  destruct (String_truthy c && negb (isPlatformBrand c)) eqn:H; [|discriminate].
  intros E. inversion E; subst c. apply andb_true_iff in H. destruct H as [Ht Hb].
  apply negb_true_iff in Hb. repeat split; auto. intros E'. subst r. discriminate.
Qed.

Lemma checked_plausible (c : string) :
  plausible c = true -> checked (Resolved (Some c)) = Some c.
Proof.
  unfold plausible, checked. intros H.
  apply andb_true_iff in H. destruct H as [H _]. now rewrite H.
Qed.

(** What [firstAccepted] resolves with passes the final check. *)
Lemma checked_firstAccepted (l : list (Strategy * option string)) :
  checked (firstAccepted l)
  = match firstAccepted l with Resolved (Some c) => Some c | _ => None end.
Proof.
  induction l as [|[s [c|]] l IH]; simpl; try reflexivity.
  destruct (accepts s c) eqn:Ha; [|assumption].
  apply checked_plausible. destruct s; simpl in Ha; auto.
  apply andb_true_iff in Ha. tauto.
Qed.

End SellerIdentity.

Module SellerPages.
Import PuppeteerScraper.

(** A document without any seller information. *)
Definition blank : Page := mkPage [] None None None None None None [] [].

(** A storefront whose [twitter:creator] tag holds a profile URL. *)
Definition creatorUrl : Page :=
  mkPage [] (Some (Some "https://twitter.com/gadgetshop"%string))
         None None None None None [] [].

(** A storefront whose [twitter:creator] tag names the platform while
    a DOM marker names the seller. *)
Definition brandInMeta : Page :=
  mkPage [] (Some (Some "@eBay"%string)) (Some "  gadget_shop  "%string)
         None None None None [] [].

(** A storefront whose structured data names the platform as the
    seller while a DOM marker names the seller. *)
Definition brandInStructuredData : Page :=
  mkPage [Some (mkJsonLd None (Some "eBay"%string) None None None None)] None
         (Some "gadget_shop"%string) None None None None [] [].

(** A storefront whose structured data holds a sentence of 60
    characters as the seller name. *)
Definition longStructuredName : Page :=
  mkPage [Some (mkJsonLd None
                  (Some "The Gadget Shop - quality widgets and parts since 1999 - UK!"%string)
                  None None None None)] None
         None None None None None [] [].

(** A [decodeURIComponent] that never throws. *)
Definition decoded (s : string) : option string := Some s.

End SellerPages.

(** C8, as the code has it.  Neither extraction function ever returns
    the platform's brand name (or an empty id).  When structured data
    proposes nothing, the result is the first accepted candidate of
    the other strategies, in the order of the function (storefront:
    meta tag, DOM markers, inline scripts, seller links; product page:
    meta tag, inline scripts, DOM markers, first seller link): a
    rejected candidate makes the search go on with the next one, and
    only an exception while decoding a seller link ends it.  A
    candidate of these strategies is accepted only if it is not empty,
    is not the brand name and has fewer than 50 characters; the
    inline-script strategy alone also rejects a candidate that
    contains [http].  A structured-data candidate that passes the
    common test is returned before any other strategy is tried. *)
Theorem seller_identity_rules :
  forall (decodeURIComponent : string -> option string) (p : PuppeteerScraper.Page),
    (forall loaded r,
        PuppeteerScraper.extractSellerIdFromStorefront decodeURIComponent loaded = Some r \/
        PuppeteerScraper.extractSellerIdFromProductPage decodeURIComponent loaded = Some r ->
        r <> EmptyString /\ PuppeteerScraper.isPlatformBrand r = false) /\
    (forall s c,
        SellerIdentity.accepts s c = true ->
        c <> EmptyString /\ PuppeteerScraper.isPlatformBrand c = false /\
        String.length c < 50 /\
        (s = SellerIdentity.InlineScript -> JsString.includes c "http" = false)) /\
    (PuppeteerScraper.fromJsonLd PuppeteerScraper.storefrontFields
       (PuppeteerScraper.jsonLdScripts p) = None ->
     PuppeteerScraper.extractSellerIdFromStorefront decodeURIComponent (Resolved p)
     = match SellerIdentity.firstAccepted
               (SellerIdentity.storefrontCandidates decodeURIComponent p) with
       | Resolved (Some c) => Some c
       | _ => None
       end) /\
    (PuppeteerScraper.fromJsonLd PuppeteerScraper.productPageFields
       (PuppeteerScraper.jsonLdScripts p) = None ->
     PuppeteerScraper.extractSellerIdFromProductPage decodeURIComponent (Resolved p)
     = match SellerIdentity.firstAccepted
               (SellerIdentity.productPageCandidates decodeURIComponent p) with
       | Resolved (Some c) => Some c
       | _ => None
       end) /\
    (forall c,
        PuppeteerScraper.plausible c = true ->
        (PuppeteerScraper.fromJsonLd PuppeteerScraper.storefrontFields
           (PuppeteerScraper.jsonLdScripts p) = Some c ->
         PuppeteerScraper.extractSellerIdFromStorefront decodeURIComponent (Resolved p)
         = Some c) /\
        (PuppeteerScraper.fromJsonLd PuppeteerScraper.productPageFields
           (PuppeteerScraper.jsonLdScripts p) = Some c ->
         PuppeteerScraper.extractSellerIdFromProductPage decodeURIComponent (Resolved p)
         = Some c)).
Proof.
  intros decodeURIComponent p.
  split; [|split; [|split; [|split; [|]]]].
  - intros [q|e] r [H|H]; simpl in H; try discriminate;
      destruct (SellerIdentity.checked_sound _ H) as (_ & H1 & H2); auto.
  - apply SellerIdentity.accepts_sound.
  - intros H. simpl.
    rewrite (SellerIdentity.evaluateStorefront_first decodeURIComponent p H).
    apply SellerIdentity.checked_firstAccepted.
  - intros H. simpl.
    rewrite (SellerIdentity.evaluateProductPage_first decodeURIComponent p H).
    apply SellerIdentity.checked_firstAccepted.
  - intros c Hc. split; intros H; simpl.
    + unfold PuppeteerScraper.evaluateStorefront. rewrite H.
      now apply SellerIdentity.checked_plausible.
    + unfold PuppeteerScraper.evaluateProductPage. rewrite H.
      now apply SellerIdentity.checked_plausible.
Qed.

(** The rules at the page whose meta tag names the platform:
    structured data proposes nothing, so the result is the first
    accepted candidate, the DOM marker. *)
Lemma seller_identity_rules_witness :
  PuppeteerScraper.extractSellerIdFromStorefront SellerPages.decoded
    (Resolved SellerPages.brandInMeta)
  = match SellerIdentity.firstAccepted
            (SellerIdentity.storefrontCandidates SellerPages.decoded
               SellerPages.brandInMeta) with
    | Resolved (Some c) => Some c
    | _ => None
    end.
Proof.
  apply (proj1 (proj2 (proj2 (seller_identity_rules SellerPages.decoded
                                SellerPages.brandInMeta)))).
  reflexivity.
Defined.

(** C8 as stated fails: on a page whose [twitter:creator] tag holds a
    profile URL, both functions return that URL, which contains
    [http]. *)
Lemma seller_identity_returns_url :
  let candidate := "https://twitter.com/gadgetshop"%string in
  PuppeteerScraper.extractSellerIdFromStorefront SellerPages.decoded
    (Resolved SellerPages.creatorUrl) = Some candidate /\
  PuppeteerScraper.extractSellerIdFromProductPage SellerPages.decoded
    (Resolved SellerPages.creatorUrl) = Some candidate /\
  JsString.includes candidate "http" = true.
Proof. cbv zeta. repeat split; vm_compute; reflexivity. Qed.

(** The brand name in the meta tag is rejected and the DOM marker that
    follows is returned, trimmed. *)
Lemma brand_in_meta_falls_through :
  PuppeteerScraper.metaCandidate SellerPages.brandInMeta = Some "eBay"%string /\
  PuppeteerScraper.extractSellerIdFromStorefront SellerPages.decoded
    (Resolved SellerPages.brandInMeta) = Some "gadget_shop"%string /\
  PuppeteerScraper.extractSellerIdFromProductPage SellerPages.decoded
    (Resolved SellerPages.brandInMeta) = Some "gadget_shop"%string.
Proof. repeat split; vm_compute; reflexivity. Qed.

(** Structured data is returned as it is: a name of 60 characters is
    the result, and the brand name ends the extraction with [null]
    although a DOM marker names the seller. *)
Lemma structured_data_is_not_tested :
  PuppeteerScraper.extractSellerIdFromStorefront SellerPages.decoded
    (Resolved SellerPages.longStructuredName)
  = Some "The Gadget Shop - quality widgets and parts since 1999 - UK!"%string /\
  String.length "The Gadget Shop - quality widgets and parts since 1999 - UK!" = 60 /\
  PuppeteerScraper.extractSellerIdFromStorefront SellerPages.decoded
    (Resolved SellerPages.brandInStructuredData) = None /\
  PuppeteerScraper.fromDom
    (PuppeteerScraper.storefrontMarkers SellerPages.brandInStructuredData)
  = Some "gadget_shop"%string.
Proof. repeat split; vm_compute; reflexivity. Qed.

(** * Further properties of the code *)

Unset Implicit Arguments.

(** ** Navigation with retry *)

Module NavigationFacts.
Import Navigation.

Section Contract.
Variable goto : nat -> WaitUntil -> Awaited Error unit.
Variable maxRetries : nat.

Definition rejects (i : nat) : Prop :=
  exists e, answer goto maxRetries i = Rejected e.

Lemma nth_schedule_strict (i : nat) :
  i < maxRetries -> nth i (schedule maxRetries) Load = DomContentLoaded.
Proof.
  intros H. unfold schedule. rewrite app_nth1 by (rewrite repeat_length; exact H).
  apply nth_repeat_lt. exact H.
Qed.

Lemma nth_schedule_idle : nth maxRetries (schedule maxRetries) Load = NetworkIdle2.
Proof.
  unfold schedule. rewrite app_nth2 by (rewrite repeat_length; lia).
  rewrite repeat_length, Nat.sub_diag. reflexivity.
Qed.

Lemma nth_schedule_load : nth (S maxRetries) (schedule maxRetries) Load = Load.
Proof.
  unfold schedule. rewrite app_nth2 by (rewrite repeat_length; lia).
  rewrite repeat_length. replace (S maxRetries - maxRetries) with 1 by lia. reflexivity.
Qed.

Lemma firstn_schedule_strict (k : nat) :
  k <= maxRetries -> firstn k (schedule maxRetries) = repeat DomContentLoaded k.
Proof.
  intros H. unfold schedule. rewrite firstn_app, repeat_length.
  replace (k - maxRetries) with 0 by lia. simpl. rewrite app_nil_r.
  replace maxRetries with (k + (maxRetries - k)) by lia.
  rewrite repeat_app, firstn_app, repeat_length, Nat.sub_diag. simpl.
  rewrite app_nil_r. apply firstn_all2. rewrite repeat_length. lia.
Qed.

(** The loop, started at attempt [attempt] after [attempt] calls:
    [made] counts all the calls of the whole navigation. *)
Lemma navigation_attempts (remaining : nat) :
  forall attempt,
    attempt + remaining = maxRetries -> 1 <= remaining ->
    (forall i, i < attempt -> rejects i) ->
    let r := attempts goto maxRetries remaining attempt attempt in
    exists made,
      attempt + 1 <= made <= maxRetries + 2 /\
      repeat DomContentLoaded attempt ++ gotos r = firstn made (schedule maxRetries) /\
      attempt + pauses r = Nat.min made maxRetries - 1 /\
      (forall i, i < made - 1 -> rejects i) /\
      landed r = answer goto maxRetries (made - 1) /\
      (forall e, landed r = Rejected e -> made = maxRetries + 2).
Proof.
  induction remaining as [|rem IH]; intros attempt Hsum Hpos Hprev; [lia|].
  cbn [attempts]. cbv zeta.
  assert (Hdom : answer goto maxRetries attempt = goto attempt DomContentLoaded).
  { unfold answer. rewrite nth_schedule_strict by lia. reflexivity. }
  destruct (goto attempt DomContentLoaded) as [[]|e] eqn:Hg.
  - exists (attempt + 1). cbn [gotos pauses landed].
    split; [lia|]. split.
    + rewrite firstn_schedule_strict by lia. rewrite repeat_app. reflexivity.
    + split; [lia|]. split; [|split].
      * intros i Hi. apply Hprev. lia.
      * replace (attempt + 1 - 1) with attempt by lia. now rewrite Hdom.
      * discriminate.
  - assert (Hrej : forall i, i < attempt + 1 -> rejects i).
    { intros i Hi. destruct (Nat.eq_dec i attempt) as [->|Hne].
      - exists e. exact Hdom.
      - apply Hprev. lia. }
    destruct (Z.eqb_spec (Z.of_nat attempt) (Z.of_nat maxRetries - 1)) as [Hlast|Hmore].
    + assert (Hm : maxRetries = attempt + 1) by lia.
      assert (Hidle : answer goto maxRetries (S attempt) = goto (S attempt) NetworkIdle2).
      { unfold answer. replace (S attempt) with maxRetries by lia.
        now rewrite nth_schedule_idle. }
      assert (Hload : answer goto maxRetries (S (S attempt))
                      = goto (S (S attempt)) Load).
      { unfold answer. replace (S (S attempt)) with (S maxRetries) by lia.
        now rewrite nth_schedule_load. }
      assert (Hsched : schedule maxRetries
                       = repeat DomContentLoaded attempt
                         ++ [DomContentLoaded; NetworkIdle2; Load]).
      { unfold schedule. rewrite Hm, repeat_app, <- app_assoc. reflexivity. }
      destruct (goto (S attempt) NetworkIdle2) as [[]|e2] eqn:Hg2.
      * exists (attempt + 2). cbn [gotos pauses landed].
        split; [lia|]. split.
        -- rewrite Hsched, firstn_app, repeat_length.
           rewrite firstn_all2 by (rewrite repeat_length; lia).
           replace (attempt + 2 - attempt) with 2 by lia. reflexivity.
        -- split; [lia|]. split; [|split].
           ++ intros i Hi. apply Hrej. lia.
           ++ replace (attempt + 2 - 1) with (S attempt) by lia. now rewrite Hidle.
           ++ discriminate.
      * exists (attempt + 3). cbn [gotos pauses landed].
        split; [lia|]. split.
        -- rewrite Hsched, firstn_app, repeat_length.
           rewrite firstn_all2 by (rewrite repeat_length; lia).
           replace (attempt + 3 - attempt) with 3 by lia. reflexivity.
        -- split; [lia|]. split; [|split].
           ++ intros i Hi. destruct (Nat.eq_dec i (S attempt)) as [->|Hne].
              ** exists e2. exact Hidle.
              ** apply Hrej. lia.
           ++ replace (attempt + 3 - 1) with (S (S attempt)) by lia. now rewrite Hload.
           ++ intros; lia.
    + destruct (IH (S attempt) ltac:(lia) ltac:(lia))
        as (made & Hmade & Hg' & Hp & Hf & Hl & Hthrow).
      { intros i Hi. apply Hrej. lia. }
      exists made. cbn [gotos pauses landed].
      split; [lia|]. split.
      * rewrite <- Hg'. change (S attempt) with (1 + attempt).
        rewrite Nat.add_comm, repeat_app, <- app_assoc. reflexivity.
      * split; [lia|]. split; [assumption|]. split; assumption.
Qed.

End Contract.
End NavigationFacts.

(** X1.  [navigateWithRetry] asks for [domcontentloaded] up to
    [maxRetries] times, then once for [networkidle2] and once for
    [load], and stops at the first call that succeeds: the calls it
    made are a prefix of that schedule, every call before the last one
    failed, and it settles as its last call did.  It pauses one second
    after each failed [domcontentloaded] attempt but the last.  So it
    throws only after [maxRetries + 2] failed calls.  With
    [maxRetries = 0] it returns at once without any navigation. *)
Theorem navigateWithRetry_contract :
  forall (goto : nat -> Navigation.WaitUntil -> Awaited Error unit) (maxRetries : nat),
    let r := Navigation.navigateWithRetry goto maxRetries in
    (1 <= maxRetries ->
     exists made,
       1 <= made <= maxRetries + 2 /\
       Navigation.gotos r = firstn made (Navigation.schedule maxRetries) /\
       Navigation.pauses r = Nat.min made maxRetries - 1 /\
       (forall i, i < made - 1 -> NavigationFacts.rejects goto maxRetries i) /\
       Navigation.landed r = Navigation.answer goto maxRetries (made - 1) /\
       (forall e, Navigation.landed r = Rejected e -> made = maxRetries + 2)) /\
    (maxRetries = 0 ->
     Navigation.landed r = Resolved tt /\ Navigation.gotos r = [] /\
     Navigation.pauses r = 0).
Proof.
  intros goto maxRetries. cbv zeta. split.
  - intros Hm.
    destruct (@NavigationFacts.navigation_attempts goto maxRetries maxRetries 0 eq_refl Hm)
      as (made & H1 & H2 & H3 & H4 & H5 & H6).
    { intros i Hi. lia. }
    exists made. unfold Navigation.navigateWithRetry.
    simpl in H2, H3.
    split; [lia|]. split; [exact H2|]. split; [exact H3|]. split; [exact H4|].
    split; [exact H5|exact H6].
  - intros ->. repeat split; reflexivity.
Qed.

(** The contract at a page that never loads, with three retries: five
    calls, two pauses, and the exception of the last call. *)
Lemma navigateWithRetry_contract_witness :
  let goto := fun (_ : nat) (_ : Navigation.WaitUntil) =>
                @Rejected Error unit "Navigation timeout"%string in
  let r := Navigation.navigateWithRetry goto 3 in
  exists made,
    1 <= made <= 3 + 2 /\
    Navigation.gotos r = firstn made (Navigation.schedule 3) /\
    Navigation.pauses r = Nat.min made 3 - 1 /\
    (forall i, i < made - 1 -> NavigationFacts.rejects goto 3 i) /\
    Navigation.landed r = Navigation.answer goto 3 (made - 1) /\
    (forall e, Navigation.landed r = Rejected e -> made = 3 + 2).
Proof.
  cbv zeta.
  apply (proj1 (navigateWithRetry_contract
                  (fun _ _ => Rejected "Navigation timeout"%string) 3)).
  lia.
Defined.

(** ** Item ids and the API fallback *)

Module MatchingFacts.
Import JsString.

Lemma dropPrefix_app_split (p q s r : string) :
  dropPrefix (p ++ q) s = Some r ->
  exists rest, dropPrefix p s = Some rest /\ dropPrefix q rest = Some r.
Proof.
  revert s. induction p as [|a p IH]; intros s H; simpl in *.
  - exists s. auto.
  - destruct s as [|b s]; [discriminate|].
    destruct (Ascii.eqb a b); [|discriminate]. now apply IH.
Qed.

Lemma startsWith_app_l (s a b : string) :
  startsWith s (a ++ b) = true -> startsWith s a = true.
Proof.
  unfold startsWith. destruct (dropPrefix (a ++ b) s) as [r|] eqn:H; [|discriminate].
  destruct (dropPrefix_app_split _ _ _ _ H) as (rest & Hr & _). now rewrite Hr.
Qed.

(** A string that contains [a ++ b] contains [a]. *)
Lemma includes_app_l (s a b : string) :
  includes s (a ++ b) = true -> includes s a = true.
Proof.
  induction s as [|c s IH]; simpl; intros H.
  - apply orb_true_iff in H. destruct H as [H|H]; [|discriminate].
    now rewrite (startsWith_app_l _ _ _ H).
  - apply orb_true_iff in H. destruct H as [H|H].
    + now rewrite (startsWith_app_l _ _ _ H).
    + rewrite (IH H). apply orb_true_r.
Qed.

Lemma runAfterAt_complete (cls : ascii -> bool) (p s : string) (c : ascii) :
  cls c = true -> startsWith s (p ++ String c EmptyString) = true ->
  runAfterAt cls p s <> None.
Proof.
  intros Hc H. unfold startsWith in H.
  destruct (dropPrefix (p ++ String c EmptyString) s) as [r|] eqn:Hd; [|discriminate].
  destruct (dropPrefix_app_split _ _ _ _ Hd) as (rest & Hp & Hq).
  unfold runAfterAt. rewrite Hp.
  destruct rest as [|b rest]; [discriminate|]. simpl in Hq.
  destruct (Ascii.eqb_spec c b); [|discriminate]. subst b.
  simpl. rewrite Hc. discriminate.
Qed.

Lemma firstSome_complete (A B : Type) (f : A -> option B) (l : list A) (a : A) :
  In a l -> f a <> None -> firstSome (map f l) <> None.
Proof.
  induction l as [|x l IH]; simpl; [intros []|].
  intros [->|Hin] Ha.
  - destruct (f a); [discriminate|congruence].
  - destruct (f x); [discriminate|]. now apply IH.
Qed.

(** [matchRunAfter] finds a match whenever a prefix is followed by a
    character of the class somewhere in the string. *)
Lemma matchRunAfter_complete (cls : ascii -> bool) (ps : list string)
    (s p : string) (c : ascii) :
  In p ps -> cls c = true -> includes s (p ++ String c EmptyString) = true ->
  matchRunAfter cls ps s <> None.
Proof.
  intros Hin Hc. induction s as [|x s IH]; cbn [matchRunAfter includes]; intros H.
  - apply orb_true_iff in H. destruct H as [H|H]; [|discriminate].
    pose proof (firstSome_complete _ _ (fun q => runAfterAt cls q EmptyString) ps p Hin
                  (runAfterAt_complete cls p EmptyString c Hc H)) as Hf.
    destruct (firstSome _); [discriminate|contradiction].
  - destruct (firstSome (map (fun q => runAfterAt cls q (String x s)) ps)) eqn:Hf;
      [discriminate|].
    apply orb_true_iff in H. destruct H as [H|H].
    + exfalso.
      apply (firstSome_complete _ _ (fun q => runAfterAt cls q (String x s)) ps p Hin
               (runAfterAt_complete cls p (String x s) c Hc H)).
      exact Hf.
    + now apply IH.
Qed.

End MatchingFacts.

(** X2.  [extractItemId] returns an id exactly for the URLs in which
    [/itm/], [?item=], [&item=] or [/p/] is followed by a digit
    somewhere; for every other URL it returns [null]. *)
Theorem extractItemId_finds_every_id :
  forall url : string,
    EbayAdapter.extractItemId url <> None <->
    exists shape d,
      In shape EbayAdapterFacts.itemShapes /\ JsString.isDigit d = true /\
      JsString.includes url (shape ++ String d EmptyString) = true.
Proof.
  intros url. split.
  - destruct (EbayAdapter.extractItemId url) as [id|] eqn:H; [intros _|congruence].
    destruct (EbayAdapterFacts.extractItemId_sound url H) as (Hne & Hd & shape & Hin & Hi).
    destruct id as [|d id]; [congruence|]. simpl in Hd.
    apply andb_true_iff in Hd. destruct Hd as [Hd _].
    exists shape, d. repeat split; auto.
    apply MatchingFacts.includes_app_l with (b := id).
    now rewrite JsStringFacts.app_assoc_string.
  - intros (shape & d & Hin & Hd & Hi). unfold EbayAdapter.extractItemId.
    destruct (JsString.matchDigitsAfter ["/itm/"%string] url) eqn:H1; [discriminate|].
    destruct (JsString.matchDigitsAfter ["?item="%string; "&item="%string] url) eqn:H2;
      [discriminate|].
    unfold JsString.matchDigitsAfter in *.
    simpl in Hin. destruct Hin as [<-|[<-|[<-|[<-|[]]]]].
    + exfalso. revert H1.
      apply (MatchingFacts.matchRunAfter_complete JsString.isDigit ["/itm/"%string] url
               "/itm/"%string d); simpl; auto.
    + exfalso. revert H2.
      apply (MatchingFacts.matchRunAfter_complete JsString.isDigit
               ["?item="%string; "&item="%string] url
               "?item="%string d); simpl; auto.
    + exfalso. revert H2.
      apply (MatchingFacts.matchRunAfter_complete JsString.isDigit
               ["?item="%string; "&item="%string] url
               "&item="%string d); simpl; auto.
    + apply (MatchingFacts.matchRunAfter_complete JsString.isDigit ["/p/"%string] url
               "/p/"%string d); simpl; auto.
Qed.

Module ApiFallback.
Import EbayAdapter.

(** [EBAY_APP_ID] is missing, empty or still the placeholder of the
    sample configuration. *)
Definition unconfigured (appId : option string) : Prop :=
  appId = None \/ appId = Some EmptyString \/ appId = Some "your_ebay_app_id"%string.

(** An id under which the API is called. *)
Definition configured (appId : option string) : Prop :=
  exists id, appId = Some id /\ String_truthy id = true /\
             String.eqb id "your_ebay_app_id" = false.

(** An API answer the attempt throws on: a network error, or a first
    item whose price reads as zero. *)
Definition unusable (parseFloat : string -> float) (a : Awaited Error ApiResponse) : Prop :=
  match a with
  | Rejected _ => True
  | Resolved (Some (item :: _)) => (parsePrice parseFloat (apiCurrentPrice item) =? 0)%float = true
  | Resolved _ => False
  end.

(** An API answer without items. *)
Definition empty (a : Awaited Error ApiResponse) : Prop :=
  a = Resolved None \/ a = Resolved (Some []).

Lemma fetchWithAPI_unconfigured parseFloat appId api id :
  unconfigured appId -> fetchWithAPI parseFloat appId api id = (None, 0).
Proof. intros [->|[->| ->]]; reflexivity. Qed.

Lemma apiAttempt_unusable parseFloat api id n :
  unusable parseFloat (api n) ->
  exists e, apiAttempt parseFloat api id n = (Rejected e, S n).
Proof.
  unfold unusable, apiAttempt. destruct (api n) as [[[|item rest]|]|e]; try contradiction.
  - intros H. rewrite H, orb_true_r. eauto.
  - eauto.
Qed.

Lemma apiAttempt_empty parseFloat api id n :
  empty (api n) -> apiAttempt parseFloat api id n = (Resolved None, S n).
Proof. unfold apiAttempt. intros [H|H]; rewrite H; reflexivity. Qed.

End ApiFallback.

(** X3.  When [EBAY_APP_ID] is missing, empty or the placeholder,
    [fetchEbayItem] never calls the item-search API: its only request
    is the page load, and it throws whenever page extraction fails. *)
Theorem fetchEbayItem_without_app_id :
  forall (parseFloat : string -> float) (appId : option string)
         (api : nat -> Awaited Error EbayAdapter.ApiResponse)
         (url : string) (scraped : Awaited Error EbayAdapter.ScrapedProduct),
    ApiFallback.unconfigured appId ->
    let r := EbayAdapter.fetchEbayItem parseFloat appId api url scraped in
    (forall e, EbayAdapter.fetchWithScraping url scraped = Rejected e ->
               EbayAdapter.requests r = [EbayAdapter.ScrapePage url] /\
               exists msg, EbayAdapter.answer r = Rejected msg) /\
    (forall d, EbayAdapter.fetchWithScraping url scraped = Resolved d ->
               EbayAdapter.requests r = [EbayAdapter.ScrapePage url]).
Proof.
  intros parseFloat appId api url scraped Hun. cbv zeta.
  unfold EbayAdapter.fetchEbayItem. split.
  - intros e He. rewrite He.
    destruct (EbayAdapter.extractItemId url) as [id|].
    + rewrite (ApiFallback.fetchWithAPI_unconfigured parseFloat appId api id Hun).
      simpl. eauto.
    + simpl. eauto.
  - intros d Hd. rewrite Hd. reflexivity.
Qed.

(** The adapter with the placeholder app id, on a page that cannot be
    loaded. *)
Lemma fetchEbayItem_without_app_id_witness :
  let url := "https://www.ebay.co.uk/itm/123456789012"%string in
  let r := EbayAdapter.fetchEbayItem (fun _ => 9.5%float)
             (Some "your_ebay_app_id"%string)
             (fun _ => Resolved (Some [EbayAdapter.mkApiItem (Some "Widget"%string)
                                         (Some "9.50"%string) None None]))
             url (Rejected "Navigation timeout"%string) in
  EbayAdapter.requests r = [EbayAdapter.ScrapePage url] /\
  exists msg, EbayAdapter.answer r = Rejected msg.
Proof.
  cbv zeta.
  apply (proj1 (fetchEbayItem_without_app_id (fun _ => 9.5%float)
                  (Some "your_ebay_app_id"%string)
                  (fun _ => Resolved (Some [EbayAdapter.mkApiItem (Some "Widget"%string)
                                              (Some "9.50"%string) None None]))
                  "https://www.ebay.co.uk/itm/123456789012"
                  (Rejected "Navigation timeout"%string)
                  (or_intror (or_intror eq_refl)))
               "Navigation timeout"%string).
  reflexivity.
Defined.

(** X4.  With an app id configured, [fetchWithAPI] does not retry an
    answer without items: it sends one request and returns [null].
    An answer it cannot use (a network error, or a first item whose
    price reads as zero) is retried: when the first three answers are
    all of that kind it has sent exactly three requests and returns
    [null]. *)
Theorem fetchWithAPI_retries :
  forall (parseFloat : string -> float) (appId : option string)
         (api : nat -> Awaited Error EbayAdapter.ApiResponse) (id : string),
    ApiFallback.configured appId ->
    (ApiFallback.empty (api 0) ->
     EbayAdapter.fetchWithAPI parseFloat appId api id = (None, 1)) /\
    ((forall k, k < 3 -> ApiFallback.unusable parseFloat (api k)) ->
     EbayAdapter.fetchWithAPI parseFloat appId api id = (None, 3)).
Proof.
  intros parseFloat appId api id (app & -> & Ht & Hp).
  unfold EbayAdapter.fetchWithAPI. rewrite Ht, Hp.
  unfold Retry.retryWithBackoff. split.
  - intros H. cbn [Retry.attempts].
    rewrite (ApiFallback.apiAttempt_empty parseFloat api id 0 H). reflexivity.
  - intros H.
    destruct (ApiFallback.apiAttempt_unusable parseFloat api id 0 (H 0 ltac:(lia)))
      as [e0 H0].
    destruct (ApiFallback.apiAttempt_unusable parseFloat api id 1 (H 1 ltac:(lia)))
      as [e1 H1].
    destruct (ApiFallback.apiAttempt_unusable parseFloat api id 2 (H 2 ltac:(lia)))
      as [e2 H2].
    cbn [Retry.attempts]. rewrite H0, H1, H2. reflexivity.
Qed.

(** The API keeps answering with an item that has no price. *)
Lemma fetchWithAPI_retries_witness :
  EbayAdapter.fetchWithAPI (fun _ => 9.5%float) (Some "live-app-id"%string)
    (fun _ => Resolved (Some [EbayAdapter.mkApiItem (Some "Widget"%string) None None None]))
    "123456789012"
  = (None, 3).
Proof.
  apply (proj2 (fetchWithAPI_retries (fun _ => 9.5%float)
                  (Some "live-app-id"%string)
                  (fun _ => Resolved (Some [EbayAdapter.mkApiItem (Some "Widget"%string)
                                              None None None]))
                  "123456789012"
                  (ex_intro _ "live-app-id"%string (conj eq_refl (conj eq_refl eq_refl))))).
  intros k Hk. reflexivity.
Defined.

(** ** The item page scraper *)

Module ProductPageFacts.
Import ProductPage.

Lemma listIncludes_false (l : list string) (x : string) :
  JsText.listIncludes l x = false -> ~ In x l.
Proof.
  unfold JsText.listIncludes. intros H Hin.
  assert (existsb (String.eqb x) l = true) as Ht.
  { apply existsb_exists. exists x. split; [exact Hin|apply String.eqb_refl]. }
  congruence.
Qed.

(** What the gallery loop keeps. *)
Definition keeps (s : string) : Prop :=
  s <> EmptyString /\
  JsString.includes s "s-l64" = false /\
  JsString.includes s "s-l140" = false.

Lemma galleryFrom_spec (els : list (option string * option string)) :
  forall images,
    NoDup images -> (forall i, In i images -> keeps i) ->
    NoDup (galleryFrom images els) /\
    (forall i, In i (galleryFrom images els) -> keeps i).
Proof.
  induction els as [|[src dataSrc] els IH]; intros images Hnd Hall; simpl.
  - auto.
  - set (s := attrOr src (attrOr dataSrc EmptyString)).
    destruct (String_truthy s && negb (JsString.includes s "s-l64")
              && negb (JsString.includes s "s-l140")
              && negb (JsText.listIncludes images s)) eqn:Hc.
    + apply andb_true_iff in Hc. destruct Hc as [Hc Hfresh].
      apply andb_true_iff in Hc. destruct Hc as [Hc H140].
      apply andb_true_iff in Hc. destruct Hc as [Ht H64].
      apply negb_true_iff in Hfresh, H140, H64.
      apply IH.
      * apply NoDup_app; [exact Hnd | repeat constructor; intros [] | ].
        intros x Hx [<-|[]]. exact (listIncludes_false _ _ Hfresh Hx).
      * intros i Hi. apply in_app_or in Hi. destruct Hi as [Hi|[<-|[]]]; [now apply Hall|].
        repeat split; [|exact H64|exact H140].
        intros E. rewrite E in Ht. discriminate.
    + now apply IH.
Qed.

Lemma priceOf_range (parseFloat : string -> float)
    (els : list (option (string * option string))) :
  priceOf parseFloat els = 0%float \/ (0 <? priceOf parseFloat els)%float = true.
Proof.
  induction els as [|[[text content]|] els IH]; simpl; auto.
  destruct (0 <? parseFloat _)%float eqn:H; auto.
Qed.

(** What the options loop keeps. *)
Definition counts (o : string * string) : Prop :=
  fst o <> EmptyString /\ fst o <> "0"%string /\ snd o <> EmptyString.

Lemma optionsOf_spec (s : Select) (o : string * string) :
  In o (optionsOf s) -> counts o.
Proof.
  unfold optionsOf. intros H. apply in_flat_map in H.
  destruct H as ([[value|] text] & _ & H); simpl in H; [|contradiction].
  destruct (String_truthy value && String_truthy (JsString.trim text)
            && negb (value =? "0")%string) eqn:Hc; [|contradiction].
  destruct H as [<-|[]].
  apply andb_true_iff in Hc. destruct Hc as [Hc H0].
  apply andb_true_iff in Hc. destruct Hc as [Hv Ht].
  apply negb_true_iff in H0. apply String.eqb_neq in H0.
  repeat split; simpl; [| exact H0 |]; intros E; rewrite E in *; discriminate.
Qed.

Lemma variationsFrom_spec (sels : list Select) :
  forall index v,
    In v (variationsFrom index sels) ->
    variationOptions v <> [] /\ (forall o, In o (variationOptions v) -> counts o).
Proof.
  induction sels as [|s sels IH]; intros index v H; simpl in H; [contradiction|].
  destruct (optionsOf s) as [|o os] eqn:Ho; [now apply (IH (S index))|].
  destruct H as [<-|H]; [|now apply (IH (S index))].
  simpl. split; [discriminate|].
  intros o' Hin. apply (optionsOf_spec s). now rewrite Ho.
Qed.

Lemma stockOf_known (body : string) : stockOf body <> unknown.
Proof.
  unfold stockOf.
  destruct (_ || _); [discriminate|]. destruct (_ || _); discriminate.
Qed.

Lemma In_firstn (A : Type) (n : nat) (l : list A) (x : A) : In x (firstn n l) -> In x l.
Proof.
  revert n. induction l as [|b l IH]; intros [|n]; simpl; try tauto.
  intros [->|H]; eauto.
Qed.

Lemma NoDup_firstn (A : Type) (n : nat) (l : list A) : NoDup l -> NoDup (firstn n l).
Proof.
  revert n. induction l as [|a l IH]; intros [|n] H; simpl; try constructor.
  - inversion H; subst. intros Hin. apply H2. exact (In_firstn _ _ _ _ Hin).
  - inversion H; subst. now apply IH.
Qed.

(** The data of a page that passes the final check of the scraper. *)
Lemma scrapeProductDetails_resolved (parseFloat : string -> float)
    (loaded : Awaited Error Dom) (d : ProductData) :
  scrapeProductDetails parseFloat loaded = Resolved d ->
  String_truthy (title d) = true /\ (0 <? price d)%float = true /\
  exists dom, loaded = Resolved dom /\ d = evaluate parseFloat dom.
Proof.
  unfold scrapeProductDetails. destruct loaded as [dom|e]; [|discriminate].
  destruct (negb (String_truthy (title (evaluate parseFloat dom)))
            || (price (evaluate parseFloat dom) =? 0)%float) eqn:Hc; [discriminate|].
  intros E. injection E as <-.
  apply orb_false_iff in Hc. destruct Hc as [Ht Hp].
  apply negb_false_iff in Ht. split; [exact Ht|]. split; [|eauto].
  simpl in Hp |- *.
  destruct (priceOf_range parseFloat (priceElements dom)) as [E|H]; [|exact H].
  rewrite E in Hp. vm_compute in Hp. discriminate.
Qed.

End ProductPageFacts.

(** X5.  Whatever the item page holds, data that
    [scrapeProductDetails] resolves with has a non-empty title, a price
    above zero, at most ten images, all distinct, none empty and none a
    thumbnail ([s-l64], [s-l140]); each variation has at least one
    option, and no option has an empty value, the value 0 or an empty
    text; the stock state is never unknown.  When the page cannot be
    loaded the exception is passed on. *)
Theorem scrapeProductDetails_data :
  forall (parseFloat : string -> float) (loaded : Awaited Error ProductPage.Dom),
    (forall d, ProductPage.scrapeProductDetails parseFloat loaded = Resolved d ->
       ProductPage.title d <> EmptyString /\
       (0 <? ProductPage.price d)%float = true /\
       List.length (ProductPage.images d) <= 10 /\
       NoDup (ProductPage.images d) /\
       (forall i, In i (ProductPage.images d) -> ProductPageFacts.keeps i) /\
       (forall v, In v (ProductPage.variations d) ->
          variationOptions v <> [] /\
          forall o, In o (variationOptions v) -> ProductPageFacts.counts o) /\
       ProductPage.stock d <> unknown) /\
    (forall e, loaded = Rejected e ->
       ProductPage.scrapeProductDetails parseFloat loaded = Rejected e).
Proof.
  intros parseFloat loaded. split.
  - intros d H.
    destruct (ProductPageFacts.scrapeProductDetails_resolved parseFloat loaded d H)
      as (Ht & Hp & dom & _ & ->).
    destruct (ProductPageFacts.galleryFrom_spec (ProductPage.imageElements dom) []
                (NoDup_nil _) (fun i (F : In i []) => match F with end)) as [Hnd Hall].
    split; [intros E; rewrite E in Ht; discriminate|].
    split; [exact Hp|].
    cbn [ProductPage.evaluate ProductPage.images ProductPage.variations ProductPage.stock].
    split; [apply firstn_le_length|].
    split; [now apply ProductPageFacts.NoDup_firstn|].
    split; [intros i Hi; apply Hall; exact (ProductPageFacts.In_firstn _ _ _ _ Hi)|].
    split; [apply ProductPageFacts.variationsFrom_spec|].
    apply ProductPageFacts.stockOf_known.
  - intros e ->. reflexivity.
Qed.

(** A page with a title, a price, a thumbnail and two copies of one
    image resolves, with one image. *)
Lemma scrapeProductDetails_data_witness :
  let dom := ProductPage.mkDom [None; Some " Widget "%string]
               [Some ("GBP 9.50"%string, None)]
               [(Some "https://i.ebayimg.com/s-l64.jpg"%string, None);
                (Some "https://i.ebayimg.com/a.jpg"%string, None);
                (None, Some "https://i.ebayimg.com/a.jpg"%string)]
               [] [] "Only 2 left"%string "/itm/123456789012"%string in
  let d := ProductPage.evaluate (fun _ => 9.5%float) dom in
  ProductPage.scrapeProductDetails (fun _ => 9.5%float) (Resolved dom) = Resolved d /\
  ProductPage.images d = ["https://i.ebayimg.com/a.jpg"%string] /\
  ProductPage.stock d = low_stock /\
  NoDup (ProductPage.images d).
Proof.
  cbv zeta. split; [reflexivity|]. split; [reflexivity|]. split; [reflexivity|].
  apply (proj1 (scrapeProductDetails_data (fun _ => 9.5%float)
                  (Resolved (ProductPage.mkDom [None; Some " Widget "%string]
                     [Some ("GBP 9.50"%string, None)]
                     [(Some "https://i.ebayimg.com/s-l64.jpg"%string, None);
                      (Some "https://i.ebayimg.com/a.jpg"%string, None);
                      (None, Some "https://i.ebayimg.com/a.jpg"%string)]
                     [] [] "Only 2 left"%string "/itm/123456789012"%string)))).
  reflexivity.
Defined.

(** X6.  The adapter accepts whatever the scraper resolves with:
    [fetchEbayItem] then sends no API request and resolves with the
    scraped title, price, images, stock state, description and
    variations, whatever the app id and the API are. *)
Theorem fetchEbayItem_takes_scraped_data :
  forall (parseFloat parseFloat' : string -> float) (appId : option string)
         (api : nat -> Awaited Error EbayAdapter.ApiResponse) (url : string)
         (loaded : Awaited Error ProductPage.Dom) (d : ProductPage.ProductData),
    ProductPage.scrapeProductDetails parseFloat loaded = Resolved d ->
    let r := EbayAdapter.fetchEbayItem parseFloat' appId api url
               (Resolved (ProductPage.asScraped d)) in
    EbayAdapter.requests r = [EbayAdapter.ScrapePage url] /\
    exists item,
      EbayAdapter.answer r = Resolved item /\
      EbayAdapter.title item = ProductPage.title d /\
      EbayAdapter.price item = ProductPage.price d /\
      EbayAdapter.images item = ProductPage.images d /\
      EbayAdapter.stock item = ProductPage.stock d /\
      EbayAdapter.description item = ProductPage.description d /\
      EbayAdapter.variations item = ProductPage.variations d /\
      EbayAdapter.itemId item <> EmptyString.
Proof.
  intros parseFloat parseFloat' appId api url loaded d H. cbv zeta.
  destruct (ProductPageFacts.scrapeProductDetails_resolved parseFloat loaded d H)
    as (Ht & Hp & dom & Hl & Hd).
  assert ((ProductPage.price d =? 0)%float = false) as Hz.
  { unfold ProductPage.scrapeProductDetails in H. rewrite Hl in H. rewrite <- Hd in H.
    destruct (negb (String_truthy (ProductPage.title d))
              || (ProductPage.price d =? 0)%float) eqn:Hc; [discriminate|].
    apply orb_false_iff in Hc. tauto. }
  unfold EbayAdapter.fetchEbayItem, EbayAdapter.fetchWithScraping.
  cbn [ProductPage.asScraped EbayAdapter.scrapedTitle EbayAdapter.scrapedPrice
       EbayAdapter.scrapedImages EbayAdapter.scrapedStock EbayAdapter.scrapedItemId
       EbayAdapter.scrapedDescription EbayAdapter.scrapedVariations].
  rewrite Ht, Hp. cbn [andb].
  cbn [EbayAdapter.title EbayAdapter.price EbayAdapter.requests EbayAdapter.answer].
  rewrite Ht, Hz. cbn [negb orb].
  split; [reflexivity|].
  eexists. split; [reflexivity|].
  cbn [EbayAdapter.title EbayAdapter.price EbayAdapter.images EbayAdapter.stock
       EbayAdapter.description EbayAdapter.variations EbayAdapter.itemId].
  repeat (split; [reflexivity|]).
  split; [now destruct (ProductPage.images d)|].
  repeat (split; [reflexivity|]).
  apply EbayAdapterFacts.String_or_truthy.
  destruct (EbayAdapter.extractItemId url) as [i|] eqn:Hi; [|discriminate].
  exact (proj1 (@EbayAdapterFacts.extractItemId_sound url i Hi)).
Qed.

(** A page with a title, a price and two copies of one image. *)
Lemma fetchEbayItem_takes_scraped_data_witness :
  let dom := ProductPage.mkDom [None; Some " Widget "%string]
               [Some ("GBP 9.50"%string, None)]
               [(Some "https://i.ebayimg.com/a.jpg"%string, None);
                (Some "https://i.ebayimg.com/a.jpg"%string, None)]
               [] [] "Only 2 left"%string "/itm/123456789012"%string in
  let d := ProductPage.evaluate (fun _ => 9.5%float) dom in
  let r := EbayAdapter.fetchEbayItem (fun _ => 0%float) None (fun _ => Resolved None)
             "https://www.ebay.co.uk/itm/123456789012"
             (Resolved (ProductPage.asScraped d)) in
  EbayAdapter.requests r
  = [EbayAdapter.ScrapePage "https://www.ebay.co.uk/itm/123456789012"] /\
  exists item,
    EbayAdapter.answer r = Resolved item /\
    EbayAdapter.title item = ProductPage.title d /\
    EbayAdapter.price item = ProductPage.price d /\
    EbayAdapter.images item = ProductPage.images d /\
    EbayAdapter.stock item = ProductPage.stock d /\
    EbayAdapter.description item = ProductPage.description d /\
    EbayAdapter.variations item = ProductPage.variations d /\
    EbayAdapter.itemId item <> EmptyString.
Proof.
  cbv zeta.
  apply (fetchEbayItem_takes_scraped_data (fun _ => 9.5%float) (fun _ => 0%float) None
           (fun _ => Resolved None) "https://www.ebay.co.uk/itm/123456789012"
           (Resolved (ProductPage.mkDom [None; Some " Widget "%string]
               [Some ("GBP 9.50"%string, None)]
               [(Some "https://i.ebayimg.com/a.jpg"%string, None);
                (Some "https://i.ebayimg.com/a.jpg"%string, None)]
               [] [] "Only 2 left"%string "/itm/123456789012"%string))).
  reflexivity.
Defined.

(** ** The supplier adapter *)

Module RateLimitFacts.
Import SupplierAdapter.

Lemma Supplier_eqb_spec (a b : Supplier) : reflect (a = b) (Supplier_eqb a b).
Proof. destruct a, b; constructor; congruence. Qed.

(** Every limiter of the map was created with the configured delay. *)
Definition configured (delay : Z) (m : Limiters) : Prop :=
  forall s l, m s = Some l -> minDelay l = delay.

(** The stamp a call writes, read off its world. *)
Lemma waitForRateLimit_stamp (delay : Z) (s : Supplier) (lag : Z) (w : World) :
  configured delay (limiters w) -> (0 <= lag)%Z ->
  let w' := snd (waitForRateLimit delay s lag w) in
  configured delay (limiters w') /\
  limiters w' s = Some (mkLimiter (clock w') delay) /\
  (forall s', s' <> s -> limiters w' s' = limiters w s') /\
  (clock w <= clock w')%Z /\
  (forall l, limiters w s = Some l -> (lastRequest l + delay <= clock w')%Z).
Proof.
  intros Hc Hlag. unfold waitForRateLimit, getRateLimiter.
  destruct (limiters w s) as [l|] eqn:Hl.
  - pose proof (Hc s l Hl) as Hd. cbn [snd clock limiters]. rewrite Hd.
    assert (Hself : forall x, setLimiter s x (limiters w) s = Some x).
    { intros x. unfold setLimiter. now destruct (Supplier_eqb_spec s s). }
    split; [|split; [apply Hself|split; [|split]]].
    + intros s' l'. unfold setLimiter.
      destruct (Supplier_eqb_spec s s'); [intros E; now inversion E|apply Hc].
    + intros s' Hne. unfold setLimiter.
      destruct (Supplier_eqb_spec s s'); [congruence|reflexivity].
    + destruct (Z.ltb_spec (clock w - lastRequest l) delay); cbn [fold_right]; lia.
    + intros l' E. inversion E; subst l'.
      destruct (Z.ltb_spec (clock w - lastRequest l) delay); cbn [fold_right]; lia.
  - cbn [snd clock limiters lastRequest minDelay].
    assert (Hself : forall x m, setLimiter s x m s = Some x).
    { intros x m. unfold setLimiter. now destruct (Supplier_eqb_spec s s). }
    split; [|split; [apply Hself|split; [|split]]].
    + intros s' l'. unfold setLimiter.
      destruct (Supplier_eqb_spec s s'); [intros E; now inversion E|apply Hc].
    + intros s' Hne. unfold setLimiter.
      destruct (Supplier_eqb_spec s s'); [congruence|reflexivity].
    + destruct (Z.ltb_spec (clock w - 0) delay); cbn [fold_right]; lia.
    + intros l' E. discriminate.
Qed.

(** The invariant of a sequence of calls: every stamp is at least the
    configured delay after the stamp the map holds for its key. *)
Lemma stamps_spec (delay : Z) (calls : list Call) :
  forall w,
    configured delay (limiters w) ->
    (forall c, In c calls -> (0 <= idle c)%Z /\ (0 <= lag c)%Z) ->
    let log := stamps delay calls w in
    (forall s t, In (s, t) log ->
       (clock w <= t)%Z /\
       forall l, limiters w s = Some l -> (lastRequest l + delay <= t)%Z) /\
    (forall i j s ti tj,
       i < j -> nth_error log i = Some (s, ti) -> nth_error log j = Some (s, tj) ->
       (ti + delay <= tj)%Z).
Proof.
  induction calls as [|c calls IH]; intros w Hc Hpos; cbn [stamps].
  - split; [intros s t []|]. intros i j s ti tj _ H. destruct i; discriminate.
  - destruct (Hpos c (or_introl eq_refl)) as [Hidle Hlag].
    set (w0 := mkWorld (clock w + idle c) (limiters w)).
    destruct (waitForRateLimit_stamp delay (key c) (lag c) w0 Hc Hlag)
      as (Hc' & Hself & Hother & Hclock & Hlast).
    set (w' := snd (waitForRateLimit delay (key c) (lag c) w0)) in *.
    destruct (IH w' Hc' (fun x Hx => Hpos x (or_intror Hx))) as [IH1 IH2].
    unfold w0 in Hclock, Hlast, Hother. cbn [clock limiters] in Hclock, Hlast, Hother.
    split.
    + intros s t [E|Hin].
      * inversion E; subst s t. split; [lia|]. intros l Hl. now apply Hlast.
      * destruct (IH1 s t Hin) as [Ht Hl']. split; [lia|].
        intros l Hl. destruct (Supplier_eqb_spec s (key c)) as [->|Hne].
        -- specialize (Hlast l Hl). lia.
        -- apply Hl'. rewrite (Hother s Hne). exact Hl.
    + intros [|i] [|j] s ti tj Hlt Hi Hj; try lia.
      * cbn in Hi. inversion Hi; subst s ti. cbn in Hj.
        apply nth_error_In in Hj.
        destruct (IH1 (key c) tj Hj) as [_ Hl]. exact (Hl _ Hself).
      * cbn in Hi, Hj. apply (IH2 i j s ti tj); [lia|exact Hi|exact Hj].
Qed.

End RateLimitFacts.

(** X7.  Calls of [waitForRateLimit] made one after another, starting
    with an empty limiter map: whatever the keys, the time between the
    calls and the lag of the timers, any two [lastRequest] stamps
    written for the same key are at least [RATE_LIMIT_DELAY] apart. *)
Theorem waitForRateLimit_spacing :
  forall (delay t0 : Z) (calls : list SupplierAdapter.Call),
    (forall c, In c calls ->
       (0 <= SupplierAdapter.idle c)%Z /\ (0 <= SupplierAdapter.lag c)%Z) ->
    let log := SupplierAdapter.stamps delay calls
                 (SupplierAdapter.mkWorld t0 SupplierAdapter.noLimiters) in
    forall i j s ti tj,
      i < j -> nth_error log i = Some (s, ti) -> nth_error log j = Some (s, tj) ->
      (ti + delay <= tj)%Z.
Proof.
  intros delay t0 calls Hpos.
  apply (RateLimitFacts.stamps_spec delay calls
           (SupplierAdapter.mkWorld t0 SupplierAdapter.noLimiters)).
  - intros s l H. discriminate.
  - exact Hpos.
Qed.

(** Three calls, two of them for the generic key half a second apart:
    the second one is stamped two seconds after the first. *)
Lemma waitForRateLimit_spacing_witness :
  let calls := [SupplierAdapter.mkCall SupplierAdapter.generic 0 0;
                SupplierAdapter.mkCall SupplierAdapter.amazon 100 0;
                SupplierAdapter.mkCall SupplierAdapter.generic 400 3] in
  let log := SupplierAdapter.stamps 2000 calls
               (SupplierAdapter.mkWorld 1700000000000 SupplierAdapter.noLimiters) in
  log = [(SupplierAdapter.generic, 1700000000000%Z);
         (SupplierAdapter.amazon, 1700000000100%Z);
         (SupplierAdapter.generic, 1700000002003%Z)] /\
  (1700000000000 + 2000 <= 1700000002003)%Z.
Proof.
  cbv zeta. split; [reflexivity|].
  apply (waitForRateLimit_spacing 2000 1700000000000
           [SupplierAdapter.mkCall SupplierAdapter.generic 0 0;
            SupplierAdapter.mkCall SupplierAdapter.amazon 100 0;
            SupplierAdapter.mkCall SupplierAdapter.generic 400 3])
    with (i := 0) (j := 2) (s := SupplierAdapter.generic).
  - intros c [<-|[<-|[<-|[]]]]; cbn; lia.
  - lia.
  - reflexivity.
  - reflexivity.
Defined.

Module SupplierFacts.
Import SupplierAdapter.

Lemma includes_dropPrefix (a s rest p : string) :
  JsString.dropPrefix a s = Some rest ->
  JsString.includes rest p = true -> JsString.includes s p = true.
Proof.
  revert s. induction a as [|x a IH]; intros s H Hr; simpl in H.
  - now inversion H; subst.
  - destruct s as [|y s]; [discriminate|].
    destruct (Ascii.eqb x y); [|discriminate].
    apply JsStringFacts.includes_tail. now apply IH.
Qed.

(** A string that contains [a ++ b] contains [b]. *)
Lemma includes_app_r (s a b : string) :
  JsString.includes s (a ++ b) = true -> JsString.includes s b = true.
Proof.
  induction s as [|c s IH]; cbn [JsString.includes]; intros H.
  - apply orb_true_iff in H. destruct H as [H|H]; [|discriminate].
    unfold JsString.startsWith in H.
    destruct (JsString.dropPrefix (a ++ b) EmptyString) as [r|] eqn:Hd; [|discriminate].
    destruct (MatchingFacts.dropPrefix_app_split _ _ _ _ Hd) as (rest & Ha & Hb).
    apply (includes_dropPrefix a EmptyString rest b Ha).
    apply JsStringFacts.includes_startsWith. unfold JsString.startsWith. now rewrite Hb.
  - apply orb_true_iff in H. destruct H as [H|H].
    + unfold JsString.startsWith in H.
      destruct (JsString.dropPrefix (a ++ b) (String c s)) as [r|] eqn:Hd; [|discriminate].
      destruct (MatchingFacts.dropPrefix_app_split _ _ _ _ Hd) as (rest & Ha & Hb).
      apply (includes_dropPrefix a (String c s) rest b Ha).
      apply JsStringFacts.includes_startsWith. unfold JsString.startsWith. now rewrite Hb.
    + rewrite (IH H). apply orb_true_r.
Qed.

Lemma priceOrZero_number (p : float) :
  (priceOrZero p =? priceOrZero p)%float = true.
Proof.
  unfold priceOrZero, Number_truthy.
  destruct (negb (p =? 0)%float && (p =? p)%float) eqn:H; [|reflexivity].
  apply andb_true_iff in H. tauto.
Qed.

Lemma firstFive_length (l : list string) : List.length (firstFive l) <= 5.
Proof. unfold firstFive. destruct l; [simpl; lia|apply firstn_le_length]. Qed.

Lemma firstFive_In (l : list string) (x : string) : In x (firstFive l) -> In x l.
Proof.
  unfold firstFive. destruct l; [intros []|]. apply ProductPageFacts.In_firstn.
Qed.

(** What the final check of the three callbacks lets through. *)
Lemma checked_resolved (site fallback t : string) (p : float) (s : StockStatus)
    (imgs : list string) (d : Data) :
  checked site fallback t p s imgs = Resolved d ->
  d = mkData t (priceOrZero p) s (firstFive imgs) /\ 3 <= String.length t.
Proof.
  unfold checked.
  destruct (negb (String_truthy t) || (String.length t <? 3)) eqn:H; [discriminate|].
  apply orb_false_iff in H. destruct H as [Ht Hl].
  apply negb_false_iff in Ht. apply Nat.ltb_ge in Hl.
  intros E. injection E as <-. split; [|exact Hl].
  unfold String_or. now rewrite Ht.
Qed.

Lemma checked_rejected (site fallback t : string) (p : float) (s : StockStatus)
    (imgs : list string) :
  String.length t < 3 -> exists e, checked site fallback t p s imgs = Rejected e.
Proof.
  intros H. unfold checked. apply Nat.ltb_lt in H. rewrite H, orb_true_r. eauto.
Qed.

(** The three callbacks. *)
Definition parsers (parseFloat : string -> float)
  : list (Document -> Awaited Error Data) :=
  [parseAliExpress parseFloat; parseAmazon parseFloat; parseGeneric parseFloat].

(** What the three callbacks let through. *)
Lemma parsed_shape (parseFloat : string -> float)
    (parse : Document -> Awaited Error Data) (doc : Document) (d : Data) :
  In parse (parsers parseFloat) ->
  parse doc = Resolved d ->
  3 <= String.length (title d) /\
  (price d =? price d)%float = true /\
  List.length (images d) <= 5.
Proof.
  intros Hin H.
  assert (exists site fallback t p s imgs,
             checked site fallback t p s imgs = Resolved d)
    as (site & fallback & t & p & s & imgs & Hc).
  { destruct Hin as [<-|[<-|[<-|[]]]];
      [unfold parseAliExpress in H
      |unfold parseAmazon in H
      |unfold parseGeneric in H];
      cbv zeta in H; eauto 10. }
  destruct (checked_resolved _ _ _ _ _ _ _ Hc) as [-> Hl].
  cbn [title price images].
  split; [exact Hl|]. split.
  - apply priceOrZero_number.
  - apply firstFive_length.
Qed.

Lemma absolute_http (s : string) :
  JsString.startsWith s "http" || JsString.startsWith s "//" = true ->
  JsString.startsWith (absolute s) "http" = true.
Proof.
  unfold absolute. destruct (JsString.startsWith s "//") eqn:H.
  - reflexivity.
  - now rewrite orb_false_r.
Qed.

Section Fetchers.
Variable get : nat -> Awaited Error Document.
Variable parse : Document -> Awaited Error Data.

Lemma worldAfter_attempt (n k : nat) :
  Retry.worldAfter (attempt get parse) n k = n + k.
Proof.
  revert k. induction n as [|n IH]; intros k; [reflexivity|].
  cbn [Retry.worldAfter]. rewrite IH. cbn. lia.
Qed.

Lemma outcome_attempt (i : nat) :
  Retry.outcome (attempt get parse) i 0 = fst (attempt get parse i).
Proof. unfold Retry.outcome. rewrite worldAfter_attempt. now rewrite Nat.add_0_r. Qed.

(** The contract of the retry loop, at the three attempts and the one
    second base delay every fetcher passes. *)
Lemma fetchWith_spec (limiterKey : Supplier) (prefix : string) :
  let f := fetchWith get limiterKey parse prefix in
  limited f = [limiterKey] /\
  1 <= gets f <= 3 /\
  sleeps f = firstn (gets f - 1) [1000; 2000]%Z /\
  (forall i, i < gets f - 1 -> exists e, fst (attempt get parse i) = Rejected e) /\
  match answer f with
  | Resolved (Some d) => fst (attempt get parse (gets f - 1)) = Resolved d
  | Resolved None => False
  | Rejected msg =>
      gets f = 3 /\
      exists e, fst (attempt get parse 2) = Rejected e /\ msg = (prefix ++ e)%string
  end.
Proof.
  cbv zeta. unfold fetchWith, Retry.retryWithBackoff.
  pose proof (@RetryFacts.attempts_spec nat Error Data (attempt get parse) 3 1000 3 0 0
                eq_refl ltac:(lia)) as H.
  cbv zeta in H.
  set (r := Retry.attempts (attempt get parse) 3 1000 3 0 0) in *.
  destruct H as (Hc & Hw & Hf & _ & Hs).
  cbn [limited gets sleeps answer].
  split; [reflexivity|]. split; [exact Hc|]. split.
  - rewrite Hw. destruct Hc as [Hc1 Hc2].
    destruct (Retry.calls r) as [|[|[|[|n]]]]; try lia; reflexivity.
  - split.
    + intros i Hi. destruct (Hf i Hi) as [e He]. exists e.
      now rewrite <- outcome_attempt.
    + destruct (Retry.settled r) as [a|e|].
      * now rewrite <- outcome_attempt.
      * destruct Hs as [Hs1 Hs2]. split; [exact Hs1|]. exists e.
        split; [|reflexivity]. rewrite <- outcome_attempt. exact Hs2.
      * exact Hs.
Qed.

End Fetchers.

End SupplierFacts.

(** X8.  Whatever page a supplier scraper (AliExpress, Amazon or
    generic) is given, data it resolves with has a title of at least
    three characters, a price that is a number (never NaN) and at most
    five images. *)
Theorem supplier_data_shape :
  forall (parseFloat : string -> float)
         (parse : SupplierAdapter.Document -> Awaited Error SupplierAdapter.Data)
         (doc : SupplierAdapter.Document) (d : SupplierAdapter.Data),
    In parse (SupplierFacts.parsers parseFloat) ->
    parse doc = Resolved d ->
    3 <= String.length (SupplierAdapter.title d) /\
    (SupplierAdapter.price d =? SupplierAdapter.price d)%float = true /\
    List.length (SupplierAdapter.images d) <= 5.
Proof.
  intros parseFloat parse doc d Hin H.
  exact (SupplierFacts.parsed_shape parseFloat parse doc d Hin H).
Qed.

(** A generic page with a heading and a price in its meta data. *)
Lemma supplier_data_shape_witness :
  let doc := fun sel =>
    match sel with
    | SupplierAdapter.h1 =>
        [SupplierAdapter.mkElement " Garden hose 30m "%string None None None]
    | SupplierAdapter.itemprop_price =>
        [SupplierAdapter.mkElement EmptyString None None (Some "12.50"%string)]
    | _ => []
    end in
  exists d,
    SupplierAdapter.parseGeneric (fun _ => 12.5%float) doc = Resolved d /\
    SupplierAdapter.title d = "Garden hose 30m"%string /\
    3 <= String.length (SupplierAdapter.title d) /\
    (SupplierAdapter.price d =? SupplierAdapter.price d)%float = true /\
    List.length (SupplierAdapter.images d) <= 5.
Proof.
  cbv zeta. eexists. split; [reflexivity|]. split; [reflexivity|].
  apply (supplier_data_shape (fun _ => 12.5%float)
           (SupplierAdapter.parseGeneric (fun _ => 12.5%float))
           (fun sel =>
              match sel with
              | SupplierAdapter.h1 =>
                  [SupplierAdapter.mkElement " Garden hose 30m "%string None None None]
              | SupplierAdapter.itemprop_price =>
                  [SupplierAdapter.mkElement EmptyString None None (Some "12.50"%string)]
              | _ => []
              end)).
  - right. right. left. reflexivity.
  - reflexivity.
Defined.

(** X9.  What the generic scraper reads off a page it accepts: every
    image address it returns starts with [http]; and since the word
    available is looked for first, a page whose text says unavailable
    is read as in stock, and a page read as out of stock mentions
    neither available nor in stock. *)
Theorem parseGeneric_reading :
  forall (parseFloat : string -> float) (doc : SupplierAdapter.Document)
         (d : SupplierAdapter.Data),
    SupplierAdapter.parseGeneric parseFloat doc = Resolved d ->
    let bodyText := JsText.toLowerCase (SupplierAdapter.text doc SupplierAdapter.body) in
    (forall i, In i (SupplierAdapter.images d) -> JsString.startsWith i "http" = true) /\
    (JsString.includes bodyText "unavailable" = true ->
     SupplierAdapter.stock d = in_stock) /\
    (SupplierAdapter.stock d = out_of_stock ->
     JsString.includes bodyText "available" = false /\
     JsString.includes bodyText "in stock" = false).
Proof.
  intros parseFloat doc d H. cbv zeta.
  unfold SupplierAdapter.parseGeneric in H. cbv zeta in H.
  destruct (SupplierFacts.checked_resolved _ _ _ _ _ _ _ H) as [-> _].
  cbn [SupplierAdapter.images SupplierAdapter.stock].
  set (bodyText := JsText.toLowerCase (SupplierAdapter.text doc SupplierAdapter.body)).
  split; [|split].
  - intros i Hi. apply SupplierFacts.firstFive_In in Hi.
    apply in_flat_map in Hi. destruct Hi as (e & _ & Hi).
    destruct (SupplierAdapter.src e) as [s|]; [|contradiction].
    destruct (String_truthy s && negb (JsString.includes s "data:image")
              && (JsString.startsWith s "http" || JsString.startsWith s "//")) eqn:Hc;
      [|contradiction].
    destruct Hi as [<-|[]]. apply andb_true_iff in Hc.
    apply SupplierFacts.absolute_http. tauto.
  - intros Hu.
    assert (JsString.includes bodyText "available" = true) as Ha.
    { apply (SupplierFacts.includes_app_r bodyText "un" "available"). exact Hu. }
    rewrite Ha, orb_true_r. reflexivity.
  - destruct (JsString.includes bodyText "in stock" || JsString.includes bodyText "available")
      eqn:Hin; [discriminate|].
    intros _. apply orb_false_iff in Hin. tauto.
Qed.

(** A page that says the product is currently unavailable. *)
Lemma parseGeneric_reading_witness :
  let doc := fun sel =>
    match sel with
    | SupplierAdapter.h1 =>
        [SupplierAdapter.mkElement "Garden hose 30m"%string None None None]
    | SupplierAdapter.img =>
        [SupplierAdapter.mkElement EmptyString (Some "//cdn.example.com/hose.jpg"%string)
           None None]
    | SupplierAdapter.body =>
        [SupplierAdapter.mkElement "Garden hose 30m. Currently Unavailable."%string
           None None None]
    | _ => []
    end in
  exists d,
    SupplierAdapter.parseGeneric (fun _ => 0%float) doc = Resolved d /\
    SupplierAdapter.images d = ["https://cdn.example.com/hose.jpg"%string] /\
    SupplierAdapter.stock d = in_stock.
Proof.
  cbv zeta. eexists. split; [reflexivity|]. split; [reflexivity|].
  apply (parseGeneric_reading (fun _ => 0%float)
           (fun sel =>
              match sel with
              | SupplierAdapter.h1 =>
                  [SupplierAdapter.mkElement "Garden hose 30m"%string None None None]
              | SupplierAdapter.img =>
                  [SupplierAdapter.mkElement EmptyString
                     (Some "//cdn.example.com/hose.jpg"%string) None None]
              | SupplierAdapter.body =>
                  [SupplierAdapter.mkElement "Garden hose 30m. Currently Unavailable."%string
                     None None None]
              | _ => []
              end)).
  - reflexivity.
  - reflexivity.
Defined.

Module DispatchFacts.
Import SupplierAdapter.

(** The fetcher [fetchSupplierData] hands a non-empty URL to. *)
Definition routed (parseFloat : string -> float) (get : nat -> Awaited Error Document)
    (url : string) : Fetched :=
  match detectSupplier url with
  | aliexpress => fetchAliExpress parseFloat get
  | amazon => fetchAmazon parseFloat get
  | _ => fetchGeneric parseFloat get
  end.

(** Each fetcher is the retry loop around one of the three
    callbacks, under a key that is not [alibaba] and with a message
    prefix of its own. *)
Lemma routed_fetchWith (parseFloat : string -> float)
    (get : nat -> Awaited Error Document) (url : string) :
  exists k parse prefix,
    routed parseFloat get url = fetchWith get k parse prefix /\
    k <> alibaba /\
    In parse (SupplierFacts.parsers parseFloat) /\
    (forall e, JsString.startsWith (prefix ++ e) "Failed to fetch " = true) /\
    (k = aliexpress <-> detectSupplier url = aliexpress) /\
    (k = amazon <-> detectSupplier url = amazon).
Proof.
  unfold routed, SupplierFacts.parsers.
  destruct (detectSupplier url).
  - exists aliexpress, (parseAliExpress parseFloat),
      "Failed to fetch AliExpress product data: "%string.
    repeat split; try discriminate; try reflexivity; simpl; auto.
  - exists amazon, (parseAmazon parseFloat),
      "Failed to fetch Amazon product data: "%string.
    repeat split; try discriminate; try reflexivity; simpl; auto.
  - exists generic, (parseGeneric parseFloat), "Failed to fetch supplier data: "%string.
    repeat split; try discriminate; try reflexivity; simpl; auto.
  - exists generic, (parseGeneric parseFloat), "Failed to fetch supplier data: "%string.
    repeat split; try discriminate; try reflexivity; simpl; auto.
Qed.

Lemma attempt_resolved (get : nat -> Awaited Error Document)
    (parse : Document -> Awaited Error Data) (k : nat) (d : Data) :
  fst (attempt get parse k) = Resolved d ->
  exists doc, get k = Resolved doc /\ parse doc = Resolved d.
Proof.
  unfold attempt. cbn [fst]. destruct (get k) as [doc|e]; [eauto|discriminate].
Qed.

(** What [fetchSupplierData] does, read off the retry loop and the
    callbacks. *)
Lemma fetchSupplierData_spec :
  forall (parseFloat : string -> float)
         (get : nat -> Awaited Error SupplierAdapter.Document) (url : string),
    let f := SupplierAdapter.fetchSupplierData parseFloat get url in
    (url = EmptyString ->
     f = SupplierAdapter.mkFetched [] 0 []
           (Rejected "Supplier URL is required"%string)) /\
    (url <> EmptyString ->
     (exists k, SupplierAdapter.limited f = [k] /\
                k <> SupplierAdapter.alibaba /\
                (k = SupplierAdapter.aliexpress <->
                 SupplierAdapter.detectSupplier url = SupplierAdapter.aliexpress) /\
                (k = SupplierAdapter.amazon <->
                 SupplierAdapter.detectSupplier url = SupplierAdapter.amazon)) /\
     1 <= SupplierAdapter.gets f <= 3 /\
     SupplierAdapter.sleeps f = firstn (SupplierAdapter.gets f - 1) [1000; 2000]%Z /\
     (forall i, i < SupplierAdapter.gets f - 1 ->
        forall doc, get i = Resolved doc ->
        exists parse e, In parse (SupplierFacts.parsers parseFloat) /\
                        parse doc = Rejected e) /\
     match SupplierAdapter.answer f with
     | Resolved (Some d) =>
         (exists parse doc,
            In parse (SupplierFacts.parsers parseFloat) /\
            get (SupplierAdapter.gets f - 1) = Resolved doc /\
            parse doc = Resolved d) /\
         3 <= String.length (SupplierAdapter.title d) /\
         (SupplierAdapter.price d =? SupplierAdapter.price d)%float = true /\
         List.length (SupplierAdapter.images d) <= 5
     | Resolved None => False
     | Rejected msg =>
         SupplierAdapter.gets f = 3 /\
         JsString.startsWith msg "Failed to fetch " = true
     end).
Proof.
  intros parseFloat get url. cbv zeta. split.
  - intros ->. reflexivity.
  - intros Hne. unfold SupplierAdapter.fetchSupplierData.
    destruct url as [|c url]; [congruence|]. cbn [String_truthy negb].
    change (match SupplierAdapter.detectSupplier (String c url) with
            | SupplierAdapter.aliexpress => SupplierAdapter.fetchAliExpress parseFloat get
            | SupplierAdapter.amazon => SupplierAdapter.fetchAmazon parseFloat get
            | _ => SupplierAdapter.fetchGeneric parseFloat get
            end) with (DispatchFacts.routed parseFloat get (String c url)).
    destruct (DispatchFacts.routed_fetchWith parseFloat get (String c url))
      as (k & parse & prefix & -> & Hk & Hp & Hmsg & Hali & Hamz).
    destruct (SupplierFacts.fetchWith_spec get parse k prefix)
      as (Hlim & Hg & Hs & Hf & Ha).
    set (f := SupplierAdapter.fetchWith get k parse prefix) in *.
    cbn [SupplierAdapter.limited SupplierAdapter.gets SupplierAdapter.sleeps
         SupplierAdapter.answer].
    split; [exists k; tauto|]. split; [exact Hg|]. split; [exact Hs|]. split.
    + intros i Hi doc Hdoc. destruct (Hf i Hi) as [e He].
      exists parse, e. split; [exact Hp|].
      unfold SupplierAdapter.attempt in He. cbn [fst] in He. now rewrite Hdoc in He.
    + destruct (SupplierAdapter.answer f) as [[d|]|msg].
      * destruct (DispatchFacts.attempt_resolved get parse _ d Ha) as (doc & Hdoc & Hd).
        split; [exists parse, doc; tauto|].
        exact (SupplierFacts.parsed_shape parseFloat parse doc d Hp Hd).
      * contradiction.
      * destruct Ha as (H3 & e & _ & ->). split; [exact H3|apply Hmsg].
Qed.

End DispatchFacts.

(** X10.  [fetchSupplierData] on an empty URL throws without touching
    the rate limiter or the network.  On any other URL it takes the
    rate limit once, under the key [aliexpress] or [amazon] when the
    URL names that site and under [generic] otherwise (Alibaba pages
    included), and sends between one and three GET requests, one and
    two seconds apart.  What it resolves with is the data one of the
    three callbacks read off the page of the last request, with a title
    of three characters or more, a price that is a number and at most
    five images; it throws only after three requests, with a message
    that starts with [Failed to fetch]. *)
Theorem fetchSupplierData_contract :
  forall (parseFloat : string -> float)
         (get : nat -> Awaited Error SupplierAdapter.Document) (url : string),
    let f := SupplierAdapter.fetchSupplierData parseFloat get url in
    (url = EmptyString ->
     f = SupplierAdapter.mkFetched [] 0 []
           (Rejected "Supplier URL is required"%string)) /\
    (url <> EmptyString ->
     (exists k, SupplierAdapter.limited f = [k] /\
                k <> SupplierAdapter.alibaba /\
                (k = SupplierAdapter.aliexpress <->
                 SupplierAdapter.detectSupplier url = SupplierAdapter.aliexpress) /\
                (k = SupplierAdapter.amazon <->
                 SupplierAdapter.detectSupplier url = SupplierAdapter.amazon)) /\
     1 <= SupplierAdapter.gets f <= 3 /\
     SupplierAdapter.sleeps f = firstn (SupplierAdapter.gets f - 1) [1000; 2000]%Z /\
     (forall i, i < SupplierAdapter.gets f - 1 ->
        forall doc, get i = Resolved doc ->
        exists parse e, In parse (SupplierFacts.parsers parseFloat) /\
                        parse doc = Rejected e) /\
     match SupplierAdapter.answer f with
     | Resolved (Some d) =>
         (exists parse doc,
            In parse (SupplierFacts.parsers parseFloat) /\
            get (SupplierAdapter.gets f - 1) = Resolved doc /\
            parse doc = Resolved d) /\
         3 <= String.length (SupplierAdapter.title d) /\
         (SupplierAdapter.price d =? SupplierAdapter.price d)%float = true /\
         List.length (SupplierAdapter.images d) <= 5
     | Resolved None => False
     | Rejected msg =>
         SupplierAdapter.gets f = 3 /\
         JsString.startsWith msg "Failed to fetch " = true
     end).
Proof. exact DispatchFacts.fetchSupplierData_spec. Qed.

(** An Alibaba page that answers on the second request. *)
Lemma fetchSupplierData_contract_witness :
  let page := fun sel =>
    match sel with
    | SupplierAdapter.h1 =>
        [SupplierAdapter.mkElement "Garden hose 30m"%string None None None]
    | _ => []
    end in
  let f := SupplierAdapter.fetchSupplierData (fun _ => 0%float)
             (fun k => match k with
                       | 0 => Rejected "timeout of 15000ms exceeded"%string
                       | _ => Resolved page
                       end)
             "https://www.alibaba.com/product/1" in
  SupplierAdapter.limited f = [SupplierAdapter.generic] /\
  SupplierAdapter.gets f = 2 /\
  SupplierAdapter.sleeps f = firstn (SupplierAdapter.gets f - 1) [1000; 2000]%Z.
Proof.
  cbv zeta. split; [reflexivity|]. split; [reflexivity|].
  refine (proj1 (proj2 (proj2 (proj2 (fetchSupplierData_contract (fun _ => 0%float)
                  (fun k => match k with
                            | 0 => Rejected "timeout of 15000ms exceeded"%string
                            | _ => Resolved
                                     (fun sel =>
                                        match sel with
                                        | SupplierAdapter.h1 =>
                                            [SupplierAdapter.mkElement
                                               "Garden hose 30m"%string None None None]
                                        | _ => []
                                        end)
                            end)
                  "https://www.alibaba.com/product/1") _)))).
  discriminate.
Defined.
(** ** The supplier adapter under the monitoring service *)

Module SupplierCheck.
Import MonitoringService.

Section Check.
Variable trim : string -> string.
Variable toFixed2 : float -> float.
Variable env : Env.
Variable settings : Settings.
Variable now : Z.

(** A check that calls [save()] has stamped the product with the time
    of the check. *)
Lemma saved_stamp (p : Product) (up : Upstream) :
  hasChanges (checkProduct trim toFixed2 env settings now p up) = true ->
  lastCheckedAt (product (checkProduct trim toFixed2 env settings now p up)) = now.
Proof.
  unfold checkProduct. cbv zeta.
  set (st := competitorStep env settings (competitorAnswer up) _).
  unfold finish. destruct (hasChanges st) eqn:H.
  - intros _. cbn [product]. unfold calculateProfit. cbn [ebayPrice supplierPrice].
    destruct (Number_truthy (ebayPrice (product st))
              && Number_truthy (supplierPrice (product st))); reflexivity.
  - rewrite H. discriminate.
Qed.

(** The supplier fields the supplier step leaves, for a product with a
    supplier URL. *)
Lemma afterSupplier_fields (p : Product) (up : Upstream) (url : string) :
  supplierUrl p = Some url -> String_truthy url = true ->
  let st := MonitoringFacts.afterSupplier trim env settings p up in
  match supplierAnswer up with
  | Resolved (Some d) =>
      is_nan (supplierDataPrice d) = false ->
      hasChanges st = true /\
      supplierPrice (product st) = supplierDataPrice d /\
      supplierStockStatus (product st) = supplierDataStock d
  | Resolved None => True
  | Rejected _ =>
      hasChanges st = true /\
      supplierPrice (product st) = supplierPrice p /\
      supplierStockStatus (product st) = unknown
  end.
Proof.
  intros Hurl Ht. cbv zeta.
  destruct (MonitoringFacts.afterEbay_supplier_fields trim env settings p up)
    as (Hu & Hp & _).
  unfold MonitoringFacts.afterSupplier, supplierStep, supplierCaught. cbv zeta.
  rewrite Hu, Hurl, Ht.
  destruct (supplierAnswer up) as [[d|]|e];
    [intros Hn; rewrite Hn| |];
    cbn [product hasChanges supplierPrice supplierStockStatus]; auto.
Qed.

(** A Number that equals itself is not NaN. *)
Lemma number_casts (x : float) : (x =? x)%float = true -> is_nan x = false.
Proof. unfold is_nan. now intros ->. Qed.

End Check.
End SupplierCheck.

(** X11.  A check of a product that has a supplier URL, with the
    supplier answer taken from [fetchSupplierData]: whatever the
    marketplace, the supplier site and the competitor search answer,
    the product object is stamped with the time of the check and
    [save()] is called on it.  The save is accepted exactly when the
    marketplace price, the numbers of the competitor data and the
    profit of the prices the object is left with are numbers and the
    title is not empty (a supplier price the adapter returns is always
    a number); otherwise the check answers without success and the
    stored product is the one before.  Either the
    adapter threw, and then the supplier stock state of the object is
    unknown, its supplier price is kept and no supplier history row is
    written; or it resolved, and then the object holds the price and
    stock state read off the page, the price is a number, and exactly
    one supplier history row, holding the same two values, is
    written. *)
Theorem checkProduct_with_supplier_adapter :
  forall (trim : string -> string) (toFixed2 : float -> float)
         (env : MonitoringService.Env)
         (settings : MonitoringService.Settings) (now : Z)
         (p : MonitoringService.Product)
         (ebayAnswer : Awaited Error (option EbayAdapter.Item))
         (competitorAnswer : Awaited Error (option MonitoringService.Insights))
         (parseFloat : string -> float)
         (get : nat -> Awaited Error SupplierAdapter.Document) (url : string),
    MonitoringService.supplierUrl p = Some url ->
    url <> EmptyString ->
    let f := SupplierAdapter.fetchSupplierData parseFloat get url in
    let up := MonitoringService.mkUpstream ebayAnswer (SupplierAdapter.awaited f)
                competitorAnswer in
    let st := MonitoringService.checkProduct trim toFixed2 env settings now p up in
    MonitoringService.hasChanges st = true /\
    MonitoringService.lastCheckedAt (MonitoringService.product st) = now /\
    MonitoringService.saved st
    = MonitoringFacts.ebayCasts up && MonitoringFacts.competitorCasts up
      && String_truthy (MonitoringFacts.titleAfter trim p up)
      && MonitoringFacts.profitCastsAfter p up /\
    MonitoringService.success st = MonitoringService.saved st /\
    MonitoringService.stored p st
    = (if MonitoringService.saved st then MonitoringService.product st else p) /\
    match SupplierAdapter.answer f with
    | Rejected _ =>
        MonitoringService.supplierStockStatus (MonitoringService.product st) = unknown /\
        MonitoringService.supplierPrice (MonitoringService.product st)
        = MonitoringService.supplierPrice p /\
        MonitoringService.entriesOf MonitoringService.supplier
          (MonitoringService.history st) = []
    | Resolved (Some d) =>
        MonitoringService.supplierStockStatus (MonitoringService.product st)
        = SupplierAdapter.stock d /\
        MonitoringService.supplierPrice (MonitoringService.product st)
        = SupplierAdapter.price d /\
        (SupplierAdapter.price d =? SupplierAdapter.price d)%float = true /\
        MonitoringService.entriesOf MonitoringService.supplier
          (MonitoringService.history st)
        = [MonitoringService.mkEntry MonitoringService.supplier
             (SupplierAdapter.price d) (SupplierAdapter.stock d)]
    | Resolved None => False
    end.
Proof.
  intros trim toFixed2 env settings now p ebayAnswer competitorAnswer parseFloat get url
         Hurl Hne.
  cbv zeta.
  set (f := SupplierAdapter.fetchSupplierData parseFloat get url).
  set (up := MonitoringService.mkUpstream ebayAnswer (SupplierAdapter.awaited f)
               competitorAnswer).
  assert (Ht : String_truthy url = true) by (destruct url; [congruence|reflexivity]).
  pose proof (proj2 (DispatchFacts.fetchSupplierData_spec parseFloat get url) Hne)
    as (_ & _ & _ & _ & Hans).
  fold f in Hans.
  pose proof (SupplierCheck.afterSupplier_fields trim env settings p up url Hurl Ht) as Hf.
  cbv zeta in Hf.
  pose proof (MonitoringFacts.checkProduct_monitored trim toFixed2 env settings now p up)
    as Hm.
  unfold MonitoringFacts.monitored in Hm. injection Hm as _ _ _ _ _ Hprice Hstock.
  destruct (ChangeDetection.history_rows trim toFixed2 env settings now p up)
    as (_ & Hrows & _).
  unfold ChangeDetection.supplierRowsOf in Hrows. rewrite Hurl, Ht in Hrows.
  pose proof (MonitoringFacts.checkProduct_saved trim toFixed2 env settings now p up)
    as Hsaved.
  unfold MonitoringFacts.accepted, MonitoringFacts.supplierCasts in Hsaved.
  rewrite Hurl, Ht in Hsaved.
  cbn [MonitoringService.supplierAnswer up] in Hf, Hrows, Hsaved.
  unfold SupplierAdapter.awaited in Hf, Hrows, Hsaved.
  assert (Hcalled :
            match SupplierAdapter.answer f with
            | Resolved None => False
            | _ => MonitoringService.hasChanges
                     (MonitoringService.checkProduct trim toFixed2 env settings now p up)
                   = true
            end).
  { destruct (SupplierAdapter.answer f) as [[d|]|e]; [| exact Hans |].
    - destruct Hans as (_ & _ & Hnum & _).
      cbn [option_map SupplierAdapter.asSupplierData MonitoringService.supplierDataPrice]
        in Hf.
      destruct (Hf (SupplierCheck.number_casts _ Hnum)) as (Hc & _).
      now apply MonitoringFacts.checkProduct_hasChanges.
    - destruct Hf as (Hc & _). now apply MonitoringFacts.checkProduct_hasChanges. }
  assert (Hsuccess : forall st, MonitoringService.hasChanges st = true ->
                                MonitoringService.success st = MonitoringService.saved st).
  { intros st H. unfold MonitoringService.success, MonitoringService.saved.
    now rewrite H. }
  destruct (SupplierAdapter.answer f) as [[d|]|e]; [| contradiction |].
  - destruct Hans as (_ & _ & Hnum & _).
    pose proof (SupplierCheck.number_casts _ Hnum) as Hnan.
    cbn [option_map SupplierAdapter.asSupplierData MonitoringService.supplierDataPrice
         MonitoringService.supplierDataStock] in Hf, Hrows, Hsaved.
    rewrite Hnan in Hrows, Hsaved.
    destruct (Hf Hnan) as (_ & Hp & Hs).
    split; [exact Hcalled|].
    split; [now apply SupplierCheck.saved_stamp|].
    split; [rewrite Hsaved, Hcalled; cbn [andb negb]; now rewrite andb_true_r|].
    split; [now apply Hsuccess|].
    split; [reflexivity|].
    rewrite Hstock, Hprice, Hs, Hp. repeat split; try exact Hrows. exact Hnum.
  - destruct Hf as (_ & Hp & Hs).
    split; [exact Hcalled|].
    split; [now apply SupplierCheck.saved_stamp|].
    split; [rewrite Hsaved, Hcalled; cbn [andb negb]; now rewrite andb_true_r|].
    split; [now apply Hsuccess|].
    split; [reflexivity|].
    rewrite Hstock, Hprice, Hs, Hp. repeat split. exact Hrows.
Qed.

(** A supplier that refuses every connection. *)
Lemma checkProduct_with_supplier_adapter_witness :
  let f := SupplierAdapter.fetchSupplierData (fun _ => 0%float)
             (fun _ => Rejected "connect ECONNREFUSED"%string)
             "https://supplier.example/widget" in
  let st := MonitoringService.checkProduct JsString.trim Fixtures.noRounding Fixtures.noEnv
              (Fixtures.tenant 5) 1700000000000
              (Fixtures.supplied 20 in_stock 8 in_stock)
              (MonitoringService.mkUpstream (Resolved None) (SupplierAdapter.awaited f)
                 (Resolved None)) in
  SupplierAdapter.gets f = 3 /\
  MonitoringService.hasChanges st = true /\
  MonitoringService.lastCheckedAt (MonitoringService.product st) = 1700000000000%Z.
Proof.
  cbv zeta. split; [reflexivity|].
  pose proof (checkProduct_with_supplier_adapter JsString.trim Fixtures.noRounding Fixtures.noEnv
                (Fixtures.tenant 5) 1700000000000
                (Fixtures.supplied 20 in_stock 8 in_stock)
                (Resolved None) (Resolved None) (fun _ => 0%float)
                (fun _ => Rejected "connect ECONNREFUSED"%string)
                "https://supplier.example/widget" eq_refl ltac:(discriminate)) as H.
  cbv zeta in H. exact (conj (proj1 H) (proj1 (proj2 H))).
Defined.

(** ** The monitoring run *)

Module SchedulerFacts.
Import Scheduler.

(** Time does not run backwards during a visit. *)
Definition steady (v : Visit) : Prop :=
  (0 <= idle v)%Z /\ (0 <= took v)%Z /\ (0 <= lag v)%Z.



Section Runs.
Variable trim : string -> string.
Variable toFixed2 : float -> float.
Variable env : MonitoringService.Env.

(** Every check of the products at hand succeeds, whenever it is
    run. *)
Definition allSucceed (settings : MonitoringService.Settings)
    (items : list (MonitoringService.Product * Visit)) : Prop :=
  forall p v now, In (p, v) items ->
    MonitoringService.success
      (MonitoringService.checkProduct trim toFixed2 env settings now p (upstream v)) = true.

Lemma checkEach_tally (settings : MonitoringService.Settings) (f : Z)
    (items : list (MonitoringService.Product * Visit)) :
  forall clock,
    let r := checkEach trim toFixed2 env settings f items clock in
    checked r + skipped r + failed r = List.length items /\
    List.length (products r) = List.length items /\
    (allSucceed settings items -> failed r = 0) /\
    ((forall p v, In (p, v) items -> steady v) ->
     (clock + 2000 * Z.of_nat (checked r + failed r) <= finished r)%Z).
Proof.
  induction items as [|[p v] items IH]; intros clock; cbn [checkEach].
  - cbn. repeat split; lia.
  - cbv zeta.
    destruct (due f (clock + idle v) p).
    + destruct (IH (clock + idle v + took v + 2000 + lag v)%Z) as (H1 & H2 & H0 & H3).
      destruct (MonitoringService.success _) eqn:Hsucc;
        cbn [checked skipped failed products finished List.length].
      * split; [lia|]. split; [lia|]. split.
        { intros Ha. apply H0. intros p' v' now' H. exact (Ha p' v' now' (or_intror H)). }
        intros Hs.
        destruct (Hs p v (or_introl eq_refl)) as (Ha & Hb & Hc).
        specialize (H3 (fun p' v' H => Hs p' v' (or_intror H))). lia.
      * split; [lia|]. split; [lia|]. split.
        { intros Ha. rewrite (Ha p v _ (or_introl eq_refl)) in Hsucc. discriminate. }
        intros Hs.
        destruct (Hs p v (or_introl eq_refl)) as (Ha & Hb & Hc).
        specialize (H3 (fun p' v' H => Hs p' v' (or_intror H))). lia.
    + destruct (IH (clock + idle v)%Z) as (H1 & H2 & H0 & H3).
      cbn [checked skipped failed products finished List.length].
      split; [lia|]. split; [lia|]. split.
      { intros Ha. apply H0. intros p' v' now' H. exact (Ha p' v' now' (or_intror H)). }
      intros Hs.
      destruct (Hs p v (or_introl eq_refl)) as (Ha & Hb & Hc).
      specialize (H3 (fun p' v' H => Hs p' v' (or_intror H))). lia.
Qed.


(** A check that saves the product has succeeded. *)
Lemma saved_success (st : MonitoringService.State) :
  MonitoringService.saved st = true ->
  MonitoringService.success st = true /\ MonitoringService.hasChanges st = true.
Proof.
  unfold MonitoringService.saved, MonitoringService.success.
  destruct (MonitoringService.hasChanges st), (MonitoringService.refused st);
    cbn; intros H; try discriminate; now split.
Qed.

(** A run that skips nothing stamps every product it saves. *)
Lemma checkEach_stamps (settings : MonitoringService.Settings) (f : Z)
    (items : list (MonitoringService.Product * Visit)) :
  forall clock,
    (forall p v, In (p, v) items -> steady v) ->
    (forall p v now, In (p, v) items ->
       MonitoringService.saved
         (MonitoringService.checkProduct trim toFixed2 env settings now p (upstream v))
       = true) ->
    let r := checkEach trim toFixed2 env settings f items clock in
    skipped r = 0 ->
    checked r = List.length items /\
    forall q, In q (products r) -> (clock <= MonitoringService.lastCheckedAt q)%Z.
Proof.
  induction items as [|[p v] items IH]; intros clock Hs Hsave; cbn [checkEach].
  - cbn. intros _. split; [reflexivity|]. intros q [].
  - cbv zeta. destruct (Hs p v (or_introl eq_refl)) as (Ha & Hb & Hc).
    destruct (due f (clock + idle v) p).
    + pose proof (Hsave p v (clock + idle v + took v)%Z (or_introl eq_refl)) as Hsv.
      destruct (saved_success _ Hsv) as [Hsucc Hcalled].
      rewrite Hsucc.
      cbn [checked skipped products finished List.length]. intros Hk.
      destruct (IH (clock + idle v + took v + 2000 + lag v)%Z
                  (fun p' v' H => Hs p' v' (or_intror H))
                  (fun p' v' now H => Hsave p' v' now (or_intror H)) Hk) as [H1 H2].
      split; [now rewrite H1|].
      intros q [<-|Hq].
      * unfold MonitoringService.stored. rewrite Hsv.
        rewrite (SupplierCheck.saved_stamp trim toFixed2 env settings _ p (upstream v)
                   Hcalled). lia.
      * specialize (H2 q Hq). lia.
    + cbn [skipped]. discriminate.
Qed.

(** Products that are not due at the last reading of a run are not due
    at any of its readings: the run skips them all and leaves them as
    they are. *)
Lemma checkEach_skips (settings : MonitoringService.Settings) (f : Z)
    (items : list (MonitoringService.Product * Visit)) :
  forall clock,
    (forall p v, In (p, v) items -> (0 <= idle v)%Z) ->
    (forall p v, In (p, v) items ->
       MonitoringService.lastCheckedAt p <> 0%Z /\
       (clock + fold_right Z.add 0 (map (fun x => idle (snd x)) items)
        - MonitoringService.lastCheckedAt p < f)%Z) ->
    let r := checkEach trim toFixed2 env settings f items clock in
    checked r = 0 /\ skipped r = List.length items /\ products r = map fst items.
Proof.
  induction items as [|[p v] items IH]; intros clock Hs Hfresh; cbn [checkEach].
  - cbn. auto.
  - cbv zeta. pose proof (Hs p v (or_introl eq_refl)) as Ha.
    assert (Hsum : (0 <= fold_right Z.add 0 (map (fun x => idle (snd x)) items))%Z).
    { assert (Hs' : forall p' v', In (p', v') items -> (0 <= idle v')%Z)
        by (intros p' v' H; exact (Hs p' v' (or_intror H))).
      clear -Hs'. induction items as [|[p' v'] l IHl]; cbn; [lia|].
      specialize (Hs' p' v' (or_introl eq_refl)) as H0.
      specialize (IHl (fun a b H => Hs' a b (or_intror H))). lia. }
    destruct (Hfresh p v (or_introl eq_refl)) as [Hnz Hlt].
    cbn [map fold_right snd] in Hlt.
    unfold due.
    destruct (Z.leb_spec f (clock + idle v - MonitoringService.lastCheckedAt p)) as [Hge|_];
      [lia|].
    destruct (Z.eqb_spec (MonitoringService.lastCheckedAt p) 0) as [E|_]; [congruence|].
    cbn [orb].
    destruct (IH (clock + idle v)%Z (fun p' v' H => Hs p' v' (or_intror H))) as (H1 & H2 & H3).
    { intros p' v' H. destruct (Hfresh p' v' (or_intror H)) as [Hn Hl].
      split; [exact Hn|]. cbn [map fold_right snd] in Hl. lia. }
    cbn [checked skipped products List.length map fst].
    rewrite H1, H2, H3. auto.
Qed.

End Runs.



End SchedulerFacts.


(** X13.  No product is checked twice within its window: take a run
    for one user that skips nothing and in which every check saves the
    product, started at a time [t0] after the epoch with a positive
    frequency.  Then every product was checked, and a later run over
    the stored products whose clock readings all come before [t0] plus
    the frequency checks nothing, skips every product and leaves them
    as stored. *)
Theorem checkEach_not_twice_in_window :
  forall (trim : string -> string) (toFixed2 : float -> float)
         (env : MonitoringService.Env)
         (s : Scheduler.UserSettings)
         (items : list (MonitoringService.Product * Scheduler.Visit))
         (later : list Scheduler.Visit) (t0 t1 : Z),
    let f := (Scheduler.frequencyOf s * 60 * 1000)%Z in
    let r1 := Scheduler.checkEach trim toFixed2 env (Scheduler.monitoring s) f items t0 in
    let r2 := Scheduler.checkEach trim toFixed2 env (Scheduler.monitoring s) f
                (combine (Scheduler.products r1) later) t1 in
    (0 < t0)%Z ->
    (forall p v, In (p, v) items -> SchedulerFacts.steady v) ->
    (forall p v now, In (p, v) items ->
       MonitoringService.saved
         (MonitoringService.checkProduct trim toFixed2 env (Scheduler.monitoring s) now p
            (Scheduler.upstream v)) = true) ->
    Scheduler.skipped r1 = 0 ->
    List.length later = List.length items ->
    (forall v, In v later -> (0 <= Scheduler.idle v)%Z) ->
    (t1 + fold_right Z.add 0 (map Scheduler.idle later) < t0 + f)%Z ->
    Scheduler.checked r1 = List.length items /\
    Scheduler.checked r2 = 0 /\
    Scheduler.skipped r2 = List.length items /\
    Scheduler.products r2 = Scheduler.products r1.
Proof.
  intros trim toFixed2 env s items later t0 t1. cbv zeta.
  intros Ht0 Hsteady Hsave Hskip Hlen Hidle Hwin.
  destruct (SchedulerFacts.checkEach_stamps trim toFixed2 env (Scheduler.monitoring s)
              (Scheduler.frequencyOf s * 60 * 1000) items t0 Hsteady Hsave Hskip)
    as [Hall Hstamp].
  destruct (SchedulerFacts.checkEach_tally trim toFixed2 env (Scheduler.monitoring s)
              (Scheduler.frequencyOf s * 60 * 1000) items t0) as (_ & Hl & _).
  set (r1 := Scheduler.checkEach trim toFixed2 env (Scheduler.monitoring s)
               (Scheduler.frequencyOf s * 60 * 1000) items t0) in *.
  assert (Hmap : map (fun x => Scheduler.idle (snd x)) (combine (Scheduler.products r1) later)
                 = map Scheduler.idle later).
  { rewrite <- Hl in Hlen. clear -Hlen. revert Hlen.
    generalize (Scheduler.products r1). intros l. revert l.
    induction later as [|v later IH]; intros [|q l] H; try discriminate; [reflexivity|].
    cbn. f_equal. apply IH. now injection H. }
  assert (Hfst : map fst (combine (Scheduler.products r1) later) = Scheduler.products r1).
  { rewrite <- Hl in Hlen. clear -Hlen. revert Hlen.
    generalize (Scheduler.products r1). intros l. revert l.
    induction later as [|v later IH]; intros [|q l] H; try discriminate; [reflexivity|].
    cbn. f_equal. apply IH. now injection H. }
  destruct (SchedulerFacts.checkEach_skips trim toFixed2 env (Scheduler.monitoring s)
              (Scheduler.frequencyOf s * 60 * 1000)
              (combine (Scheduler.products r1) later) t1) as (H1 & H2 & H3).
  - intros p v H. apply in_combine_r in H. now apply Hidle.
  - intros p v H. apply in_combine_l in H. specialize (Hstamp p H).
    rewrite Hmap. split; lia.
  - split; [exact Hall|]. split; [exact H1|]. split.
    + rewrite H2, length_combine. rewrite Hl, Hlen. apply Nat.min_id.
    + now rewrite H3.
Qed.


(** One user with one listing, checked for the first time and then
    looked at again a minute later, at a frequency of thirty
    minutes. *)
Lemma checkEach_not_twice_in_window_witness :
  let s := Scheduler.mkUserSettings (Some 30%Z) (Fixtures.tenant 5) in
  let f := (Scheduler.frequencyOf s * 60 * 1000)%Z in
  let up := Fixtures.marketplaceOnly (Fixtures.listing 21 in_stock) in
  let items := [(Fixtures.listed 20 in_stock, Scheduler.mkVisit 5 up 1500 0)] in
  let later := [Scheduler.mkVisit 10 up 1500 0] in
  let r1 := Scheduler.checkEach JsString.trim Fixtures.noRounding Fixtures.noEnv
              (Scheduler.monitoring s) f items 1700000000000 in
  let r2 := Scheduler.checkEach JsString.trim Fixtures.noRounding Fixtures.noEnv
              (Scheduler.monitoring s) f (combine (Scheduler.products r1) later)
              1700000060000 in
  Scheduler.checked r1 = List.length items /\
  Scheduler.checked r2 = 0 /\
  Scheduler.skipped r2 = List.length items /\
  Scheduler.products r2 = Scheduler.products r1.
Proof.
  intros s f up items later r1 r2.
  refine (checkEach_not_twice_in_window JsString.trim Fixtures.noRounding Fixtures.noEnv s items later
            1700000000000 1700000060000 _ _ _ _ _ _ _).
  - reflexivity.
  - intros p v [E|[]]. injection E as <- <-. repeat split; discriminate.
  - intros p v now [E|[]]. injection E as <- <-. reflexivity.
  - reflexivity.
  - reflexivity.
  - intros v [<-|[]]. discriminate.
  - reflexivity.
Defined.


(** ** The per-user jobs *)

Module CronJobsFacts.
Import CronJobs.

(** The objects that are keys of a map. *)
Definition keys (m : list (ObjectId * nat)) : list nat :=
  map (fun e => objectRef (fst e)) m.

(** The invariant of the module: the keys of the map are distinct
    objects, every entry holds a started task created for its key, and
    every started task is held by the entry of the key it was created
    for. *)
Definition consistent (w : World) : Prop :=
  NoDup (keys (userCronJobs w)) /\
  (forall k i, In (k, i) (userCronJobs w) ->
     exists t, nth_error (tasks w) i = Some t /\ owner t = k /\ running t = true) /\
  (forall i t, nth_error (tasks w) i = Some t -> running t = true ->
     In (owner t, i) (userCronJobs w)).

Lemma get_In (m : list (ObjectId * nat)) (key : ObjectId) (i : nat) :
  get key m = Some i -> exists k, In (k, i) m /\ objectRef k = objectRef key.
Proof.
  induction m as [|[k v] m IH]; simpl; [discriminate|]. unfold same.
  destruct (Nat.eqb_spec (objectRef k) (objectRef key)) as [E|Hne].
  - intros H. injection H as ->. exists k. split; [now left|exact E].
  - intros H. destruct (IH H) as (k' & Hin & E). exists k'. split; [now right|exact E].
Qed.

Lemma get_None (m : list (ObjectId * nat)) (key : ObjectId) :
  get key m = None -> ~ In (objectRef key) (keys m).
Proof.
  induction m as [|[k v] m IH]; simpl; [tauto|]. unfold same.
  destruct (Nat.eqb_spec (objectRef k) (objectRef key)) as [E|Hne]; [discriminate|].
  intros H [E|Hin]; [congruence|]. now apply IH.
Qed.

Lemma In_keys (m : list (ObjectId * nat)) (k : ObjectId) (i : nat) :
  In (k, i) m -> In (objectRef k) (keys m).
Proof. intros H. unfold keys. apply in_map_iff. now exists (k, i). Qed.

Lemma In_get (m : list (ObjectId * nat)) (k key : ObjectId) (i : nat) :
  NoDup (keys m) -> In (k, i) m -> objectRef k = objectRef key -> get key m = Some i.
Proof.
  induction m as [|[k0 v] m IH]; simpl; [tauto|]. unfold same.
  intros Hnd [E|Hin] Hk.
  - injection E as -> ->. rewrite Hk. now rewrite Nat.eqb_refl.
  - inversion Hnd; subst.
    destruct (Nat.eqb_spec (objectRef k0) (objectRef key)) as [E|Hne].
    + exfalso. apply H1. rewrite E, <- Hk. now apply In_keys with (i := i).
    + now apply IH.
Qed.

Lemma delete_In (m : list (ObjectId * nat)) (key k : ObjectId) (i : nat) :
  In (k, i) (delete key m) <-> In (k, i) m /\ objectRef k <> objectRef key.
Proof.
  unfold delete, same. rewrite filter_In. cbn [fst].
  destruct (Nat.eqb_spec (objectRef k) (objectRef key)); cbn; intuition congruence.
Qed.

Lemma delete_NoDup (m : list (ObjectId * nat)) (key : ObjectId) :
  NoDup (keys m) ->
  NoDup (keys (delete key m)) /\ ~ In (objectRef key) (keys (delete key m)).
Proof.
  intros H. split.
  - induction m as [|[k v] m IH]; simpl; [constructor|].
    inversion H; subst. unfold same at 1. cbn [fst].
    destruct (Nat.eqb_spec (objectRef k) (objectRef key)); cbn [negb]; [now apply IH|].
    cbn [keys map fst]. constructor; [|now apply IH].
    intros Hin. apply H2. apply in_map_iff in Hin. destruct Hin as ([a b] & E & Hin).
    apply delete_In in Hin. cbn in E. rewrite <- E. apply In_keys with (i := b). tauto.
  - intros Hin. apply in_map_iff in Hin. destruct Hin as ([a b] & E & Hin).
    cbn in E. apply delete_In in Hin. tauto.
Qed.

Lemma set_absent (m : list (ObjectId * nat)) (key : ObjectId) (i : nat) :
  ~ In (objectRef key) (keys m) -> set key i m = m ++ [(key, i)].
Proof.
  induction m as [|[k v] m IH]; simpl; [reflexivity|]. unfold same.
  intros H. destruct (Nat.eqb_spec (objectRef k) (objectRef key)) as [E|Hne]; [tauto|].
  rewrite IH; tauto.
Qed.


Lemma stop_other (ts : list Task) (i j : nat) :
  i <> j -> nth_error (stop i ts) j = nth_error ts j.
Proof.
  revert i j. induction ts as [|t ts IH]; intros [|i] [|j] H; simpl; auto; try congruence.
Qed.

Lemma stop_same (ts : list Task) (i : nat) (t : Task) :
  nth_error (stop i ts) i = Some t -> running t = false.
Proof.
  revert i. induction ts as [|x ts IH]; intros [|i]; simpl; try discriminate.
  - intros E. now injection E as <-.
  - apply IH.
Qed.


Lemma stop_running (ts : list Task) (i j : nat) (t : Task) :
  nth_error (stop i ts) j = Some t -> running t = true ->
  i <> j /\ nth_error ts j = Some t.
Proof.
  intros H Hr. destruct (Nat.eq_dec i j) as [->|Hne].
  - rewrite (stop_same _ _ _ H) in Hr. discriminate.
  - split; [exact Hne|]. now rewrite <- (stop_other ts i j Hne).
Qed.

(** The first half of [createUserCron]: the task held under the key,
    if any, is stopped and forgotten. *)
Definition cleared (userId : ObjectId) (w : World) : World :=
  match get userId (userCronJobs w) with
  | Some job => mkWorld (stop job (tasks w)) (delete userId (userCronJobs w))
  | None => w
  end.


(** A task that is not held under the key is as it was. *)
Lemma cleared_other (userId : ObjectId) (w : World) (i : nat) :
  get userId (userCronJobs w) <> Some i ->
  nth_error (tasks (cleared userId w)) i = nth_error (tasks w) i.
Proof.
  intros H. unfold cleared. destruct (get userId (userCronJobs w)) as [job|]; [|reflexivity].
  cbn [tasks]. apply stop_other. congruence.
Qed.

Lemma cleared_consistent (userId : ObjectId) (w : World) :
  consistent w ->
  consistent (cleared userId w) /\
  ~ In (objectRef userId) (keys (userCronJobs (cleared userId w))).
Proof.
  intros (Hnd & Hreg & Hrun). unfold cleared.
  destruct (get userId (userCronJobs w)) as [job|] eqn:Hg.
  - destruct (get_In _ _ _ Hg) as (k0 & Hin & Hk0).
    destruct (delete_NoDup (userCronJobs w) userId Hnd) as [Hnd' Hfresh].
    split; [|exact Hfresh].
    unfold consistent. cbn [tasks userCronJobs].
    split; [exact Hnd'|]. split.
    + intros k i Hi. apply delete_In in Hi. destruct Hi as [Hi Hne].
      destruct (Hreg k i Hi) as (t & Ht & Ho & Hr).
      exists t. split; [|tauto].
      rewrite stop_other; [exact Ht|].
      intros E. subst i. destruct (Hreg k0 job Hin) as (t' & Ht' & Ho' & _).
      congruence.
    + intros i t Ht Hr. destruct (stop_running _ _ _ _ Ht Hr) as [Hne Ht'].
      apply delete_In. split; [now apply Hrun|].
      intros E. pose proof (Hrun i t Ht' Hr) as Hi.
      pose proof (In_get _ _ userId _ Hnd Hi E) as Hg'. congruence.
  - split; [now repeat split|]. now apply get_None.
Qed.


Lemma snoc_NoDup (m : list (ObjectId * nat)) (key : ObjectId) (i : nat) :
  NoDup (keys m) -> ~ In (objectRef key) (keys m) -> NoDup (keys (m ++ [(key, i)])).
Proof.
  intros Hnd Hfresh. unfold keys. rewrite map_app. cbn [map fst].
  apply NoDup_app; [exact Hnd | repeat constructor; intros [] | ].
  intros x Hx [<-|[]]. exact (Hfresh Hx).
Qed.

Lemma createUserCron_consistent (userId : ObjectId)
    (settings : option Scheduler.UserSettings)
    (ensured : Awaited Error Scheduler.UserSettings) (w : World) :
  consistent w -> consistent (snd (createUserCron userId settings ensured w)).
Proof.
  intros Hw. unfold createUserCron. fold (cleared userId w). cbv zeta.
  destruct (cleared_consistent userId w Hw) as [(Hnd & Hreg & Hrun) Hfresh].
  set (w1 := cleared userId w) in *.
  destruct (match settings with Some s => Resolved s | None => ensured end) as [s|e];
    cbn [snd]; [|now repeat split].
  rewrite (set_absent _ _ _ Hfresh). unfold consistent. cbn [tasks userCronJobs].
  split; [|split].
  - now apply snoc_NoDup.
  - intros u i Hi. apply in_app_or in Hi. destruct Hi as [Hi|[E|[]]].
    + destruct (Hreg u i Hi) as (t & Ht & Ho & Hr). exists t. split; [|tauto].
      rewrite nth_error_app1; [exact Ht|]. apply nth_error_Some. congruence.
    + injection E as <- <-. eexists.
      split; [rewrite nth_error_app2 by lia; rewrite Nat.sub_diag; reflexivity|].
      split; reflexivity.
  - intros i t Ht Hr. apply in_or_app.
    destruct (Nat.lt_ge_cases i (List.length (tasks w1))) as [Hlt|Hge].
    + rewrite nth_error_app1 in Ht by exact Hlt. left. now apply Hrun.
    + rewrite nth_error_app2 in Ht by exact Hge.
      destruct (i - List.length (tasks w1)) as [|k] eqn:Hk.
      * cbn in Ht. injection Ht as <-. cbn [owner]. right. left. f_equal. lia.
      * cbn in Ht. destruct k; discriminate.
Qed.


Lemma createAll_consistent (users : list (ObjectId * Awaited Error Scheduler.UserSettings)) :
  forall w, consistent w -> consistent (createAll users w).
Proof.
  induction users as [|[u ensured] users IH]; intros w Hw; cbn [createAll]; [exact Hw|].
  pose proof (createUserCron_consistent u None ensured w Hw) as H.
  destruct (createUserCron u None ensured w) as [[job|e] w']; cbn [snd] in H.
  - now apply IH.
  - exact H.
Qed.

(** Stopping the tasks of a list of entries leaves started only what
    was started and is not in the list. *)
Lemma stop_all_running (entries : list (ObjectId * nat)) :
  forall (ts : list Task) (i : nat) (t : Task),
    nth_error (fold_left (fun ts e => stop (snd e) ts) entries ts) i = Some t ->
    running t = true ->
    nth_error ts i = Some t /\ ~ In i (map snd entries).
Proof.
  induction entries as [|[u j] entries IH]; intros ts i t H Hr; cbn [fold_left] in H.
  - split; [exact H|intros []].
  - destruct (IH _ _ _ H Hr) as [H1 H2]. cbn [snd] in H1.
    destruct (stop_running _ _ _ _ H1 Hr) as [Hne H3].
    split; [exact H3|]. cbn [map snd]. intros [E|Hin]; [congruence|tauto].
Qed.

Lemma stopCron_stops (w : World) :
  consistent w ->
  consistent (stopCron w) /\
  forall i t, nth_error (tasks (stopCron w)) i = Some t -> running t = false.
Proof.
  intros (Hnd & Hreg & Hrun).
  assert (Hnone : forall i t, nth_error (tasks (stopCron w)) i = Some t -> running t = false).
  { intros i t Ht. destruct (running t) eqn:Hr; [|reflexivity]. exfalso.
    unfold stopCron in Ht. cbn [tasks] in Ht.
    destruct (stop_all_running _ _ _ _ Ht Hr) as [H1 H2].
    apply H2. apply in_map_iff. exists (owner t, i). split; [reflexivity|].
    now apply Hrun. }
  split; [|exact Hnone].
  split; [constructor|]. split.
  - intros u i [].
  - intros i t Ht Hr. rewrite (Hnone i t Ht) in Hr. discriminate.
Qed.

Lemma call_consistent (c : Call) (w : World) : consistent w -> consistent (call c w).
Proof.
  intros Hw. destruct c as [u s e|found| |u e|found]; cbn [call].
  - now apply createUserCron_consistent.
  - unfold initializeCronJobs. destruct found; [now apply createAll_consistent|exact Hw].
  - now apply stopCron_stops.
  - now apply createUserCron_consistent.
  - unfold restartCron, initializeCronJobs.
    destruct found; [apply createAll_consistent|]; now apply stopCron_stops.
Qed.

Lemma after_consistent (calls : list Call) : consistent (after calls).
Proof.
  unfold after.
  assert (H : consistent loaded).
  { split; [constructor|]. split; [intros u i []|intros [|i] t H; discriminate]. }
  revert H. generalize loaded. induction calls as [|c calls IH]; intros w Hw; cbn [fold_left].
  - exact Hw.
  - apply IH. now apply call_consistent.
Qed.

(** A task is started exactly when the map holds it under the key it
    was created for. *)
Lemma consistent_started (w : World) (i : nat) (t : Task) :
  consistent w -> nth_error (tasks w) i = Some t ->
  (running t = true <-> get (owner t) (userCronJobs w) = Some i).
Proof.
  intros (Hnd & Hreg & Hrun) Ht. split.
  - intros Hr. apply In_get with (k := owner t); [exact Hnd|now apply Hrun|reflexivity].
  - intros Hg. apply get_In in Hg. destruct Hg as (k & Hin & _).
    destruct (Hreg _ _ Hin) as (t' & Ht' & _ & Hr). congruence.
Qed.

End CronJobsFacts.

(** X15.  After any sequence of calls of [createUserCron],
    [initializeCronJobs], [stopCron], [restartUserCron] and
    [restartCron], each made after the one before it has returned and
    whatever the database answers: a task is started exactly when the
    [userCronJobs] map holds it under the ObjectId object it was
    created for, so no started task is ever left outside the map, and
    two started tasks are never held for one and the same object.  The
    map does not compare the ids the objects hold: after a job is
    created for a user and restarted with another ObjectId object of
    the same user, the first task is still started and the user has
    two started tasks. *)
Theorem userCronJobs_one_started_task_per_key :
  (forall (calls : list CronJobs.Call),
     let w := CronJobs.after calls in
     (forall i t, nth_error (CronJobs.tasks w) i = Some t ->
        (CronJobs.running t = true <->
         CronJobs.get (CronJobs.owner t) (CronJobs.userCronJobs w) = Some i)) /\
     (forall i j ti tj,
        nth_error (CronJobs.tasks w) i = Some ti ->
        nth_error (CronJobs.tasks w) j = Some tj ->
        CronJobs.running ti = true -> CronJobs.running tj = true ->
        CronJobs.objectRef (CronJobs.owner ti) = CronJobs.objectRef (CronJobs.owner tj) ->
        i = j)) /\
  (forall (user first second : nat) (s s' : Scheduler.UserSettings),
     first <> second ->
     let w := CronJobs.after
                [CronJobs.CreateUserCron (CronJobs.mkObjectId first user) None (Resolved s);
                 CronJobs.RestartUserCron (CronJobs.mkObjectId second user)
                   (Resolved s')] in
     CronJobs.tasks w
     = [CronJobs.mkTask (CronJobs.mkObjectId first user)
          (CronService.frequencyToCron (Scheduler.frequencyOf s)) true;
        CronJobs.mkTask (CronJobs.mkObjectId second user)
          (CronService.frequencyToCron (Scheduler.frequencyOf s')) true]).
Proof.
  split.
  - intros calls. cbv zeta.
    pose proof (CronJobsFacts.after_consistent calls) as Hw.
    split; [intros i t; now apply CronJobsFacts.consistent_started|].
    intros i j ti tj Hi Hj Hri Hrj Ho.
    destruct Hw as (Hnd & Hreg & Hrun).
    pose proof (Hrun i ti Hi Hri) as Hini. pose proof (Hrun j tj Hj Hrj) as Hinj.
    pose proof (CronJobsFacts.In_get _ _ (CronJobs.owner ti) _ Hnd Hini eq_refl) as Hgi.
    pose proof (CronJobsFacts.In_get _ _ (CronJobs.owner ti) _ Hnd Hinj (eq_sym Ho)) as Hgj.
    congruence.
  - intros user first second s s' Hne. cbv zeta.
    unfold CronJobs.after, CronJobs.loaded.
    cbn [fold_left CronJobs.call CronJobs.restartUserCron].
    unfold CronJobs.createUserCron.
    cbn [CronJobs.userCronJobs CronJobs.tasks CronJobs.get CronJobs.set snd app
         List.length].
    unfold CronJobs.restartUserCron, CronJobs.createUserCron.
    cbn [CronJobs.userCronJobs CronJobs.tasks CronJobs.get CronJobs.set snd app
         List.length].
    unfold CronJobs.same. cbn [CronJobs.objectRef].
    destruct (Nat.eqb_spec first second) as [E|_]; [contradiction|]. reflexivity.
Qed.

(** A user whose job is created at start-up and restarted from a
    request. *)
Lemma userCronJobs_one_started_task_per_key_witness :
  let s := Scheduler.mkUserSettings (Some 30%Z) (Fixtures.tenant 5) in
  let s' := Scheduler.mkUserSettings (Some 90%Z) (Fixtures.tenant 5) in
  CronJobs.tasks
    (CronJobs.after
       [CronJobs.CreateUserCron (CronJobs.mkObjectId 0 7) None (Resolved s);
        CronJobs.RestartUserCron (CronJobs.mkObjectId 1 7) (Resolved s')])
  = [CronJobs.mkTask (CronJobs.mkObjectId 0 7) "*/30 * * * *" true;
     CronJobs.mkTask (CronJobs.mkObjectId 1 7) "0 */1 * * *" true].
Proof.
  intros s s'.
  exact (proj2 userCronJobs_one_started_task_per_key 7 0 1 s s' (fun E => O_S 0 E)).
Defined.



(** ** The competitor service *)

Module TokenFacts.
Import CompetitorService.

(** A call that answers from the cache. *)
Lemma getEbayToken_cached (env : Env) (now : Z) (post : Awaited Error TokenResponse)
    (received : Z) (c : Cache) (t : option string) :
  let r := getEbayToken env now post received c in
  posted r = false -> token r = Resolved t ->
  cache r = c /\ cachedToken c = t /\
  exists expiry, tokenExpiry c = Some expiry /\ (now < expiry)%Z.
Proof.
  cbv zeta. unfold getEbayToken.
  destruct (cacheValid now c) eqn:Hv.
  - cbn [posted token cache]. intros _ E. injection E as <-.
    split; [reflexivity|]. split; [reflexivity|].
    unfold cacheValid in Hv. apply andb_true_iff in Hv. destruct Hv as [_ Hv].
    destruct (tokenExpiry c) as [x|]; [|discriminate].
    apply andb_true_iff in Hv. destruct Hv as [_ Hv]. apply Z.ltb_lt in Hv. eauto.
  - destruct (notConfigured env); [cbn; discriminate|].
    destruct post; cbn; discriminate.
Qed.

(** A call either leaves the cache alone or stores the answer it
    received. *)
Lemma getEbayToken_cache (env : Env) (now : Z) (post : Awaited Error TokenResponse)
    (received : Z) (c : Cache) :
  let r := getEbayToken env now post received c in
  cache r = c \/
  exists response,
    post = Resolved response /\
    cache r = mkCache (access_token response)
                (option_map (fun e => (received + e * 1000 - 60000)%Z)
                   (expires_in response)).
Proof.
  cbv zeta. unfold getEbayToken.
  destruct (cacheValid now c); [now left|].
  destruct (notConfigured env); [now left|].
  destruct post as [response|e]; [right; eauto|now left].
Qed.

(** Where a token answered from the cache comes from: the cache the
    sequence started with, untouched so far, or the answer to an
    earlier call. *)
Lemma tokens_origin (env : Env) (calls : list Call) :
  forall (c : Cache) (i : nat) (k : Call) (r : TokenCall) (t : option string),
    nth_error calls i = Some k ->
    nth_error (tokens env calls c) i = Some r ->
    posted r = false -> token r = Resolved t ->
    (cachedToken c = t /\
     (exists expiry, tokenExpiry c = Some expiry /\ (now k < expiry)%Z) /\
     forall m rm, m <= i -> nth_error (tokens env calls c) m = Some rm -> cache rm = c) \/
    (exists j kj response lifetime,
       j < i /\ nth_error calls j = Some kj /\
       post kj = Resolved response /\
       access_token response = t /\
       expires_in response = Some lifetime /\
       (now k < received kj + lifetime * 1000 - 60000)%Z /\
       forall m rm rj, j <= m <= i ->
         nth_error (tokens env calls c) m = Some rm ->
         nth_error (tokens env calls c) j = Some rj -> cache rm = cache rj).
Proof.
  induction calls as [|k0 calls IH]; intros c i k r t Hk Hr Hp Ht.
  - destruct i; discriminate.
  - cbn [tokens] in *. cbv zeta in *.
    set (r0 := getEbayToken env (now k0) (post k0) (received k0) c) in *.
    destruct i as [|i].
    + cbn in Hk, Hr. injection Hk as <-. injection Hr as <-.
      destruct (getEbayToken_cached env (now k0) (post k0) (received k0) c t Hp Ht)
        as (Hc & Htok & Hexp).
      left. split; [exact Htok|]. split; [exact Hexp|].
      intros [|m] rm Hm Hrm; [|lia]. cbn in Hrm. injection Hrm as <-. exact Hc.
    + cbn [nth_error] in Hk, Hr.
      destruct (IH (cache r0) i k r t Hk Hr Hp Ht)
        as [(Htok & Hexp & Hsame)|(j & kj & response & lifetime & Hj & Hkj & Hpost & Hacc
                                   & Hlife & Hlt & Hsame)].
      * destruct (getEbayToken_cache env (now k0) (post k0) (received k0) c)
          as [Hc|(response & Hpost & Hc)]; fold r0 in Hc.
        -- left. rewrite Hc in Htok, Hexp, Hsame. split; [exact Htok|]. split; [exact Hexp|].
           intros [|m] rm Hm Hrm.
           ++ cbn in Hrm. injection Hrm as <-. exact Hc.
           ++ cbn [nth_error] in Hrm. rewrite Hc in Hrm. apply (Hsame m rm); [lia|exact Hrm].
        -- right. rewrite Hc in Htok, Hexp. cbn [cachedToken tokenExpiry] in Htok, Hexp.
           destruct Hexp as (expiry & Hexp & Hlt).
           destruct (expires_in response) as [lifetime|] eqn:Hlife; [|discriminate].
           cbn in Hexp. injection Hexp as <-.
           exists 0, k0, response, lifetime.
           split; [lia|]. split; [reflexivity|]. split; [exact Hpost|].
           split; [exact Htok|]. split; [exact Hlife|]. split; [exact Hlt|].
           intros [|m] rm rj Hm Hrm Hrj; cbn in Hrj; injection Hrj as <-.
           ++ cbn in Hrm. now injection Hrm as <-.
           ++ cbn [nth_error] in Hrm. apply (Hsame m rm); [lia|exact Hrm].
      * right. exists (S j), kj, response, lifetime.
        split; [lia|]. split; [exact Hkj|]. split; [exact Hpost|].
        split; [exact Hacc|]. split; [exact Hlife|]. split; [exact Hlt|].
        intros [|m] rm rj Hm Hrm Hrj; [lia|].
        cbn [nth_error] in Hrm, Hrj. apply (Hsame m rm rj); [lia|exact Hrm|exact Hrj].
Qed.

End TokenFacts.

(** X17.  Calls of [getEbayToken] made one after another, starting
    with an empty cache: a token returned without a token request is
    the [access_token] of the answer to an earlier call of the
    sequence, that answer gave a lifetime, the token is returned more
    than sixty seconds before that lifetime, counted from the time the
    answer was read, runs out, and no call in between has changed the
    cache. *)
Theorem getEbayToken_cached_token :
  forall (env : CompetitorService.Env) (calls : list CompetitorService.Call)
         (i : nat) (k : CompetitorService.Call) (r : CompetitorService.TokenCall)
         (t : option string),
    nth_error calls i = Some k ->
    nth_error (CompetitorService.tokens env calls CompetitorService.noCache) i = Some r ->
    CompetitorService.posted r = false ->
    CompetitorService.token r = Resolved t ->
    exists j kj response lifetime,
      j < i /\ nth_error calls j = Some kj /\
      CompetitorService.post kj = Resolved response /\
      CompetitorService.access_token response = t /\
      CompetitorService.expires_in response = Some lifetime /\
      (CompetitorService.now k + 60000
       < CompetitorService.received kj + lifetime * 1000)%Z /\
      forall m rm rj, j <= m <= i ->
        nth_error (CompetitorService.tokens env calls CompetitorService.noCache) m = Some rm ->
        nth_error (CompetitorService.tokens env calls CompetitorService.noCache) j = Some rj ->
        CompetitorService.cache rm = CompetitorService.cache rj.
Proof.
  intros env calls i k r t Hk Hr Hp Ht.
  destruct (TokenFacts.tokens_origin env calls CompetitorService.noCache i k r t Hk Hr Hp Ht)
    as [(_ & (expiry & Hexp & _) & _)|(j & kj & response & lifetime & H1 & H2 & H3 & H4
                                       & H5 & H6 & H7)].
  - discriminate.
  - exists j, kj, response, lifetime. repeat (split; [assumption|]).
    split; [lia|exact H7].
Qed.

(** A token of two hours, asked for again after one hour. *)
Lemma getEbayToken_cached_token_witness :
  let env := CompetitorService.mkEnv (Some "app"%string) (Some "cert"%string) in
  let answer := CompetitorService.mkTokenResponse (Some "v^1.1#token"%string) (Some 7200%Z) in
  let calls := [CompetitorService.mkCall 1700000000000 (Resolved answer) 1700000000400;
                CompetitorService.mkCall 1700003600000 (Rejected "unused"%string)
                  1700003600000] in
  exists r,
    nth_error (CompetitorService.tokens env calls CompetitorService.noCache) 1 = Some r /\
    CompetitorService.posted r = false /\
    CompetitorService.token r = Resolved (Some "v^1.1#token"%string) /\
    exists j kj response lifetime,
      j < 1 /\ nth_error calls j = Some kj /\
      CompetitorService.post kj = Resolved response /\
      CompetitorService.access_token response = Some "v^1.1#token"%string /\
      CompetitorService.expires_in response = Some lifetime /\
      (1700003600000 + 60000 < CompetitorService.received kj + lifetime * 1000)%Z.
Proof.
  intros env answer calls. eexists. split; [reflexivity|]. split; [reflexivity|].
  split; [reflexivity|].
  destruct (getEbayToken_cached_token env calls 1
              (CompetitorService.mkCall 1700003600000 (Rejected "unused"%string)
                 1700003600000)
              _ (Some "v^1.1#token"%string) eq_refl eq_refl eq_refl eq_refl)
    as (j & kj & response & lifetime & H1 & H2 & H3 & H4 & H5 & H6 & _).
  exists j, kj, response, lifetime. repeat (split; [assumption|]). exact H6.
Defined.

Module CompetitorFacts.
Import CompetitorService.

Lemma differs_neq (a b : option string) : differs a b = true -> a <> b.
Proof.
  destruct a as [x|], b as [y|]; cbn; try discriminate.
  intros H E. injection E as ->. rewrite String.eqb_refl in H. discriminate.
Qed.

(** The listings built from an answer: at most ten, none of them the
    listing of the product itself. *)
Definition candidates (parseFloat : string -> float) (product : Product)
    (itemSummaries : list ItemSummary) : list Listing :=
  map (listingOf parseFloat)
    (firstn 10 (filter (fun item => differs (itemId item) (ebayItemId product))
                  itemSummaries)).

Lemma candidates_spec parseFloat product itemSummaries :
  List.length (candidates parseFloat product itemSummaries) <= 10 /\
  forall l, In l (candidates parseFloat product itemSummaries) ->
    listingId l <> ebayItemId product /\
    exists item, In item itemSummaries /\ l = listingOf parseFloat item.
Proof.
  unfold candidates. split.
  - rewrite length_map. apply firstn_le_length.
  - intros l Hl. apply in_map_iff in Hl. destruct Hl as (item & <- & Hin).
    apply ProductPageFacts.In_firstn in Hin. apply filter_In in Hin.
    destruct Hin as [Hin Hd]. split; [|eauto].
    cbn [listingOf listingId]. now apply differs_neq.
Qed.

(** Insertion into a list ordered by price, and the sort built on
    it. *)
Fixpoint insertByPrice (x : Listing) (l : list Listing) : list Listing :=
  match l with
  | [] => [x]
  | y :: rest =>
      if (price y <=? price x)%float then y :: insertByPrice x rest else x :: y :: rest
  end.

Definition sortByPrice (l : list Listing) : list Listing :=
  fold_right insertByPrice [] l.

Lemma insertByPrice_spec (x : Listing) (l : list Listing) :
  List.length (insertByPrice x l) = S (List.length l) /\
  forall y, In y (insertByPrice x l) -> y = x \/ In y l.
Proof.
  induction l as [|z l [IH1 IH2]]; cbn.
  - split; [reflexivity|]. intros y [<-|[]]. now left.
  - destruct (price z <=? price x)%float; cbn.
    + split; [now rewrite IH1|]. intros y [<-|H]; [tauto|].
      destruct (IH2 y H); tauto.
    + split; [reflexivity|]. intros y [<-|[<-|H]]; tauto.
Qed.

Lemma sortByPrice_spec (l : list Listing) :
  List.length (sortByPrice l) = List.length l /\
  forall y, In y (sortByPrice l) -> In y l.
Proof.
  induction l as [|x l [IH1 IH2]]; [cbn; tauto|].
  change (sortByPrice (x :: l)) with (insertByPrice x (sortByPrice l)).
  destruct (insertByPrice_spec x (sortByPrice l)) as [H1 H2].
  split; [rewrite H1, IH1; reflexivity|].
  intros y Hy. destruct (H2 y Hy) as [->|H]; [now left|right; now apply IH2].
Qed.

Section Search.
Variable parseFloat : string -> float.
Variable toFixed2 : float -> float.
Variable sort : list Listing -> list Listing.
Hypothesis sort_length : forall l, List.length (sort l) = List.length l.
Hypothesis sort_In : forall l x, In x (sort l) -> In x l.

(** What [fetchRealCompetitors] returns when it returns data. *)
Lemma fetchRealCompetitors_found env product now post received get c d :
  found (fetchRealCompetitors parseFloat toFixed2 sort env product now post received get c)
  = Some d ->
  exists itemSummaries cheapest rest,
    get = Resolved (Some itemSummaries) /\
    listings d = sort (candidates parseFloat product itemSummaries) /\
    listings d = cheapest :: rest /\
    summary d = mkSummary (price cheapest) (sellerName cheapest)
                  (listingId cheapest) (url cheapest) (List.length (listings d))
                  (if Number_truthy (ebayPrice product)
                   then Some (toFixed2 (ebayPrice product - price cheapest))
                   else None).
Proof.
  unfold fetchRealCompetitors. cbv zeta.
  destruct (token (getEbayToken env now post received c)); [|discriminate].
  cbn [found].
  destruct get as [[[|item items]|]|e]; try discriminate.
  fold (candidates parseFloat product (item :: items)).
  destruct (candidates parseFloat product (item :: items)) as [|l ls] eqn:Hc;
    [discriminate|].
  destruct (sort (l :: ls)) as [|cheapest rest] eqn:Hs; [discriminate|].
  intros E. injection E as <-. cbn [listings summary].
  exists (item :: items), cheapest, rest. rewrite Hc, Hs. auto.
Qed.

Lemma fetchCompetitorInsights_found env product now post received get c d :
  found (fetchCompetitorInsights parseFloat toFixed2 sort env product now post received
           get c) = Some d ->
  found (fetchRealCompetitors parseFloat toFixed2 sort env product now post received get c)
  = Some d.
Proof.
  unfold fetchCompetitorInsights. cbv zeta. cbn [found].
  destruct (found (fetchRealCompetitors parseFloat toFixed2 sort env product now post
                     received get c)) as [d'|]; [|discriminate].
  destruct (listings d'); [discriminate|]. auto.
Qed.

(** Without credentials and without a valid cached token nothing is
    sent and nothing is found. *)
Lemma fetchCompetitorInsights_unconfigured env product now post received get c :
  notConfigured env = true -> cacheValid now c = false ->
  fetchCompetitorInsights parseFloat toFixed2 sort env product now post received get c
  = mkSearch None None false c.
Proof.
  intros Hn Hv. unfold fetchCompetitorInsights, fetchRealCompetitors, getEbayToken.
  cbv zeta. rewrite Hv, Hn. reflexivity.
Qed.

(** The shape of the insights. *)
Lemma insights_shape env product now post received get c d :
  found (fetchCompetitorInsights parseFloat toFixed2 sort env product now post received
           get c) = Some d ->
  1 <= List.length (listings d) <= 10 /\
  (forall l, In l (listings d) ->
     listingId l <> ebayItemId product /\
     exists itemSummaries item,
       get = Resolved (Some itemSummaries) /\ In item itemSummaries /\
       l = listingOf parseFloat item) /\
  totalSellers (summary d) = List.length (listings d) /\
  exists cheapest,
    In cheapest (listings d) /\
    hd_error (listings d) = Some cheapest /\
    lowestPrice (summary d) = price cheapest /\
    summarySeller (summary d) = sellerName cheapest /\
    summaryListingId (summary d) = listingId cheapest.
Proof.
  intros H. apply fetchCompetitorInsights_found in H.
  destruct (fetchRealCompetitors_found _ _ _ _ _ _ _ _ H)
    as (itemSummaries & cheapest & rest & Hget & Hl & Hcons & Hsum).
  destruct (candidates_spec parseFloat product itemSummaries) as [Hlen Hall].
  split; [|split; [|split]].
  - assert (E1 : List.length (listings d)
                 = List.length (candidates parseFloat product itemSummaries))
      by (rewrite Hl; apply sort_length).
    assert (E2 : List.length (listings d) = S (List.length rest))
      by (rewrite Hcons; reflexivity).
    lia.
  - intros l Hin. rewrite Hl in Hin. apply sort_In in Hin.
    destruct (Hall l Hin) as [Hne (item & Hitem & ->)].
    split; [exact Hne|]. exists itemSummaries, item. auto.
  - rewrite Hsum. reflexivity.
  - exists cheapest. rewrite Hsum, Hcons. cbn. auto.
Qed.

End Search.

End CompetitorFacts.

(** X18.  What [fetchCompetitorInsights] returns, given that sorting
    keeps the elements of the array: data it returns holds between one
    and ten listings, each built from an item of the search answer
    whose id differs from the id of the product itself; the summary
    counts these listings and carries the price, seller and id of the
    first of them.  The search request it sent was for the query built
    from the title. *)
Theorem fetchCompetitorInsights_shape :
  forall (parseFloat : string -> float) (toFixed2 : float -> float)
         (sort : list CompetitorService.Listing -> list CompetitorService.Listing)
         (env : CompetitorService.Env) (product : CompetitorService.Product)
         (now : Z) (post : Awaited Error CompetitorService.TokenResponse) (received : Z)
         (get : Awaited Error (option (list CompetitorService.ItemSummary)))
         (c : CompetitorService.Cache) (d : CompetitorService.Insights),
    (forall l, List.length (sort l) = List.length l) ->
    (forall l x, In x (sort l) -> In x l) ->
    let s := CompetitorService.fetchCompetitorInsights parseFloat toFixed2 sort env product
               now post received get c in
    CompetitorService.found s = Some d ->
    1 <= List.length (CompetitorService.listings d) <= 10 /\
    (forall l, In l (CompetitorService.listings d) ->
       CompetitorService.listingId l <> CompetitorService.ebayItemId product /\
       exists itemSummaries item,
         get = Resolved (Some itemSummaries) /\ In item itemSummaries /\
         l = CompetitorService.listingOf parseFloat item) /\
    CompetitorService.totalSellers (CompetitorService.summary d)
    = List.length (CompetitorService.listings d) /\
    (exists cheapest,
       In cheapest (CompetitorService.listings d) /\
       hd_error (CompetitorService.listings d) = Some cheapest /\
       CompetitorService.lowestPrice (CompetitorService.summary d)
       = CompetitorService.price cheapest /\
       CompetitorService.summarySeller (CompetitorService.summary d)
       = CompetitorService.sellerName cheapest /\
       CompetitorService.summaryListingId (CompetitorService.summary d)
       = CompetitorService.listingId cheapest) /\
    CompetitorService.searched s
    = Some (CompetitorService.searchQuery (CompetitorService.title product)).
Proof.
  intros parseFloat toFixed2 sort env product now post received get c d Hlen Hin.
  cbv zeta. intros H.
  destruct (CompetitorFacts.insights_shape parseFloat toFixed2 sort Hlen Hin env product
              now post received get c d H) as (H1 & H2 & H3 & H4).
  repeat (split; [assumption|]).
  apply CompetitorFacts.fetchCompetitorInsights_found in H.
  revert H. unfold CompetitorService.fetchCompetitorInsights,
            CompetitorService.fetchRealCompetitors. cbv zeta.
  cbn [CompetitorService.searched].
  destruct (CompetitorService.token
              (CompetitorService.getEbayToken env now post received c)); [reflexivity|].
  discriminate.
Qed.

(** A search that finds the product itself and two rivals. *)
Lemma fetchCompetitorInsights_shape_witness :
  let item := fun id seller value =>
    CompetitorService.mkItemSummary (Some id) (Some seller) (Some value) None None None in
  let s := CompetitorService.fetchCompetitorInsights
             (fun v => if String.eqb v "18.50" then 18.5%float else 21%float)
             Fixtures.noRounding CompetitorFacts.sortByPrice
             (CompetitorService.mkEnv (Some "app"%string) (Some "cert"%string))
             (CompetitorService.mkProduct "Garden hose, 30m (green)"
                (Some "123456789012"%string) 20)
             1700000000000
             (Resolved (CompetitorService.mkTokenResponse (Some "token"%string)
                          (Some 7200%Z)))
             1700000000400
             (Resolved (Some [item "123456789012"%string "me"%string "20.00"%string;
                              item "222"%string "rival"%string "21.00"%string;
                              item "333"%string "cheap"%string "18.50"%string]))
             CompetitorService.noCache in
  exists d,
    CompetitorService.found s = Some d /\
    List.length (CompetitorService.listings d) = 2 /\
    CompetitorService.summarySeller (CompetitorService.summary d) = "cheap"%string /\
    CompetitorService.searched s = Some "Garden hose 30m green"%string /\
    1 <= List.length (CompetitorService.listings d) <= 10.
Proof.
  intros item s.
  pose proof (fetchCompetitorInsights_shape
                (fun v => if String.eqb v "18.50" then 18.5%float else 21%float)
                Fixtures.noRounding CompetitorFacts.sortByPrice
                (CompetitorService.mkEnv (Some "app"%string) (Some "cert"%string))
                (CompetitorService.mkProduct "Garden hose, 30m (green)"
                   (Some "123456789012"%string) 20)
                1700000000000
                (Resolved (CompetitorService.mkTokenResponse (Some "token"%string)
                             (Some 7200%Z)))
                1700000000400
                (Resolved (Some [item "123456789012"%string "me"%string "20.00"%string;
                                 item "222"%string "rival"%string "21.00"%string;
                                 item "333"%string "cheap"%string "18.50"%string]))
                CompetitorService.noCache _
                (fun l => proj1 (CompetitorFacts.sortByPrice_spec l))
                (fun l => proj2 (CompetitorFacts.sortByPrice_spec l)) eq_refl) as H.
  eexists. split; [reflexivity|]. split; [reflexivity|].
  split; [reflexivity|]. split; [reflexivity|].
  exact (proj1 H).
Defined.

Module QueryFacts.
Import CompetitorService.

Definition wordOrSpace (c : ascii) : bool := isWordChar c || JsString.isSpace c.

Lemma allChars_app (f : ascii -> bool) (a b : string) :
  JsStringFacts.allChars f a = true -> JsStringFacts.allChars f b = true ->
  JsStringFacts.allChars f (a ++ b) = true.
Proof.
  induction a as [|c a IH]; cbn; [auto|].
  intros H Hb. apply andb_true_iff in H. destruct H as [Hc Ha].
  rewrite Hc. cbn. now apply IH.
Qed.

Lemma blankSpecial_chars (s : string) :
  JsStringFacts.allChars wordOrSpace (blankSpecial s) = true.
Proof.
  induction s as [|c s IH]; cbn [blankSpecial JsStringFacts.allChars]; [reflexivity|].
  rewrite IH, andb_true_r. fold (wordOrSpace c).
  destruct (wordOrSpace c) eqn:H; [exact H|reflexivity].
Qed.

Lemma trimStart_chars (f : ascii -> bool) (s : string) :
  JsStringFacts.allChars f s = true -> JsStringFacts.allChars f (JsString.trimStart s) = true.
Proof.
  induction s as [|c s IH]; cbn [JsString.trimStart]; [auto|].
  intros H. destruct (JsString.isSpace c); [|exact H].
  cbn in H. apply andb_true_iff in H. now apply IH.
Qed.

Lemma trimEnd_chars (f : ascii -> bool) (s : string) :
  JsStringFacts.allChars f s = true -> JsStringFacts.allChars f (JsString.trimEnd s) = true.
Proof.
  induction s as [|c s IH]; cbn [JsString.trimEnd]; [auto|].
  intros H. cbn in H. apply andb_true_iff in H. destruct H as [Hc Hs].
  specialize (IH Hs). destruct (JsString.trimEnd s) as [|k kept].
  - destruct (JsString.isSpace c); [reflexivity|]. cbn. now rewrite Hc.
  - cbn [JsStringFacts.allChars] in *. now rewrite Hc.
Qed.

(** The pieces of a string of word characters and white space are
    made of word characters. *)
Lemma splitSpaces_words (s : string) :
  forall (inGap : bool) (cur : string),
    JsStringFacts.allChars wordOrSpace s = true ->
    JsStringFacts.allChars isWordChar cur = true ->
    forall w, In w (splitSpaces inGap cur s) -> JsStringFacts.allChars isWordChar w = true.
Proof.
  induction s as [|c s IH]; intros inGap cur Hs Hcur w Hw; cbn [splitSpaces] in Hw.
  - destruct Hw as [<-|[]]. exact Hcur.
  - cbn in Hs. apply andb_true_iff in Hs. destruct Hs as [Hc Hs].
    destruct (JsString.isSpace c) eqn:Hsp.
    + destruct inGap.
      * exact (IH true EmptyString Hs eq_refl w Hw).
      * destruct Hw as [<-|Hw]; [exact Hcur|].
        exact (IH true EmptyString Hs eq_refl w Hw).
    + apply (IH false (cur ++ String c EmptyString)%string Hs); [|exact Hw].
      apply allChars_app; [exact Hcur|]. cbn. rewrite andb_true_r.
      unfold wordOrSpace in Hc. rewrite Hsp, orb_false_r in Hc. exact Hc.
Qed.

End QueryFacts.

(** X19.  The search query built from a title is made of at most five
    pieces joined by single spaces, and every piece consists of
    letters, digits and underscores only: no other character of the
    title reaches the request. *)
Theorem searchQuery_words :
  forall (title : string),
    exists pieces,
      CompetitorService.searchQuery title = String.concat " " pieces /\
      List.length pieces <= 5 /\
      forall w, In w pieces ->
        JsStringFacts.allChars CompetitorService.isWordChar w = true.
Proof.
  intros title. unfold CompetitorService.searchQuery.
  eexists. split; [reflexivity|]. split; [apply firstn_le_length|].
  intros w Hw. apply ProductPageFacts.In_firstn in Hw.
  apply (QueryFacts.splitSpaces_words
           (JsString.trim (CompetitorService.blankSpecial title)) false EmptyString);
    [|reflexivity|exact Hw].
  unfold JsString.trim. apply QueryFacts.trimEnd_chars, QueryFacts.trimStart_chars.
  apply QueryFacts.blankSpecial_chars.
Qed.

(** ** The competitor service under the monitoring service *)

Module CompetitorCheck.
Import MonitoringService.

Section Check.
Variable trim : string -> string.
Variable toFixed2 : float -> float.
Variable env : Env.
Variable settings : Settings.
Variable now : Z.

(** The competitor fields a check leaves in the product. *)
Lemma competitor_fields (p : Product) (up : Upstream) :
  let st := checkProduct trim toFixed2 env settings now p up in
  match competitorAnswer up with
  | Resolved (Some i) =>
      competitorStats (product st)
      = match summary i with
        | Some c => Some c
        | None => competitorStats p
        end /\
      match listings i with
      | [] => competitorListings (product st) = competitorListings p
      | ls => competitorListings (product st) = ls /\ hasChanges st = true
      end
  | _ =>
      competitorStats (product st) = competitorStats p /\
      competitorListings (product st) = competitorListings p
  end.
Proof.
  cbv zeta. unfold checkProduct. cbv zeta.
  set (st2 := supplierStep env settings p (supplierAnswer up)
                (ebayStep trim env settings p (ebayAnswer up)
                   (mkState p false [] [] false))).
  assert (H2 : competitorStats (product st2) = competitorStats p /\
               competitorListings (product st2) = competitorListings p).
  { unfold st2, supplierStep, supplierCaught, ebayStep.
    destruct (ebayAnswer up) as [[d|]|e];
      try destruct (is_nan (EbayAdapter.price d)); cbn [product];
      cbn [supplierUrl]; destruct (supplierUrl p) as [url|]; auto;
      destruct (String_truthy url); auto;
      destruct (supplierAnswer up) as [[sd|]|e'];
      try destruct (is_nan (supplierDataPrice sd)); auto. }
  destruct H2 as [Hs Hl].
  assert (Hfin : forall st,
             competitorStats (product (finish toFixed2 now st)) = competitorStats (product st) /\
             competitorListings (product (finish toFixed2 now st))
             = competitorListings (product st)).
  { intros st. unfold finish, calculateProfit. destruct (hasChanges st); auto.
    cbn [product ebayPrice supplierPrice].
    destruct (Number_truthy (ebayPrice (product st))
              && Number_truthy (supplierPrice (product st))); auto. }
  destruct (competitorAnswer up) as [[i|]|e].
  - destruct (Hfin (competitorStep env settings (Resolved (Some i)) st2)) as [F1 F2].
    rewrite F1, F2. rewrite (proj2 (proj2 (MonitoringFacts.finish_keeps toFixed2 now _))).
    unfold competitorStep. cbv zeta.
    destruct (listings i) as [|l ls]; destruct (summary i) as [c|];
      try destruct (Number_truthy (lowestPrice c) && Number_truthy (ebayPrice (product st2)));
      cbn [product competitorStats competitorListings hasChanges]; auto.
  - destruct (Hfin (competitorStep env settings (Resolved None) st2)) as [F1 F2].
    rewrite F1, F2. cbn [competitorStep]. auto.
  - destruct (Hfin (competitorStep env settings (Rejected e) st2)) as [F1 F2].
    rewrite F1, F2. cbn [competitorStep]. auto.
Qed.

(** A check in which the competitor search found nothing creates no
    competitor alert. *)
Lemma no_insights_no_alerts (p : Product) (up : Upstream) :
  competitorAnswer up = Resolved None ->
  alertsOf isCompetitorAlert competitor
    (alerts (checkProduct trim toFixed2 env settings now p up)) = [].
Proof.
  intros H. rewrite MonitoringFacts.checkProduct_alerts, !MonitoringFacts.alertsOf_app.
  rewrite (@MonitoringFacts.ebayAlerts_own trim env settings isCompetitorAlert competitor p
             (ebayAnswer up)) by discriminate.
  rewrite (@MonitoringFacts.supplierAlerts_own env settings isCompetitorAlert competitor p
             (product (MonitoringFacts.afterEbay trim env settings p up)) (supplierAnswer up))
    by discriminate.
  rewrite H. reflexivity.
Qed.

End Check.

(** Whether the numbers of the data the service returns cast to the
    schema of Product: the price, the shipping cost and the feedback
    score of every listing, the lowest price and the difference to our
    price. *)
Definition casts (toNumber : string -> float) (d : CompetitorService.Insights) : bool :=
  forallb (fun l =>
             negb (is_nan (CompetitorService.price l)
                   || is_nan (CompetitorService.shippingCost l)
                   || is_nan match CompetitorService.feedbackScore l with
                             | Some f => toNumber f
                             | None => 0%float
                             end))
    (CompetitorService.listings d)
  && (negb (is_nan (CompetitorService.lowestPrice (CompetitorService.summary d)))
      && match CompetitorService.differenceToOurPrice (CompetitorService.summary d) with
         | Some x => negb (is_nan x)
         | None => true
         end).

Lemma casts_asInsights toNumber d ebayAnswer supplierAnswer :
  MonitoringFacts.competitorCasts
    (mkUpstream ebayAnswer supplierAnswer
       (Resolved (Some (CompetitorService.asInsights toNumber d))))
  = casts toNumber d.
Proof.
  unfold MonitoringFacts.competitorCasts, casts, CompetitorService.asInsights.
  cbn [competitorAnswer listings summary]. f_equal.
  induction (CompetitorService.listings d) as [|l ls IH]; [reflexivity|].
  cbn [map forallb]. now rewrite IH.
Qed.

End CompetitorCheck.

(** X20.  A check whose competitor answer is taken from
    [fetchCompetitorInsights].  When the search found nothing, the
    check creates no competitor alert, writes no competitor history
    row and leaves the competitor listings and statistics of the
    product as they were; this is the case whenever the API
    credentials are not configured and no valid token is cached, and
    then no request is sent either.  When it found data, [save()] is
    called on the product, and it is accepted exactly when every
    number of the data is a number (the price, shipping cost and
    feedback score of each listing, the lowest price and the
    difference to our price), the marketplace and supplier prices
    fetched and the profit of the prices the product is left with are
    numbers, and the title is not empty; the stored product
    then has between one and ten competitor listings, and otherwise
    the check answers without success.  A competitor history row, if
    one is written, holds the price of the first of the listings
    found, which is not the listing of the product itself. *)
Theorem checkProduct_with_competitor_service :
  forall (parseFloat : string -> float) (round : float -> float)
         (sort : list CompetitorService.Listing -> list CompetitorService.Listing)
         (toNumber : string -> float)
         (cenv : CompetitorService.Env) (listed : CompetitorService.Product)
         (t : Z) (post : Awaited Error CompetitorService.TokenResponse) (received : Z)
         (get : Awaited Error (option (list CompetitorService.ItemSummary)))
         (c : CompetitorService.Cache)
         (trim : string -> string)
         (toFixed2 : float -> float) (env : MonitoringService.Env)
         (settings : MonitoringService.Settings) (now : Z)
         (p : MonitoringService.Product)
         (ebayAnswer : Awaited Error (option EbayAdapter.Item))
         (supplierAnswer : Awaited Error (option MonitoringService.SupplierData)),
    (forall l, List.length (sort l) = List.length l) ->
    (forall l x, In x (sort l) -> In x l) ->
    let s := CompetitorService.fetchCompetitorInsights parseFloat round sort cenv listed
               t post received get c in
    let up := MonitoringService.mkUpstream ebayAnswer supplierAnswer
                (Resolved (option_map (CompetitorService.asInsights toNumber)
                             (CompetitorService.found s))) in
    let st := MonitoringService.checkProduct trim toFixed2 env settings now p up in
    (CompetitorService.notConfigured cenv = true ->
     CompetitorService.cacheValid t c = false ->
     s = CompetitorService.mkSearch None None false c) /\
    match CompetitorService.found s with
    | None =>
        MonitoringService.alertsOf MonitoringService.isCompetitorAlert
          MonitoringService.competitor (MonitoringService.alerts st) = [] /\
        MonitoringService.entriesOf MonitoringService.competitor
          (MonitoringService.history st) = [] /\
        MonitoringService.competitorListings (MonitoringService.product st)
        = MonitoringService.competitorListings p /\
        MonitoringService.competitorStats (MonitoringService.product st)
        = MonitoringService.competitorStats p
    | Some d =>
        MonitoringService.hasChanges st = true /\
        MonitoringService.saved st
        = MonitoringFacts.ebayCasts up && MonitoringFacts.supplierCasts p up
          && CompetitorCheck.casts toNumber d
          && String_truthy (MonitoringFacts.titleAfter trim p up)
          && MonitoringFacts.profitCastsAfter p up /\
        MonitoringService.success st = MonitoringService.saved st /\
        (MonitoringService.saved st = true ->
         1 <= List.length (MonitoringService.competitorListings
                             (MonitoringService.stored p st)) <= 10) /\
        exists cheapest,
          hd_error (CompetitorService.listings d) = Some cheapest /\
          CompetitorService.listingId cheapest <> CompetitorService.ebayItemId listed /\
          forall e, In e (MonitoringService.entriesOf MonitoringService.competitor
                            (MonitoringService.history st)) ->
                    MonitoringService.entryPrice e = CompetitorService.price cheapest
    end.
Proof.
  intros parseFloat round sort toNumber cenv listed t post received get c trim toFixed2 env
         settings now p ebayAnswer supplierAnswer Hlen Hin.
  cbv zeta.
  set (s := CompetitorService.fetchCompetitorInsights parseFloat round sort cenv listed
              t post received get c).
  set (up := MonitoringService.mkUpstream ebayAnswer supplierAnswer
               (Resolved (option_map (CompetitorService.asInsights toNumber)
                            (CompetitorService.found s)))).
  split.
  - intros Hn Hv.
    exact (CompetitorFacts.fetchCompetitorInsights_unconfigured parseFloat round sort cenv
             listed t post received get c Hn Hv).
  - pose proof (CompetitorCheck.competitor_fields trim toFixed2 env settings now p up) as Hf.
    destruct (ChangeDetection.history_rows trim toFixed2 env settings now p up)
      as (_ & _ & Hrows).
    pose proof (MonitoringFacts.checkProduct_saved trim toFixed2 env settings now p up)
      as Hsaved.
    cbv zeta in Hf. unfold ChangeDetection.competitorRowsOf in Hrows.
    unfold MonitoringFacts.accepted in Hsaved.
    assert (Hup : up = MonitoringService.mkUpstream ebayAnswer supplierAnswer
                         (Resolved (option_map (CompetitorService.asInsights toNumber)
                                      (CompetitorService.found s)))) by reflexivity.
    cbn [MonitoringService.competitorAnswer up] in Hf, Hrows.
    destruct (CompetitorService.found s) as [d|] eqn:Hd.
    + destruct (CompetitorFacts.insights_shape parseFloat round sort Hlen Hin cenv listed
                  t post received get c d Hd)
        as (Hsize & Hall & _ & cheapest & Hmem & Hhd & Hlow & _).
      assert (Hcc : MonitoringFacts.competitorCasts up = CompetitorCheck.casts toNumber d).
      { rewrite Hup. cbn [option_map]. apply CompetitorCheck.casts_asInsights. }
      rewrite Hcc in Hsaved.
      cbn [option_map CompetitorService.asInsights MonitoringService.listings
           MonitoringService.summary] in Hf, Hrows.
      destruct Hf as [_ Hl].
      assert (Hmap : forall f : CompetitorService.Listing -> MonitoringService.Listing,
                 List.length (map f (CompetitorService.listings d))
                 = List.length (CompetitorService.listings d))
        by (intros f; apply length_map).
      destruct (map _ (CompetitorService.listings d)) as [|l ls] eqn:Hm.
      * specialize (Hmap (fun l =>
                            MonitoringService.mkListing (CompetitorService.sellerName l)
                              (CompetitorService.price l)
                              match CompetitorService.listingId l with
                              | Some i => i
                              | None => EmptyString
                              end (CompetitorService.shippingCost l)
                              match CompetitorService.feedbackScore l with
                              | Some f => toNumber f
                              | None => 0%float
                              end)).
        rewrite Hm in Hmap. cbn in Hmap. lia.
      * destruct Hl as [Hl Hc].
        split; [exact Hc|].
        split; [rewrite Hsaved, Hc; reflexivity|].
        split; [unfold MonitoringService.success, MonitoringService.saved;
                now rewrite Hc|].
        split.
        { intros Hs. unfold MonitoringService.stored. rewrite Hs, Hl, <- Hm, Hmap.
          exact Hsize. }
        exists cheapest. split; [exact Hhd|]. split; [exact (proj1 (Hall cheapest Hmem))|].
        intros e He. rewrite Hrows in He. cbn [MonitoringService.lowestPrice] in He.
        destruct (Number_truthy (CompetitorService.lowestPrice (CompetitorService.summary d))
                  && Number_truthy (ChangeDetection.currentPrice p up)); [|destruct He].
        destruct He as [<-|[]]. cbn [MonitoringService.entryPrice]. exact Hlow.
    + cbn [option_map] in Hf, Hrows. destruct Hf as [Hs Hl].
      split; [|split; [exact Hrows|split; [exact Hl|exact Hs]]].
      apply CompetitorCheck.no_insights_no_alerts. reflexivity.
Qed.

(** A host without API credentials. *)
Lemma checkProduct_with_competitor_service_witness :
  let s := CompetitorService.fetchCompetitorInsights (fun _ => 0%float) Fixtures.noRounding
             CompetitorFacts.sortByPrice (CompetitorService.mkEnv None None)
             (CompetitorService.mkProduct "Widget" (Some "123456789012"%string) 20)
             1700000000000 (Rejected "unused"%string) 1700000000000
             (Rejected "unused"%string) CompetitorService.noCache in
  let st := MonitoringService.checkProduct JsString.trim Fixtures.noRounding Fixtures.noEnv
              (Fixtures.tenant 5) 1700000000000 (Fixtures.listed 20 in_stock)
              (MonitoringService.mkUpstream (Resolved None) (Resolved None)
                 (Resolved (option_map (CompetitorService.asInsights (fun _ => 0%float))
                              (CompetitorService.found s)))) in
  s = CompetitorService.mkSearch None None false CompetitorService.noCache /\
  MonitoringService.alertsOf MonitoringService.isCompetitorAlert
    MonitoringService.competitor (MonitoringService.alerts st) = [].
Proof.
  intros s st.
  pose proof (checkProduct_with_competitor_service (fun _ => 0%float) Fixtures.noRounding
                CompetitorFacts.sortByPrice (fun _ => 0%float)
                (CompetitorService.mkEnv None None)
                (CompetitorService.mkProduct "Widget" (Some "123456789012"%string) 20)
                1700000000000 (Rejected "unused"%string) 1700000000000
                (Rejected "unused"%string) CompetitorService.noCache
                JsString.trim
                Fixtures.noRounding Fixtures.noEnv (Fixtures.tenant 5) 1700000000000
                (Fixtures.listed 20 in_stock) (Resolved None) (Resolved None)
                (fun l => proj1 (CompetitorFacts.sortByPrice_spec l))
                (fun l => proj2 (CompetitorFacts.sortByPrice_spec l))) as H.
  cbv zeta in H. split.
  - exact (proj1 H eq_refl eq_refl).
  - exact (proj1 (proj2 H)).
Defined.

(** ** The store import *)

Module ImportFacts.
Import ImportService.

Lemma findOne_None (id : string) (db : Products) :
  findOne id db = None -> ~ In id (map fst db).
Proof.
  induction db as [|[k p] db IH]; cbn; [tauto|].
  destruct (String.eqb_spec k id) as [->|Hne]; [discriminate|].
  intros H [E|Hin]; [congruence|]. now apply IH.
Qed.

Lemma findOne_Some (id : string) (db : Products) (p : MonitoringService.Product) :
  findOne id db = Some p -> In id (map fst db).
Proof.
  induction db as [|[k q] db IH]; cbn; [discriminate|].
  destruct (String.eqb_spec k id) as [->|Hne]; [now left|].
  intros H. right. now apply IH.
Qed.

Lemma replace_keys (id : string) (p : MonitoringService.Product) (db : Products) :
  map fst (replace id p db) = map fst db.
Proof.
  induction db as [|[k q] db IH]; cbn; [reflexivity|].
  destruct (String.eqb k id); cbn; [reflexivity|]. now rewrite IH.
Qed.

(** One more success changes the number of full tens by one exactly
    when it completes a ten. *)
Lemma tens_step (k : nat) :
  S k / 10 = if S k mod 10 =? 0 then S (k / 10) else k / 10.
Proof.
  pose proof (Nat.div_mod_eq k 10) as H1.
  pose proof (Nat.div_mod_eq (S k) 10) as H2.
  pose proof (Nat.mod_upper_bound k 10 ltac:(lia)) as H3.
  pose proof (Nat.mod_upper_bound (S k) 10 ltac:(lia)) as H4.
  destruct (Nat.eqb_spec (S k mod 10) 0); lia.
Qed.

(** The invariant of the loop, after [n] listings, started on the
    collection [db]. *)
Definition accounted (db : Products) (n : nat) (st : State) : Prop :=
  let r := results st in
  imported r + updated r + skipped r = n /\
  List.length (errors r) <= skipped r /\
  competitorSynced r <= imported r /\
  supplierMapped r <= imported r + skipped r /\
  pauses st = (imported r + updated r) / 10 /\
  (NoDup (map fst db) -> NoDup (map fst (products st))) /\
  List.length (products st) = List.length db + imported r /\
  (forall id, In id (map fst db) -> In id (map fst (products st))).

Section StoreImport.
Variable toFixed2 : float -> float.

Lemma skip_accounted db n failure st :
  accounted db n st -> accounted db (S n) (skip failure st).
Proof.
  unfold accounted, skip. cbv zeta.
  cbn [results products pauses imported updated skipped errors competitorSynced
       supplierMapped].
  intros (H1 & H2 & H3 & H4 & H5 & H6 & H7 & H8).
  repeat split; try lia; try assumption.
  destruct failure; [rewrite length_app; cbn; lia|lia].
Qed.

Lemma pause_results st : results (pause st) = results st /\ products (pause st) = products st.
Proof. unfold pause. cbv zeta. destruct (_ =? 0); auto. Qed.

Lemma pause_pauses st :
  pauses (pause st)
  = if (imported (results st) + updated (results st)) mod 10 =? 0
    then S (pauses st) else pauses st.
Proof. unfold pause. cbv zeta. destruct (_ =? 0); reflexivity. Qed.

Lemma process_accounted db n item h st :
  accounted db n st -> accounted db (S n) (process toFixed2 item h st).
Proof.
  intros Hst. unfold process. cbv zeta.
  destruct (negb (String_truthy (itemId item)) || negb (String_truthy (title item)));
    [now apply skip_accounted|].
  destruct (queried h); [|now apply skip_accounted].
  destruct (findOne (itemId item) (products st)) as [existing|] eqn:Hfind.
  - destruct (written h); [|now apply skip_accounted].
    destruct Hst as (H1 & H2 & H3 & H4 & H5 & H6 & H7 & H8).
    unfold accounted. cbv zeta.
    rewrite (proj1 (pause_results _)), (proj2 (pause_results _)), pause_pauses.
    cbn [results products pauses imported updated skipped errors competitorSynced
         supplierMapped].
    rewrite replace_keys, H5.
    replace (imported (results st) + S (updated (results st)))
      with (S (imported (results st) + updated (results st))) by lia.
    rewrite (tens_step (imported (results st) + updated (results st))).
    repeat split; try lia; try assumption.
    + rewrite <- H7. rewrite <- (length_map fst), replace_keys. apply length_map.
  - destruct (written h).
    + destruct Hst as (H1 & H2 & H3 & H4 & H5 & H6 & H7 & H8).
      unfold accounted. cbv zeta.
      rewrite (proj1 (pause_results _)), (proj2 (pause_results _)), pause_pauses.
      cbn [results products pauses imported updated skipped errors competitorSynced
           supplierMapped total].
      rewrite H5.
      replace (S (imported (results st)) + updated (results st))
        with (S (imported (results st) + updated (results st))) by lia.
      rewrite (tens_step (imported (results st) + updated (results st))).
      rewrite map_app, length_app. cbn [map fst List.length].
      repeat split; try lia.
      * destruct (match competitor h with Some _ => _ | None => false end); lia.
      * destruct (match supplier h with Some _ => _ | None => false end); lia.
      * intros Hnd. apply NoDup_app; [now apply H6 | repeat constructor; intros [] | ].
        intros x Hx [<-|[]]. exact (findOne_None _ _ Hfind Hx).
      * intros id Hid. apply in_or_app. left. now apply H8.
    + destruct Hst as (H1 & H2 & H3 & H4 & H5 & H6 & H7 & H8).
      unfold accounted, skip. cbv zeta.
      cbn [results products pauses imported updated skipped errors competitorSynced
           supplierMapped].
      rewrite length_app. cbn [List.length].
      repeat split; try lia; try assumption.
      destruct (match supplier h with Some _ => _ | None => false end); lia.
Qed.

Lemma processAll_accounted db listings hosts :
  forall n st,
    accounted db n st ->
    accounted db (n + List.length listings) (processAll toFixed2 listings hosts n st).
Proof.
  induction listings as [|item rest IH]; intros n st Hst; cbn [processAll List.length].
  - now rewrite Nat.add_0_r.
  - replace (n + S (List.length rest)) with (S n + List.length rest) by lia.
    apply IH. now apply process_accounted.
Qed.




Lemma process_total item h st :
  total (results (process toFixed2 item h st)) = total (results st).
Proof.
  unfold process, skip. cbv zeta.
  destruct (negb (String_truthy (itemId item)) || negb (String_truthy (title item)));
    [reflexivity|].
  destruct (queried h); [|reflexivity].
  destruct (findOne (itemId item) (products st)); destruct (written h);
    rewrite ?(proj1 (pause_results _)); reflexivity.
Qed.

Lemma processAll_total listings hosts :
  forall n st,
    total (results (processAll toFixed2 listings hosts n st)) = total (results st).
Proof.
  induction listings as [|item rest IH]; intros n st; cbn [processAll]; [reflexivity|].
  now rewrite IH, process_total.
Qed.

(** A listing with an id and a title, met by a database that answers,
    is imported or updated, and its id is in the collection
    afterwards. *)
Lemma process_kept item h st :
  String_truthy (itemId item) = true -> String_truthy (title item) = true ->
  (exists u, queried h = Resolved u) -> (exists u, written h = Resolved u) ->
  skipped (results (process toFixed2 item h st)) = skipped (results st) /\
  errors (results (process toFixed2 item h st)) = errors (results st) /\
  In (itemId item) (map fst (products (process toFixed2 item h st))).
Proof.
  intros Hid Ht [u Hq] [u' Hw]. unfold process. cbv zeta.
  rewrite Hid, Ht, Hq, Hw. cbn [negb orb].
  destruct (findOne (itemId item) (products st)) as [existing|] eqn:Hf;
    rewrite (proj1 (pause_results _)), (proj2 (pause_results _));
    cbn [results products skipped errors].
  - rewrite replace_keys. split; [reflexivity|]. split; [reflexivity|].
    exact (findOne_Some _ _ _ Hf).
  - split; [reflexivity|]. split; [reflexivity|].
    rewrite map_app. apply in_or_app. right. now left.
Qed.

Lemma process_keeps_ids item h st id :
  In id (map fst (products st)) -> In id (map fst (products (process toFixed2 item h st))).
Proof.
  intros Hin. unfold process, skip. cbv zeta.
  destruct (negb (String_truthy (itemId item)) || negb (String_truthy (title item)));
    [exact Hin|].
  destruct (queried h); [|exact Hin].
  destruct (findOne (itemId item) (products st)); destruct (written h);
    rewrite ?(proj2 (pause_results _)); cbn [products]; try exact Hin.
  - now rewrite replace_keys.
  - rewrite map_app. apply in_or_app. now left.
Qed.

Lemma processAll_kept listings hosts :
  forall n st,
    (forall item, In item listings ->
       String_truthy (itemId item) = true /\ String_truthy (title item) = true) ->
    (forall k, n <= k < n + List.length listings ->
       (exists u, queried (hosts k) = Resolved u) /\
       (exists u, written (hosts k) = Resolved u)) ->
    let st' := processAll toFixed2 listings hosts n st in
    skipped (results st') = skipped (results st) /\
    errors (results st') = errors (results st) /\
    (forall item, In item listings -> In (itemId item) (map fst (products st'))) /\
    (forall id, In id (map fst (products st)) -> In id (map fst (products st'))).
Proof.
  induction listings as [|item rest IH]; intros n st Hok Hdb; cbn [processAll].
  - cbv zeta. repeat split; auto. intros item [].
  - cbv zeta.
    destruct (Hok item (or_introl eq_refl)) as [Hid Ht].
    destruct (Hdb n) as [Hq Hw]; [cbn [List.length]; lia|].
    destruct (process_kept item (hosts n) st Hid Ht Hq Hw) as (P1 & P2 & P3).
    destruct (IH (S n) (process toFixed2 item (hosts n) st)
                (fun i Hi => Hok i (or_intror Hi))) as (I1 & I2 & I3 & I4).
    { intros k Hk. apply Hdb. cbn [List.length]. lia. }
    split; [congruence|]. split; [congruence|]. split.
    + intros i [<-|Hi]; [now apply I4|now apply I3].
    + intros id Hid'. apply I4. now apply process_keeps_ids.
Qed.

End StoreImport.

(** What the scraper returns has an id and a title. *)
Lemma scraped_item_named (parseFloat : string -> float)
    (visit : string -> Awaited Error (list PuppeteerScraper.Anchor))
    (opened : Awaited Error unit) (storeName : string) (listings : list Item) :
  fetchStoreListingsScrape parseFloat visit opened storeName = Some listings ->
  listings <> [] /\
  forall item, In item listings ->
    String_truthy (itemId item) = true /\ String_truthy (title item) = true.
Proof.
  unfold fetchStoreListingsScrape. cbv zeta.
  set (storeUrl := ("https://www.ebay.co.uk/str/" ++ storeName)%string).
  unfold PuppeteerScraper.scrapeStoreListings.
  destruct opened as [u|e]; [|discriminate].
  destruct (PuppeteerScraper.allItems
              (PuppeteerScraper.crawl parseFloat visit storeUrl 5)) as [|l ls] eqn:Hall;
    [discriminate|].
  intros E. injection E as <-. split; [discriminate|].
  intros item Hin. change (enhance l :: map enhance ls) with (map enhance (l :: ls)) in Hin.
  apply in_map_iff in Hin. destruct Hin as (x & <- & Hx).
  rewrite <- Hall in Hx. unfold PuppeteerScraper.crawl in Hx.
  destruct (@ListingFacts.pagesFrom_spec parseFloat visit storeUrl 5 1
              (PuppeteerScraper.mkCrawl [] [])) as (k & _ & _ & Hitems & _).
  rewrite Hitems in Hx. cbn [PuppeteerScraper.allItems app] in Hx.
  apply in_concat in Hx. destruct Hx as (page & Hpage & Hx).
  apply in_map_iff in Hpage. destruct Hpage as (n & <- & _).
  unfold ListingFacts.itemsOn in Hx.
  destruct (visit (PuppeteerScraper.pageUrl storeUrl n)) as [anchors|e]; [|destruct Hx].
  unfold PuppeteerScraper.pageItems in Hx.
  destruct (@ListingFacts.collect_from_anchor parseFloat anchors [] x Hx)
    as (a & h & _ & _ & Hid & Hx').
  destruct (@JsStringFacts.matchRunAfter_sound JsString.isDigit ["/itm/"%string] _ _ Hid)
    as (Hne & _).
  cbn [enhance itemId title]. split.
  - destruct (PuppeteerScraper.itemId x); [congruence|reflexivity].
  - rewrite Hx'. cbn [PuppeteerScraper.listingOf PuppeteerScraper.title].
    match goal with
    | |- String_truthy (String_or ?t ?d) = true =>
        assert (Hd : String_or t d <> EmptyString)
          by (apply EbayAdapterFacts.String_or_truthy; discriminate);
        destruct (String_or t d); [congruence|reflexivity]
    end.
Qed.

End ImportFacts.

Module ImportSteps.
Import ImportService.

(** The state the loop starts in. *)
Definition initial (n : nat) (db : Products) : State :=
  mkState (mkResults n 0 0 0 0 0 []) db 0.

Lemma initial_accounted (n : nat) (db : Products) :
  ImportFacts.accounted db 0 (initial n db).
Proof.
  unfold ImportFacts.accounted, initial. cbn. repeat split; auto.
Qed.

(** A seller id [getSellerIdFromScraping] lets through. *)
Definition valid (storeName seller : string) : Prop :=
  seller <> EmptyString /\ seller <> storeName /\
  seller <> "eBay UK"%string /\ seller <> "eBay"%string.

Lemma getSellerIdFromScraping_resolved storeName scraped seller :
  getSellerIdFromScraping storeName scraped = Resolved seller ->
  scraped = Resolved (Some seller) /\ valid storeName seller /\
  String_truthy seller = true.
Proof.
  unfold getSellerIdFromScraping, valid.
  destruct scraped as [[id|]|e]; try discriminate.
  destruct (String_truthy id) eqn:Ht; [|discriminate]. cbn [negb orb].
  destruct (String.eqb_spec id storeName); [discriminate|].
  destruct (String.eqb_spec id "eBay UK"); [discriminate|].
  destruct (String.eqb_spec id "eBay"); [discriminate|].
  cbn. intros E. injection E as <-. repeat split; auto.
  intros E. rewrite E in Ht. discriminate.
Qed.

(** The listings the loop runs on: those of the Finding API when it
    has any, those of the store scrape otherwise. *)
Definition chosen (fromApi fromScrape : string -> option (list Item))
    (storeName seller : string) : option (list Item) * list ListingSource :=
  match fromApi seller with
  | Some (item :: rest) => (Some (item :: rest), [FindingApi])
  | _ => (fromScrape storeName, [FindingApi; StoreScrape])
  end.

(** The two ways a call ends. *)
Lemma importStoreListings_cases toFixed2 storeUrl scraped fromProductPage fromApi
    fromScrape hosts db :
  let i := importStoreListings toFixed2 storeUrl scraped fromProductPage fromApi fromScrape
             hosts db in
  productPageFallback i = false /\
  ((exists e, settled i = Rejected e /\ stored i = db /\ paused i = 0) \/
   (exists storeName seller item rest,
      extractStoreNameFromUrl storeUrl = Some storeName /\
      scraped = Resolved (Some seller) /\ valid storeName seller /\
      chosen fromApi fromScrape storeName seller = (Some (item :: rest), asked i) /\
      let st := processAll toFixed2 (item :: rest) hosts 0
                  (initial (List.length (item :: rest)) db) in
      settled i = Resolved (results st) /\ stored i = products st /\
      paused i = pauses st)).
Proof.
  cbv zeta. unfold importStoreListings.
  destruct (extractStoreNameFromUrl storeUrl) as [storeName|];
    [|cbn; split; [reflexivity|left; eauto]].
  destruct (getSellerIdFromScraping storeName scraped) as [seller|e] eqn:Hs;
    [|cbn; split; [reflexivity|left; eauto]].
  destruct (getSellerIdFromScraping_resolved _ _ _ Hs) as (Hsc & Hv & Ht).
  cbv zeta. rewrite Ht. cbn [negb]. rewrite Ht.
  destruct (fromApi seller) as [[|a l]|] eqn:Hapi.
  - destruct (fromScrape storeName) as [[|item rest]|] eqn:Hscr;
      cbn [productPageFallback settled stored paused asked];
      (split; [reflexivity|]); [left; eauto|right|left; eauto].
    exists storeName, seller, item, rest. unfold chosen. rewrite Hapi, Hscr.
    repeat split; auto; apply Hv.
  - cbn [productPageFallback settled stored paused asked].
    split; [reflexivity|]. right.
    exists storeName, seller, a, l. unfold chosen. rewrite Hapi.
    repeat split; auto; apply Hv.
  - destruct (fromScrape storeName) as [[|item rest]|] eqn:Hscr;
      cbn [productPageFallback settled stored paused asked];
      (split; [reflexivity|]); [left; eauto|right|left; eauto].
    exists storeName, seller, item, rest. unfold chosen. rewrite Hapi, Hscr.
    repeat split; auto; apply Hv.
Qed.

End ImportSteps.

(** X21.  The store name [extractStoreNameFromUrl] returns is not
    empty and stands in the URL right after [/str/] or [/usr/], in
    which case it contains no slash and no question mark, or right
    after [?_ssn=] or [&_ssn=], in which case it contains no
    ampersand.  It returns [null] exactly when none of these four
    prefixes occurs in the URL followed by a character that may start
    a name. *)
Theorem extractStoreNameFromUrl_finds_name :
  forall (storeUrl : string),
    (forall name,
       ImportService.extractStoreNameFromUrl storeUrl = Some name ->
       name <> EmptyString /\
       ((JsStringFacts.allChars ImportService.notSlashOrQuery name = true /\
         exists p, In p ["/str/"%string; "/usr/"%string] /\
                   JsString.includes storeUrl (p ++ name) = true) \/
        (JsStringFacts.allChars ImportService.notAmpersand name = true /\
         exists p, In p ["?_ssn="%string; "&_ssn="%string] /\
                   JsString.includes storeUrl (p ++ name) = true))) /\
    (ImportService.extractStoreNameFromUrl storeUrl = None <->
     (forall p c, In p ["/str/"%string; "/usr/"%string] ->
                  ImportService.notSlashOrQuery c = true ->
                  JsString.includes storeUrl (p ++ String c EmptyString) = false) /\
     (forall p c, In p ["?_ssn="%string; "&_ssn="%string] ->
                  ImportService.notAmpersand c = true ->
                  JsString.includes storeUrl (p ++ String c EmptyString) = false)).
Proof.
  intros storeUrl.
  assert (Hsound : forall name,
             ImportService.extractStoreNameFromUrl storeUrl = Some name ->
             name <> EmptyString /\
             ((JsStringFacts.allChars ImportService.notSlashOrQuery name = true /\
               exists p, In p ["/str/"%string; "/usr/"%string] /\
                         JsString.includes storeUrl (p ++ name) = true) \/
              (JsStringFacts.allChars ImportService.notAmpersand name = true /\
               exists p, In p ["?_ssn="%string; "&_ssn="%string] /\
                         JsString.includes storeUrl (p ++ name) = true))).
  { intros name. unfold ImportService.extractStoreNameFromUrl.
    destruct (JsString.matchRunAfter ImportService.notSlashOrQuery ["/str/"%string] storeUrl)
      as [n1|] eqn:H1.
    - intros E. injection E as <-.
      destruct (@JsStringFacts.matchRunAfter_sound _ _ _ _ H1) as (Hne & Hall & p & Hp & Hi).
      split; [exact Hne|]. left. split; [exact Hall|]. exists p. split; [|exact Hi].
      destruct Hp as [<-|[]]. now left.
    - destruct (JsString.matchRunAfter ImportService.notSlashOrQuery ["/usr/"%string] storeUrl)
        as [n2|] eqn:H2.
      + intros E. injection E as <-.
        destruct (@JsStringFacts.matchRunAfter_sound _ _ _ _ H2) as (Hne & Hall & p & Hp & Hi).
        split; [exact Hne|]. left. split; [exact Hall|]. exists p. split; [|exact Hi].
        destruct Hp as [<-|[]]. right. now left.
      + intros H3.
        destruct (@JsStringFacts.matchRunAfter_sound _ _ _ _ H3) as (Hne & Hall & p & Hp & Hi).
        split; [exact Hne|]. right. split; [exact Hall|]. exists p. split; assumption. }
  split; [exact Hsound|]. split.
  - intros Hnone. unfold ImportService.extractStoreNameFromUrl in Hnone.
    destruct (JsString.matchRunAfter ImportService.notSlashOrQuery ["/str/"%string] storeUrl)
      eqn:H1; [discriminate|].
    destruct (JsString.matchRunAfter ImportService.notSlashOrQuery ["/usr/"%string] storeUrl)
      eqn:H2; [discriminate|].
    split.
    + intros p c Hp Hc.
      destruct (JsString.includes storeUrl (p ++ String c EmptyString)) eqn:Hi; [|reflexivity].
      exfalso. destruct Hp as [<-|[<-|[]]].
      * revert H1. apply (MatchingFacts.matchRunAfter_complete _ _ storeUrl "/str/"%string c);
          [now left|exact Hc|exact Hi].
      * revert H2. apply (MatchingFacts.matchRunAfter_complete _ _ storeUrl "/usr/"%string c);
          [now left|exact Hc|exact Hi].
    + intros p c Hp Hc.
      destruct (JsString.includes storeUrl (p ++ String c EmptyString)) eqn:Hi; [|reflexivity].
      exfalso. revert Hnone.
      apply (MatchingFacts.matchRunAfter_complete _ _ storeUrl p c); assumption.
  - intros [Hpath Hquery].
    destruct (ImportService.extractStoreNameFromUrl storeUrl) as [name|] eqn:He;
      [|reflexivity].
    exfalso. destruct (Hsound name eq_refl) as [Hne [(Hall & p & Hp & Hi)|(Hall & p & Hp & Hi)]];
      destruct name as [|c name]; try congruence;
      cbn [JsStringFacts.allChars] in Hall; apply andb_true_iff in Hall;
      destruct Hall as [Hc _].
    + specialize (Hpath p c Hp Hc).
      rewrite (MatchingFacts.includes_app_l storeUrl (p ++ String c EmptyString) name) in Hpath;
        [discriminate|]. now rewrite JsStringFacts.app_assoc_string.
    + specialize (Hquery p c Hp Hc).
      rewrite (MatchingFacts.includes_app_l storeUrl (p ++ String c EmptyString) name) in Hquery;
        [discriminate|]. now rewrite JsStringFacts.app_assoc_string.
Qed.

(** X22.  The books of an import.  When [importStoreListings]
    resolves, its counters add up: every listing was imported, updated
    or skipped; there is at most one error line per skipped listing;
    every competitor sync belongs to an imported listing and every
    supplier match to an imported or skipped one; the loop paused once
    for every ten listings imported or updated.  The collection grew
    by exactly the imported listings, lost no product, and holds no
    item id twice if it did not before.  When it throws, the
    collection is as it was. *)
Theorem importStoreListings_accounts :
  forall (toFixed2 : float -> float) (storeUrl : string)
         (scraped : Awaited Error (option string))
         (fromProductPage : string -> option string)
         (fromApi fromScrape : string -> option (list ImportService.Item))
         (hosts : nat -> ImportService.Host) (db : ImportService.Products),
    let i := ImportService.importStoreListings toFixed2 storeUrl scraped fromProductPage
               fromApi fromScrape hosts db in
    match ImportService.settled i with
    | Resolved r =>
        1 <= ImportService.total r /\
        ImportService.total r
        = ImportService.imported r + ImportService.updated r + ImportService.skipped r /\
        List.length (ImportService.errors r) <= ImportService.skipped r /\
        ImportService.competitorSynced r <= ImportService.imported r /\
        ImportService.supplierMapped r
        <= ImportService.imported r + ImportService.skipped r /\
        ImportService.paused i
        = (ImportService.imported r + ImportService.updated r) / 10 /\
        List.length (ImportService.stored i)
        = List.length db + ImportService.imported r /\
        (forall id, In id (map fst db) -> In id (map fst (ImportService.stored i))) /\
        (NoDup (map fst db) -> NoDup (map fst (ImportService.stored i)))
    | Rejected _ => ImportService.stored i = db /\ ImportService.paused i = 0
    end.
Proof.
  intros toFixed2 storeUrl scraped fromProductPage fromApi fromScrape hosts db. cbv zeta.
  destruct (ImportSteps.importStoreListings_cases toFixed2 storeUrl scraped fromProductPage
              fromApi fromScrape hosts db)
    as [_ [(e & -> & Hdb & Hp)|(storeName & seller & item & rest & _ & _ & _ & _ & H)]].
  - auto.
  - cbv zeta in H. destruct H as (-> & -> & ->).
    pose proof (ImportFacts.processAll_accounted toFixed2 db (item :: rest) hosts 0
                  (ImportSteps.initial (List.length (item :: rest)) db)
                  (ImportSteps.initial_accounted _ db)) as Hacc.
    pose proof (ImportFacts.processAll_total toFixed2 (item :: rest) hosts 0
                  (ImportSteps.initial (List.length (item :: rest)) db)) as Htot.
    unfold ImportFacts.accounted in Hacc. cbv zeta in Hacc.
    destruct Hacc as (H1 & H2 & H3 & H4 & H5 & H6 & H7 & H8).
    cbn [ImportSteps.initial ImportService.results ImportService.total] in Htot.
    rewrite Htot. cbn [List.length] in *. repeat split; try lia; assumption.
Qed.

(** X23.  How an import gets its listings.  It never falls back on
    [getSellerIdFromProductPage], so what that function would return
    makes no difference.  It resolves only when the URL holds a store
    name, the storefront gave a seller id that is not empty, not the
    store name and not a name of the platform, and a source had
    listings: those of the Finding API if it has any, and only
    otherwise those of the store scrape. *)
Theorem importStoreListings_sources :
  forall (toFixed2 : float -> float) (storeUrl : string)
         (scraped : Awaited Error (option string))
         (fromProductPage : string -> option string)
         (fromApi fromScrape : string -> option (list ImportService.Item))
         (hosts : nat -> ImportService.Host) (db : ImportService.Products),
    let i := ImportService.importStoreListings toFixed2 storeUrl scraped fromProductPage
               fromApi fromScrape hosts db in
    ImportService.productPageFallback i = false /\
    (forall other,
       ImportService.importStoreListings toFixed2 storeUrl scraped other fromApi fromScrape
         hosts db = i) /\
    (forall r,
       ImportService.settled i = Resolved r ->
       exists storeName seller listings,
         ImportService.extractStoreNameFromUrl storeUrl = Some storeName /\
         scraped = Resolved (Some seller) /\
         ImportSteps.valid storeName seller /\
         listings <> [] /\
         ImportService.total r = List.length listings /\
         ((fromApi seller = Some listings /\
           ImportService.asked i = [ImportService.FindingApi]) \/
          ((fromApi seller = None \/ fromApi seller = Some []) /\
           fromScrape storeName = Some listings /\
           ImportService.asked i
           = [ImportService.FindingApi; ImportService.StoreScrape]))).
Proof.
  intros toFixed2 storeUrl scraped fromProductPage fromApi fromScrape hosts db. cbv zeta.
  split; [|split].
  - apply ImportSteps.importStoreListings_cases.
  - intros other. unfold ImportService.importStoreListings.
    destruct (ImportService.extractStoreNameFromUrl storeUrl) as [storeName|]; [|reflexivity].
    destruct (ImportService.getSellerIdFromScraping storeName scraped) as [seller|e] eqn:Hs;
      [|reflexivity].
    destruct (ImportSteps.getSellerIdFromScraping_resolved _ _ _ Hs) as (_ & _ & Ht).
    cbv zeta. rewrite Ht. reflexivity.
  - intros r Hr.
    destruct (ImportSteps.importStoreListings_cases toFixed2 storeUrl scraped fromProductPage
                fromApi fromScrape hosts db)
      as [_ [(e & He & _)|(storeName & seller & item & rest & Hn & Hsc & Hv & Hch & H)]].
    + rewrite He in Hr. discriminate.
    + cbv zeta in H. destruct H as (Hset & _ & _).
      rewrite Hset in Hr. injection Hr as <-.
      exists storeName, seller, (item :: rest).
      split; [exact Hn|]. split; [exact Hsc|]. split; [exact Hv|].
      split; [discriminate|]. split.
      * exact (ImportFacts.processAll_total toFixed2 (item :: rest) hosts 0
                 (ImportSteps.initial (List.length (item :: rest)) db)).
      * unfold ImportSteps.chosen in Hch.
        destruct (fromApi seller) as [[|a l]|] eqn:Hapi.
        -- injection Hch as E1 E2. right. rewrite <- E2. auto.
        -- injection Hch as E1 E2 E3. left. rewrite <- E3. split; [congruence|reflexivity].
        -- injection Hch as E1 E2. right. rewrite <- E2. auto.
Qed.

(** X24.  An import fed by the store scrape.  Every scraped listing
    has an id and a title, so when the database answers every query
    and accepts every write, no listing is skipped and no error is
    recorded: each listing is imported or updated, its item id is in
    the collection afterwards, and the collection still holds no item
    id twice, also when the scrape returned a listing more than
    once. *)
Theorem importStoreListings_from_scrape :
  forall (parseFloat : string -> float) (toFixed2 : float -> float)
         (visit : string -> Awaited Error (list PuppeteerScraper.Anchor))
         (opened : Awaited Error unit) (storeUrl : string)
         (scraped : Awaited Error (option string))
         (fromProductPage : string -> option string)
         (fromApi : string -> option (list ImportService.Item))
         (hosts : nat -> ImportService.Host) (db : ImportService.Products)
         (r : ImportService.Results),
    let i := ImportService.importStoreListings toFixed2 storeUrl scraped fromProductPage
               fromApi (ImportService.fetchStoreListingsScrape parseFloat visit opened)
               hosts db in
    ImportService.settled i = Resolved r ->
    ImportService.asked i = [ImportService.FindingApi; ImportService.StoreScrape] ->
    (forall k, k < ImportService.total r ->
       (exists u, ImportService.queried (hosts k) = Resolved u) /\
       (exists u, ImportService.written (hosts k) = Resolved u)) ->
    NoDup (map fst db) ->
    ImportService.skipped r = 0 /\
    ImportService.errors r = [] /\
    ImportService.imported r + ImportService.updated r = ImportService.total r /\
    NoDup (map fst (ImportService.stored i)) /\
    exists storeName listings,
      ImportService.extractStoreNameFromUrl storeUrl = Some storeName /\
      ImportService.fetchStoreListingsScrape parseFloat visit opened storeName
      = Some listings /\
      ImportService.total r = List.length listings /\
      forall item, In item listings ->
        In (ImportService.itemId item) (map fst (ImportService.stored i)).
Proof.
  intros parseFloat round visit opened storeUrl scraped fromProductPage fromApi hosts db r.
  cbv zeta. intros Hr Hasked Hdb Hnd.
  destruct (ImportSteps.importStoreListings_cases round storeUrl scraped fromProductPage
              fromApi (ImportService.fetchStoreListingsScrape parseFloat visit opened)
              hosts db)
    as [_ [(e & He & _)|(storeName & seller & item & rest & Hn & Hsc & Hv & Hch & H)]].
  - rewrite He in Hr. discriminate.
  - cbv zeta in H. destruct H as (Hset & Hst & _).
    set (st0 := ImportSteps.initial (List.length (item :: rest)) db) in *.
    remember (ImportService.processAll round (item :: rest) hosts 0 st0) as st1 eqn:Est1.
    rewrite Hset in Hr. injection Hr as <-. rewrite Hst.
    assert (Hscr : ImportService.fetchStoreListingsScrape parseFloat visit opened storeName
                   = Some (item :: rest)).
    { unfold ImportSteps.chosen in Hch.
      destruct (fromApi seller) as [[|a l]|].
      - injection Hch as E _. exact E.
      - injection Hch as _ _ E. rewrite Hasked in E. discriminate.
      - injection Hch as E _. exact E. }
    destruct (ImportFacts.scraped_item_named parseFloat visit opened storeName _ Hscr)
      as [_ Hnamed].
    pose proof (ImportFacts.processAll_total round (item :: rest) hosts 0 st0) as Htot.
    rewrite <- Est1 in Htot.
    cbn [ImportSteps.initial st0 ImportService.results ImportService.total] in Htot.
    destruct (ImportFacts.processAll_kept round (item :: rest) hosts 0 st0 Hnamed)
      as (K1 & K2 & K3 & _).
    { intros k Hk. apply Hdb. rewrite Htot. lia. }
    pose proof (ImportFacts.processAll_accounted round db (item :: rest) hosts 0 st0
                  (ImportSteps.initial_accounted _ db)) as Hacc.
    rewrite <- Est1 in K1, K2, K3, Hacc.
    unfold ImportFacts.accounted in Hacc. cbv zeta in Hacc.
    destruct Hacc as (H1 & _ & _ & _ & _ & H6 & _).
    cbn [st0 ImportSteps.initial ImportService.results ImportService.skipped
         ImportService.errors] in K1, K2.
    split; [exact K1|]. split; [exact K2|].
    split; [rewrite Htot; rewrite K1 in H1; cbn [plus List.length] in H1 |- *; lia|].
    split; [now apply H6|].
    exists storeName, (item :: rest).
    split; [exact Hn|]. split; [exact Hscr|]. split; [exact Htot|exact K3].
Qed.

(** The import of a store whose second page repeats the listing of
    the first, into an empty collection, with a database that
    answers. *)
Module ImportFixtures.

Definition answering : nat -> ImportService.Host :=
  fun _ => ImportService.mkHost (Resolved tt) (Resolved tt) None None (Resolved tt)
             1700000000000.

Definition gadgetshop : ImportService.Import :=
  ImportService.importStoreListings Fixtures.noRounding StorePages.store
    (Resolved (Some "gadget_seller"%string)) (fun _ => None) (fun _ => None)
    (ImportService.fetchStoreListingsScrape (fun _ => 12.5%float) StorePages.repeating
       (Resolved tt))
    answering [].

Definition books : ImportService.Results := ImportService.mkResults 2 1 1 0 0 0 [].

End ImportFixtures.

Lemma importStoreListings_from_scrape_witness :
  ImportService.settled ImportFixtures.gadgetshop = Resolved ImportFixtures.books /\
  ImportService.skipped ImportFixtures.books = 0 /\
  NoDup (map fst (ImportService.stored ImportFixtures.gadgetshop)).
Proof.
  split; [vm_compute; reflexivity|].
  pose proof (importStoreListings_from_scrape (fun _ => 12.5%float) Fixtures.noRounding
                StorePages.repeating (Resolved tt) StorePages.store
                (Resolved (Some "gadget_seller"%string)) (fun _ => None) (fun _ => None)
                ImportFixtures.answering [] ImportFixtures.books
                ltac:(vm_compute; reflexivity) ltac:(vm_compute; reflexivity)
                (fun k _ => conj (ex_intro _ tt eq_refl) (ex_intro _ tt eq_refl))
                (NoDup_nil _)) as H.
  exact (conj (proj1 H) (proj1 (proj2 (proj2 (proj2 H))))).
Defined.

Lemma importStoreListings_accounts_witness :
  ImportService.paused ImportFixtures.gadgetshop
  = (ImportService.imported ImportFixtures.books
     + ImportService.updated ImportFixtures.books) / 10 /\
  List.length (ImportService.stored ImportFixtures.gadgetshop)
  = 0 + ImportService.imported ImportFixtures.books.
Proof.
  pose proof (importStoreListings_accounts Fixtures.noRounding StorePages.store
                (Resolved (Some "gadget_seller"%string)) (fun _ => None) (fun _ => None)
                (ImportService.fetchStoreListingsScrape (fun _ => 12.5%float)
                   StorePages.repeating (Resolved tt))
                ImportFixtures.answering []) as H.
  cbv zeta in H. fold ImportFixtures.gadgetshop in H.
  replace (ImportService.settled ImportFixtures.gadgetshop)
    with (Resolved ImportFixtures.books : Awaited Error ImportService.Results) in H
    by (vm_compute; reflexivity).
  exact (conj (proj1 (proj2 (proj2 (proj2 (proj2 (proj2 H))))))
           (proj1 (proj2 (proj2 (proj2 (proj2 (proj2 (proj2 H)))))))).
Defined.

Lemma importStoreListings_sources_witness :
  exists (storeName seller : string) (listings : list ImportService.Item),
    ImportService.extractStoreNameFromUrl StorePages.store = Some storeName /\
    (Resolved (Some "gadget_seller"%string) : Awaited Error (option string))
    = Resolved (Some seller) /\
    ImportSteps.valid storeName seller /\
    listings <> [] /\
    ImportService.total ImportFixtures.books = List.length listings.
Proof.
  pose proof (importStoreListings_sources Fixtures.noRounding StorePages.store
                (Resolved (Some "gadget_seller"%string)) (fun _ => None) (fun _ => None)
                (ImportService.fetchStoreListingsScrape (fun _ => 12.5%float)
                   StorePages.repeating (Resolved tt))
                ImportFixtures.answering []) as H.
  cbv zeta in H. fold ImportFixtures.gadgetshop in H.
  destruct (proj2 (proj2 H) ImportFixtures.books ltac:(vm_compute; reflexivity))
    as (storeName & seller & listings & H1 & H2 & H3 & H4 & H5 & _).
  exists storeName, seller, listings. auto.
Defined.

(** ** The product handlers *)

Module SyncFacts.
Import ProductController.

(** A fetch that resolved and, when it brought data, brought a price
    that is a number. *)
Definition fetched {A : Type} (price : A -> float) (answer : Awaited Error (option A))
  : bool :=
  match answer with
  | Resolved (Some d) => negb (is_nan (price d))
  | Resolved None => true
  | Rejected _ => false
  end.

Section Sync.
Variable trim : string -> string.
Variable toFixed2 : float -> float.

(** The title the refresh leaves in the product. *)
Definition titleAfter (product : MonitoringService.Product)
    (ebayAnswer : Awaited Error (option EbayAdapter.Item)) : string :=
  match ebayAnswer with
  | Resolved (Some d) => trim (EbayAdapter.title d)
  | _ => MonitoringService.title product
  end.

Lemma calculateProfit_keeps (q : MonitoringService.Product) :
  MonitoringService.lastCheckedAt (MonitoringService.calculateProfit toFixed2 q)
  = MonitoringService.lastCheckedAt q /\
  MonitoringService.ebayUrl (MonitoringService.calculateProfit toFixed2 q)
  = MonitoringService.ebayUrl q /\
  MonitoringService.supplierUrl (MonitoringService.calculateProfit toFixed2 q)
  = MonitoringService.supplierUrl q /\
  MonitoringService.title (MonitoringService.calculateProfit toFixed2 q)
  = MonitoringService.title q /\
  MonitoringService.ebayPrice (MonitoringService.calculateProfit toFixed2 q)
  = MonitoringService.ebayPrice q /\
  MonitoringService.stockStatus (MonitoringService.calculateProfit toFixed2 q)
  = MonitoringService.stockStatus q /\
  MonitoringService.images (MonitoringService.calculateProfit toFixed2 q)
  = MonitoringService.images q.
Proof.
  unfold MonitoringService.calculateProfit.
  destruct (Number_truthy (MonitoringService.ebayPrice q)
            && Number_truthy (MonitoringService.supplierPrice q)); cbn; auto 10.
Qed.

(** The fields of the marketplace that two products share. *)
Definition sameListing (q p : MonitoringService.Product) : Prop :=
  MonitoringService.ebayUrl q = MonitoringService.ebayUrl p /\
  MonitoringService.supplierUrl q = MonitoringService.supplierUrl p /\
  MonitoringService.title q = MonitoringService.title p /\
  MonitoringService.ebayPrice q = MonitoringService.ebayPrice p /\
  MonitoringService.stockStatus q = MonitoringService.stockStatus p /\
  MonitoringService.images q = MonitoringService.images p.

(** Whether [save()] takes a product. *)
Definition savable (p : MonitoringService.Product) : bool :=
  String_truthy (MonitoringService.title p) && MonitoringService.profitCasts p.

Lemma stampAndSave_cases now p written :
  (savable p = true /\
   exists q, stampAndSave toFixed2 now p written = (Resolved q, written) /\
             MonitoringService.lastCheckedAt q = now /\ sameListing q p) \/
  (savable p = false /\
   stampAndSave toFixed2 now p written = (Rejected productValidationError, written)).
Proof.
  unfold stampAndSave, savable. cbv zeta.
  match goal with
  | |- context [MonitoringService.calculateProfit _ ?q] =>
      destruct (calculateProfit_keeps q) as (C1 & C2 & C3 & C4 & C5 & C6 & C7)
  end.
  rewrite C4. cbn [MonitoringService.title].
  destruct (String_truthy (MonitoringService.title p) && MonitoringService.profitCasts p);
    [left|right; now split].
  split; [reflexivity|]. eexists. split; [reflexivity|].
  split; [exact C1|]. unfold sameListing. rewrite C2, C3, C4, C5, C6, C7. cbn. auto 10.
Qed.

Lemma hasSupplier_url (q p : MonitoringService.Product) :
  MonitoringService.supplierUrl q = MonitoringService.supplierUrl p ->
  hasSupplier q = hasSupplier p.
Proof. intros H. unfold hasSupplier. now rewrite H. Qed.

(** The product object after the supplier part. *)
Definition afterSupplier (p1 : MonitoringService.Product)
    (supplierAnswer : Awaited Error (option MonitoringService.SupplierData))
  : MonitoringService.Product :=
  if hasSupplier p1 then
    match supplierAnswer with
    | Resolved (Some s) => assignSupplier p1 s
    | _ => p1
    end
  else p1.

(** The supplier part and the save. *)
Lemma refreshSupplier_cases now p1 supplierAnswer written :
  let r := refreshSupplier toFixed2 now p1 supplierAnswer written in
  let ok := (negb (hasSupplier p1)
             || fetched MonitoringService.supplierDataPrice supplierAnswer)
            && savable (afterSupplier p1 supplierAnswer) in
  (ok = true /\
   exists q, fst r = Resolved q /\ MonitoringService.lastCheckedAt q = now /\
             sameListing q p1) \/
  (ok = false /\ exists e, fst r = Rejected e).
Proof.
  cbv zeta. unfold refreshSupplier, afterSupplier.
  assert (Hplain : forall w,
    (savable p1 = true /\
     exists q, fst (stampAndSave toFixed2 now p1 w) = Resolved q /\
               MonitoringService.lastCheckedAt q = now /\ sameListing q p1) \/
    (savable p1 = false /\
     exists e, fst (stampAndSave toFixed2 now p1 w) = Rejected e)).
  { intros w. destruct (stampAndSave_cases now p1 w) as [(Ht & q & E & H)|(Ht & E)];
      rewrite E; cbn [fst];
      [left; split; [exact Ht|exists q; split; [reflexivity|exact H]]
      |right; split; [exact Ht|eexists; reflexivity]]. }
  destruct (hasSupplier p1) eqn:Hs; cbn [negb orb].
  - destruct supplierAnswer as [[s|]|e]; cbn [fetched].
    + destruct (is_nan (MonitoringService.supplierDataPrice s)) eqn:Hn; cbn [negb andb].
      * right. split; [reflexivity|]. eexists. reflexivity.
      * match goal with
        | |- context [stampAndSave _ _ ?p ?w] =>
            destruct (stampAndSave_cases now p w) as [(Ht & q & E & H1 & H2)|(Ht & E)]
        end; rewrite E, Ht.
        -- left. split; [reflexivity|]. exists q. split; [reflexivity|].
           split; [exact H1|]. exact H2.
        -- right. split; [reflexivity|]. eexists. reflexivity.
    + cbn [andb]. destruct (Hplain written) as [(Ht & q & E & H)|(Ht & e & E)]; rewrite Ht.
      * left. split; [reflexivity|]. eauto.
      * right. split; [reflexivity|]. exists e. exact E.
    + cbn [andb fst]. right. split; [reflexivity|]. exists e. reflexivity.
  - cbn [andb]. destruct (Hplain written) as [(Ht & q & E & H)|(Ht & e & E)]; rewrite Ht.
    + left. split; [reflexivity|]. eauto.
    + right. split; [reflexivity|]. exists e. exact E.
Qed.

(** The product object when [refresh] comes to the stamp. *)
Definition assigned (product : MonitoringService.Product)
    (ebayAnswer : Awaited Error (option EbayAdapter.Item))
    (supplierAnswer : Awaited Error (option MonitoringService.SupplierData))
  : MonitoringService.Product :=
  afterSupplier
    match ebayAnswer with
    | Resolved (Some d) => assignEbay trim product d
    | _ => product
    end supplierAnswer.

Lemma assigned_title product ebayAnswer supplierAnswer :
  MonitoringService.title (assigned product ebayAnswer supplierAnswer)
  = titleAfter product ebayAnswer.
Proof.
  unfold assigned, afterSupplier, titleAfter.
  destruct ebayAnswer as [[d|]|e];
    match goal with |- context [hasSupplier ?q] => destruct (hasSupplier q) end;
    try reflexivity;
    destruct supplierAnswer as [[s|]|e']; reflexivity.
Qed.

(** When [refresh] saves, and what. *)
Definition refreshed (product : MonitoringService.Product)
    (ebayAnswer : Awaited Error (option EbayAdapter.Item))
    (supplierAnswer : Awaited Error (option MonitoringService.SupplierData)) : bool :=
  fetched EbayAdapter.price ebayAnswer
  && (negb (hasSupplier product)
      || fetched MonitoringService.supplierDataPrice supplierAnswer)
  && (String_truthy (titleAfter product ebayAnswer)
      && MonitoringService.profitCasts (assigned product ebayAnswer supplierAnswer)).

Lemma savable_assigned product ebayAnswer supplierAnswer :
  savable (assigned product ebayAnswer supplierAnswer)
  = String_truthy (titleAfter product ebayAnswer)
    && MonitoringService.profitCasts (assigned product ebayAnswer supplierAnswer).
Proof. unfold savable. now rewrite assigned_title. Qed.

Lemma refresh_cases now product ebayAnswer supplierAnswer :
  let r := refresh trim toFixed2 now product ebayAnswer supplierAnswer in
  (refreshed product ebayAnswer supplierAnswer = true /\
   exists p, fst r = Resolved p /\
     MonitoringService.lastCheckedAt p = now /\
     MonitoringService.ebayUrl p = MonitoringService.ebayUrl product /\
     MonitoringService.supplierUrl p = MonitoringService.supplierUrl product /\
     forall d, ebayAnswer = Resolved (Some d) ->
       MonitoringService.title p = trim (EbayAdapter.title d) /\
       MonitoringService.ebayPrice p = EbayAdapter.price d /\
       MonitoringService.stockStatus p = EbayAdapter.stock d /\
       MonitoringService.images p = EbayAdapter.images d) \/
  (refreshed product ebayAnswer supplierAnswer = false /\
   exists e, fst r = Rejected e).
Proof.
  cbv zeta. unfold refresh, refreshed.
  rewrite <- savable_assigned.
  destruct ebayAnswer as [[d|]|e]; cbn [fetched andb].
  - destruct (is_nan (EbayAdapter.price d)) eqn:Hn; cbn [negb andb fst].
    + right. split; [reflexivity|]. eexists. reflexivity.
    + pose proof (refreshSupplier_cases now (assignEbay trim product d) supplierAnswer
                    [MonitoringService.mkEntry MonitoringService.ebay (EbayAdapter.price d)
                       (EbayAdapter.stock d)]) as H.
      cbv zeta in H.
      rewrite (hasSupplier_url (assignEbay trim product d) product eq_refl) in H.
      change (afterSupplier (assignEbay trim product d) supplierAnswer)
        with (assigned product (Resolved (Some d)) supplierAnswer) in H.
      destruct H as [(Hok & q & E & H1 & H2 & H3 & H4 & H5 & H6 & H7)|(Hok & e & E)];
        rewrite Hok.
      * left. split; [reflexivity|]. exists q. split; [exact E|]. split; [exact H1|].
        split; [exact H2|]. split; [exact H3|].
        intros d' Ed. injection Ed as <-. auto.
      * right. split; [reflexivity|]. exists e. exact E.
  - pose proof (refreshSupplier_cases now product supplierAnswer []) as H.
    cbv zeta in H.
    change (afterSupplier product supplierAnswer)
      with (assigned product (Resolved None) supplierAnswer) in H.
    destruct H as [(Hok & q & E & H1 & H2 & H3 & _)|(Hok & e & E)]; rewrite Hok.
    + left. split; [reflexivity|]. exists q. split; [exact E|]. split; [exact H1|].
      split; [exact H2|]. split; [exact H3|]. discriminate.
    + right. split; [reflexivity|]. exists e. exact E.
  - right. split; [reflexivity|]. eexists. reflexivity.
Qed.

(** The rows written when the supplier fetch throws after the
    marketplace answered. *)
Lemma refresh_supplier_threw now product d e :
  is_nan (EbayAdapter.price d) = false ->
  hasSupplier product = true ->
  refresh trim toFixed2 now product (Resolved (Some d)) (Rejected e)
  = (Rejected e,
     [MonitoringService.mkEntry MonitoringService.ebay (EbayAdapter.price d)
        (EbayAdapter.stock d)]).
Proof.
  intros Hn Hs. unfold refresh. rewrite Hn. unfold refreshSupplier.
  now rewrite (hasSupplier_url (assignEbay trim product d) product eq_refl), Hs.
Qed.


End Sync.
End SyncFacts.

(** X25.  [syncProduct] on a product of the user answers 200 or 500.
    It answers 200 exactly when the marketplace fetch resolved, with no
    data or with a price that is a number, the supplier fetch, which is
    made when the product has a supplier URL, did so too, the title
    the product is left with, which is the trimmed title of the
    marketplace data when there is data, is not empty, and the profit
    of the prices it is left with is a number.  It then saves
    the product stamped with the time of the call, with its two
    addresses unchanged and with the trimmed title, the price, the
    stock state and the images of the marketplace data.  With 500
    nothing is saved.  When the marketplace answered with a price that
    is not a number the answer is 500 and no history row is written.
    When it answered with a price that is a number and the supplier
    fetch threw, the answer is 500 but the marketplace history row has
    already been written; the monitoring check in that same situation
    goes on, and its save is accepted when the competitor numbers and
    the profit are numbers and the trimmed title is not empty. *)
Theorem syncProduct_outcomes :
  forall (trim : string -> string) (toFixed2 : float -> float) (now : Z)
         (product : MonitoringService.Product)
         (ebayAnswer : Awaited Error (option EbayAdapter.Item))
         (supplierAnswer : Awaited Error (option MonitoringService.SupplierData)),
    let r := ProductController.syncProduct trim toFixed2 now (Some product) ebayAnswer
               supplierAnswer in
    (ProductController.status r = 200 \/ ProductController.status r = 500) /\
    (ProductController.status r = 200 <->
     SyncFacts.fetched EbayAdapter.price ebayAnswer = true /\
     (ProductController.hasSupplier product = true ->
      SyncFacts.fetched MonitoringService.supplierDataPrice supplierAnswer = true) /\
     String_truthy (SyncFacts.titleAfter trim product ebayAnswer) = true /\
     MonitoringService.profitCasts
       (SyncFacts.assigned trim product ebayAnswer supplierAnswer) = true) /\
    (ProductController.status r = 200 ->
     exists p,
       ProductController.saved r = Some p /\
       MonitoringService.lastCheckedAt p = now /\
       MonitoringService.ebayUrl p = MonitoringService.ebayUrl product /\
       MonitoringService.supplierUrl p = MonitoringService.supplierUrl product /\
       forall d, ebayAnswer = Resolved (Some d) ->
         MonitoringService.title p = trim (EbayAdapter.title d) /\
         MonitoringService.ebayPrice p = EbayAdapter.price d /\
         MonitoringService.stockStatus p = EbayAdapter.stock d /\
         MonitoringService.images p = EbayAdapter.images d) /\
    (ProductController.status r = 500 -> ProductController.saved r = None) /\
    (forall d,
       ebayAnswer = Resolved (Some d) ->
       is_nan (EbayAdapter.price d) = true ->
       ProductController.status r = 500 /\ ProductController.rows r = []) /\
    (forall d e,
       ebayAnswer = Resolved (Some d) ->
       is_nan (EbayAdapter.price d) = false ->
       ProductController.hasSupplier product = true ->
       supplierAnswer = Rejected e ->
       ProductController.status r = 500 /\
       ProductController.rows r
       = [MonitoringService.mkEntry MonitoringService.ebay (EbayAdapter.price d)
            (EbayAdapter.stock d)] /\
       forall env settings competitorAnswer,
         let up := MonitoringService.mkUpstream ebayAnswer supplierAnswer
                     competitorAnswer in
         MonitoringService.saved
           (MonitoringService.checkProduct trim toFixed2 env settings now product up)
         = MonitoringFacts.competitorCasts up
           && String_truthy (trim (EbayAdapter.title d))
           && MonitoringFacts.profitCastsAfter product up).
Proof.
  intros trim toFixed2 now product ebayAnswer supplierAnswer. cbv zeta.
  unfold ProductController.syncProduct.
  pose proof (SyncFacts.refresh_cases trim toFixed2 now product ebayAnswer supplierAnswer)
    as Hc.
  cbv zeta in Hc. unfold SyncFacts.refreshed in Hc.
  assert (Hiff : forall b c t pr : bool,
            b && (negb (ProductController.hasSupplier product) || c) && (t && pr) = true <->
            b = true /\ (ProductController.hasSupplier product = true -> c = true) /\
            t = true /\ pr = true).
  { intros b c t pr. destruct b, c, t, pr, (ProductController.hasSupplier product); cbn;
      intuition congruence. }
  split; [|split; [|split; [|split; [|split]]]].
  - destruct (ProductController.refresh trim toFixed2 now product ebayAnswer supplierAnswer)
      as [[p|e] written]; cbn; auto.
  - destruct Hc as [(Hok & p & E & _)|(Hok & e & E)];
      destruct (ProductController.refresh trim toFixed2 now product ebayAnswer
                  supplierAnswer) as [[p'|e'] written];
      cbn [fst] in E; try discriminate E; cbn [ProductController.status].
    + split; [intros _; now apply Hiff|reflexivity].
    + split; [discriminate|]. intros H. apply Hiff in H. congruence.
  - destruct Hc as [(Hok & p & E & H)|(Hok & e & E)];
      destruct (ProductController.refresh trim toFixed2 now product ebayAnswer
                  supplierAnswer) as [[p'|e'] written];
      cbn [fst] in E; try discriminate E;
      cbn [ProductController.status ProductController.saved]; [|discriminate].
    injection E as <-. intros _. exists p'. split; [reflexivity|exact H].
  - destruct (ProductController.refresh trim toFixed2 now product ebayAnswer supplierAnswer)
      as [[p|e] written]; cbn; [discriminate|reflexivity].
  - intros d -> Hn. unfold ProductController.refresh. rewrite Hn. cbn. auto.
  - intros d e -> Hn Hs ->.
    rewrite (SyncFacts.refresh_supplier_threw trim toFixed2 now product d e Hn Hs).
    cbn [ProductController.status ProductController.rows].
    split; [reflexivity|]. split; [reflexivity|].
    intros env settings competitorAnswer.
    rewrite MonitoringFacts.checkProduct_saved.
    unfold ProductController.hasSupplier in Hs.
    destruct (MonitoringService.supplierUrl product) as [url|] eqn:Hu; [|discriminate].
    rewrite (proj2 (proj2 (@ChangeDetection.unavailable_state trim toFixed2 env settings now
                             product
                             (MonitoringService.mkUpstream (Resolved (Some d)) (Rejected e)
                                competitorAnswer)
                             url e Hu Hs eq_refl))).
    unfold MonitoringFacts.accepted, MonitoringFacts.ebayCasts,
      MonitoringFacts.supplierCasts, MonitoringFacts.titleAfter.
    cbn [MonitoringService.ebayAnswer MonitoringService.supplierAnswer].
    rewrite Hn, Hu, Hs. reflexivity.
Qed.

(** A product with a supplier whose site is down. *)
Lemma syncProduct_outcomes_witness :
  let r := ProductController.syncProduct JsString.trim Fixtures.noRounding 1700000000000
             (Some (Fixtures.supplied 20 in_stock 8 in_stock))
             (Resolved (Some (Fixtures.listing 21 in_stock)))
             (Rejected "Failed to fetch supplier data: timeout"%string) in
  ProductController.status r = 500 /\
  ProductController.rows r
  = [MonitoringService.mkEntry MonitoringService.ebay 21 in_stock].
Proof.
  intros r.
  pose proof (proj2 (proj2 (proj2 (proj2 (proj2
                (syncProduct_outcomes JsString.trim Fixtures.noRounding 1700000000000
                   (Fixtures.supplied 20 in_stock 8 in_stock)
                   (Resolved (Some (Fixtures.listing 21 in_stock)))
                   (Rejected "Failed to fetch supplier data: timeout"%string))))))
                (Fixtures.listing 21 in_stock)
                "Failed to fetch supplier data: timeout"%string eq_refl eq_refl eq_refl
                eq_refl) as H.
  exact (conj (proj1 H) (proj1 (proj2 H))).
Defined.




(** ** [addProduct] *)

Module AddProductFacts.
Import AddProduct.

(** The supplier data the handler holds when it makes the document. *)
Definition supplied (body : Body)
    (supplierAnswer : Awaited Error (option MonitoringService.SupplierData))
  : option MonitoringService.SupplierData :=
  if given (supplierUrl body) then
    match supplierAnswer with
    | Resolved s => s
    | Rejected _ => None
    end
  else None.

Section Handler.
Variable trim : string -> string.
Variable toFixed2 : float -> float.
Variable validationError : MonitoringService.Product -> Error.
Variable duplicateKeyError : string -> Error.

(** Whether [Product.create] takes the document made of the item and
    the supplier data: the trimmed title, address and item id are not
    empty, the prices are numbers, and the user has no product with
    the trimmed item id. *)
Definition acceptable (url : string) (d : EbayAdapter.Item)
    (s : option MonitoringService.SupplierData) (db : ImportService.Products) : bool :=
  String_truthy (trim (EbayAdapter.title d))
  && String_truthy (trim url)
  && String_truthy (trim (EbayAdapter.itemId d))
  && negb (is_nan (EbayAdapter.price d))
  && match s with
     | Some s => negb (is_nan (MonitoringService.supplierDataPrice s))
     | None => true
     end
  && negb (existsb (String.eqb (trim (EbayAdapter.itemId d))) (map fst db)).

Lemma productData_fields url supplierUrl d s now :
  let p := MonitoringService.calculateProfit toFixed2
             (productData trim url supplierUrl d s now) in
  MonitoringService.title p = trim (EbayAdapter.title d)
  /\ MonitoringService.ebayUrl p = trim url
  /\ MonitoringService.ebayPrice p = EbayAdapter.price d
  /\ MonitoringService.stockStatus p = EbayAdapter.stock d
  /\ MonitoringService.images p = EbayAdapter.images d
  /\ MonitoringService.lastCheckedAt p = now
  /\ match s with
     | Some s =>
         MonitoringService.supplierUrl p = option_map trim supplierUrl
         /\ MonitoringService.supplierPrice p = MonitoringService.supplierDataPrice s
         /\ MonitoringService.supplierStockStatus p = MonitoringService.supplierDataStock s
     | None =>
         MonitoringService.supplierUrl p = None
         /\ MonitoringService.supplierPrice p = 0%float
         /\ MonitoringService.supplierStockStatus p = unknown
     end.
Proof.
  unfold MonitoringService.calculateProfit, productData.
  destruct s as [s|]; cbn;
    match goal with
    | |- context [if ?c then _ else _] => destruct c
    end; cbn; repeat split; reflexivity.
Qed.

Lemma existsb_eqb_string_In (id : string) (l : list string) :
  existsb (String.eqb id) l = true <-> In id l.
Proof.
  rewrite existsb_exists. split.
  - intros (x & Hx & E). apply String.eqb_eq in E. now subst.
  - intros H. exists id. split; [exact H|apply String.eqb_refl].
Qed.

Lemma create_acceptable url supplierUrl d s created now db :
  create validationError duplicateKeyError (trim (EbayAdapter.itemId d))
    (productData trim url supplierUrl d s now) created db
  = if acceptable url d s db then created
    else if valid (trim (EbayAdapter.itemId d)) (productData trim url supplierUrl d s now)
         then Rejected (duplicateKeyError (trim (EbayAdapter.itemId d)))
         else Rejected (validationError (productData trim url supplierUrl d s now)).
Proof.
  unfold create, acceptable, valid.
  assert (E : negb (is_nan (MonitoringService.supplierPrice
                              (productData trim url supplierUrl d s now)))
              = match s with
                | Some s => negb (is_nan (MonitoringService.supplierDataPrice s))
                | None => true
                end) by (destruct s; reflexivity).
  rewrite E.
  replace (MonitoringService.title (productData trim url supplierUrl d s now))
    with (trim (EbayAdapter.title d)) by (destruct s; reflexivity).
  replace (MonitoringService.ebayUrl (productData trim url supplierUrl d s now))
    with (trim url) by (destruct s; reflexivity).
  replace (MonitoringService.ebayPrice (productData trim url supplierUrl d s now))
    with (EbayAdapter.price d) by (destruct s; reflexivity).
  destruct (String_truthy (trim (EbayAdapter.title d))
            && String_truthy (trim url)
            && String_truthy (trim (EbayAdapter.itemId d))
            && negb (is_nan (EbayAdapter.price d))
            && match s with
               | Some s0 => negb (is_nan (MonitoringService.supplierDataPrice s0))
               | None => true
               end); cbn [negb andb]; [|reflexivity].
  destruct (existsb (String.eqb (trim (EbayAdapter.itemId d))) (map fst db)); reflexivity.
Qed.

(** What an acceptable document is. *)
Lemma acceptable_true url d s db :
  acceptable url d s db = true ->
  String_truthy (trim (EbayAdapter.title d)) = true
  /\ String_truthy (trim url) = true
  /\ String_truthy (trim (EbayAdapter.itemId d)) = true
  /\ is_nan (EbayAdapter.price d) = false
  /\ (forall x, s = Some x -> is_nan (MonitoringService.supplierDataPrice x) = false)
  /\ ~ In (trim (EbayAdapter.itemId d)) (map fst db).
Proof.
  unfold acceptable. rewrite !andb_true_iff, !negb_true_iff.
  intros (((((H1 & H2) & H3) & H4) & H5) & H6).
  split; [exact H1|]. split; [exact H2|]. split; [exact H3|]. split; [exact H4|].
  split.
  - intros x ->. now apply negb_true_iff in H5.
  - intros Hin. apply existsb_eqb_string_In in Hin. congruence.
Qed.

(** The last part of the handler. *)
Lemma store_outcome url supplierUrl d s created now db called :
  let r := store trim toFixed2 validationError duplicateKeyError url supplierUrl d s
             created now db called in
  ebayFetched r = true
  /\ supplierFetched r = called
  /\ ((acceptable url d s db = true
       /\ MonitoringService.profitCasts (productData trim url supplierUrl d s now) = true
       /\ status r = 201
       /\ collection r
          = db ++ [(trim (EbayAdapter.itemId d),
                    MonitoringService.calculateProfit toFixed2
                      (productData trim url supplierUrl d s now))]
       /\ rows r = initialRows d s)
      \/ (status r = 500 /\ collection r = db /\ rows r = []
          /\ ((acceptable url d s db = true /\ exists e, created = Rejected e
                 /\ message r = String_or e "Error adding product")
              \/ acceptable url d s db = false))
      \/ (acceptable url d s db = true
          /\ (exists u, created = Resolved u)
          /\ MonitoringService.profitCasts (productData trim url supplierUrl d s now) = false
          /\ status r = 500
          /\ collection r
             = db ++ [(trim (EbayAdapter.itemId d), productData trim url supplierUrl d s now)]
          /\ rows r = [])).
Proof.
  cbv zeta. unfold store. cbv zeta. rewrite create_acceptable.
  destruct (acceptable url d s db) eqn:Ha.
  - destruct created as [u|e].
    + destruct (MonitoringService.profitCasts (productData trim url supplierUrl d s now))
        eqn:Hp; cbn.
      * split; [reflexivity|]. split; [reflexivity|]. left. auto 10.
      * split; [reflexivity|]. split; [reflexivity|]. right. right.
        split; [reflexivity|]. split; [now exists u|]. auto.
    + cbn. split; [reflexivity|]. split; [reflexivity|]. right. left.
      split; [reflexivity|]. split; [reflexivity|]. split; [reflexivity|].
      left. split; [reflexivity|]. exists e. auto.
  - destruct (valid _ _); cbn; (split; [reflexivity|]); (split; [reflexivity|]);
      right; left; auto.
Qed.

(** The profit of a product made without supplier data is a number,
    and the profit cast depends on the two prices only. *)
Lemma profitCasts_alone url supplierUrl d now :
  MonitoringService.profitCasts (productData trim url supplierUrl d None now) = true.
Proof.
  unfold MonitoringService.profitCasts, productData.
  cbn [MonitoringService.ebayPrice MonitoringService.supplierPrice].
  assert (H0 : Number_truthy 0 = false) by reflexivity.
  now rewrite H0, andb_false_r.
Qed.

Lemma profitCasts_calculateProfit (q : MonitoringService.Product) :
  MonitoringService.profitCasts (MonitoringService.calculateProfit toFixed2 q)
  = MonitoringService.profitCasts q.
Proof.
  unfold MonitoringService.calculateProfit.
  destruct (Number_truthy (MonitoringService.ebayPrice q)
            && Number_truthy (MonitoringService.supplierPrice q)); reflexivity.
Qed.

End Handler.

Lemma NoDup_snoc (A : Type) (l : list A) (x : A) :
  NoDup l -> ~ In x l -> NoDup (l ++ [x]).
Proof.
  intros Hnd Hx. induction Hnd as [|y l Hy Hnd IH]; cbn.
  - constructor; [intros []|constructor].
  - constructor.
    + rewrite in_app_iff. intros [H|[H|[]]]; [exact (Hy H)|].
      apply Hx. left. symmetry. exact H.
    + apply IH. intros H. apply Hx. right. exact H.
Qed.

Ltac refused :=
  cbn; repeat split; intros;
  solve [reflexivity | discriminate | congruence | intuition congruence
        | left; reflexivity].

End AddProductFacts.

(** X28.  What [addProduct] answers and stores.  The status is 201,
    400 or 500.  Unless it is 201 no history row is written, and the
    collection is unchanged but for one case: [Product.create] wrote
    the product and the [save()] after [calculateProfit] was refused
    because the profit is not a number; the answer is then 500 and the
    product stays in the collection as created.  While the URLs of the
    body fail a check no adapter is called; the supplier adapter is
    called only for a supplier URL, after the marketplace item was
    fetched and the lookup by its item id found nothing, so never
    before a 400.  A 500 has one of four causes: the write failed, the
    supplier adapter threw, [Product.create] refused the document (a
    trimmed title, address or item id is empty, a price is not a
    number, or the user already has the trimmed item id), or the
    profit is not a number.  With 201 exactly one product is appended,
    under the trimmed item id the marketplace adapter returned, which
    was not in the collection: distinct ids stay distinct.  It carries
    the trimmed title, the trimmed address of the body and the price,
    stock and pictures of the item, the price being a number; when the
    supplier adapter returned data it carries the trimmed supplier
    URL, the supplier price and stock, and two rows are written,
    otherwise (no supplier URL, or the adapter resolved with nothing)
    the supplier URL of the body is not stored and one row is
    written. *)
Theorem addProduct_outcomes :
  forall (trim : string -> string) (toFixed2 : float -> float) (validUrl : string -> bool)
         (castFilter : string -> string)
         (validationError : MonitoringService.Product -> Error)
         (duplicateKeyError : string -> Error) (body : AddProduct.Body)
         (ebayAnswer : Awaited Error (option EbayAdapter.Item))
         (supplierAnswer : Awaited Error (option MonitoringService.SupplierData))
         (created : Awaited Error unit) (now : Z) (db : ImportService.Products),
    let r := AddProduct.addProduct trim toFixed2 validUrl castFilter validationError
               duplicateKeyError body ebayAnswer supplierAnswer created now db in
    (AddProduct.status r = 201 \/ AddProduct.status r = 400 \/ AddProduct.status r = 500)
    /\ (AddProduct.status r <> 201 ->
        AddProduct.rows r = []
        /\ (AddProduct.collection r = db
            \/ (AddProduct.status r = 500
                /\ exists d q,
                     ebayAnswer = Resolved (Some d)
                     /\ AddProduct.collection r = db ++ [(trim (EbayAdapter.itemId d), q)]
                     /\ ~ In (trim (EbayAdapter.itemId d)) (map fst db)
                     /\ MonitoringService.ebayPrice q = EbayAdapter.price d
                     /\ MonitoringService.profitCasts q = false)))
    /\ (AddProduct.ebayFetched r = false -> AddProduct.status r = 400)
    /\ (validUrl (AddProduct.text (AddProduct.ebayUrl body)) = false
        \/ AddProduct.given (AddProduct.ebayUrl body) = false
        \/ (AddProduct.given (AddProduct.supplierUrl body) = true
            /\ validUrl (AddProduct.text (AddProduct.supplierUrl body)) = false) ->
        AddProduct.ebayFetched r = false /\ AddProduct.supplierFetched r = false)
    /\ (AddProduct.supplierFetched r = true ->
        AddProduct.ebayFetched r = true
        /\ AddProduct.given (AddProduct.supplierUrl body) = true
        /\ AddProduct.status r <> 400
        /\ exists d, ebayAnswer = Resolved (Some d)
                     /\ ImportService.findOne (castFilter (EbayAdapter.itemId d)) db = None)
    /\ (AddProduct.status r = 500 ->
        (exists e, created = Rejected e)
        \/ ((exists e, supplierAnswer = Rejected e)
            /\ AddProduct.given (AddProduct.supplierUrl body) = true)
        \/ (exists d, ebayAnswer = Resolved (Some d)
                      /\ AddProductFacts.acceptable trim
                           (AddProduct.text (AddProduct.ebayUrl body)) d
                           (AddProductFacts.supplied body supplierAnswer) db = false)
        \/ (exists d, ebayAnswer = Resolved (Some d)
                      /\ MonitoringService.profitCasts
                           (AddProduct.productData trim
                              (AddProduct.text (AddProduct.ebayUrl body))
                              (AddProduct.supplierUrl body) d
                              (AddProductFacts.supplied body supplierAnswer) now) = false))
    /\ (AddProduct.status r = 201 ->
        exists d p,
          ebayAnswer = Resolved (Some d)
          /\ ~ In (trim (EbayAdapter.itemId d)) (map fst db)
          /\ AddProduct.collection r = db ++ [(trim (EbayAdapter.itemId d), p)]
          /\ (NoDup (map fst db) -> NoDup (map fst (AddProduct.collection r)))
          /\ MonitoringService.title p = trim (EbayAdapter.title d)
          /\ String_truthy (MonitoringService.title p) = true
          /\ MonitoringService.ebayUrl p = trim (AddProduct.text (AddProduct.ebayUrl body))
          /\ MonitoringService.ebayPrice p = EbayAdapter.price d
          /\ is_nan (MonitoringService.ebayPrice p) = false
          /\ MonitoringService.profitCasts p = true
          /\ MonitoringService.stockStatus p = EbayAdapter.stock d
          /\ MonitoringService.images p = EbayAdapter.images d
          /\ MonitoringService.lastCheckedAt p = now
          /\ match supplierAnswer with
             | Resolved (Some s) =>
                 AddProduct.given (AddProduct.supplierUrl body) = true ->
                 MonitoringService.supplierUrl p
                 = option_map trim (AddProduct.supplierUrl body)
                 /\ MonitoringService.supplierPrice p = MonitoringService.supplierDataPrice s
                 /\ is_nan (MonitoringService.supplierPrice p) = false
                 /\ MonitoringService.supplierStockStatus p
                    = MonitoringService.supplierDataStock s
                 /\ AddProduct.rows r
                    = [MonitoringService.mkEntry MonitoringService.ebay (EbayAdapter.price d)
                         (EbayAdapter.stock d);
                       MonitoringService.mkEntry MonitoringService.supplier
                         (MonitoringService.supplierDataPrice s)
                         (MonitoringService.supplierDataStock s)]
             | _ => True
             end
          /\ (AddProduct.given (AddProduct.supplierUrl body) = false
              \/ supplierAnswer = Resolved None ->
              MonitoringService.supplierUrl p = None
              /\ MonitoringService.supplierPrice p = 0%float
              /\ MonitoringService.supplierStockStatus p = unknown
              /\ AddProduct.rows r
                 = [MonitoringService.mkEntry MonitoringService.ebay (EbayAdapter.price d)
                      (EbayAdapter.stock d)])).
Proof.
  intros trim toFixed2 validUrl castFilter validationError duplicateKeyError body
    ebayAnswer supplierAnswer created now db r.
  subst r. unfold AddProduct.addProduct.
  destruct (AddProduct.given (AddProduct.ebayUrl body)) eqn:Hgiven; cbn [negb].
  2:{ AddProductFacts.refused. }
  destruct (validUrl (AddProduct.text (AddProduct.ebayUrl body))) eqn:Hvalid; cbn [negb].
  2:{ AddProductFacts.refused. }
  match goal with
  | |- context [if ?c then _ else _] => destruct c
  end.
  { AddProductFacts.refused. }
  destruct (AddProduct.given (AddProduct.supplierUrl body)) eqn:Hsup; cbn [andb negb].
  - destruct (validUrl (AddProduct.text (AddProduct.supplierUrl body))) eqn:Hsv; cbn [negb].
    2:{ AddProductFacts.refused. }
    destruct ebayAnswer as [[d|]|e].
    + destruct (ImportService.findOne (castFilter (EbayAdapter.itemId d)) db) eqn:Hfind.
      * AddProductFacts.refused.
      * destruct supplierAnswer as [s|e].
        -- pose proof (AddProductFacts.store_outcome trim toFixed2 validationError
                         duplicateKeyError
                         (AddProduct.text (AddProduct.ebayUrl body))
                         (AddProduct.supplierUrl body) d s created now db true) as Hst.
           cbv zeta in Hst. destruct Hst as [Hef [Hsf Hst]].
           pose proof (AddProductFacts.productData_fields trim toFixed2
                         (AddProduct.text (AddProduct.ebayUrl body))
                         (AddProduct.supplierUrl body) d s now) as Hp.
           cbv zeta in Hp.
           destruct Hp as [Ht [Hu [Hpr [Hs [Hi [Hn Hrest]]]]]].
           assert (Hsupplied : AddProductFacts.supplied body (Resolved s) = s)
             by (unfold AddProductFacts.supplied; now rewrite Hsup).
           rewrite Hsupplied.
           destruct Hst as [(Hacc & Hprofit & H201 & Hcol & Hrows)
                           |[(H500 & Hcol & Hrows & Hwhy)
                            |(Hacc & _ & Hprofit & H500 & Hcol & Hrows)]].
           ++ destruct (AddProductFacts.acceptable_true trim _ _ _ _ Hacc)
                as (Ha1 & Ha2 & Ha3 & Ha4 & Ha5 & Hnew).
              split; [left; exact H201|].
              split; [intros H; contradiction|].
              split; [intros H; congruence|].
              split; [intros [H|[H|[_ H]]]; discriminate|].
              split.
              { intros _. split; [exact Hef|]. split; [reflexivity|].
                split; [rewrite H201; discriminate|].
                exists d. split; [reflexivity | exact Hfind]. }
              split; [intros H; rewrite H201 in H; discriminate|].
              intros _. eexists d, _.
              split; [reflexivity|]. split; [exact Hnew|].
              split; [exact Hcol|].
              split.
              { intros Hnd. rewrite Hcol, map_app. cbn.
                apply AddProductFacts.NoDup_snoc; assumption. }
              split; [exact Ht|]. split; [rewrite Ht; exact Ha1|].
              split; [exact Hu|]. split; [exact Hpr|]. split; [rewrite Hpr; exact Ha4|].
              split; [now rewrite AddProductFacts.profitCasts_calculateProfit|].
              split; [exact Hs|]. split; [exact Hi|]. split; [exact Hn|].
              split.
              ** destruct s as [s|]; [|exact I].
                 intros _. destruct Hrest as [H1 [H2 H3]].
                 split; [exact H1|]. split; [exact H2|].
                 split; [rewrite H2; now apply Ha5|]. split; [exact H3|].
                 rewrite Hrows. reflexivity.
              ** intros [H|H]; [discriminate|]. injection H as ->.
                 destruct Hrest as [H1 [H2 H3]].
                 split; [exact H1|]. split; [exact H2|]. split; [exact H3|].
                 rewrite Hrows. reflexivity.
           ++ split; [right; right; exact H500|].
              split; [intros _; split; [exact Hrows|left; exact Hcol]|].
              split; [intros H; congruence|].
              split; [intros [H|[H|[_ H]]]; discriminate|].
              split.
              { intros _. split; [exact Hef|]. split; [reflexivity|].
                split; [rewrite H500; discriminate|].
                exists d. split; [reflexivity | exact Hfind]. }
              split.
              { intros _. destruct Hwhy as [(_ & e & He & _)|Hno].
                - left. now exists e.
                - right. right. left. exists d. split; [reflexivity|exact Hno]. }
              intros H; rewrite H500 in H; discriminate.
           ++ destruct (AddProductFacts.acceptable_true trim _ _ _ _ Hacc)
                as (_ & _ & _ & _ & _ & Hnew).
              split; [right; right; exact H500|].
              split.
              { intros _. split; [exact Hrows|]. right. split; [exact H500|].
                eexists d, _. split; [reflexivity|]. split; [exact Hcol|].
                split; [exact Hnew|]. split; [|exact Hprofit].
                destruct s; reflexivity. }
              split; [intros H; congruence|].
              split; [intros [H|[H|[_ H]]]; discriminate|].
              split.
              { intros _. split; [exact Hef|]. split; [reflexivity|].
                split; [rewrite H500; discriminate|].
                exists d. split; [reflexivity | exact Hfind]. }
              split.
              { intros _. right. right. right. exists d. split; [reflexivity|exact Hprofit]. }
              intros H; rewrite H500 in H; discriminate.
        -- cbn.
           split; [right; right; reflexivity|].
           split; [intros _; split; [reflexivity|left; reflexivity]|].
           split; [intros H; discriminate|].
           split; [intros [H|[H|[_ H]]]; discriminate|].
           split.
           { intros _. split; [reflexivity|]. split; [reflexivity|].
             split; [discriminate|].
             exists d. split; [reflexivity | exact Hfind]. }
           split; [intros _; right; left; split; [exists e; reflexivity | reflexivity]|].
           intros H; discriminate.
    + AddProductFacts.refused.
    + AddProductFacts.refused.
  - destruct ebayAnswer as [[d|]|e].
    + destruct (ImportService.findOne (castFilter (EbayAdapter.itemId d)) db) eqn:Hfind.
      * AddProductFacts.refused.
      * pose proof (AddProductFacts.store_outcome trim toFixed2 validationError
                      duplicateKeyError
                      (AddProduct.text (AddProduct.ebayUrl body))
                      (AddProduct.supplierUrl body) d None created now db false) as Hst.
        cbv zeta in Hst. destruct Hst as [Hef [Hsf Hst]].
        pose proof (AddProductFacts.productData_fields trim toFixed2
                      (AddProduct.text (AddProduct.ebayUrl body))
                      (AddProduct.supplierUrl body) d None now) as Hp.
        cbv zeta in Hp.
        destruct Hp as [Ht [Hu [Hpr [Hs [Hi [Hn Hrest]]]]]].
        assert (Hsupplied : AddProductFacts.supplied body supplierAnswer = None)
          by (unfold AddProductFacts.supplied; now rewrite Hsup).
        rewrite Hsupplied.
        destruct Hst as [(Hacc & Hprofit & H201 & Hcol & Hrows)
                        |[(H500 & Hcol & Hrows & Hwhy)
                         |(Hacc & _ & Hprofit & H500 & Hcol & Hrows)]].
        -- destruct (AddProductFacts.acceptable_true trim _ _ _ _ Hacc)
             as (Ha1 & Ha2 & Ha3 & Ha4 & Ha5 & Hnew).
           split; [left; exact H201|].
           split; [intros H; contradiction|].
           split; [intros H; congruence|].
           split; [intros [H|[H|[H _]]]; discriminate|].
           split; [intros H; congruence|].
           split; [intros H; rewrite H201 in H; discriminate|].
           intros _. eexists d, _.
           split; [reflexivity|]. split; [exact Hnew|].
           split; [exact Hcol|].
           split.
           { intros Hnd. rewrite Hcol, map_app. cbn.
             apply AddProductFacts.NoDup_snoc; assumption. }
           split; [exact Ht|]. split; [rewrite Ht; exact Ha1|].
           split; [exact Hu|]. split; [exact Hpr|]. split; [rewrite Hpr; exact Ha4|].
           split; [now rewrite AddProductFacts.profitCasts_calculateProfit|].
           split; [exact Hs|]. split; [exact Hi|]. split; [exact Hn|].
           split.
           ++ destruct supplierAnswer as [[s|]|e]; try exact I.
              intros H; discriminate.
           ++ intros _. destruct Hrest as [H1 [H2 H3]].
              split; [exact H1|]. split; [exact H2|]. split; [exact H3|].
              rewrite Hrows. reflexivity.
        -- split; [right; right; exact H500|].
           split; [intros _; split; [exact Hrows|left; exact Hcol]|].
           split; [intros H; congruence|].
           split; [intros [H|[H|[H _]]]; discriminate|].
           split; [intros H; congruence|].
           split.
           { intros _. destruct Hwhy as [(_ & e & He & _)|Hno].
             - left. now exists e.
             - right. right. left. exists d. split; [reflexivity|exact Hno]. }
           intros H; rewrite H500 in H; discriminate.
        -- rewrite AddProductFacts.profitCasts_alone in Hprofit. discriminate.
    + AddProductFacts.refused.
    + AddProductFacts.refused.
Qed.

Module AddProductAdapters.
Import AddProduct.

(** What [fetchEbayItem] settles with. *)
Lemma fetchEbayItem_answer parseFloat appId api url scraped :
  match EbayAdapter.answer (EbayAdapter.fetchEbayItem parseFloat appId api url scraped) with
  | Resolved item =>
      String_truthy (EbayAdapter.title item) = true
      /\ (EbayAdapter.price item =? 0)%float = false
      /\ EbayAdapter.itemId item <> EmptyString
  | Rejected e =>
      e = "Failed to fetch eBay product data: Could not fetch eBay product data from Puppeteer or API"%string
  end.
Proof.
  unfold EbayAdapter.fetchEbayItem.
  destruct (match EbayAdapter.fetchWithScraping url scraped with
            | Resolved d => (Some d, [])
            | Rejected _ =>
                match EbayAdapter.extractItemId url with
                | Some id =>
                    let (d, n) := EbayAdapter.fetchWithAPI parseFloat appId api id in
                    (d, repeat (EbayAdapter.SearchApi id) n)
                | None => (None, [])
                end
            end) as [[d|] reqs]; cbn [EbayAdapter.answer]; [|reflexivity].
  destruct (String_truthy (EbayAdapter.title d)) eqn:Ht; cbn [negb orb]; [|reflexivity].
  destruct (EbayAdapter.price d =? 0)%float eqn:Hp; [reflexivity|].
  cbn [EbayAdapter.title EbayAdapter.price EbayAdapter.itemId].
  split; [exact Ht|]. split; [exact Hp|].
  apply EbayAdapterFacts.String_or_truthy.
  destruct (EbayAdapter.extractItemId url) as [i|] eqn:Hi; [|discriminate].
  exact (proj1 (@EbayAdapterFacts.extractItemId_sound url i Hi)).
Qed.

Lemma given_text (u : option string) : given u = true -> text u <> EmptyString.
Proof. destruct u as [[|c s]|]; cbn; congruence. Qed.

Lemma truthy_nonempty (s : string) : String_truthy s = true -> s <> EmptyString.
Proof. destruct s; [discriminate|congruence]. Qed.

Lemma startsWith_truthy (s : string) :
  JsString.startsWith s "Failed to fetch " = true -> String_truthy s = true.
Proof. destruct s; [discriminate|reflexivity]. Qed.

End AddProductAdapters.

(** X29.  [addProduct] with the two adapters behind it.  After a
    fetch of the marketplace item a 400 carries one of two messages:
    the product exists already, or the adapter failed, and then the
    text is the fixed one below (the branch for an adapter that
    resolves with nothing is never taken).  A product that is stored
    has a non-empty item id and title and a price that is a number
    other than 0.  When the body has a supplier URL, a stored product
    always carries it, trimmed as the schema stores it, together with
    a supplier price that is a number, and both history rows are
    written.  When the write itself does not fail, a 500 means that
    the supplier adapter failed, and then it carries its message,
    which starts with the words below, or that [Product.create]
    refused the document, or that the product was created and its
    profit is not a number, both prices being infinite. *)
Theorem addProduct_with_adapters :
  forall (trim : string -> string) (toFixed2 : float -> float) (validUrl : string -> bool)
         (castFilter : string -> string)
         (validationError : MonitoringService.Product -> Error)
         (duplicateKeyError : string -> Error) (body : AddProduct.Body)
         (parseFloat : string -> float) (appId : option string)
         (api : nat -> Awaited Error EbayAdapter.ApiResponse)
         (scraped : Awaited Error EbayAdapter.ScrapedProduct)
         (parseFloat' : string -> float)
         (get : nat -> Awaited Error SupplierAdapter.Document)
         (created : Awaited Error unit) (now : Z) (db : ImportService.Products),
    let fetched := EbayAdapter.fetchEbayItem parseFloat appId api
                     (AddProduct.text (AddProduct.ebayUrl body)) scraped in
    let supplierAnswer :=
      SupplierAdapter.awaited
        (SupplierAdapter.fetchSupplierData parseFloat' get
           (AddProduct.text (AddProduct.supplierUrl body))) in
    let r := AddProduct.addProduct trim toFixed2 validUrl castFilter validationError
               duplicateKeyError body (AddProduct.awaitedItem fetched) supplierAnswer
               created now db in
    (AddProduct.status r = 400 -> AddProduct.ebayFetched r = true ->
     AddProduct.message r = "Product already exists in your monitoring list"%string
     \/ AddProduct.message r
        = "Could not fetch eBay product data: Failed to fetch eBay product data: Could not fetch eBay product data from Puppeteer or API"%string)
    /\ (AddProduct.status r = 201 ->
        exists id p,
          AddProduct.collection r = db ++ [(id, p)]
          /\ id <> EmptyString
          /\ String_truthy (MonitoringService.title p) = true
          /\ (MonitoringService.ebayPrice p =? 0)%float = false
          /\ is_nan (MonitoringService.ebayPrice p) = false
          /\ (AddProduct.given (AddProduct.supplierUrl body) = true ->
              MonitoringService.supplierUrl p
              = option_map trim (AddProduct.supplierUrl body)
              /\ (MonitoringService.supplierPrice p =? MonitoringService.supplierPrice p)%float
                 = true
              /\ List.length (AddProduct.rows r) = 2)
          /\ (AddProduct.given (AddProduct.supplierUrl body) = false ->
              MonitoringService.supplierUrl p = None
              /\ List.length (AddProduct.rows r) = 1))
    /\ (AddProduct.status r = 500 -> created = Resolved tt ->
        (AddProduct.supplierFetched r = true
         /\ JsString.startsWith (AddProduct.message r) "Failed to fetch " = true)
        \/ (exists d,
              EbayAdapter.answer fetched = Resolved d
              /\ AddProductFacts.acceptable trim
                   (AddProduct.text (AddProduct.ebayUrl body)) d
                   (AddProductFacts.supplied body supplierAnswer) db = false)
        \/ (exists d q,
              EbayAdapter.answer fetched = Resolved d
              /\ AddProduct.collection r = db ++ [(trim (EbayAdapter.itemId d), q)]
              /\ MonitoringService.profitCasts q = false)).
Proof.
  intros trim toFixed2 validUrl castFilter validationError duplicateKeyError body
    parseFloat appId api scraped parseFloat' get created now db.
  cbv zeta.
  pose proof (AddProductAdapters.fetchEbayItem_answer parseFloat appId api
                (AddProduct.text (AddProduct.ebayUrl body)) scraped) as He.
  pose proof (DispatchFacts.fetchSupplierData_spec parseFloat' get
                (AddProduct.text (AddProduct.supplierUrl body))) as Hs.
  cbv zeta in Hs. destruct Hs as [_ Hs].
  unfold AddProduct.awaitedItem, SupplierAdapter.awaited, AddProductFacts.supplied.
  set (fe := EbayAdapter.fetchEbayItem parseFloat appId api
               (AddProduct.text (AddProduct.ebayUrl body)) scraped) in *.
  set (fs := SupplierAdapter.fetchSupplierData parseFloat' get
               (AddProduct.text (AddProduct.supplierUrl body))) in *.
  clearbody fe fs.
  unfold AddProduct.addProduct.
  destruct (AddProduct.given (AddProduct.ebayUrl body)) eqn:Hgiven; cbn [negb];
    [|cbn; repeat split; intros; discriminate].
  destruct (validUrl (AddProduct.text (AddProduct.ebayUrl body))); cbn [negb];
    [|cbn; repeat split; intros; discriminate].
  match goal with
  | |- context [if ?c then _ else _] => destruct c
  end; [cbn; repeat split; intros; discriminate|].
  destruct (AddProduct.given (AddProduct.supplierUrl body)) eqn:Hsup; cbn [andb negb].
  - destruct (validUrl (AddProduct.text (AddProduct.supplierUrl body))); cbn [negb];
      [|cbn; repeat split; intros; discriminate].
    destruct (EbayAdapter.answer fe) as [d|e].
    2:{ cbn. subst e. repeat split; intros; try discriminate. right. reflexivity. }
    destruct He as [Ht [Hp Hid]].
    destruct (ImportService.findOne (castFilter (EbayAdapter.itemId d)) db).
    { cbn. repeat split; intros; try discriminate. left. reflexivity. }
    specialize (Hs (AddProductAdapters.given_text _ Hsup)).
    destruct Hs as (_ & _ & _ & _ & Hs).
    destruct (SupplierAdapter.answer fs) as [[s|]|e]; [| contradiction |].
    + destruct Hs as (_ & _ & Hnum & _).
      cbn [option_map].
      pose proof (AddProductFacts.productData_fields trim toFixed2
                    (AddProduct.text (AddProduct.ebayUrl body))
                    (AddProduct.supplierUrl body) d
                    (Some (SupplierAdapter.asSupplierData s)) now) as Hf.
      cbv zeta in Hf. destruct Hf as (Hft & _ & Hfp & _ & _ & _ & Hfu & Hfs & _).
      pose proof (AddProductFacts.store_outcome trim toFixed2 validationError
                    duplicateKeyError
                    (AddProduct.text (AddProduct.ebayUrl body))
                    (AddProduct.supplierUrl body) d
                    (Some (SupplierAdapter.asSupplierData s)) created now db true) as Hst.
      cbv zeta in Hst.
      destruct Hst as (_ & _ & [(Hacc & _ & H201 & Hcol & Hrows)
                               |[(H500 & _ & _ & Hwhy)
                                |(_ & _ & Hprofit & H500 & Hcol & _)]]).
      * destruct (AddProductFacts.acceptable_true trim _ _ _ _ Hacc)
          as (Ha1 & _ & Ha3 & Ha4 & _).
        split; [intros H; rewrite H201 in H; discriminate|].
        split; [|intros H; rewrite H201 in H; discriminate].
        intros _. eexists _, _. split; [exact Hcol|].
        split; [now apply AddProductAdapters.truthy_nonempty|].
        rewrite Hft, Hfp, Hfs, Hfu, Hrows.
        split; [exact Ha1|]. split; [exact Hp|]. split; [exact Ha4|].
        split; [|intros H; discriminate].
        intros _. split; [reflexivity|]. split; [exact Hnum|reflexivity].
      * split; [intros H; rewrite H500 in H; discriminate|].
        split; [intros H; rewrite H500 in H; discriminate|].
        intros _ Hc. right. left. exists d. split; [reflexivity|].
        destruct Hwhy as [(_ & e & He & _)|Hno]; [congruence|exact Hno].
      * split; [intros H; rewrite H500 in H; discriminate|].
        split; [intros H; rewrite H500 in H; discriminate|].
        intros _ Hc. right. right. eexists d, _. split; [reflexivity|].
        split; [exact Hcol|exact Hprofit].
    + destruct Hs as [_ Hstart].
      cbn. repeat split; intros; try discriminate.
      left. split; [reflexivity|].
      unfold String_or.
      rewrite (AddProductAdapters.startsWith_truthy _ Hstart). exact Hstart.
  - destruct (EbayAdapter.answer fe) as [d|e].
    2:{ cbn. subst e. repeat split; intros; try discriminate. right. reflexivity. }
    destruct He as [Ht [Hp Hid]].
    destruct (ImportService.findOne (castFilter (EbayAdapter.itemId d)) db).
    { cbn. repeat split; intros; try discriminate. left. reflexivity. }
    pose proof (AddProductFacts.productData_fields trim toFixed2
                  (AddProduct.text (AddProduct.ebayUrl body))
                  (AddProduct.supplierUrl body) d None now) as Hf.
    cbv zeta in Hf. destruct Hf as (Hft & _ & Hfp & _ & _ & _ & Hfu & _).
    pose proof (AddProductFacts.store_outcome trim toFixed2 validationError
                  duplicateKeyError
                  (AddProduct.text (AddProduct.ebayUrl body))
                  (AddProduct.supplierUrl body) d None created now db false) as Hst.
    cbv zeta in Hst.
    destruct Hst as (_ & _ & [(Hacc & _ & H201 & Hcol & Hrows)
                             |[(H500 & _ & _ & Hwhy)
                              |(_ & _ & Hprofit & _)]]).
    3:{ rewrite AddProductFacts.profitCasts_alone in Hprofit. discriminate. }
    + destruct (AddProductFacts.acceptable_true trim _ _ _ _ Hacc)
        as (Ha1 & _ & Ha3 & Ha4 & _).
      split; [intros H; rewrite H201 in H; discriminate|].
      split; [|intros H; rewrite H201 in H; discriminate].
      intros _. eexists _, _. split; [exact Hcol|].
      split; [now apply AddProductAdapters.truthy_nonempty|].
      rewrite Hft, Hfp, Hfu, Hrows.
      split; [exact Ha1|]. split; [exact Hp|]. split; [exact Ha4|].
      split; [intros H; discriminate|].
      intros _. split; reflexivity.
    + split; [intros H; rewrite H500 in H; discriminate|].
      split; [intros H; rewrite H500 in H; discriminate|].
      intros _ Hc. right. left. exists d. split; [reflexivity|].
      destruct Hwhy as [(_ & e & He & _)|Hno]; [congruence|exact Hno].
Qed.

(** ** [updateSettings] *)

Module SettingsFacts.
Import SettingsController.




(** Without a change of frequency the schedule is the one before. *)
Lemma unchanged_frequency (body : Body) (s : Scheduler.UserSettings) :
  frequencyChanged body (Some s) = false ->
  Scheduler.frequencyOf (updated body s) = Scheduler.frequencyOf s.
Proof.
  unfold frequencyChanged, updated, Scheduler.frequencyOf.
  cbn [Scheduler.monitoringFrequency].
  destruct (monitoringFrequency body) as [f|]; cbn [over]; [|reflexivity].
  destruct (Scheduler.monitoringFrequency s) as [g|]; [|discriminate].
  intros H. apply negb_false_iff, Z.eqb_eq in H. now subst g.
Qed.


End SettingsFacts.


